(** * FITS introspection pipeline: parser, analyzer, visualizer, orchestrator

    A shallow embedding of [lib/fits/fits-parser.py], [lib/fits/fits-analyzer.py],
    [lib/fits/fits-visualizer.py] and [lib/fits/run_fits_pipeline.py], and the
    properties of the pipeline stated over it.

    Conventions of the embedding.
    - Python [int] is [Z]; [float] is IEEE-754 binary64, taken from the
      Standard Library's executable specification [SpecFloat] (53-bit
      mantissa, [emax = 1024]); [str] is [string], read as ASCII text (FITS
      header cards are ASCII).
    - A summary, an analysis and a cleaned header are Python dicts with string
      keys: insertion-ordered association lists without duplicate keys. The
      values they hold are the JSON shapes; a dict with a key that is not a
      str arises only from [dict] on a list of pairs.
    - Code that can raise returns [result]; [try ... except] is [try_except].
    - What the pipeline calls but does not define (astropy's ZScale, numpy's
      percentile, numpy's indexing by anything but a column name, matplotlib,
      the file system, [uuid], [str] of a float and [int] of a string) is a
      field of [Runtime].
    - numpy, astropy and matplotlib are taken to import successfully, so the
      [... is None] guards on the modules are not modelled. *)

From Stdlib Require Import ZArith List Bool Ascii String Lia.
From Stdlib Require Import Floats.SpecFloat.
From Stdlib Require Import DecimalString DecimalZ.
From Stdlib Require Import Sorting.Sorted.
Import ListNotations.

Local Open Scope Z_scope.

(* ================================================================= *)
(** ** Python strings *)

Module PyStr.

Definition is_upper (c : ascii) : bool :=
  let n := N_of_ascii c in ((65 <=? n) && (n <=? 90))%N.

Definition lower_char (c : ascii) : ascii :=
  if is_upper c then ascii_of_N (N_of_ascii c + 32) else c.

Definition upper_char (c : ascii) : ascii :=
  let n := N_of_ascii c in
  if ((97 <=? n) && (n <=? 122))%N then ascii_of_N (n - 32) else c.

(** [s.lower()] and [s.upper()] *)
Fixpoint lower (s : string) : string :=
  match s with
  | EmptyString => EmptyString
  | String c r => String (lower_char c) (lower r)
  end.

Fixpoint upper (s : string) : string :=
  match s with
  | EmptyString => EmptyString
  | String c r => String (upper_char c) (upper r)
  end.

(** The ASCII characters for which [str.isspace] holds, which are also the
    ASCII characters the regular expression [\s] matches: TAB, LF, VT, FF, CR,
    FS, GS, RS, US and the space. *)
Definition is_space (c : ascii) : bool :=
  let n := N_of_ascii c in
  (((9 <=? n) && (n <=? 13)) || ((28 <=? n) && (n <=? 32)))%N.

Fixpoint lstrip (s : string) : string :=
  match s with
  | String c r => if is_space c then lstrip r else s
  | EmptyString => EmptyString
  end.

Fixpoint rev_onto (s acc : string) : string :=
  match s with
  | EmptyString => acc
  | String c r => rev_onto r (String c acc)
  end.

Definition rev (s : string) : string := rev_onto s EmptyString.

(** [s.strip()] *)
Definition strip (s : string) : string := rev (lstrip (rev (lstrip s))).

(** Deleting every character that satisfies [p]: [s.replace(c, "")] with
    [p] the test for [c], [re.sub("[...]", "", s)] with [p] the class. *)
Fixpoint delete_chars (p : ascii -> bool) (s : string) : string :=
  match s with
  | EmptyString => EmptyString
  | String c r => if p c then delete_chars p r else String c (delete_chars p r)
  end.

(** [s.startswith(p)] *)
Definition startswith (p s : string) : bool := String.prefix p s.

(** [sub in s] *)
Fixpoint contains (sub s : string) : bool :=
  String.prefix sub s ||
  match s with
  | EmptyString => false
  | String _ r => contains sub r
  end.

(** [x in (a, b, ...)] and [x in {a, b, ...}] for strings *)
Definition mem (x : string) (l : list string) : bool :=
  existsb (String.eqb x) l.

Definition is_empty (s : string) : bool :=
  match s with EmptyString => true | _ => false end.

(** [str(n)] for an int *)
Definition of_Z (z : Z) : string := NilZero.string_of_int (Z.to_int z).

(** The one-character strings a loop over [s] visits, which are also its
    items [s[0]], [s[1]], ... *)
Fixpoint chars (s : string) : list string :=
  match s with
  | EmptyString => []
  | String c r => String c EmptyString :: chars r
  end.

End PyStr.

(* ================================================================= *)
(** ** Exceptions *)

Inductive exn : Type :=
| TypeError | ValueError | OverflowError | IndexError | KeyError
| AttributeError | OSError.

Inductive result (A : Type) : Type :=
| Ok (a : A)
| Raise (e : exn).
Arguments Ok {A} a.
Arguments Raise {A} e.

Definition bind {A B} (r : result A) (k : A -> result B) : result B :=
  match r with
  | Ok a => k a
  | Raise e => Raise e
  end.

Notation "x <- r ;; k" := (bind r (fun x => k))
  (at level 61, r at next level, right associativity).

(** [try: body / except Exception: handler] *)
Definition try_except {A} (body : result A) (handler : A) : A :=
  match body with
  | Ok a => a
  | Raise _ => handler
  end.

(** [try: body / except (TypeError, ValueError): handler]: any other
    exception keeps propagating. *)
Definition try_type_value {A} (body : result A) (handler : A) : result A :=
  match body with
  | Ok a => Ok a
  | Raise TypeError | Raise ValueError => Ok handler
  | Raise e => Raise e
  end.

(* ================================================================= *)
(** ** binary64 *)

Module F64.

Definition float : Type := spec_float.

Definition prec : Z := 53.
Definition emax : Z := 1024.

Definition add : float -> float -> float := SFadd prec emax.
Definition sub : float -> float -> float := SFsub prec emax.
Definition div : float -> float -> float := SFdiv prec emax.

Definition eqb : float -> float -> bool := SFeqb.
Definition ltb : float -> float -> bool := SFltb.
Definition leb : float -> float -> bool := SFleb.
(** [a != b]: true when either side is NaN *)
Definition neqb (a b : float) : bool := negb (eqb a b).

Definition valid : float -> bool := valid_binary prec emax.

Definition isnan (f : float) : bool :=
  match f with S754_nan => true | _ => false end.

(** [np.isfinite] *)
Definition isfinite (f : float) : bool :=
  match f with
  | S754_zero _ | S754_finite _ _ _ => true
  | _ => false
  end.

(** [float(n)] for an int, rounded to nearest even *)
Definition of_Z (z : Z) : float := binary_normalize prec emax z 0 false.

Definition zero : float := S754_zero false.
Definition one : float := of_Z 1.
Definition nan : float := S754_nan.

(** The literal [1e-6], that is [0x1.0c6f7a0b5ed8dp-20]. *)
Definition eps6 : float := S754_finite false 4722366482869645 (-72).

(** [np.fmin(a, b)] and [np.fmax(a, b)]: [a] when the comparison holds or [b]
    is NaN, else [b]. Their reductions are [np.nanmin] and [np.nanmax]. *)
Definition fmin (a b : float) : float := if leb a b || isnan b then a else b.
Definition fmax (a b : float) : float := if leb b a || isnan b then a else b.

(** [int(f)]: truncation toward zero; NaN and the infinities raise. *)
Definition to_int (f : float) : result Z :=
  match f with
  | S754_nan => Raise ValueError
  | S754_infinity _ => Raise OverflowError
  | S754_zero _ => Ok 0
  | S754_finite s m e =>
      Ok (cond_Zopp s (if 0 <=? e then Zpos m * 2 ^ e else Zpos m / 2 ^ (- e)))
  end.

End F64.

Abbreviation float := F64.float.

(* ================================================================= *)
(** ** Python values *)

(** The values a summary holds: the JSON shapes, where the keys of a dict
    are str, and [PMap] for a dict with a key that is not a str, which
    [dict] builds from a list of pairs. *)
#[local] Set Warnings "-register-all".
Inductive pyval : Type :=
| PNone
| PBool (b : bool)
| PInt (z : Z)
| PFloat (f : float)
| PStr (s : string)
| PList (l : list pyval)
| PDict (d : list (string * pyval))
| PMap (m : list (pyval * pyval)).

Definition pydict : Type := list (string * pyval).

Module Py.

(** Truth value of an object, as [if x], [x or y], [not x] and [any] test it. *)
Definition truthy (v : pyval) : bool :=
  match v with
  | PNone => false
  | PBool b => b
  | PInt z => negb (z =? 0)
  | PFloat f => F64.neqb f F64.zero
  | PStr s => negb (PyStr.is_empty s)
  | PList l => match l with [] => false | _ => true end
  | PDict d => match d with [] => false | _ => true end
  | PMap m => match m with [] => false | _ => true end
  end.

(** [a or b] *)
Definition or_ (a b : pyval) : pyval := if truthy a then a else b.

(** [d.get(k)] as an option, [d.get(k, default)], [k in d] *)
Fixpoint lookup (d : pydict) (k : string) : option pyval :=
  match d with
  | [] => None
  | (k', v) :: r => if String.eqb k k' then Some v else lookup r k
  end.

Definition get (d : pydict) (k : string) (default : pyval) : pyval :=
  match lookup d k with Some v => v | None => default end.

Definition has_key (d : pydict) (k : string) : bool :=
  match lookup d k with Some _ => true | None => false end.

(** [d[k] = v]: an existing key keeps its place, a new one goes last. *)
Fixpoint set (d : pydict) (k : string) (v : pyval) : pydict :=
  match d with
  | [] => [(k, v)]
  | (k', v') :: r =>
      if String.eqb k k' then (k', v) :: r else (k', v') :: set r k v
  end.

(** [d.update(e)] *)
Definition update (d e : pydict) : pydict :=
  fold_left (fun acc kv => set acc (fst kv) (snd kv)) e d.

Definition keys (d : pydict) : list string := map fst d.

(** What can be a key of a dict: [None], a bool, a number, a str. A list
    and a dict are not hashable. *)
Definition hashable (k : pyval) : bool :=
  match k with
  | PList _ | PDict _ | PMap _ => false
  | _ => true
  end.

(** The int a numeric key is equal to, when there is one. *)
Definition key_int (k : pyval) : option Z :=
  match k with
  | PBool b => Some (if b then 1 else 0)
  | PInt z => Some z
  | PFloat (S754_zero _) => Some 0
  | PFloat (S754_finite s m e) =>
      if 0 <=? e then Some (cond_Zopp s (Zpos m * 2 ^ e))
      else if Zpos m mod 2 ^ (- e) =? 0
      then Some (cond_Zopp s (Zpos m / 2 ^ (- e)))
      else None
  | _ => None
  end.

(** Two keys are the same key of a dict: equal str, both [None], or equal
    numbers, [True], [1] and [1.0] being one key. Two NaN keys are one key:
    [json.load] gives one NaN object, which a dict finds by identity. *)
Definition key_eqb (a b : pyval) : bool :=
  match a, b with
  | PNone, PNone => true
  | PStr s, PStr t => String.eqb s t
  | (PBool _ | PInt _ | PFloat _), (PBool _ | PInt _ | PFloat _) =>
      match key_int a, key_int b with
      | Some x, Some y => x =? y
      | None, None =>
          match a, b with
          | PFloat f, PFloat g => F64.eqb f g || (F64.isnan f && F64.isnan g)
          | _, _ => false
          end
      | _, _ => false
      end
  | _, _ => false
  end.

(** [m[k] = v] on the entries of a dict with keys of any kind: an existing
    key keeps its place and its first spelling. *)
Fixpoint map_set (m : list (pyval * pyval)) (k v : pyval)
    : list (pyval * pyval) :=
  match m with
  | [] => [(k, v)]
  | (k', v') :: r =>
      if key_eqb k k' then (k', v) :: r else (k', v') :: map_set r k v
  end.

(** The entries under a str key: all that [m.get(k)] and [k in m] can
    reach for a str [k]. *)
Fixpoint str_entries (m : list (pyval * pyval)) : pydict :=
  match m with
  | [] => []
  | (PStr k, v) :: r => (k, v) :: str_entries r
  | _ :: r => str_entries r
  end.

Definition is_str (v : pyval) : bool :=
  match v with PStr _ => true | _ => false end.

(** The dict with the entries [m]: a [PDict] when every key is a str. *)
Definition of_entries (m : list (pyval * pyval)) : pyval :=
  if forallb (fun kv => is_str (fst kv)) m then PDict (str_entries m)
  else PMap m.

(** The entries of a dict, [None] for a value that is no dict: what its
    [get] method reaches with a str key. *)
Definition entries (v : pyval) : option pydict :=
  match v with
  | PDict d => Some d
  | PMap m => Some (str_entries m)
  | _ => None
  end.

(** The key and the value that one element of the sequence given to
    [dict] stands for: the element must be iterable ([TypeError]) with
    exactly two items ([ValueError]), the first one hashable
    ([TypeError]). A str iterates over its characters and a dict over its
    keys. *)
Definition pair_of (x : pyval) : result (pyval * pyval) :=
  kv <- match x with
        | PList [k; v] => Ok (k, v)
        | PStr (String a (String b EmptyString)) =>
            Ok (PStr (String a EmptyString), PStr (String b EmptyString))
        | PDict [(k1, _); (k2, _)] => Ok (PStr k1, PStr k2)
        | PMap [(k1, _); (k2, _)] => Ok (k1, k2)
        | PList _ | PStr _ | PDict _ | PMap _ => Raise ValueError
        | PNone | PBool _ | PInt _ | PFloat _ => Raise TypeError
        end ;;
  if hashable (fst kv) then Ok kv else Raise TypeError.

(** The loop of [dict] over a sequence, element by element. *)
Fixpoint entries_from (l : list pyval) (m : list (pyval * pyval))
    : result (list (pyval * pyval)) :=
  match l with
  | [] => Ok m
  | x :: r => kv <- pair_of x ;; entries_from r (map_set m (fst kv) (snd kv))
  end.

(** [dict(v)]: a copy of a dict, or the dict a list of pairs spells out;
    the characters of a str are no pairs, and the other values are not
    iterable. *)
Definition to_dict (v : pyval) : result pyval :=
  match v with
  | PDict _ | PMap _ => Ok v
  | PList l => m <- entries_from l [] ;; Ok (of_entries m)
  | PStr EmptyString => Ok (PDict [])
  | PStr _ => Raise ValueError
  | PNone | PBool _ | PInt _ | PFloat _ => Raise TypeError
  end.

(** [len(v)] *)
Definition len (v : pyval) : result Z :=
  match v with
  | PList l => Ok (Z.of_nat (List.length l))
  | PDict d => Ok (Z.of_nat (List.length d))
  | PMap m => Ok (Z.of_nat (List.length m))
  | PStr s => Ok (Z.of_nat (String.length s))
  | _ => Raise TypeError
  end.

(** [sub in v] for a string literal [sub]: substring of a str, element of a
    list, key of a dict. *)
Definition str_in (sub : string) (v : pyval) : result bool :=
  match v with
  | PStr s => Ok (PyStr.contains sub s)
  | PList l =>
      Ok (existsb (fun x => match x with PStr s => String.eqb sub s | _ => false end) l)
  | PDict d => Ok (has_key d sub)
  | PMap m => Ok (has_key (str_entries m) sub)
  | _ => Raise TypeError
  end.

(** [l[i]] on a list, negative indices counting from the end *)
Definition index {A} (l : list A) (i : Z) : result A :=
  let n := Z.of_nat (List.length l) in
  let j := if i <? 0 then i + n else i in
  if (j <? 0) || (n <=? j) then Raise IndexError
  else match nth_error l (Z.to_nat j) with
       | Some a => Ok a
       | None => Raise IndexError
       end.

End Py.

(* ================================================================= *)
(** ** The container, as astropy exposes it *)

(** What [header.get(key)] gives for a card that is present: astropy returns
    native scalars, and [None] for a card whose value is undefined; anything
    else (a complex number) is kept with its [str] form, and has no [item]
    method. Every card is taken to parse. *)
Inductive hval : Type :=
| HNone
| HStr (s : string)
| HInt (z : Z)
| HFloat (f : float)
| HBool (b : bool)
| HOther (repr : string).

(** [fits.Header]: the cards in file order; a keyword is looked up at its
    first card. *)
Definition header : Type := list (string * hval).

(** A numeric array: the dtype kind character, the shape, and the samples
    in row-major order, already as [np.asarray(data, dtype=np.float64)]
    gives them. *)
Record ndarray : Type := {
  dtype_kind : string;
  shape : list Z;
  samples : list float
}.

Definition ndim (a : ndarray) : Z := Z.of_nat (List.length (shape a)).
Definition size (a : ndarray) : Z := Z.of_nat (List.length (samples a)).

(** A table column: its name, its TFORM storage format, and what
    [np.asarray(data[name], dtype=float)] gives, [None] when the conversion
    raises (text that is not a number). *)
Record column : Type := {
  col_name : string;
  col_format : string;
  col_floats : option (list float)
}.

(** [fits.FITS_rec] *)
Definition table : Type := list column.

(** What reading [hdu.data] gives: an exception on a damaged data section,
    [None], an array, or a table. *)
Inductive hdu_data : Type :=
| DataRaises
| DataNone
| DataArray (a : ndarray)
| DataTable (t : table).

Record HDU : Type := {
  hdu_class : string;            (* [type(hdu).__name__] *)
  hdu_header : option header;    (* [getattr(hdu, "header", None)] *)
  data : hdu_data
}.

(** What [fits.open(path)] finds: an exception with its message, or the
    units of the file; [iter_ok = false] when iterating the units raises
    after the listed ones. *)
Inductive fits_file : Type :=
| OpenFails (msg : string)
| Opened (hdul : list HDU) (iter_ok : bool).

(** A request to the plotting backend. *)
Inductive stretch : Type := AsinhStretch | LinearStretch.

Inductive plot : Type :=
| Imshow (arr : ndarray) (vmin vmax : float) (st : stretch)
| LinePlot (x y : list float) (xlabel ylabel : string)
| ScatterPlot (x y : list float) (xlabel ylabel : string).

(** The collaborators of the pipeline. *)
Record Runtime : Type := {
  (** [str(x)] for a float, and for a list or a dict *)
  float_repr : float -> string;
  container_repr : pyval -> string;
  (** [int(s)] for a str *)
  int_of_str : string -> result Z;
  (** [ZScaleInterval().get_limits(data)] *)
  zscale_get_limits : ndarray -> result (float * float);
  (** [np.nanpercentile(data, q)] *)
  nanpercentile : ndarray -> Z -> result float;
  (** [np.asarray(data[c], dtype=float)] for an index [c] that is not a
      str: what numpy and astropy select by position, mask or list *)
  item_as_float : hdu_data -> pyval -> result ndarray;
  (** drawing the figure and [plt.savefig(out_path, ...)] *)
  savefig : plot -> string -> result unit;
  (** [os.makedirs(dir, exist_ok=True)]: the message of the exception it
      raises, if any *)
  makedirs : string -> option string;
  (** [os.path.join(dir, name)] and [os.path.basename(path)] *)
  path_join : string -> string -> string;
  basename : string -> string;
  (** [str(uuid.uuid4())[:8]] *)
  uuid8 : string
}.

(** Builtins over header values and Python values. *)
Module Builtins.
Section WithRuntime.
Context (rt : Runtime).

Definition str_of_bool (b : bool) : string :=
  if b then "True"%string else "False"%string.

(** [str(v)] *)
Definition str_of_hval (v : hval) : string :=
  match v with
  | HNone => "None"%string
  | HStr s => s
  | HInt z => PyStr.of_Z z
  | HFloat f => float_repr rt f
  | HBool b => str_of_bool b
  | HOther r => r
  end.

Definition str (v : pyval) : string :=
  match v with
  | PNone => "None"%string
  | PBool b => str_of_bool b
  | PInt z => PyStr.of_Z z
  | PFloat f => float_repr rt f
  | PStr s => s
  | PList _ | PDict _ | PMap _ => container_repr rt v
  end.

(** [int(v)] *)
Definition int_of_hval (v : hval) : result Z :=
  match v with
  | HInt z => Ok z
  | HBool b => Ok (if b then 1 else 0)
  | HFloat f => F64.to_int f
  | HStr s => int_of_str rt s
  | HNone | HOther _ => Raise TypeError
  end.

Definition int (v : pyval) : result Z :=
  match v with
  | PInt z => Ok z
  | PBool b => Ok (if b then 1 else 0)
  | PFloat f => F64.to_int f
  | PStr s => int_of_str rt s
  | PNone | PList _ | PDict _ | PMap _ => Raise TypeError
  end.

End WithRuntime.

(** [header.get(key)] and [key in header] *)
Fixpoint header_get (h : header) (k : string) : option hval :=
  match h with
  | [] => None
  | (k', v) :: r => if String.eqb k k' then Some v else header_get r k
  end.

Definition header_has (h : header) (k : string) : bool :=
  match header_get h k with Some _ => true | None => false end.

(** [range(a, b)] *)
Definition range (a b : Z) : list Z :=
  map (fun i => a + Z.of_nat i) (seq 0 (Z.to_nat (b - a))).

(** [[f(x) for x in l]] when [f] can raise *)
Fixpoint map_result {A B} (f : A -> result B) (l : list A) : result (list B) :=
  match l with
  | [] => Ok []
  | x :: r => y <- f x ;; ys <- map_result f r ;; Ok (y :: ys)
  end.

(** [np.nanmin(a)] and [np.nanmax(a)] over the flattened samples: the
    reduction of [fmin] / [fmax]; an empty array raises. With no number
    among the samples the result is NaN (the warning is silenced). *)
Definition nanmin (l : list float) : result float :=
  match l with
  | [] => Raise ValueError
  | x :: r => Ok (fold_left F64.fmin r x)
  end.

Definition nanmax (l : list float) : result float :=
  match l with
  | [] => Raise ValueError
  | x :: r => Ok (fold_left F64.fmax r x)
  end.

(** [fits.open(fits_path, ...)] in the later stages, on the file the parser
    read: the units, or the exception. *)
Definition reopen (file : fits_file) : result (list HDU) :=
  match file with
  | Opened hdul true => Ok hdul
  | Opened _ false => Raise OSError
  | OpenFails _ => Raise OSError
  end.

(** [idx < n] for an int [n] *)
Definition lt_int (idx : pyval) (n : Z) : result bool :=
  match idx with
  | PInt z => Ok (z <? n)
  | PBool b => Ok ((if b then 1 else 0) <? n)
  | PFloat f => Ok (F64.ltb f (F64.of_Z n))
  | _ => Raise TypeError
  end.

(** [hdul[idx]] *)
Definition hdul_index (hdul : list HDU) (idx : pyval) : result HDU :=
  match idx with
  | PInt z => Py.index hdul z
  | PBool b => Py.index hdul (if b then 1 else 0)
  | _ => Raise TypeError
  end.

(** [idx >= n] for an int [n] *)
Definition ge_int (idx : pyval) (n : Z) : result bool :=
  match idx with
  | PInt z => Ok (n <=? z)
  | PBool b => Ok (n <=? (if b then 1 else 0))
  | PFloat f => Ok (F64.leb (F64.of_Z n) f)
  | _ => Raise TypeError
  end.

End Builtins.

(* ================================================================= *)
(** ** fits-parser.py *)

Module Parser.
Import Builtins.

Inductive summary_result : Type :=
| ParseError (msg : string)          (* [{"__error__": msg}] *)
| Summaries (l : list pydict).

Definition _to_json_safe (val : hval) : pyval :=
  match val with
  | HNone => PNone
  | HStr s => PStr s
  | HInt z => PInt z
  | HFloat f => PFloat f
  | HBool b => PBool b
  | HOther r => PStr r
  end.

Definition _clean_header (header : option header) : pydict :=
  match header with
  | None => []
  | Some h =>
      fold_left
        (fun out key =>
           if PyStr.mem key ["COMMENT"; "HISTORY"]%string
              || PyStr.is_empty (PyStr.strip key)
           then out
           else
             let k := PyStr.strip key in
             match header_get h key with
             | None | Some HNone => out                 (* [val is None] *)
             | Some val =>
                 match _to_json_safe val with
                 | PNone => out
                 | safe => Py.set out k safe
                 end
             end)
        (map fst h) []
  end.

Section WithRuntime.
Context (rt : Runtime).

Definition unit_label (h : header) (k : string) (units : pydict) : pydict :=
  match header_get h k with
  | Some v => Py.set units k (PStr (PyStr.strip (str_of_hval rt v)))
  | None => units
  end.

Definition _get_units_from_header (header : option header) : pydict :=
  match header with
  | None => []
  | Some h =>
      fold_left
        (fun units i =>
           unit_label h ("CUNIT" ++ PyStr.of_Z i)
             (unit_label h ("TUNIT" ++ PyStr.of_Z i) units))
        (range 1 100)
        (unit_label h "BUNIT" [])
  end.

Definition header_int (h : header) (k : string) : result Z :=
  match header_get h k with
  | Some v => int_of_hval rt v
  | None => Ok 0
  end.

Definition _data_shape_dtype (hdu : HDU) : list Z * string :=
  try_except
    (match hdu_header hdu with
     | Some h =>
         naxis <- header_int h "NAXIS" ;;
         if naxis =? 0 then Ok ([], "unknown"%string)
         else
           shape <- map_result
                      (fun i => header_int h ("NAXIS" ++ PyStr.of_Z i))
                      (range 1 (naxis + 1)) ;;
           Ok (shape, "unknown"%string)
     | None => Ok ([], "unknown"%string)
     end)
    ([], "unknown"%string).

End WithRuntime.

Definition count_finite (l : list float) : Z :=
  Z.of_nat (List.length (filter F64.isfinite l)).

Definition _image_stats (data : ndarray) : pydict :=
  if ndim data <? 1 then []
  else
    let n := size data in
    if n =? 0 then []
    else
      let nan_frac :=
        F64.sub F64.one
          (F64.div (F64.of_Z (count_finite (samples data))) (F64.of_Z n)) in
      let out := [("nan_fraction"%string, PFloat nan_frac)] in
      let valid := filter F64.isfinite (samples data) in
      if Z.of_nat (List.length valid) =? 0 then
        Py.set (Py.set (Py.set out "min_value" PNone) "max_value" PNone)
          "is_uniform" (PBool true)
      else
        try_except
          (vmin <- nanmin valid ;;
           vmax <- nanmax valid ;;
           Ok (Py.set (Py.set (Py.set out "min_value" (PFloat vmin))
                         "max_value" (PFloat vmax))
                 "is_uniform" (PBool (F64.eqb vmin vmax))))
          out.

Section WithRuntime.
Context (rt : Runtime).

(** The body of the loop of [get_summary] for the unit at position [i]:
    the entry to append, or the exception that makes the loop skip the
    unit. Reading [hdu.data] happens in the condition of the [if], outside
    the inner [try]. *)
Definition summary_entry (i : Z) (hdu : HDU) : result pydict :=
  let hdu_type := hdu_class hdu in
  let header := hdu_header hdu in
  let '(shape, dtype) := _data_shape_dtype rt hdu in
  let units := _get_units_from_header rt header in
  let cleaned := _clean_header header in
  let entry :=
    [ ("hdu_index", PInt i);
      ("hdu_type", PStr hdu_type);
      ("header", PDict cleaned);
      ("data_shape", PList (map PInt shape));
      ("data_dtype", PStr dtype);
      ("units", PDict units) ]%string in
  match data hdu with
  | DataRaises => Raise OSError
  | DataNone => Ok entry
  | DataTable _ => Ok entry
  | DataArray d =>
      if PyStr.mem (dtype_kind d) ["f"; "i"; "u"]%string && (2 <=? ndim d)
      then Ok (Py.update (Py.set entry "has_numeric_data" (PBool true))
                 (_image_stats d))
      else Ok entry
  end.

Fixpoint summaries_from (i : Z) (hdul : list HDU) : list pydict :=
  match hdul with
  | [] => []
  | hdu :: rest =>
      match summary_entry i hdu with
      | Ok entry => entry :: summaries_from (i + 1) rest
      | Raise _ => summaries_from (i + 1) rest
      end
  end.

Definition get_summary (file : fits_file) : summary_result :=
  match file with
  | OpenFails msg => ParseError msg
  | Opened hdul iter_ok =>
      if iter_ok then Summaries (summaries_from 0 hdul)
      else ParseError "Failed to iterate HDUs"
  end.

End WithRuntime.
End Parser.

(* ================================================================= *)
(** ** fits-analyzer.py *)

Module Analyzer.
Import Builtins.

Definition CLASSIFICATION_IMAGE : string := "image".
Definition CLASSIFICATION_ERROR_MAP : string := "error_map".
Definition CLASSIFICATION_LOW_CONTRAST_IMAGE : string := "low_contrast_image".
Definition CLASSIFICATION_SPECTRUM : string := "spectrum".
Definition CLASSIFICATION_LIGHT_CURVE : string := "light_curve".
Definition CLASSIFICATION_TABLE : string := "table".
Definition CLASSIFICATION_UNKNOWN : string := "unknown".

(** The class [[_\s]] of the regular expression in [_normalize_col]. *)
Definition is_separator (c : ascii) : bool :=
  Ascii.eqb c "_"%char || PyStr.is_space c.

Definition _normalize_col (s : string) : string :=
  PyStr.lower (PyStr.delete_chars is_separator s).

Definition time_like : list string :=
  ["time"; "mjd"; "jd"; "date"; "epoch"; "bjd"; "day"]%string.
Definition flux_like : list string :=
  ["flux"; "count"; "rate"; "counts"; "mag"; "magnitude"; "fluxerr";
   "flux_err"]%string.
Definition wl_like : list string :=
  ["wavelength"; "wave"; "wl"; "lam"; "lambda"; "energy"; "freq";
   "frequency"]%string.

Definition _has_time_like (cols : list string) : bool :=
  existsb (fun c => PyStr.mem (_normalize_col c) time_like) cols.

Definition _has_flux_like (cols : list string) : bool :=
  existsb
    (fun c =>
       let n := _normalize_col c in
       PyStr.mem n flux_like || PyStr.contains "flux" n
       || PyStr.contains "count" n)
    cols.

Definition _has_wavelength_like (cols : list string) : bool :=
  existsb
    (fun c =>
       let n := _normalize_col c in
       PyStr.mem n wl_like || PyStr.contains "wave" n
       || PyStr.contains "lam" n)
    cols.

Definition _classify_table (cols : list string) : string :=
  match cols with
  | [] => CLASSIFICATION_TABLE
  | _ =>
      if _has_time_like cols && _has_flux_like cols
      then CLASSIFICATION_LIGHT_CURVE
      else if _has_wavelength_like cols && _has_flux_like cols
      then CLASSIFICATION_SPECTRUM
      else CLASSIFICATION_TABLE
  end.

Definition _is_plottable_classification (c : string) : bool :=
  PyStr.mem c
    [CLASSIFICATION_IMAGE; CLASSIFICATION_ERROR_MAP;
     CLASSIFICATION_LOW_CONTRAST_IMAGE; CLASSIFICATION_SPECTRUM;
     CLASSIFICATION_LIGHT_CURVE; CLASSIFICATION_TABLE].

(** [for k, v in header.items(): if k.startswith("CTYPE") and
    isinstance(v, str)]; a header that is not a dict has no [items], and a
    key that is not a str has no [startswith]. *)
Definition _axis_meaning (header : pyval) : result pydict :=
  match header with
  | PDict h =>
      Ok (fold_left
            (fun out kv =>
               match snd kv with
               | PStr v =>
                   if PyStr.startswith "CTYPE" (fst kv)
                   then Py.set out (fst kv) (PStr (PyStr.strip v))
                   else out
               | _ => out
               end)
            h [])
  | PMap m =>
      if forallb (fun kv => Py.is_str (fst kv)) m then
        Ok (fold_left
              (fun out kv =>
                 match snd kv with
                 | PStr v =>
                     if PyStr.startswith "CTYPE" (fst kv)
                     then Py.set out (fst kv) (PStr (PyStr.strip v))
                     else out
                 | _ => out
                 end)
              (Py.str_entries m) [])
      else Raise AttributeError
  | _ => Raise AttributeError
  end.

Section WithRuntime.
Context (rt : Runtime).

Fixpoint column_names_loop (h : header) (idx : list Z) : list string :=
  match idx with
  | [] => []
  | i :: rest =>
      match header_get h ("TTYPE" ++ PyStr.of_Z i) with
      | None => []
      | Some v => PyStr.strip (str_of_hval rt v) :: column_names_loop h rest
      end
  end.

Definition _column_names_from_header (header : option header) : list string :=
  match header with
  | None => []
  | Some h => column_names_loop h (range 1 1000)
  end.

Fixpoint table_units_loop (h : header) (i : Z) (names : list string)
    (units : pydict) : pydict :=
  match names with
  | [] => units
  | name :: rest =>
      let key := ("TUNIT" ++ PyStr.of_Z i)%string in
      table_units_loop h (i + 1) rest
        (match header_get h key with
         | Some v =>
             if negb (PyStr.is_empty name)
             then Py.set units name (PStr (PyStr.strip (str_of_hval rt v)))
             else units
         | None => units
         end)
  end.

Definition _get_table_units (header : option header) : pydict :=
  match header with
  | None => []
  | Some h =>
      let names := _column_names_from_header header in
      let units := table_units_loop h 1 names [] in
      match header_get h "BUNIT" with
      | Some v => Py.set units "BUNIT" (PStr (PyStr.strip (str_of_hval rt v)))
      | None => units
      end
  end.

Definition _header_suggests_error_map (header_dict : pyval) : result bool :=
  match Py.entries header_dict with
  | Some h =>
      let datatype :=
        Py.or_ (Py.or_ (Py.or_ (Py.get h "DATATYPE" PNone)
                               (Py.get h "HDUCLAS1" PNone))
                       (Py.get h "EXTNAME" PNone))
               (PStr "") in
      let s := PyStr.lower (str rt datatype) in
      Ok (PyStr.contains "error" s || PyStr.contains "uncertainty" s)
  | None => Raise AttributeError
  end.

Definition _header_suggests_low_contrast (header_dict : pyval)
    (summary : pydict) : result pyval :=
  match Py.entries header_dict with
  | Some h =>
      try_type_value
        (match Py.get h "BITPIX" PNone with
         | PNone => Ok (PBool false)
         | bitpix =>
             bp <- int rt bitpix ;;
             if 0 <=? bp then Ok (PBool false)
             else Ok (Py.get summary "is_uniform" (PBool false))
         end)
        (PBool false)
  | None => Raise AttributeError
  end.

(** The [try] block of [analyze_hdu]: the classification, the column names
    and the units it leaves. *)
Definition classify (file : fits_file) (summary : pydict)
    (units0 : pyval) : result (string * list string * pyval) :=
  let hdu_type := Py.get summary "hdu_type" (PStr "") in
  let data_shape := Py.get summary "data_shape" (PList []) in
  let header_dict := Py.get summary "header" (PDict []) in
  is_image <- (a <- Py.str_in "ImageHDU" hdu_type ;;
               if a then Ok true else Py.str_in "PrimaryHDU" hdu_type) ;;
  if is_image then
    ndim <- Py.len data_shape ;;
    classification <-
      (if 2 <=? ndim then
         error_map <- _header_suggests_error_map header_dict ;;
         if error_map then Ok CLASSIFICATION_ERROR_MAP
         else
           low <- _header_suggests_low_contrast header_dict summary ;;
           if Py.truthy low then Ok CLASSIFICATION_LOW_CONTRAST_IMAGE
           else Ok CLASSIFICATION_IMAGE
       else if ndim =? 1 then Ok CLASSIFICATION_IMAGE
       else Ok CLASSIFICATION_UNKNOWN) ;;
    Ok (classification, [], units0)
  else
    is_table <- (a <- Py.str_in "BinTableHDU" hdu_type ;;
                 if a then Ok true else Py.str_in "TableHDU" hdu_type) ;;
    if is_table then
      hdul <- reopen file ;;
      let idx := Py.get summary "hdu_index" (PInt 0) in
      inside <- lt_int idx (Z.of_nat (List.length hdul)) ;;
      if inside then
        hdu <- hdul_index hdul idx ;;
        let hdr := hdu_header hdu in
        let column_names := _column_names_from_header hdr in
        Ok (_classify_table column_names, column_names,
            PDict (_get_table_units hdr))
      else Ok (_classify_table [], [], units0)
    else Ok (CLASSIFICATION_UNKNOWN, [], units0).

Definition analyze_hdu (file : fits_file) (summary : pydict) : result pydict :=
  let result := summary in                         (* [dict(summary)] *)
  let header_dict := Py.get summary "header" (PDict []) in
  units0 <- Py.to_dict (Py.get summary "units" (PDict [])) ;;
  axis_meaning <- _axis_meaning header_dict ;;
  let '(classification, column_names, units) :=
    try_except (classify file summary units0)
      (CLASSIFICATION_UNKNOWN, [], units0) in
  let result := Py.set result "classification" (PStr classification) in
  let result := Py.set result "column_names" (PList (map PStr column_names)) in
  let result := Py.set result "units" units in
  let result := Py.set result "axis_meaning" (PDict axis_meaning) in
  Ok result.

Definition fallback (s : pydict) : pydict :=
  let fallback := s in                             (* [dict(s)] *)
  let fallback := Py.set fallback "classification" (PStr CLASSIFICATION_UNKNOWN) in
  let fallback := Py.set fallback "column_names" (PList []) in
  let fallback := Py.set fallback "units" (Py.get fallback "units" (PDict [])) in
  Py.set fallback "axis_meaning" (PDict []).

Definition analyze (file : fits_file) (parser_summaries : list pydict)
    : result (list pydict) :=
  Ok (map (fun s => try_except (analyze_hdu file s) (fallback s))
        parser_summaries).

End WithRuntime.
End Analyzer.

(* ================================================================= *)
(** ** fits-visualizer.py *)

Module Visualizer.
Import Builtins.

Definition MAX_TABLE_ROWS : Z := 50000.
Definition IMAGE_LIKE : list string :=
  [Analyzer.CLASSIFICATION_IMAGE; Analyzer.CLASSIFICATION_ERROR_MAP;
   Analyzer.CLASSIFICATION_LOW_CONTRAST_IMAGE].

(** The test both library tiers of [_get_interval_limits] must pass:
    [np.isfinite(vmin) and np.isfinite(vmax) and vmin != vmax]. *)
Definition accepted (vmin vmax : float) : bool :=
  F64.isfinite vmin && F64.isfinite vmax && F64.neqb vmin vmax.

(** The third [try] block of [_get_interval_limits]: [np.nanmin] /
    [np.nanmax] with the [0.0] and [vmin + 1e-6] replacements. *)
Definition minmax_limits (data : ndarray) : result (float * float) :=
  vmin <- nanmin (samples data) ;;
  vmax <- nanmax (samples data) ;;
  let vmin := if negb (F64.isfinite vmin) then F64.zero else vmin in
  let vmax :=
    if negb (F64.isfinite vmax) || F64.eqb vmax vmin
    then F64.add vmin F64.eps6 else vmax in
  Ok (vmin, vmax).

Section WithRuntime.
Context (rt : Runtime).

(** The first two [try] blocks: the range of the library estimator when it
    returns one that is accepted. *)
Definition zscale_limits (data : ndarray) : option (float * float) :=
  match zscale_get_limits rt data with
  | Ok (vmin, vmax) => if accepted vmin vmax then Some (vmin, vmax) else None
  | Raise _ => None
  end.

Definition percentile_limits (data : ndarray) : option (float * float) :=
  match nanpercentile rt data 1, nanpercentile rt data 99 with
  | Ok vmin, Ok vmax => if accepted vmin vmax then Some (vmin, vmax) else None
  | _, _ => None
  end.

Definition _get_interval_limits (data : ndarray) : float * float :=
  match zscale_limits data with
  | Some r => r
  | None =>
      match percentile_limits data with
      | Some r => r
      | None => try_except (minmax_limits data) (F64.zero, F64.one)
      end
  end.

(** What [_render_image] hands to the backend: [Ok None] where it returns
    [False] before drawing. *)
Definition image_plot (file : fits_file) (hdu_index : pyval)
    : result (option plot) :=
  hdul <- reopen file ;;
  outside <- ge_int hdu_index (Z.of_nat (List.length hdul)) ;;
  if outside then Ok None
  else
    hdu <- hdul_index hdul hdu_index ;;
    match data hdu with
    | DataRaises => Raise OSError
    | DataNone => Ok None
    | DataTable _ => Raise TypeError       (* a record array is no float64 array *)
    | DataArray arr =>
        if negb (ndim arr =? 2) then Ok None
        else
          let '(vmin, vmax) := _get_interval_limits arr in
          limits <-
            (if negb (F64.isfinite vmin) || F64.eqb vmin vmax then
               lo <- nanmin (samples arr) ;;
               hi <- nanmax (samples arr) ;;
               Ok (lo, if F64.isfinite hi && F64.neqb hi lo then hi
                       else F64.add lo F64.eps6)
             else Ok (vmin, vmax)) ;;
          let '(vmin, vmax) := limits in
          let stretch :=
            if F64.ltb vmin vmax then AsinhStretch else LinearStretch in
          Ok (Some (Imshow arr vmin vmax stretch))
    end.

(** Drawing what a renderer prepared. *)
Definition draw (p : result (option plot)) (out_path : string) : bool :=
  try_except
    (req <- p ;;
     match req with
     | None => Ok false
     | Some pl => _ <- savefig rt pl out_path ;; Ok true
     end)
    false.

Definition _render_image (file : fits_file) (hdu_index : pyval)
    (out_path : string) : bool :=
  draw (image_plot file hdu_index) out_path.

End WithRuntime.

(** [np.linspace(0, stop, num, dtype=int)]: the integer parts of [num]
    evenly spaced values from [0] to [stop], computed here with exact
    quotients. numpy computes [i * (stop / (num - 1))] in binary64 and sets
    the last value to [stop]; with [num = 50000] and fewer than [2^36] rows
    the integer parts are the same. *)
Definition linspace_int (stop num : Z) : list Z :=
  map (fun i => (i * stop) / (num - 1)) (range 0 num).

(** [np.unique]: sorted, without repetitions. *)
Fixpoint insert_unique (x : Z) (l : list Z) : list Z :=
  match l with
  | [] => [x]
  | y :: r =>
      if x <? y then x :: l
      else if x =? y then l
      else y :: insert_unique x r
  end.

Definition unique (l : list Z) : list Z := fold_right insert_unique [] l.

Definition _downsample_indices (n max_n : Z) : list Z :=
  if n <=? max_n then range 0 n
  else unique (linspace_int (n - 1) max_n).

Definition is_numeric_format (fmt : string) : bool :=
  existsb (fun c => PyStr.contains c fmt) ["E"; "D"; "I"; "J"; "K"]%string.

(** The names paired with a numeric column, by position; the loop stops at
    the shorter of the two lists. *)
Fixpoint numeric_names {A} (columns : table) (col_names : list A)
    : list A :=
  match col_names, columns with
  | name :: names, col :: cols =>
      if is_numeric_format (col_format col)
      then name :: numeric_names cols names
      else numeric_names cols names
  | _, _ => []
  end.

Definition _first_numeric_columns (table : hdu_data)
    (col_names : list string) : string * string :=
  match col_names, table with
  | [], _ | _, DataNone => (""%string, ""%string)
  | _, _ =>
      let numeric :=
        match table with
        | DataTable t => numeric_names t col_names
        | _ => []                      (* no [columns] attribute *)
        end in
      match numeric with
      | a :: b :: _ => (a, b)
      | [a] => (a, ""%string)
      | [] =>
          (match col_names with c :: _ => c | [] => ""%string end,
           match col_names with _ :: c :: _ => c | _ => ""%string end)
      end
  end.

(** [c.replace("_", "").replace(" ", "").lower()] *)
Definition squeeze (c : string) : string :=
  PyStr.lower
    (PyStr.delete_chars (Ascii.eqb " "%char)
       (PyStr.delete_chars (Ascii.eqb "_"%char) c)).

Definition or_first (col : string) (col_names : list string) : string :=
  if PyStr.is_empty col
  then match col_names with c :: _ => c | [] => col end
  else col.

Definition or_second (col : string) (col_names : list string) : string :=
  if PyStr.is_empty col
  then match col_names with _ :: c :: _ => c | _ => col end
  else col.

(** The loop of [_time_flux_columns] over the items of [col_names]. *)
Definition time_flux_scan (col_names : list string) : string * string :=
  let time_like := ["time"; "mjd"; "jd"; "date"; "epoch"; "bjd"; "day"]%string in
  let flux_like :=
    ["flux"; "count"; "rate"; "counts"; "mag"; "magnitude"; "fluxerr";
     "flux_err"]%string in
  fold_left
    (fun cols c =>
       let n := squeeze c in
       (if PyStr.mem n time_like then c else fst cols,
        if PyStr.mem n flux_like || PyStr.contains "flux" n
           || PyStr.contains "count" n
        then c else snd cols))
    col_names (""%string, ""%string).

Definition _time_flux_columns (col_names : list string) : string * string :=
  let '(time_col, flux_col) := time_flux_scan col_names in
  (or_first time_col col_names, or_second flux_col col_names).

(** The loop of [_wavelength_flux_columns]. *)
Definition wavelength_flux_scan (col_names : list string) : string * string :=
  let wl_like :=
    ["wavelength"; "wave"; "wl"; "lam"; "lambda"; "energy"; "freq";
     "frequency"]%string in
  let flux_like := ["flux"; "count"; "rate"; "counts"; "mag"; "magnitude"]%string in
  fold_left
    (fun cols c =>
       let n := squeeze c in
       (if PyStr.mem n wl_like || PyStr.contains "wave" n
           || PyStr.contains "lam" n
        then c else fst cols,
        if PyStr.mem n flux_like || PyStr.contains "flux" n
        then c else snd cols))
    col_names (""%string, ""%string).

Definition _wavelength_flux_columns (col_names : list string)
    : string * string :=
  let '(wl_col, flux_col) := wavelength_flux_scan col_names in
  (or_first wl_col col_names, or_second flux_col col_names).

(** The two column choosers when [col_names] is a dict: the loop visits its
    keys, and the fallbacks [col_names[0]] and [col_names[1]] raise, no key
    being an int. [cols] is what the loop found. *)
Definition keyed_columns (cols : string * string) (keys : list string)
    : result (string * string) :=
  let '(x_col, y_col) := cols in
  if PyStr.is_empty x_col && (0 <? Z.of_nat (List.length keys))
  then Raise KeyError
  else if PyStr.is_empty y_col && (1 <? Z.of_nat (List.length keys))
  then Raise KeyError
  else Ok (x_col, y_col).

(** [np.asarray(data[name], dtype=float)]: the column of that name (as the
    header declares it); a missing name and a column that does not convert
    both raise, and so does a string index into a plain array. *)
Fixpoint find_column (t : table) (name : string) : option column :=
  match t with
  | [] => None
  | c :: r => if String.eqb name (col_name c) then Some c else find_column r name
  end.

Definition field_as_float (d : hdu_data) (name : string)
    : result (list float) :=
  match d with
  | DataTable t =>
      match find_column t name with
      | None => Raise KeyError
      | Some c =>
          match col_floats c with
          | Some xs => Ok xs
          | None => Raise ValueError
          end
      end
  | DataArray _ => Raise IndexError
  | DataNone => Raise TypeError
  | DataRaises => Raise OSError
  end.

(** [x[idx]] for an array of indices *)
Definition take (x : list float) (idx : list Z) : result (list float) :=
  map_result (Py.index x) idx.

(** [if n > MAX_TABLE_ROWS: idx = _downsample_indices(n, MAX_TABLE_ROWS);
    x, y = x[idx], y[idx]] with [n = len(x)] *)
Definition cap_rows (x y : list float) : result (list float * list float) :=
  let n := Z.of_nat (List.length x) in
  if MAX_TABLE_ROWS <? n then
    let idx := _downsample_indices n MAX_TABLE_ROWS in
    x' <- take x idx ;;
    y' <- take y idx ;;
    Ok (x', y')
  else Ok (x, y).

(** The unit a renderer reads: [Ok None] where it returns [False] because
    the index is past the end or the unit has no data. *)
Definition unit_data (file : fits_file) (hdu_index : pyval)
    : result (option hdu_data) :=
  hdul <- reopen file ;;
  outside <- ge_int hdu_index (Z.of_nat (List.length hdul)) ;;
  if outside then Ok None
  else
    hdu <- hdul_index hdul hdu_index ;;
    match data hdu with
    | DataRaises => Raise OSError
    | DataNone => Ok None
    | d => Ok (Some d)
    end.

(** What the line renderers hand to the backend for the two chosen columns. *)
Definition line_plot (d : hdu_data) (cols : string * string)
    : result (option plot) :=
  let '(x_col, y_col) := cols in
  if PyStr.is_empty x_col || PyStr.is_empty y_col then Ok None
  else
    x <- field_as_float d x_col ;;
    y <- field_as_float d y_col ;;
    xy <- cap_rows x y ;;
    Ok (Some (LinePlot (fst xy) (snd xy) x_col y_col)).

Definition light_curve_plot (file : fits_file) (hdu_index : pyval)
    (col_names : list string) : result (option plot) :=
  d <- unit_data file hdu_index ;;
  match d with
  | None => Ok None
  | Some d => line_plot d (_time_flux_columns col_names)
  end.

Definition spectrum_plot (file : fits_file) (hdu_index : pyval)
    (col_names : list string) : result (option plot) :=
  d <- unit_data file hdu_index ;;
  match d with
  | None => Ok None
  | Some d => line_plot d (_wavelength_flux_columns col_names)
  end.

(** [np.arange(n, dtype=float)] *)
Definition arange (n : Z) : list float := map F64.of_Z (range 0 n).

Definition table_scatter_plot (file : fits_file) (hdu_index : pyval)
    (col_names : list string) : result (option plot) :=
  d <- unit_data file hdu_index ;;
  match d with
  | None => Ok None
  | Some d =>
      let '(c1, c2) := _first_numeric_columns d col_names in
      if PyStr.is_empty c1 then Ok None
      else
        x <- field_as_float d c1 ;;
        y <- (if negb (PyStr.is_empty c2) then field_as_float d c2
              else Ok (arange (Z.of_nat (List.length x)))) ;;
        xy <- cap_rows x y ;;
        Ok (Some (ScatterPlot (fst xy) (snd xy) c1
                    (if negb (PyStr.is_empty c2) then c2 else "index"%string)))
  end.

(** An item that the string methods of the column choosers accept. *)
Definition str_item (x : pyval) : result string :=
  match x with
  | PStr s => Ok s
  | _ => Raise AttributeError
  end.

(** [analysis.get("column_names", [])] read as a list of str: the list the
    analyzer stored, or a str, whose items are its characters. A list with
    an item that is not a str makes the string methods raise. *)
Definition str_list (v : pyval) : result (list string) :=
  match v with
  | PList l => map_result str_item l
  | PStr s => Ok (PyStr.chars s)
  | _ => Raise TypeError
  end.

(** The keys of a dict as a loop of the column choosers reads them: a key
    that is not a str has no [replace]. *)
Definition str_keys (v : pyval) : result (list string) :=
  match v with
  | PDict d => Ok (Py.keys d)
  | PMap m => map_result str_item (map fst m)
  | _ => Raise TypeError
  end.

(** A line renderer when [col_names] is a dict; [scan] is the loop of its
    column chooser. *)
Definition keyed_line_plot (scan : list string -> string * string)
    (file : fits_file) (hdu_index col_names : pyval) : result (option plot) :=
  d <- unit_data file hdu_index ;;
  match d with
  | None => Ok None
  | Some d =>
      keys <- str_keys col_names ;;
      cols <- keyed_columns (scan keys) keys ;;
      line_plot d cols
  end.

(** The items a loop over [col_names] visits. *)
Definition iter_items (v : pyval) : result (list pyval) :=
  match v with
  | PList l => Ok l
  | PStr s => Ok (map PStr (PyStr.chars s))
  | PDict d => Ok (map PStr (Py.keys d))
  | PMap m => Ok (map fst m)
  | _ => Raise TypeError
  end.

(** [col_names[i]] for the int [i] *)
Definition item_at (v : pyval) (i : Z) : result pyval :=
  match v with
  | PList l => Py.index l i
  | PStr s => Py.index (map PStr (PyStr.chars s)) i
  | PDict _ => Raise KeyError
  | PMap m =>
      match find (fun kv => Py.key_eqb (PInt i) (fst kv)) m with
      | Some kv => Ok (snd kv)
      | None => Raise KeyError
      end
  | _ => Raise TypeError
  end.

(** [_first_numeric_columns] on any value of [col_names], its items being
    of any kind. On a list of str it is [_first_numeric_columns] above. *)
Definition first_numeric_items (table : hdu_data) (col_names : pyval)
    : result (pyval * pyval) :=
  if negb (Py.truthy col_names) then Ok (PStr "", PStr "")
  else
    match table with
    | DataNone => Ok (PStr "", PStr "")
    | _ =>
        let numeric :=
          match table with
          | DataTable t =>
              try_except
                (items <- iter_items col_names ;; Ok (numeric_names t items))
                []
          | _ => []                    (* no [columns] attribute *)
          end in
        match numeric with
        | a :: b :: _ => Ok (a, b)
        | [a] => Ok (a, PStr "")
        | [] =>
            c1 <- item_at col_names 0 ;;
            n <- Py.len col_names ;;
            c2 <- (if 1 <? n then item_at col_names 1 else Ok (PStr "")) ;;
            Ok (c1, c2)
        end
    end.

(** A one-dimensional array. *)
Definition vector (xs : list float) : ndarray :=
  {| dtype_kind := "f"; shape := [Z.of_nat (List.length xs)]; samples := xs |}.

(** [len(x)]: the length of the first axis; an array without axes has
    none. *)
Definition array_len (x : ndarray) : result Z :=
  match shape x with
  | [] => Raise TypeError
  | n :: _ => Ok n
  end.

(** [x[i]] flattened: the samples of row [i] along the first axis, the
    samples being in row-major order; an array without axes has no rows. *)
Definition array_row (x : ndarray) (i : Z) : result (list float) :=
  match shape x with
  | [] => Raise IndexError
  | n :: rest =>
      let j := if i <? 0 then i + n else i in
      if (j <? 0) || (n <=? j) then Raise IndexError
      else
        let w := fold_right Z.mul 1 rest in
        Ok (firstn (Z.to_nat w) (skipn (Z.to_nat (j * w)) (samples x)))
  end.

(** [x[idx]] for an array of indices: the rows at [idx]. *)
Definition take_rows (x : ndarray) (idx : list Z) : result ndarray :=
  rows <- map_result (array_row x) idx ;;
  Ok {| dtype_kind := dtype_kind x;
        shape := Z.of_nat (List.length idx) :: tl (shape x);
        samples := List.concat rows |}.

Section WithRuntime.
Context (rt : Runtime).

(** [np.asarray(data[c], dtype=float)] *)
Definition item_as_array (d : hdu_data) (c : pyval) : result ndarray :=
  match c with
  | PStr name => xs <- field_as_float d name ;; Ok (vector xs)
  | _ => item_as_float rt d c
  end.

(** [_render_table_scatter] up to the drawing, on any value of
    [col_names]: the steps of [table_scatter_plot] with columns named by
    items of any kind. The backend flattens the two arrays it is given and
    writes the labels with [str]. *)
Definition scatter_plot_of (file : fits_file) (hdu_index col_names : pyval)
    : result (option plot) :=
  d <- unit_data file hdu_index ;;
  match d with
  | None => Ok None
  | Some d =>
      cols <- first_numeric_items d col_names ;;
      let '(c1, c2) := cols in
      if negb (Py.truthy c1) then Ok None
      else
        x <- item_as_array d c1 ;;
        y <- (if Py.truthy c2 then item_as_array d c2
              else n <- array_len x ;; Ok (vector (arange n))) ;;
        n <- array_len x ;;
        xy <- (if MAX_TABLE_ROWS <? n then
                 let idx := _downsample_indices n MAX_TABLE_ROWS in
                 x' <- take_rows x idx ;;
                 y' <- take_rows y idx ;;
                 Ok (x', y')
               else Ok (x, y)) ;;
        Ok (Some (ScatterPlot (samples (fst xy)) (samples (snd xy))
                    (str rt c1)
                    (if Py.truthy c2 then str rt c2 else "index"%string)))
  end.

(** The line renderers read [col_names] with string methods: a list of
    str (or a str) is taken item by item, a dict key by key, and every
    other value raises. *)
Definition _render_light_curve (file : fits_file) (hdu_index : pyval)
    (col_names : pyval) (out_path : string) : bool :=
  draw rt
    (match col_names with
     | PDict _ | PMap _ =>
         keyed_line_plot time_flux_scan file hdu_index col_names
     | _ => names <- str_list col_names ;; light_curve_plot file hdu_index names
     end)
    out_path.

Definition _render_spectrum (file : fits_file) (hdu_index : pyval)
    (col_names : pyval) (out_path : string) : bool :=
  draw rt
    (match col_names with
     | PDict _ | PMap _ =>
         keyed_line_plot wavelength_flux_scan file hdu_index col_names
     | _ => names <- str_list col_names ;; spectrum_plot file hdu_index names
     end)
    out_path.

(** The scatter renderer applies no string method to the names: a list of
    str (or a str) goes through [table_scatter_plot], any other value
    through [scatter_plot_of], the same steps with items of any kind. *)
Definition _render_table_scatter (file : fits_file) (hdu_index : pyval)
    (col_names : pyval) (out_path : string) : bool :=
  draw rt
    (match str_list col_names with
     | Ok names => table_scatter_plot file hdu_index names
     | Raise _ => scatter_plot_of file hdu_index col_names
     end)
    out_path.

(** [classification in IMAGE_LIKE] and [classification == c] *)
Definition is_one_of (v : pyval) (l : list string) : bool :=
  match v with PStr s => PyStr.mem s l | _ => false end.

Definition visualize_hdu (file : fits_file) (analysis : pydict)
    (previews_dir file_id : string) : option string :=
  match makedirs rt previews_dir with
  | Some _ => None
  | None =>
      let hdu_index := Py.get analysis "hdu_index" (PInt 0) in
      let classification :=
        Py.get analysis "classification" (PStr Analyzer.CLASSIFICATION_UNKNOWN) in
      let col_names := Py.get analysis "column_names" (PList []) in
      let base := ("fits_" ++ file_id ++ "_hdu_" ++ str rt hdu_index)%string in
      let out_path := path_join rt previews_dir (base ++ ".png")%string in
      let ok :=
        if is_one_of classification IMAGE_LIKE then
          _render_image rt file hdu_index out_path
        else if is_one_of classification [Analyzer.CLASSIFICATION_LIGHT_CURVE] then
          _render_light_curve file hdu_index col_names out_path
        else if is_one_of classification [Analyzer.CLASSIFICATION_SPECTRUM] then
          _render_spectrum file hdu_index col_names out_path
        else if is_one_of classification [Analyzer.CLASSIFICATION_TABLE] then
          _render_table_scatter file hdu_index col_names out_path
        else _render_image rt file hdu_index out_path in
      if ok then Some ("/previews/" ++ base ++ ".png")%string else None
  end.

Definition visualize (file : fits_file) (analyses : list pydict)
    (previews_dir : string) (file_id : option string) : list (option string) :=
  let fid :=
    match file_id with
    | Some f => if PyStr.is_empty f then uuid8 rt else f
    | None => uuid8 rt
    end in
  map (fun a => visualize_hdu file a previews_dir fid) analyses.

End WithRuntime.
End Visualizer.

(* ================================================================= *)
(** ** run_fits_pipeline.py *)

Module Pipeline.

Definition PLOTTABLE : list string :=
  ["image"; "error_map"; "low_contrast_image"; "spectrum"; "light_curve";
   "table"]%string.

(** One entry of ["hdus"]. *)
Record hdu_record : Type := {
  index : pyval;
  type : pyval;
  classification : pyval;
  previewImage : option string;
  metadata : pyval;
  units : pyval
}.

(** The dict [run_pipeline] returns; [message] is the key that only the
    [valid_no_visualizable_data] results have, [error = None] is [None]. *)
Record pipeline_result : Type := {
  status : string;
  message : option string;
  fileName : string;
  hdus : list hdu_record;
  warnings : list string;
  error : option string
}.

Definition no_plottable (base_name : string) (warnings_list : list string)
    : pipeline_result :=
  {| status := "valid_no_visualizable_data";
     message := Some "This FITS file is valid but contains no plottable HDUs."%string;
     fileName := base_name;
     hdus := [];
     warnings := warnings_list;
     error := None |}.

Definition failure (base_name : string) (warnings_list : list string)
    (msg : string) : pipeline_result :=
  {| status := "error";
     message := None;
     fileName := base_name;
     hdus := [];
     warnings := warnings_list;
     error := Some msg |}.

(** The loop that assembles ["hdus"], from position [i] on. *)
Fixpoint assemble (i : Z) (analyzed : list pydict)
    (preview_urls : list (option string)) : list hdu_record :=
  match analyzed with
  | [] => []
  | a :: rest =>
      let preview_url :=
        if i <? Z.of_nat (List.length preview_urls)
        then try_except (Py.index preview_urls i) None
        else None in
      {| index := Py.get a "hdu_index" (PInt i);
         type := Py.get a "hdu_type" (PStr "Unknown");
         classification := Py.get a "classification" (PStr "unknown");
         previewImage := preview_url;
         metadata := Py.get a "header" (PDict []);
         units := Py.get a "units" (PDict []) |}
      :: assemble (i + 1) rest preview_urls
  end.

Section WithRuntime.
Context (rt : Runtime).

Definition run_pipeline (fits_path : string) (file : fits_file)
    (previews_dir : string) (file_name : option string) : pipeline_result :=
  let base_name :=
    match file_name with
    | Some f => if PyStr.is_empty f then basename rt fits_path else f
    | None => basename rt fits_path
    end in
  let warnings_list : list string := [] in
  match Parser.get_summary rt file with
  | Parser.ParseError msg => failure base_name warnings_list msg
  | Parser.Summaries summaries =>
      match summaries with
      | [] => no_plottable base_name warnings_list
      | _ =>
          let has_any_numeric :=
            existsb (fun s => Py.truthy (Py.get s "has_numeric_data" PNone))
              summaries in
          if negb has_any_numeric then
            failure base_name warnings_list "No HDU contains numeric image data."
          else
            match Analyzer.analyze rt file summaries with
            | Raise _ =>
                (* [str(e)]; [analyze] returns for every list of dicts *)
                failure base_name warnings_list ""
            | Ok analyzed =>
                let has_plottable :=
                  existsb
                    (fun a =>
                       Visualizer.is_one_of (Py.get a "classification" PNone)
                         PLOTTABLE)
                    analyzed in
                if negb has_plottable then no_plottable base_name warnings_list
                else
                  let file_id := uuid8 rt in
                  let '(preview_urls, warnings_list) :=
                    match makedirs rt previews_dir with
                    | None =>
                        (Visualizer.visualize rt file analyzed previews_dir
                           (Some file_id),
                         warnings_list)
                    | Some e =>
                        (repeat None (List.length analyzed),
                         warnings_list ++ [e])
                    end in
                  {| status := "success";
                     message := None;
                     fileName := base_name;
                     hdus := assemble 0 analyzed preview_urls;
                     warnings := warnings_list;
                     error := None |}
            end
      end
  end.

End WithRuntime.

Section WithRuntime.
Context (rt : Runtime).

(** [main]: the dict it prints as JSON, for the arguments [argv] (the
    script name first) and for what [fits.open] finds at each path. It
    exits with 0 in every case. [run_pipeline] is total here, so the
    [except] around its call has nothing to catch. *)
Definition main (open_file : string -> fits_file) (argv : list string)
    : pipeline_result :=
  match argv with
  | _ :: fits_path :: previews_dir :: rest =>
      let file_name := match rest with f :: _ => Some f | [] => None end in
      run_pipeline rt fits_path (open_file fits_path) previews_dir file_name
  | _ =>
      {| status := "error";
         message := None;
         fileName := "";
         hdus := [];
         warnings := [];
         error := Some "Usage: run_fits_pipeline.py <fits_path> <previews_dir> [file_name]"%string |}
  end.

End WithRuntime.
End Pipeline.

(* ================================================================= *)
(** ** The analyzer over a store of dict objects *)

(** [analyze_hdu] copies its argument with [dict(summary)] and assigns into
    the copy. Here the dicts are objects in a store, a location being a
    position in it; the values inside a dict (the header and the units of a
    summary among them) are never assigned into by any stage and stay
    values. *)
Module Store.

Definition loc : Type := nat.
Definition heap : Type := list pydict.

Definition read (h : heap) (l : loc) : option pydict := nth_error h l.

(** [dict(d)]: a new object holding the items of [d] *)
Definition alloc (h : heap) (d : pydict) : heap * loc :=
  (h ++ [d], List.length h).

(** [obj[k] = v] on the object at [l] *)
Fixpoint setitem (h : heap) (l : loc) (k : string) (v : pyval) : heap :=
  match h, l with
  | [], _ => []
  | d :: r, O => Py.set d k v :: r
  | d :: r, S l' => d :: setitem r l' k v
  end.

Section WithRuntime.
Context (rt : Runtime).

Definition analyze_hdu (file : fits_file) (h : heap) (summary : loc)
    : result (heap * loc) :=
  match read h summary with
  | None => Raise KeyError
  | Some s =>
      let '(h, result) := alloc h s in
      units0 <- Py.to_dict (Py.get s "units" (PDict [])) ;;
      axis_meaning <- Analyzer._axis_meaning (Py.get s "header" (PDict [])) ;;
      let '(classification, column_names, units) :=
        try_except (Analyzer.classify rt file s units0)
          (Analyzer.CLASSIFICATION_UNKNOWN, [], units0) in
      let h := setitem h result "classification" (PStr classification) in
      let h := setitem h result "column_names" (PList (map PStr column_names)) in
      let h := setitem h result "units" units in
      let h := setitem h result "axis_meaning" (PDict axis_meaning) in
      Ok (h, result)
  end.

Definition fallback (h : heap) (s : loc) : heap * loc :=
  match read h s with
  | None => (h, s)
  | Some d =>
      let '(h, fallback) := alloc h d in
      let h := setitem h fallback "classification"
                 (PStr Analyzer.CLASSIFICATION_UNKNOWN) in
      let h := setitem h fallback "column_names" (PList []) in
      let h := setitem h fallback "units"
                 (Py.get (Py.set (Py.set d "classification"
                                    (PStr Analyzer.CLASSIFICATION_UNKNOWN))
                            "column_names" (PList []))
                    "units" (PDict [])) in
      let h := setitem h fallback "axis_meaning" (PDict []) in
      (h, fallback)
  end.

(** One turn of the loop of [analyze]: the store after it and the object
    appended to [out]. *)
Definition analyze_step (file : fits_file) (h : heap) (s : loc) : heap * loc :=
  try_except (analyze_hdu file h s) (fallback h s).

End WithRuntime.
End Store.

(* ================================================================= *)
(** ** Sample files and a sample runtime *)

Module Samples.
Import Builtins.

(** A stand-in for the two range estimators: the least and the greatest
    finite sample; no finite sample raises, like an index into an empty
    array. *)
Definition finite_extremes (a : ndarray) : result (float * float) :=
  lo <- nanmin (filter F64.isfinite (samples a)) ;;
  hi <- nanmax (filter F64.isfinite (samples a)) ;;
  Ok (lo, hi).

Definition runtime : Runtime :=
  {| float_repr := fun _ => "0.0"%string;
     container_repr := fun _ => "[]"%string;
     int_of_str := fun _ => Raise ValueError;
     zscale_get_limits := finite_extremes;
     nanpercentile :=
       fun a q => r <- finite_extremes a ;;
                  Ok (if q <? 50 then fst r else snd r);
     item_as_float :=
       fun d c =>
         match d, c with
         | DataArray a, PInt i =>
             row <- Visualizer.array_row a i ;;
             Ok {| dtype_kind := "f"; shape := tl (shape a); samples := row |}
         | _, _ => Raise IndexError
         end;
     savefig := fun _ _ => Ok tt;
     makedirs := fun _ => None;
     path_join := fun d n => (d ++ "/" ++ n)%string;
     basename := fun p => p;
     uuid8 := "1b9d6bcd" |}.

(** The same runtime over a directory that cannot be created. *)
Definition runtime_readonly : Runtime :=
  {| float_repr := float_repr runtime;
     container_repr := container_repr runtime;
     int_of_str := int_of_str runtime;
     zscale_get_limits := zscale_get_limits runtime;
     nanpercentile := nanpercentile runtime;
     item_as_float := item_as_float runtime;
     savefig := savefig runtime;
     makedirs := fun _ => Some "[Errno 13] Permission denied: '/previews'"%string;
     path_join := path_join runtime;
     basename := basename runtime;
     uuid8 := uuid8 runtime |}.

(** [3.5] *)
Definition f3_5 : float := S754_finite false 7881299347898368 (-51).

Definition image_header (bitpix : Z) (axes : list Z) : header :=
  [("BITPIX", HInt bitpix); ("NAXIS", HInt (Z.of_nat (List.length axes)))]%string
  ++ map (fun p => (("NAXIS" ++ PyStr.of_Z (fst p))%string, HInt (snd p)))
       (combine (range 1 (Z.of_nat (List.length axes) + 1)) axes).

Definition float_image (axes : list Z) (xs : list float) : ndarray :=
  {| dtype_kind := "f"; shape := axes; samples := xs |}.

(** A single unit: a 100 x 100 float image, every sample 3.5. *)
Definition uniform_hdu : HDU :=
  {| hdu_class := "PrimaryHDU";
     hdu_header := Some (("SIMPLE"%string, HBool true) :: image_header (-64) [100; 100]);
     data := DataArray (float_image [100; 100] (repeat f3_5 (Z.to_nat 10000))) |}.

Definition uniform_file : fits_file := Opened [uniform_hdu] true.

(** A 2 x 2 float image with distinct samples. *)
Definition small_image_hdu (class : string) : HDU :=
  {| hdu_class := class;
     hdu_header := Some (image_header (-64) [2; 2]);
     data := DataArray (float_image [2; 2]
               [F64.of_Z 1; F64.of_Z 2; F64.of_Z 3; F64.of_Z 4]) |}.

(** A primary unit without data. *)
Definition empty_primary : HDU :=
  {| hdu_class := "PrimaryHDU";
     hdu_header := Some [("SIMPLE", HBool true); ("BITPIX", HInt 8);
                         ("NAXIS", HInt 0)]%string;
     data := DataNone |}.

Definition table_header (cols : list (string * string * string)) : header :=
  [("XTENSION", HStr "BINTABLE"); ("BITPIX", HInt 8); ("NAXIS", HInt 2);
   ("NAXIS1", HInt 16); ("NAXIS2", HInt 3)]%string
  ++ flat_map
       (fun p =>
          let '(i, (name, form, unit_)) := p in
          [(("TTYPE" ++ PyStr.of_Z i)%string, HStr name);
           (("TFORM" ++ PyStr.of_Z i)%string, HStr form)]
          ++ (if PyStr.is_empty unit_ then []
              else [(("TUNIT" ++ PyStr.of_Z i)%string, HStr unit_)]))
       (combine (range 1 (Z.of_nat (List.length cols) + 1)) cols).

(** A light curve of three rows: TIME in days, FLUX in mJy. *)
Definition light_curve_hdu : HDU :=
  {| hdu_class := "BinTableHDU";
     hdu_header := Some (table_header [("TIME", "D", "d"); ("FLUX", "D", "mJy")]%string);
     data := DataTable
       [ {| col_name := "TIME"; col_format := "D";
            col_floats := Some [F64.of_Z 1; F64.of_Z 2; F64.of_Z 3] |};
         {| col_name := "FLUX"; col_format := "D";
            col_floats := Some [F64.of_Z 7; F64.of_Z 9; F64.of_Z 8] |} ] |}.

Definition table_only_file : fits_file :=
  Opened [empty_primary; light_curve_hdu] true.

Definition light_curve_file : fits_file :=
  Opened [small_image_hdu "PrimaryHDU"; light_curve_hdu] true.

(** Three image units; reading the data of the middle one raises. *)
Definition damaged_hdu : HDU :=
  {| hdu_class := "ImageHDU";
     hdu_header := Some (image_header (-32) [2; 2]);
     data := DataRaises |}.

Definition damaged_file : fits_file :=
  Opened [small_image_hdu "PrimaryHDU"; damaged_hdu; small_image_hdu "ImageHDU"]
    true.

(** A table with the text columns ID and NOTES. *)
Definition id_notes_table (ids notes : option (list float)) : table :=
  [ {| col_name := "ID"; col_format := "8A"; col_floats := ids |};
    {| col_name := "NOTES"; col_format := "20A"; col_floats := notes |} ].

Definition id_notes_hdu (t : table) : HDU :=
  {| hdu_class := "BinTableHDU";
     hdu_header := Some (table_header [("ID", "8A", ""); ("NOTES", "20A", "")]%string);
     data := DataTable t |}.

Definition id_notes_file (t : table) : fits_file :=
  Opened [small_image_hdu "PrimaryHDU"; id_notes_hdu t] true.

(** A primary image followed by a one-dimensional image unit. *)
Definition vector_hdu : HDU :=
  {| hdu_class := "ImageHDU";
     hdu_header := Some (image_header (-64) [3]);
     data := DataArray (float_image [3] [F64.of_Z 1; F64.of_Z 2; F64.of_Z 3]) |}.

Definition vector_file : fits_file :=
  Opened [small_image_hdu "PrimaryHDU"; vector_hdu] true.

(** An image unit whose class field says IMAGE and whose name says ERROR. *)
Definition error_extension_hdu : HDU :=
  {| hdu_class := "ImageHDU";
     hdu_header := Some (image_header (-32) [2; 2]
                         ++ [("HDUCLAS1", HStr "IMAGE"); ("EXTNAME", HStr "ERROR")]%string);
     data := DataArray (float_image [2; 2]
               [F64.of_Z 1; F64.of_Z 2; F64.of_Z 3; F64.of_Z 4]) |}.

Definition error_extension_file : fits_file :=
  Opened [small_image_hdu "PrimaryHDU"; error_extension_hdu] true.

(** A light curve of 50001 rows. *)
Definition long_rows : list float := repeat (F64.of_Z 1) (Z.to_nat 50001).

Definition long_curve_table : table :=
  [ {| col_name := "TIME"; col_format := "D"; col_floats := Some long_rows |};
    {| col_name := "FLUX"; col_format := "D"; col_floats := Some long_rows |} ].

Definition long_curve_file : fits_file :=
  Opened [small_image_hdu "PrimaryHDU";
          {| hdu_class := "BinTableHDU";
             hdu_header := Some (table_header [("TIME", "D", "d"); ("FLUX", "D", "mJy")]%string);
             data := DataTable long_curve_table |}] true.

End Samples.

(* ================================================================= *)
(** ** The vocabulary of the statements *)

Module Spec.
Import Builtins Analyzer Visualizer.

(** The keys [_image_stats] can set. *)
Definition stats_keys : list string :=
  ["nan_fraction"; "min_value"; "max_value"; "is_uniform"]%string.

(** The fixed part of an entry. *)
Definition base_entry (rt : Runtime) (i : Z) (hdu : HDU) : pydict :=
  [ ("hdu_index", PInt i);
    ("hdu_type", PStr (hdu_class hdu));
    ("header", PDict (Parser._clean_header (hdu_header hdu)));
    ("data_shape", PList (map PInt (fst (Parser._data_shape_dtype rt hdu))));
    ("data_dtype", PStr (snd (Parser._data_shape_dtype rt hdu)));
    ("units", PDict (Parser._get_units_from_header rt (hdu_header hdu))) ]%string.

(** The name "after lowercasing and stripping underscores and whitespace",
    in the order of these words. *)
Definition lowered_stripped (s : string) : string :=
  PyStr.delete_chars is_separator (PyStr.lower s).

(** The rows of a column at the given indices. *)
Definition rows_at (x : list float) (idx : list Z) : list float :=
  map (fun i => nth (Z.to_nat i) x F64.nan) idx.

(** The two series of a line or scatter plot. *)
Definition series (p : plot) : list float * list float :=
  match p with
  | LinePlot x y _ _ | ScatterPlot x y _ _ => (x, y)
  | Imshow _ _ _ _ => ([], [])
  end.

(** A column of [N] rows as it is drawn: whole, or at the rows
    [_downsample_indices] selects when [N] exceeds the cap. *)
Definition capped (N : Z) (x : list float) : list float :=
  if MAX_TABLE_ROWS <? N
  then rows_at x (_downsample_indices N MAX_TABLE_ROWS)
  else x.

(** Every column of the table holds [N] rows. *)
Definition table_rows (t : table) (N : Z) : Prop :=
  forall c xs, In c t -> col_floats c = Some xs ->
               Z.of_nat (List.length xs) = N.

(** The keys [analyze_hdu] assigns. *)
Definition assigned_keys : list string :=
  ["classification"; "column_names"; "units"; "axis_meaning"]%string.

(** One turn of the loop of [analyze]. *)
Definition analyze_step (rt : Runtime) (file : fits_file) (s : pydict)
    : pydict :=
  try_except (analyze_hdu rt file s) (fallback s).

(** The two families of unit kinds [classify] tells apart. *)
Definition image_like (hdu_type : string) : bool :=
  PyStr.contains "ImageHDU" hdu_type || PyStr.contains "PrimaryHDU" hdu_type.

(** Table-like: not image-like, and a table kind tag. *)
Definition table_like (hdu_type : string) : bool :=
  negb (image_like hdu_type)
  && (PyStr.contains "BinTableHDU" hdu_type || PyStr.contains "TableHDU" hdu_type).

(** The indices a list of summaries (or of analyses) carries. *)
Definition summary_indices (l : list pydict) : list pyval :=
  map (fun s => Py.get s "hdu_index" PNone) l.

(** The positions, counted from [i], of the units whose data can be read. *)
Fixpoint readable_positions (i : Z) (hdul : list HDU) : list Z :=
  match hdul with
  | [] => []
  | hdu :: rest =>
      match data hdu with
      | DataRaises => readable_positions (i + 1) rest
      | _ => i :: readable_positions (i + 1) rest
      end
  end.

(** Every skipped unit comes after every unit whose summary is built: the
    file reads up to some unit and no further. *)
Definition skipped_last (hdul : list HDU) : Prop :=
  exists good bad,
    hdul = good ++ bad
    /\ Forall (fun hdu => data hdu <> DataRaises) good
    /\ Forall (fun hdu => data hdu = DataRaises) bad.

(** The type, class and name fields [_header_suggests_error_map] reads. *)
Definition marker_keys : list string := ["DATATYPE"; "HDUCLAS1"; "EXTNAME"]%string.

(** A value names an error map: its string form contains "error" or
    "uncertainty", whatever the letter case. *)
Definition names_error (rt : Runtime) (v : pyval) : bool :=
  let s := PyStr.lower (str rt v) in
  PyStr.contains "error" s || PyStr.contains "uncertainty" s.

(** The first of the given header fields that is present and not empty. *)
Fixpoint first_truthy (h : pydict) (keys : list string) : option pyval :=
  match keys with
  | [] => None
  | k :: rest =>
      match Py.lookup h k with
      | Some v => if Py.truthy v then Some v else first_truthy h rest
      | None => first_truthy h rest
      end
  end.

(** The marker as the code reads it: in the first non-empty field. *)
Definition first_field_marker (rt : Runtime) (h : pydict) : bool :=
  match first_truthy h marker_keys with
  | Some v => names_error rt v
  | None => false
  end.

(** The marker read in any of the three fields. *)
Definition any_field_marker (rt : Runtime) (h : pydict) : bool :=
  existsb
    (fun k => match Py.lookup h k with
              | Some v => names_error rt v
              | None => false
              end)
    marker_keys.

(** Floating-point samples: a negative BITPIX. *)
Definition floating (h : pydict) : bool :=
  match Py.lookup h "BITPIX" with
  | Some (PInt b) => b <? 0
  | _ => false
  end.

(** The uniformity flag of the extractor. *)
Definition flagged_uniform (s : pydict) : bool :=
  Py.truthy (Py.get s "is_uniform" (PBool false)).

(** The rule for image-like units, in the words of the specification. *)
Definition image_rule (ndim : Z) (marker float_samples uniform : bool)
    : string :=
  if 2 <=? ndim then
    if marker then "error_map"%string
    else if float_samples && uniform then "low_contrast_image"%string
    else "image"%string
  else if ndim =? 1 then "image"%string
  else "unknown"%string.

(** The table of the scenario: the declared columns ID and NOTES, neither
    of a numeric storage format; [ids] and [notes] are what converting the
    two columns to floats gives. *)
Definition id_notes (fmt1 fmt2 : string) (ids notes : option (list float))
    : table :=
  [ {| col_name := "ID"; col_format := fmt1; col_floats := ids |};
    {| col_name := "NOTES"; col_format := fmt2; col_floats := notes |} ].

(** [mrs] is what [k] one-bit right shifts leave of the mantissa [M]: the
    quotient by [2^k], with the round bit and the sticky bit telling where
    the remainder lies with respect to half of [2^k]. *)
Definition shifted (M k : Z) (mrs : shr_record) : Prop :=
  0 <= shr_m mrs /\
  exists rem,
    M = shr_m mrs * 2 ^ k + rem /\ 0 <= rem < 2 ^ k
    /\ (shr_r mrs = true <-> 2 ^ k <= 2 * rem)
    /\ (shr_s mrs = true <-> rem <> 0 /\ 2 * rem <> 2 ^ k).

(** [z] is [M / 2^n] rounded to the nearest integer, ties to even. *)
Definition rounded (M n z : Z) : Prop :=
  exists m rem,
    M = m * 2 ^ n + rem /\ 0 <= rem < 2 ^ n /\ 0 <= m
    /\ m <= z <= m + 1
    /\ (2 * rem < 2 ^ n -> z = m)
    /\ (2 ^ n < 2 * rem -> z = m + 1).

(** A mantissa before any shift. *)
Definition mrs0 (M : Z) : shr_record :=
  {| shr_m := M; shr_r := false; shr_s := false |}.

(** [r] is a number of sign [sx]. *)
Definition has_sign (sx : bool) (r : spec_float) : Prop :=
  match r with
  | S754_zero s | S754_infinity s | S754_finite s _ _ => s = sx
  | S754_nan => False
  end.

(** The mantissa of [1e-6]. *)
Definition mc : positive := 4722366482869645.

(** [+inf] *)
Definition pinf : float := S754_infinity false.

(** The samples of an array that is uniform at [v]: each one is NaN,
    [+inf] or equal to [v], and [v] occurs. *)
Definition sample_of (v x : float) : bool :=
  F64.isnan x || F64.eqb x pinf || F64.eqb x v.

(** See [sample_of]. *)
Definition uniform_at (v : float) (l : list float) : Prop :=
  Forall (fun x => sample_of v x = true) l
  /\ Exists (fun x => F64.eqb x v = true) l.

(** A string that does not start with a space character. *)
Definition head_ok (s : string) : Prop :=
  match s with
  | String c _ => PyStr.is_space c = false
  | EmptyString => True
  end.

(** The label [str(v).strip()] the unit dicts store for a header value. *)
Definition unit_text (rt : Runtime) (v : hval) : pyval :=
  PStr (PyStr.strip (str_of_hval rt v)).

(** The keywords [_clean_header] drops. *)
Definition dropped_keyword (k : string) : bool :=
  PyStr.mem k ["COMMENT"; "HISTORY"]%string || PyStr.is_empty (PyStr.strip k).

(** What [_clean_header] keeps of the value of a card: the JSON-safe form,
    and nothing of an undefined value. *)
Definition kept_value (v : hval) : option pyval :=
  match v with
  | HNone => None
  | _ => Some (Parser._to_json_safe v)
  end.

(** What [_clean_header] keeps for the keyword [key] of [h]. *)
Definition kept_card (h : header) (key : string) : option pyval :=
  match header_get h key with
  | Some v => kept_value v
  | None => None
  end.

(** The keywords [_get_units_from_header] looks for: BUNIT, then TUNITi and
    CUNITi for [i] from 1 to 99. *)
Definition unit_keys : list string :=
  "BUNIT"%string
  :: flat_map (fun i => [("TUNIT" ++ PyStr.of_Z i)%string;
                         ("CUNIT" ++ PyStr.of_Z i)%string])
       (range 1 100).

(** The length of axis [i] as the header declares it, an absent card
    counting as 0. *)
Definition axis_card (h : header) (i : Z) : Z :=
  match header_get h ("NAXIS" ++ PyStr.of_Z i) with
  | Some (HInt z) => z
  | _ => 0
  end.

(** A card that is absent or holds an int. *)
Definition int_card (h : header) (k : string) : Prop :=
  match header_get h k with
  | Some (HInt _) | None => True
  | Some _ => False
  end.

(** An array the extractor counts as numeric image data. *)
Definition numeric_image (d : ndarray) : bool :=
  PyStr.mem (dtype_kind d) ["f"; "i"; "u"]%string && (2 <=? ndim d).

(** The name of column [i] as the header declares it. *)
Definition column_label (rt : Runtime) (h : header) (i : Z) : string :=
  match header_get h ("TTYPE" ++ PyStr.of_Z i) with
  | Some v => PyStr.strip (str_of_hval rt v)
  | None => EmptyString
  end.

(** A dict spelled as a list of [key, value] pairs, as JSON can carry it. *)
Definition pairs (u : pydict) : pyval :=
  PList (map (fun kv => PList [PStr (fst kv); snd kv]) u).

(** The seven classifications. *)
Definition classifications : list string :=
  [CLASSIFICATION_IMAGE; CLASSIFICATION_ERROR_MAP;
   CLASSIFICATION_LOW_CONTRAST_IMAGE; CLASSIFICATION_SPECTRUM;
   CLASSIFICATION_LIGHT_CURVE; CLASSIFICATION_TABLE; CLASSIFICATION_UNKNOWN].

(** The address of the preview of unit [i] under the file id [fid]. *)
Definition preview_url (fid : string) (i : Z) : string :=
  ("/previews/fits_" ++ fid ++ "_hdu_" ++ PyStr.of_Z i ++ ".png")%string.

(** The classifications with a renderer of their own for tables. *)
Definition table_kinds : list string :=
  [CLASSIFICATION_LIGHT_CURVE; CLASSIFICATION_SPECTRUM; CLASSIFICATION_TABLE].

(** The tests of the loops of [_time_flux_columns] and
    [_wavelength_flux_columns] on a column name. Time-like: *)
Definition time_name (c : string) : bool :=
  PyStr.mem (squeeze c)
    ["time"; "mjd"; "jd"; "date"; "epoch"; "bjd"; "day"]%string.

(** Flux-like for a light curve. *)
Definition flux_name (c : string) : bool :=
  PyStr.mem (squeeze c)
    ["flux"; "count"; "rate"; "counts"; "mag"; "magnitude"; "fluxerr";
     "flux_err"]%string
  || PyStr.contains "flux" (squeeze c) || PyStr.contains "count" (squeeze c).

(** Wavelength-like. *)
Definition wavelength_name (c : string) : bool :=
  PyStr.mem (squeeze c)
    ["wavelength"; "wave"; "wl"; "lam"; "lambda"; "energy"; "freq";
     "frequency"]%string
  || PyStr.contains "wave" (squeeze c) || PyStr.contains "lam" (squeeze c).

(** Flux-like for a spectrum: a shorter vocabulary, and no "count"
    substring. *)
Definition spectrum_flux_name (c : string) : bool :=
  PyStr.mem (squeeze c)
    ["flux"; "count"; "rate"; "counts"; "mag"; "magnitude"]%string
  || PyStr.contains "flux" (squeeze c).

(** [c] is the last name of [l] that passes the test [p]. *)
Definition last_passing (p : string -> bool) (l : list string) (c : string)
    : Prop :=
  exists pre post,
    l = pre ++ c :: post /\ p c = true
    /\ Forall (fun x => p x = false) post.

(** No name of [l] passes the test [p]. *)
Definition none_passing (p : string -> bool) (l : list string) : Prop :=
  Forall (fun x => p x = false) l.

(** A unit whose data can be read. *)
Definition readable (hdu : HDU) : bool :=
  match data hdu with DataRaises => false | _ => true end.

(** The name [run_pipeline] reports for the file. *)
Definition reported_name (rt : Runtime) (fits_path : string)
    (file_name : option string) : string :=
  match file_name with
  | Some f => if PyStr.is_empty f then basename rt fits_path else f
  | None => basename rt fits_path
  end.

End Spec.

(* ================================================================= *)
(** * Properties *)

(** ** Dicts *)

Module PyFacts.
Import Spec.

Lemma lookup_set_same (d : pydict) (k : string) (v : pyval) :
  Py.lookup (Py.set d k v) k = Some v.
Proof.
  induction d as [|[k' v'] d IH]; simpl.
  - now rewrite String.eqb_refl.
  - destruct (String.eqb k k') eqn:E; simpl; rewrite E; auto.
Qed.

Lemma lookup_set_other (d : pydict) (k k' : string) (v : pyval) :
  k <> k' -> Py.lookup (Py.set d k v) k' = Py.lookup d k'.
Proof.
  intros Hne. induction d as [|[k0 v0] d IH]; simpl.
  - destruct (String.eqb k' k) eqn:E; auto.
    apply String.eqb_eq in E. congruence.
  - destruct (String.eqb k k0) eqn:E; simpl.
    + apply String.eqb_eq in E. subst k0.
      destruct (String.eqb k' k) eqn:E'; auto.
      apply String.eqb_eq in E'. congruence.
    + now rewrite IH.
Qed.

Lemma keys_set (d : pydict) (k : string) (v : pyval) (x : string) :
  In x (Py.keys (Py.set d k v)) -> x = k \/ In x (Py.keys d).
Proof.
  unfold Py.keys. induction d as [|[k0 v0] d IH]; simpl.
  - intuition auto.
  - destruct (String.eqb k k0) eqn:E; simpl; intuition auto.
Qed.

Lemma lookup_update_other (e d : pydict) (k : string) :
  ~ In k (Py.keys e) -> Py.lookup (Py.update d e) k = Py.lookup d k.
Proof.
  unfold Py.update, Py.keys. revert d.
  induction e as [|[k0 v0] e IH]; simpl; intros d Hn; auto.
  rewrite IH by tauto. apply lookup_set_other. tauto.
Qed.

Lemma get_set_other (d : pydict) (k k' : string) (v dflt : pyval) :
  k <> k' -> Py.get (Py.set d k v) k' dflt = Py.get d k' dflt.
Proof. intros. unfold Py.get. now rewrite lookup_set_other. Qed.

End PyFacts.

(** ** What the parser puts in an entry *)

Module ParserFacts.
Import Spec.
Import Builtins.

Lemma image_stats_keys (d : ndarray) (k : string) :
  In k (Py.keys (Parser._image_stats d)) -> In k stats_keys.
Proof.
  unfold Parser._image_stats, stats_keys.
  destruct (ndim d <? 1); [simpl; tauto|].
  destruct (size d =? 0); [simpl; tauto|].
  destruct (Z.of_nat _ =? 0); [simpl; tauto|].
  destruct (nanmin _); destruct (nanmax _); simpl; tauto.
Qed.

Lemma summary_entry_cases (rt : Runtime) (i : Z) (hdu : HDU) (s : pydict) :
  Parser.summary_entry rt i hdu = Ok s ->
  data hdu <> DataRaises /\
  (s = base_entry rt i hdu \/
   exists d, data hdu = DataArray d /\
     s = Py.update (Py.set (base_entry rt i hdu) "has_numeric_data" (PBool true))
           (Parser._image_stats d)).
Proof.
  unfold Parser.summary_entry, base_entry.
  destruct (Parser._data_shape_dtype rt hdu) as [sh dt]; simpl.
  destruct (data hdu) as [| |d|t]; try discriminate.
  - intros [= <-]. split; [discriminate|auto].
  - destruct (_ && _); intros [= <-]; (split; [discriminate|]); eauto.
  - intros [= <-]. split; [discriminate|auto].
Qed.

(** A key of the fixed part keeps its value. *)
Lemma summary_entry_base (rt : Runtime) (i : Z) (hdu : HDU) (s : pydict)
    (k : string) :
  Parser.summary_entry rt i hdu = Ok s ->
  k <> "has_numeric_data"%string -> ~ In k stats_keys ->
  Py.lookup s k = Py.lookup (base_entry rt i hdu) k.
Proof.
  intros H Hk Hs. apply summary_entry_cases in H as [_ [->|(d & _ & ->)]]; auto.
  rewrite PyFacts.lookup_update_other.
  - apply PyFacts.lookup_set_other. congruence.
  - intros Hin. apply Hs. eapply image_stats_keys; eauto.
Qed.

Lemma summary_entry_numeric (rt : Runtime) (i : Z) (hdu : HDU) (s : pydict) :
  Parser.summary_entry rt i hdu = Ok s ->
  Py.lookup s "has_numeric_data" = None \/
  Py.lookup s "has_numeric_data" = Some (PBool true).
Proof.
  intros H. apply summary_entry_cases in H as [_ [->|(d & _ & ->)]].
  - left. reflexivity.
  - right. rewrite PyFacts.lookup_update_other.
    + apply PyFacts.lookup_set_same.
    + intros Hin. apply image_stats_keys in Hin. unfold stats_keys in Hin.
      simpl in Hin. intuition discriminate.
Qed.

(** Every summary is the entry of a unit, at that unit's position. *)
Lemma summaries_from_In (rt : Runtime) (hdul : list HDU) (i : Z) (s : pydict) :
  In s (Parser.summaries_from rt i hdul) ->
  exists (j : nat) (hdu : HDU),
    nth_error hdul j = Some hdu /\
    Parser.summary_entry rt (i + Z.of_nat j) hdu = Ok s.
Proof.
  revert i. induction hdul as [|h r IH]; simpl; intros i; [tauto|].
  destruct (Parser.summary_entry rt i h) eqn:E.
  - intros [<-|Hin].
    + exists 0%nat, h. split; auto. now rewrite Z.add_0_r.
    + destruct (IH _ Hin) as (j & hdu & Hn & He).
      exists (S j), hdu. split; auto.
      now replace (i + Z.of_nat (S j)) with (i + 1 + Z.of_nat j) by lia.
  - intros Hin. destruct (IH _ Hin) as (j & hdu & Hn & He).
    exists (S j), hdu. split; auto.
    now replace (i + Z.of_nat (S j)) with (i + 1 + Z.of_nat j) by lia.
Qed.

End ParserFacts.

(** ** The orchestrator *)

Module PipelineFacts.
Import Spec.
Import Pipeline.

Lemma index_In {A} (l : list A) (i : Z) (a : A) :
  Py.index l i = Ok a -> In a l.
Proof.
  unfold Py.index. destruct (_ || _); [discriminate|].
  destruct (nth_error l _) eqn:E; [|discriminate].
  intros [= <-]. eapply nth_error_In; eauto.
Qed.

Lemma assemble_no_previews (analyzed : list pydict)
    (urls : list (option string)) (i : Z) :
  (forall u, In u urls -> u = None) ->
  map previewImage (assemble i analyzed urls)
  = repeat None (List.length analyzed).
Proof.
  intros Hu. revert i. induction analyzed as [|a r IH]; simpl; intros i; auto.
  rewrite IH. f_equal.
  destruct (i <? _); auto.
  destruct (Py.index urls i) eqn:E; simpl; auto.
  apply Hu. eapply index_In; eauto.
Qed.

Lemma assemble_length (analyzed : list pydict) (urls : list (option string))
    (i : Z) :
  List.length (assemble i analyzed urls) = List.length analyzed.
Proof. revert i. induction analyzed; simpl; intros; auto. Qed.

(** C1. When the file opens and yields a non-empty list of summaries none of
    which has [has_numeric_data] set to [True], [run_pipeline] returns the
    status ["error"] with the message "No HDU contains numeric image data."
    and an empty list of units. *)
Theorem no_numeric_data_is_error (rt : Runtime) (fits_path : string)
    (file : fits_file) (previews_dir : string) (file_name : option string)
    (summaries : list pydict) :
  Parser.get_summary rt file = Parser.Summaries summaries ->
  summaries <> [] ->
  (forall s, In s summaries ->
             Py.lookup s "has_numeric_data" <> Some (PBool true)) ->
  let r := run_pipeline rt fits_path file previews_dir file_name in
  status r = "error"%string
  /\ error r = Some "No HDU contains numeric image data."%string
  /\ hdus r = [].
Proof.
  intros Hsum Hne Hnum.
  assert (Hfalse :
    existsb (fun s => Py.truthy (Py.get s "has_numeric_data" PNone)) summaries
    = false).
  { destruct (existsb _ summaries) eqn:E; auto.
    apply existsb_exists in E as (s & Hin & Ht).
    assert (Hs : exists hdul i, In s (Parser.summaries_from rt i hdul)).
    { unfold Parser.get_summary in Hsum.
      destruct file as [msg|hdul ok]; [discriminate|].
      destruct ok; [|discriminate].
      injection Hsum as <-. eauto. }
    destruct Hs as (hdul & i & Hs).
    apply ParserFacts.summaries_from_In in Hs as (j & hdu & _ & He).
    apply ParserFacts.summary_entry_numeric in He as [He|He].
    - unfold Py.get in Ht. rewrite He in Ht. discriminate.
    - elim (Hnum s Hin He). }
  unfold run_pipeline. rewrite Hsum.
  destruct summaries as [|s0 rest]; [congruence|].
  rewrite Hfalse. simpl. auto.
Qed.

Lemma no_numeric_data_is_error_witness :
  let r := run_pipeline Samples.runtime "lc.fits" Samples.table_only_file
             "/previews" None in
  status r = "error"%string
  /\ error r = Some "No HDU contains numeric image data."%string
  /\ hdus r = [].
Proof.
  apply (no_numeric_data_is_error Samples.runtime "lc.fits"
           Samples.table_only_file "/previews" None
           (Parser.summaries_from Samples.runtime 0
              [Samples.empty_primary; Samples.light_curve_hdu])).
  - reflexivity.
  - vm_compute. discriminate.
  - intros s Hin. vm_compute in Hin.
    destruct Hin as [<-|[<-|[]]]; vm_compute; discriminate.
Defined.

(** C4. When the pipeline has reached the rendering step (some summary has
    numeric data, some analysis is plottable) and the step raises with
    message [e] (the output directory cannot be created), [run_pipeline]
    returns the status ["success"] with no error, [e] as the only warning,
    one record per analysed unit, and a null preview in every record. *)
Theorem render_exception_is_warning (rt : Runtime) (fits_path : string)
    (file : fits_file) (previews_dir : string) (file_name : option string)
    (summaries analyzed : list pydict) (e : string) :
  Parser.get_summary rt file = Parser.Summaries summaries ->
  existsb (fun s => Py.truthy (Py.get s "has_numeric_data" PNone)) summaries
  = true ->
  Analyzer.analyze rt file summaries = Ok analyzed ->
  existsb (fun a => Visualizer.is_one_of (Py.get a "classification" PNone)
                      PLOTTABLE) analyzed = true ->
  makedirs rt previews_dir = Some e ->
  let r := run_pipeline rt fits_path file previews_dir file_name in
  status r = "success"%string
  /\ error r = None
  /\ warnings r = [e]
  /\ List.length (hdus r) = List.length summaries
  /\ map previewImage (hdus r) = repeat None (List.length summaries).
Proof.
  intros Hsum Hnum Han Hplot Hmk.
  assert (Hlen : List.length analyzed = List.length summaries).
  { unfold Analyzer.analyze in Han. injection Han as <-. apply length_map. }
  unfold run_pipeline. rewrite Hsum.
  destruct summaries as [|s0 rest]; [discriminate|].
  rewrite Hnum, Han, Hplot, Hmk. simpl negb. cbv iota beta.
  simpl status. simpl error. simpl warnings. simpl hdus.
  rewrite assemble_length, assemble_no_previews, Hlen.
  - auto.
  - intros u Hu. now apply repeat_spec in Hu.
Qed.

Lemma render_exception_is_warning_witness :
  let r := run_pipeline Samples.runtime_readonly "lc.fits"
             Samples.light_curve_file "/previews" None in
  status r = "success"%string
  /\ error r = None
  /\ warnings r = ["[Errno 13] Permission denied: '/previews'"%string]
  /\ List.length (hdus r) = 2%nat
  /\ map previewImage (hdus r) = [None; None].
Proof.
  pose (summaries := Parser.summaries_from Samples.runtime_readonly 0
           [Samples.small_image_hdu "PrimaryHDU"; Samples.light_curve_hdu]).
  apply (render_exception_is_warning Samples.runtime_readonly "lc.fits"
           Samples.light_curve_file "/previews" None summaries
           (map (fun s => try_except
                   (Analyzer.analyze_hdu Samples.runtime_readonly
                      Samples.light_curve_file s)
                   (Analyzer.fallback s)) summaries)).
  - reflexivity.
  - vm_compute. reflexivity.
  - reflexivity.
  - vm_compute. reflexivity.
  - reflexivity.
Defined.

End PipelineFacts.

(** ** Column vocabulary *)

Module VocabularyFacts.
Import Spec.
Import Analyzer.

Ltac by_char c := destruct c as [[] [] [] [] [] [] [] []]; reflexivity.

Lemma separator_lower_char (c : ascii) :
  is_separator (PyStr.lower_char c) = is_separator c.
Proof. by_char c. Qed.

Lemma separator_upper_char (c : ascii) :
  is_separator (PyStr.upper_char c) = is_separator c.
Proof. by_char c. Qed.

Lemma lower_upper_char (c : ascii) :
  PyStr.lower_char (PyStr.upper_char c) = PyStr.lower_char c.
Proof. by_char c. Qed.

Lemma lower_lower_char (c : ascii) :
  PyStr.lower_char (PyStr.lower_char c) = PyStr.lower_char c.
Proof. by_char c. Qed.

Lemma normalize_col_spec (s : string) :
  _normalize_col s = lowered_stripped s.
Proof.
  unfold _normalize_col, lowered_stripped.
  induction s as [|c s IH]; simpl; auto.
  rewrite separator_lower_char.
  destruct (is_separator c); simpl; now rewrite IH.
Qed.

Lemma normalize_col_upper (s : string) :
  _normalize_col (PyStr.upper s) = _normalize_col s.
Proof.
  unfold _normalize_col. induction s as [|c s IH]; simpl; auto.
  rewrite separator_upper_char.
  destruct (is_separator c); simpl; auto.
  now rewrite IH, lower_upper_char.
Qed.

Lemma normalize_col_lower (s : string) :
  _normalize_col (PyStr.lower s) = _normalize_col s.
Proof.
  unfold _normalize_col. induction s as [|c s IH]; simpl; auto.
  rewrite separator_lower_char.
  destruct (is_separator c); simpl; auto.
  now rewrite IH, lower_lower_char.
Qed.

Lemma normalize_col_separator (s1 s2 : string) (c : ascii) :
  is_separator c = true ->
  _normalize_col (s1 ++ String c s2) = _normalize_col (s1 ++ s2).
Proof.
  intros Hc. unfold _normalize_col.
  induction s1 as [|a s1 IH]; simpl.
  - now rewrite Hc.
  - destruct (is_separator a); simpl; auto. now f_equal.
Qed.

Lemma existsb_normalized (f : string -> bool) (cols cols' : list string) :
  map _normalize_col cols = map _normalize_col cols' ->
  existsb (fun c => f (_normalize_col c)) cols
  = existsb (fun c => f (_normalize_col c)) cols'.
Proof.
  revert cols'. induction cols as [|c r IH]; intros [|c' r']; simpl;
    try discriminate; auto.
  intros [= Hc Hr]. rewrite Hc. f_equal. auto.
Qed.

(** C9. Whether a column name matches the time-like, the flux-like or the
    wavelength-like family depends only on the name lowercased and with
    underscores and whitespace removed: names (and lists of names) equal
    after that normalisation match the same families; hence changing
    letter case, or inserting a separator anywhere, changes no match.
    "Flux_Err", "fluxerr" and "FLUX ERR" all match the flux-like family. *)
Theorem column_matching_normalized :
  (forall cols cols' : list string,
      map lowered_stripped cols = map lowered_stripped cols' ->
      _has_time_like cols = _has_time_like cols'
      /\ _has_flux_like cols = _has_flux_like cols'
      /\ _has_wavelength_like cols = _has_wavelength_like cols')
  /\ (forall (s : string) (rest : list string),
         _has_time_like (PyStr.upper s :: rest) = _has_time_like (s :: rest)
         /\ _has_flux_like (PyStr.upper s :: rest) = _has_flux_like (s :: rest)
         /\ _has_wavelength_like (PyStr.upper s :: rest)
            = _has_wavelength_like (s :: rest)
         /\ _has_time_like (PyStr.lower s :: rest) = _has_time_like (s :: rest)
         /\ _has_flux_like (PyStr.lower s :: rest) = _has_flux_like (s :: rest)
         /\ _has_wavelength_like (PyStr.lower s :: rest)
            = _has_wavelength_like (s :: rest))
  /\ (forall (s1 s2 : string) (c : ascii) (rest : list string),
         is_separator c = true ->
         _has_time_like ((s1 ++ String c s2)%string :: rest)
         = _has_time_like ((s1 ++ s2)%string :: rest)
         /\ _has_flux_like ((s1 ++ String c s2)%string :: rest)
            = _has_flux_like ((s1 ++ s2)%string :: rest)
         /\ _has_wavelength_like ((s1 ++ String c s2)%string :: rest)
            = _has_wavelength_like ((s1 ++ s2)%string :: rest))
  /\ _has_flux_like ["Flux_Err"%string] = true
  /\ _has_flux_like ["fluxerr"%string] = true
  /\ _has_flux_like ["FLUX ERR"%string] = true.
Proof.
  assert (Hmain : forall cols cols' : list string,
      map _normalize_col cols = map _normalize_col cols' ->
      _has_time_like cols = _has_time_like cols'
      /\ _has_flux_like cols = _has_flux_like cols'
      /\ _has_wavelength_like cols = _has_wavelength_like cols').
  { intros cols cols' H. unfold _has_time_like, _has_flux_like,
      _has_wavelength_like.
    repeat split.
    - apply (existsb_normalized (fun n => PyStr.mem n time_like)); auto.
    - apply (existsb_normalized
               (fun n => PyStr.mem n flux_like || PyStr.contains "flux" n
                         || PyStr.contains "count" n)); auto.
    - apply (existsb_normalized
               (fun n => PyStr.mem n wl_like || PyStr.contains "wave" n
                         || PyStr.contains "lam" n)); auto. }
  split; [|split; [|split]].
  - intros cols cols' H. apply Hmain.
    rewrite (map_ext _ _ normalize_col_spec cols).
    now rewrite (map_ext _ _ normalize_col_spec cols').
  - intros s rest.
    destruct (Hmain (PyStr.upper s :: rest) (s :: rest)) as (A & B & C).
    { simpl. now rewrite normalize_col_upper. }
    destruct (Hmain (PyStr.lower s :: rest) (s :: rest)) as (D & E & F).
    { simpl. now rewrite normalize_col_lower. }
    tauto.
  - intros s1 s2 c rest Hc. apply Hmain. simpl.
    now rewrite normalize_col_separator.
  - repeat split; reflexivity.
Qed.

(** The copy of the vocabulary in the renderer deletes the underscore and
    the space only, so there a name with another whitespace character is
    not the name without it. *)
Remark renderer_vocabulary_keeps_tab :
  _has_time_like ["TI" ++ String (ascii_of_N 9) "ME"]%string = true
  /\ Visualizer._time_flux_columns
       ["X"; "TI" ++ String (ascii_of_N 9) "ME"; "FLUX"]%string
     = ("X", "FLUX")%string
  /\ Visualizer._time_flux_columns ["X"; "TI ME"; "FLUX"]%string
     = ("TI ME", "FLUX")%string.
Proof. repeat split; reflexivity. Qed.

End VocabularyFacts.

(** ** Downsampling *)

Module DownsampleFacts.
Import Spec.
Import Builtins Visualizer.

Lemma range_length (a b : Z) : List.length (range a b) = Z.to_nat (b - a).
Proof. unfold range. now rewrite length_map, length_seq. Qed.

Lemma range_nil (a b : Z) : b <= a -> range a b = [].
Proof.
  intros H. unfold range. replace (Z.to_nat (b - a)) with 0%nat by lia.
  reflexivity.
Qed.

Lemma range_cons (a b : Z) : a < b -> range a b = a :: range (a + 1) b.
Proof.
  intros H. unfold range.
  replace (Z.to_nat (b - a)) with (S (Z.to_nat (b - (a + 1)))) by lia.
  simpl. rewrite Z.add_0_r. f_equal.
  rewrite <- seq_shift, map_map. apply map_ext. intros i. lia.
Qed.

Lemma range_snoc (a b : Z) : a <= b -> range a (b + 1) = range a b ++ [b].
Proof.
  intros H. unfold range.
  replace (Z.to_nat (b + 1 - a)) with (S (Z.to_nat (b - a))) by lia.
  rewrite seq_S, map_app. simpl. do 2 f_equal. lia.
Qed.

Lemma in_range (a b x : Z) : In x (range a b) <-> a <= x < b.
Proof.
  unfold range. rewrite in_map_iff. split.
  - intros (i & <- & Hi). apply in_seq in Hi. lia.
  - intros H. exists (Z.to_nat (x - a)). split; [lia|].
    apply in_seq. lia.
Qed.

(** A function that grows at every step maps a range to a strictly
    increasing list. *)
Lemma map_range_sorted (f : Z -> Z) (a b : Z) :
  (forall i, a <= i -> i + 1 < b -> f i < f (i + 1)) ->
  StronglySorted Z.lt (map f (range a b)).
Proof.
  intros Hf. apply Sorted_StronglySorted; [exact Z.lt_trans|].
  remember (Z.to_nat (b - a)) as k eqn:Hk. revert a Hk Hf.
  induction k as [|k IH]; intros a Hk Hf.
  - rewrite range_nil by lia. constructor.
  - rewrite range_cons by lia. simpl. constructor.
    + apply IH; [lia|]. intros i Hi Hi'. apply Hf; lia.
    + destruct (Z_lt_dec (a + 1) b) as [Hlt|Hge].
      * rewrite range_cons by lia. simpl. constructor. apply Hf; lia.
      * rewrite range_nil by lia. constructor.
Qed.

Lemma insert_unique_below (x : Z) (l : list Z) :
  Forall (Z.lt x) l -> insert_unique x l = x :: l.
Proof.
  intros H. destruct l as [|y r]; simpl; auto.
  inversion H; subst. now replace (x <? y) with true by lia.
Qed.

(** [np.unique] leaves a strictly increasing array as it is. *)
Lemma unique_sorted (l : list Z) : StronglySorted Z.lt l -> unique l = l.
Proof.
  induction 1 as [|x l Hs IH Hx]; simpl; auto.
  rewrite IH. now apply insert_unique_below.
Qed.

Lemma linspace_step (stop d i : Z) :
  0 < d -> d <= stop -> 0 <= i ->
  i * stop / d < (i + 1) * stop / d.
Proof.
  intros Hd Hs Hi.
  assert (H : i * stop / d + 1 <= (i + 1) * stop / d).
  { rewrite <- (Z.div_add (i * stop) 1 d) by lia.
    apply Z.div_le_mono; lia. }
  lia.
Qed.

Lemma linspace_sorted (stop num : Z) :
  2 <= num -> num - 1 <= stop ->
  StronglySorted Z.lt (linspace_int stop num).
Proof.
  intros Hn Hs. unfold linspace_int. apply map_range_sorted.
  intros i Hi _. apply linspace_step; lia.
Qed.

Lemma linspace_length (stop num : Z) :
  List.length (linspace_int stop num) = Z.to_nat num.
Proof.
  unfold linspace_int. rewrite length_map, range_length. f_equal. lia.
Qed.

Lemma linspace_first (stop num : Z) :
  1 <= num -> hd_error (linspace_int stop num) = Some 0.
Proof.
  intros H. unfold linspace_int. rewrite range_cons by lia. reflexivity.
Qed.

Lemma linspace_last (stop num dflt : Z) :
  2 <= num -> last (linspace_int stop num) dflt = stop.
Proof.
  intros H. unfold linspace_int.
  assert (E : range 0 num = range 0 (num - 1) ++ [num - 1]).
  { rewrite <- range_snoc by lia. f_equal. lia. }
  rewrite E, map_app. simpl. rewrite last_last.
  symmetry. apply Z.div_unique_exact; lia.
Qed.

Lemma linspace_bounds (stop num x : Z) :
  2 <= num -> 0 <= stop -> In x (linspace_int stop num) -> 0 <= x <= stop.
Proof.
  intros Hn Hs Hin. unfold linspace_int in Hin.
  apply in_map_iff in Hin as (i & <- & Hi). apply in_range in Hi.
  split.
  - apply Z.div_pos; nia.
  - apply Z.div_le_upper_bound; nia.
Qed.

(** The indices [_downsample_indices] selects. *)
Lemma downsample_indices_small (n max_n : Z) :
  n <= max_n -> _downsample_indices n max_n = range 0 n.
Proof.
  intros H. unfold _downsample_indices.
  now replace (n <=? max_n) with true by lia.
Qed.

Lemma downsample_indices_large (n max_n : Z) :
  2 <= max_n -> max_n < n ->
  _downsample_indices n max_n = linspace_int (n - 1) max_n.
Proof.
  intros Hm H. unfold _downsample_indices.
  replace (n <=? max_n) with false by lia.
  apply unique_sorted, linspace_sorted; lia.
Qed.

Lemma index_inside {A} (l : list A) (i : Z) (d : A) :
  0 <= i < Z.of_nat (List.length l) ->
  Py.index l i = Ok (nth (Z.to_nat i) l d).
Proof.
  intros H. unfold Py.index.
  replace (i <? 0) with false by lia.
  replace ((i <? 0) || (Z.of_nat (List.length l) <=? i)) with false by lia.
  rewrite (nth_error_nth' l d) by lia. reflexivity.
Qed.

Lemma take_inside (x : list float) (idx : list Z) :
  (forall i, In i idx -> 0 <= i < Z.of_nat (List.length x)) ->
  take x idx = Ok (rows_at x idx).
Proof.
  unfold take, rows_at. induction idx as [|i r IH]; simpl; intros H; auto.
  rewrite (index_inside x i F64.nan) by auto. simpl.
  rewrite IH by auto. reflexivity.
Qed.

Lemma capped_length (N : Z) (x : list float) :
  Z.of_nat (List.length x) = N ->
  Z.of_nat (List.length (capped N x)) = Z.min N MAX_TABLE_ROWS.
Proof.
  intros H. unfold capped. destruct (MAX_TABLE_ROWS <? N) eqn:E.
  - unfold rows_at. rewrite length_map.
    rewrite downsample_indices_large by (unfold MAX_TABLE_ROWS in *; lia).
    rewrite linspace_length. unfold MAX_TABLE_ROWS in *. lia.
  - unfold MAX_TABLE_ROWS in *. lia.
Qed.

Lemma cap_rows_spec (N : Z) (x y : list float) :
  Z.of_nat (List.length x) = N -> Z.of_nat (List.length y) = N ->
  cap_rows x y = Ok (capped N x, capped N y).
Proof.
  intros Hx Hy. unfold cap_rows, capped. rewrite Hx.
  destruct (MAX_TABLE_ROWS <? N) eqn:E; auto.
  assert (Hin : forall i, In i (_downsample_indices N MAX_TABLE_ROWS) ->
                          0 <= i < N).
  { intros i Hi.
    rewrite downsample_indices_large in Hi by (unfold MAX_TABLE_ROWS in *; lia).
    apply linspace_bounds in Hi; unfold MAX_TABLE_ROWS in *; lia. }
  rewrite !take_inside by (intros; rewrite ?Hx, ?Hy; auto).
  reflexivity.
Qed.

Lemma find_column_In (t : table) (name : string) (c : column) :
  find_column t name = Some c -> In c t.
Proof.
  induction t as [|a r IH]; simpl; [discriminate|].
  destruct (String.eqb name (col_name a)); [intros [= <-]|]; auto.
Qed.

Lemma field_rows (t : table) (N : Z) (name : string) (xs : list float) :
  table_rows t N -> field_as_float (DataTable t) name = Ok xs ->
  Z.of_nat (List.length xs) = N.
Proof.
  intros Ht. simpl. destruct (find_column t name) as [c|] eqn:E; [|discriminate].
  destruct (col_floats c) as [ys|] eqn:Ec; [|discriminate].
  intros [= <-]. eapply Ht; eauto. eapply find_column_In; eauto.
Qed.

Lemma line_plot_capped (t : table) (N : Z) (xc yc : string)
    (xs ys : list float) :
  table_rows t N ->
  xc <> ""%string -> yc <> ""%string ->
  field_as_float (DataTable t) xc = Ok xs ->
  field_as_float (DataTable t) yc = Ok ys ->
  line_plot (DataTable t) (xc, yc)
  = Ok (Some (LinePlot (capped N xs) (capped N ys) xc yc)).
Proof.
  intros Ht Hx Hy Hfx Hfy. unfold line_plot.
  destruct xc; [congruence|]. destruct yc; [congruence|].
  cbn [PyStr.is_empty orb]. rewrite Hfx, Hfy. cbn [bind].
  rewrite (cap_rows_spec N) by (eapply field_rows; eauto). reflexivity.
Qed.

Lemma arange_length (n : Z) : List.length (arange n) = Z.to_nat n.
Proof. unfold arange. rewrite length_map, range_length. f_equal. lia. Qed.

(** C3. For a unit read as a table of [N] rows whose plot columns resolve,
    the light-curve, the spectrum and the scatter renderer each draw the
    two chosen columns capped to the rows of [_downsample_indices], a
    series of [min(N, 50000)] points; and when [N > 50000] these are 50000
    strictly increasing indices, the first one 0 and the last one [N - 1]. *)
Theorem table_series_capped (file : fits_file) (hdu_index : pyval)
    (t : table) (N : Z) (col_names : list string) :
  unit_data file hdu_index = Ok (Some (DataTable t)) ->
  table_rows t N ->
  (forall xs ys,
      fst (_time_flux_columns col_names) <> ""%string ->
      snd (_time_flux_columns col_names) <> ""%string ->
      field_as_float (DataTable t) (fst (_time_flux_columns col_names)) = Ok xs ->
      field_as_float (DataTable t) (snd (_time_flux_columns col_names)) = Ok ys ->
      exists p,
        light_curve_plot file hdu_index col_names = Ok (Some p)
        /\ series p = (capped N xs, capped N ys)
        /\ Z.of_nat (List.length (fst (series p))) = Z.min N 50000
        /\ Z.of_nat (List.length (snd (series p))) = Z.min N 50000)
  /\ (forall xs ys,
      fst (_wavelength_flux_columns col_names) <> ""%string ->
      snd (_wavelength_flux_columns col_names) <> ""%string ->
      field_as_float (DataTable t) (fst (_wavelength_flux_columns col_names))
      = Ok xs ->
      field_as_float (DataTable t) (snd (_wavelength_flux_columns col_names))
      = Ok ys ->
      exists p,
        spectrum_plot file hdu_index col_names = Ok (Some p)
        /\ series p = (capped N xs, capped N ys)
        /\ Z.of_nat (List.length (fst (series p))) = Z.min N 50000
        /\ Z.of_nat (List.length (snd (series p))) = Z.min N 50000)
  /\ (forall xs ys,
      let c1 := fst (_first_numeric_columns (DataTable t) col_names) in
      let c2 := snd (_first_numeric_columns (DataTable t) col_names) in
      c1 <> ""%string ->
      field_as_float (DataTable t) c1 = Ok xs ->
      (if PyStr.is_empty c2 then Ok (arange N) else field_as_float (DataTable t) c2)
      = Ok ys ->
      exists p,
        table_scatter_plot file hdu_index col_names = Ok (Some p)
        /\ series p = (capped N xs, capped N ys)
        /\ Z.of_nat (List.length (fst (series p))) = Z.min N 50000
        /\ Z.of_nat (List.length (snd (series p))) = Z.min N 50000)
  /\ (50000 < N ->
      let idx := _downsample_indices N MAX_TABLE_ROWS in
      Z.of_nat (List.length idx) = 50000
      /\ StronglySorted Z.lt idx
      /\ hd_error idx = Some 0
      /\ last idx 0 = N - 1).
Proof.
  intros Hd Ht. split; [|split; [|split]].
  - intros xs ys Hx Hy Hfx Hfy. unfold light_curve_plot. rewrite Hd. cbn [bind]. cbv beta iota.
    destruct (_time_flux_columns col_names) as [xc yc]. cbn [fst snd] in *.
    rewrite (line_plot_capped t N xc yc xs ys) by auto.
    eexists. split; [reflexivity|]. cbn [series fst snd].
    split; [reflexivity|].
    split; apply capped_length; eapply field_rows; eauto.
  - intros xs ys Hx Hy Hfx Hfy. unfold spectrum_plot. rewrite Hd. cbn [bind]. cbv beta iota.
    destruct (_wavelength_flux_columns col_names) as [xc yc]. cbn [fst snd] in *.
    rewrite (line_plot_capped t N xc yc xs ys) by auto.
    eexists. split; [reflexivity|]. cbn [series fst snd].
    split; [reflexivity|].
    split; apply capped_length; eapply field_rows; eauto.
  - intros xs ys c1 c2 H1 Hfx Hfy. unfold table_scatter_plot.
    rewrite Hd. cbn [bind]. cbv beta iota. subst c1 c2.
    destruct (_first_numeric_columns (DataTable t) col_names) as [c1 c2].
    cbn [fst snd] in *.
    assert (Hxs : Z.of_nat (List.length xs) = N) by (eapply field_rows; eauto).
    assert (Hys : Z.of_nat (List.length ys) = N).
    { destruct (PyStr.is_empty c2).
      - injection Hfy as <-. rewrite arange_length.
        pose proof (Nat2Z.is_nonneg (List.length xs)). lia.
      - eapply field_rows; eauto. }
    destruct c1 as [|a c1]; [congruence|]. cbn [PyStr.is_empty].
    rewrite Hfx. cbn [bind].
    assert (Hy' : (if negb (PyStr.is_empty c2)
                   then field_as_float (DataTable t) c2
                   else Ok (arange (Z.of_nat (List.length xs)))) = Ok ys).
    { rewrite Hxs. destruct (PyStr.is_empty c2); auto. }
    rewrite Hy'. cbn [bind].
    rewrite (cap_rows_spec N) by auto. cbn [bind fst snd].
    eexists. split; [reflexivity|]. cbn [series fst snd].
    split; [reflexivity|]. split; apply capped_length; auto.
  - intros HN idx. subst idx. unfold MAX_TABLE_ROWS.
    rewrite downsample_indices_large by lia.
    rewrite linspace_length.
    split; [lia|]. split; [apply linspace_sorted; lia|].
    split; [apply linspace_first; lia|apply linspace_last; lia].
Qed.

Lemma table_series_capped_witness :
  (exists p,
      light_curve_plot Samples.long_curve_file (PInt 1) ["TIME"; "FLUX"]%string
      = Ok (Some p)
      /\ Z.of_nat (List.length (fst (series p))) = 50000
      /\ Z.of_nat (List.length (snd (series p))) = 50000)
  /\ (let idx := _downsample_indices 50001 MAX_TABLE_ROWS in
      Z.of_nat (List.length idx) = 50000
      /\ StronglySorted Z.lt idx
      /\ hd_error idx = Some 0
      /\ last idx 0 = 50000).
Proof.
  assert (Hrows : table_rows Samples.long_curve_table 50001).
  { intros c xs [<-|[<-|[]]] [= <-]; unfold Samples.long_rows;
      rewrite repeat_length; apply Z2Nat.id; lia. }
  destruct (table_series_capped Samples.long_curve_file (PInt 1)
              Samples.long_curve_table 50001 ["TIME"; "FLUX"]%string
              eq_refl Hrows) as (Hlc & _ & _ & Hidx).
  split.
  - assert (Hc : _time_flux_columns ["TIME"; "FLUX"]%string
                 = ("TIME", "FLUX")%string) by reflexivity.
    rewrite Hc in Hlc. cbn [fst snd] in Hlc.
    assert (Ht : "TIME"%string <> ""%string) by discriminate.
    assert (Hf : "FLUX"%string <> ""%string) by discriminate.
    destruct (Hlc Samples.long_rows Samples.long_rows Ht Hf eq_refl eq_refl)
      as (p & Hp & _ & Hx & Hy).
    exists p. auto.
  - apply Hidx. lia.
Defined.

End DownsampleFacts.

(** ** The analyzer *)

Module AnalyzerFacts.
Import Spec.
Import Builtins Analyzer.

Ltac other_key H :=
  let E := fresh in
  intros E; apply H; rewrite <- E; unfold assigned_keys; simpl; tauto.

Lemma assigned_lookup (d : pydict) (c n u a : pyval) (k : string) :
  ~ In k assigned_keys ->
  Py.lookup
    (Py.set (Py.set (Py.set (Py.set d "classification" c) "column_names" n)
               "units" u) "axis_meaning" a) k
  = Py.lookup d k.
Proof.
  intros H.
  rewrite !PyFacts.lookup_set_other; auto; other_key H.
Qed.

Lemma assigned_units (d : pydict) (c n u a : pyval) :
  Py.lookup
    (Py.set (Py.set (Py.set (Py.set d "classification" c) "column_names" n)
               "units" u) "axis_meaning" a) "units"
  = Some u.
Proof.
  rewrite PyFacts.lookup_set_other by discriminate.
  apply PyFacts.lookup_set_same.
Qed.

Lemma assigned_classification (d : pydict) (c n u a : pyval) :
  Py.lookup
    (Py.set (Py.set (Py.set (Py.set d "classification" c) "column_names" n)
               "units" u) "axis_meaning" a) "classification"
  = Some c.
Proof.
  rewrite !PyFacts.lookup_set_other by discriminate.
  apply PyFacts.lookup_set_same.
Qed.

(** The shape of what [analyze_hdu] returns. *)
Lemma analyze_hdu_inv (rt : Runtime) (file : fits_file) (s a : pydict) :
  analyze_hdu rt file s = Ok a ->
  exists units0 axis c cols u,
    Py.to_dict (Py.get s "units" (PDict [])) = Ok units0
    /\ _axis_meaning (Py.get s "header" (PDict [])) = Ok axis
    /\ try_except (classify rt file s units0) (CLASSIFICATION_UNKNOWN, [], units0)
       = (c, cols, u)
    /\ a = Py.set (Py.set (Py.set (Py.set s "classification" (PStr c))
                             "column_names" (PList (map PStr cols)))
                     "units" u)
             "axis_meaning" (PDict axis).
Proof.
  unfold analyze_hdu.
  destruct (Py.to_dict _) as [units0|]; [|discriminate]. cbn [bind].
  destruct (_axis_meaning _) as [axis|]; [|discriminate]. cbn [bind].
  destruct (try_except _ _) as [[c cols] u] eqn:E.
  intros [= <-]. exists units0, axis, c, cols, u. auto.
Qed.

Lemma analyze_step_lookup (rt : Runtime) (file : fits_file) (s : pydict)
    (k : string) :
  ~ In k assigned_keys ->
  Py.lookup (analyze_step rt file s) k = Py.lookup s k.
Proof.
  intros H. unfold analyze_step.
  destruct (analyze_hdu rt file s) as [a|e] eqn:E; cbn [try_except].
  - apply analyze_hdu_inv in E as (u0 & ax & c & cols & u & _ & _ & _ & ->).
    now apply assigned_lookup.
  - unfold fallback. now apply assigned_lookup.
Qed.

Lemma analyze_map (rt : Runtime) (file : fits_file) (summaries : list pydict) :
  analyze rt file summaries = Ok (map (analyze_step rt file) summaries).
Proof. reflexivity. Qed.

(** The units [classify] leaves for a unit that is not table-like are the
    ones it was given. *)
Lemma classify_units (rt : Runtime) (file : fits_file) (s : pydict)
    (units0 : pyval) (t c : string) (cols : list string) (u : pyval) :
  Py.lookup s "hdu_type" = Some (PStr t) ->
  table_like t = false ->
  try_except (classify rt file s units0) (CLASSIFICATION_UNKNOWN, [], units0)
  = (c, cols, u) ->
  u = units0.
Proof.
  intros Ht Htl. unfold classify, Py.get. rewrite Ht.
  unfold table_like, image_like in Htl. cbn [Py.str_in bind].
  destruct (PyStr.contains "ImageHDU" t) eqn:E1; cbn [bind].
  - destruct (Py.len _) as [n|]; cbn [bind try_except]; [|congruence].
    destruct (if 2 <=? n then _ else _) as [x|]; cbn [bind try_except]; congruence.
  - destruct (PyStr.contains "PrimaryHDU" t) eqn:E2; cbn [bind].
    + destruct (Py.len _) as [n|]; cbn [bind try_except]; [|congruence].
      destruct (if 2 <=? n then _ else _) as [x|]; cbn [bind try_except]; congruence.
    + cbn [orb negb andb] in Htl.
      apply orb_false_iff in Htl as [-> ->]. cbn [bind try_except]. congruence.
Qed.

(** *** The store *)

Lemma read_alloc_new (h : Store.heap) (d : pydict) :
  Store.read (h ++ [d]) (List.length h) = Some d.
Proof.
  unfold Store.read. rewrite nth_error_app2 by lia.
  now rewrite Nat.sub_diag.
Qed.

Lemma read_alloc_old (h : Store.heap) (d : pydict) (l : Store.loc) :
  (l < List.length h)%nat -> Store.read (h ++ [d]) l = Store.read h l.
Proof. intros H. unfold Store.read. now apply nth_error_app1. Qed.

Lemma read_setitem_same (h : Store.heap) (l : Store.loc) (k : string)
    (v : pyval) :
  Store.read (Store.setitem h l k v) l
  = option_map (fun d => Py.set d k v) (Store.read h l).
Proof.
  unfold Store.read. revert l. induction h as [|d r IH]; intros [|l]; simpl; auto.
Qed.

Lemma read_setitem_other (h : Store.heap) (l l' : Store.loc) (k : string)
    (v : pyval) :
  l <> l' -> Store.read (Store.setitem h l k v) l' = Store.read h l'.
Proof.
  unfold Store.read. revert l l'.
  induction h as [|d r IH]; intros [|l] [|l'] H; simpl; auto; congruence.
Qed.

(** Four assignments into the object at [r]. *)
Lemma read_assigned (h : Store.heap) (r : Store.loc) (d : pydict)
    (c n u a : pyval) :
  Store.read h r = Some d ->
  let h' := Store.setitem
              (Store.setitem
                 (Store.setitem (Store.setitem h r "classification" c)
                    r "column_names" n) r "units" u) r "axis_meaning" a in
  Store.read h' r
  = Some (Py.set (Py.set (Py.set (Py.set d "classification" c) "column_names" n)
                    "units" u) "axis_meaning" a)
  /\ forall l, l <> r -> Store.read h' l = Store.read h l.
Proof.
  intros H h'. subst h'. split.
  - rewrite !read_setitem_same, H. reflexivity.
  - intros l Hl. rewrite !read_setitem_other by congruence. reflexivity.
Qed.

Lemma store_analyze_step (rt : Runtime) (file : fits_file) (h : Store.heap)
    (l : Store.loc) (s : pydict) :
  Store.read h l = Some s ->
  let hr := Store.analyze_step rt file h l in
  snd hr <> l
  /\ (forall l', (l' < List.length h)%nat ->
                 Store.read (fst hr) l' = Store.read h l')
  /\ Store.read (fst hr) (snd hr) = Some (analyze_step rt file s).
Proof.
  intros Hs hr. subst hr.
  assert (Hl : (l < List.length h)%nat).
  { apply nth_error_Some. unfold Store.read in Hs. congruence. }
  unfold Store.analyze_step, Store.analyze_hdu, Store.fallback, analyze_step,
    analyze_hdu, fallback.
  rewrite Hs. unfold Store.alloc.
  pose proof (read_alloc_new h s) as Hnew.
  destruct (Py.to_dict _) as [units0|]; cbn [bind try_except].
  - destruct (_axis_meaning _) as [axis|]; cbn [bind try_except].
    + destruct (try_except (classify rt file s units0) _) as [[c cols] u].
      cbn [try_except fst snd].
      destruct (read_assigned (h ++ [s]) (List.length h) s (PStr c)
                  (PList (map PStr cols)) u (PDict axis) Hnew)
        as [Hr Ho].
      split; [lia|]. split; auto.
      intros l' Hl'. rewrite Ho by lia. now apply read_alloc_old.
    + cbn [fst snd].
      edestruct (read_assigned (h ++ [s]) (List.length h) s) as [Hr Ho];
        [exact Hnew|].
      split; [lia|]. split; [|apply Hr].
      intros l' Hl'. rewrite Ho by lia. now apply read_alloc_old.
  - cbn [fst snd].
    edestruct (read_assigned (h ++ [s]) (List.length h) s) as [Hr Ho];
      [exact Hnew|].
    split; [lia|]. split; [|apply Hr].
    intros l' Hl'. rewrite Ho by lia. now apply read_alloc_old.
Qed.

(** C7, as the code has it. In the analysis of a summary, every key other
    than the four the analyzer assigns ([classification], [column_names],
    [units], [axis_meaning]) has the value it has in the summary, which
    covers every key of the extractor but [units]; [units] keeps its value
    too unless the unit is table-like; and the analysis is a new object:
    no object of the store before the call, the summary among them, is
    changed. *)
Theorem analysis_keeps_extractor_fields (rt : Runtime) (file : fits_file)
    (s : pydict) :
  (forall k, ~ In k assigned_keys ->
             Py.lookup (analyze_step rt file s) k = Py.lookup s k)
  /\ (forall t u,
         Py.lookup s "hdu_type" = Some (PStr t) ->
         table_like t = false ->
         Py.lookup s "units" = Some (PDict u) ->
         Py.lookup (analyze_step rt file s) "units" = Some (PDict u))
  /\ (forall h l,
         Store.read h l = Some s ->
         let hr := Store.analyze_step rt file h l in
         snd hr <> l
         /\ (forall l', (l' < List.length h)%nat ->
                        Store.read (fst hr) l' = Store.read h l')
         /\ Store.read (fst hr) (snd hr) = Some (analyze_step rt file s)).
Proof.
  split; [|split].
  - intros k Hk. now apply analyze_step_lookup.
  - intros t u Ht Htl Hu. unfold analyze_step.
    destruct (analyze_hdu rt file s) as [a|e] eqn:E; cbn [try_except].
    + apply analyze_hdu_inv in E as (u0 & ax & c & cols & u' & H0 & _ & Hc & ->).
      unfold Py.get in H0. rewrite Hu in H0. injection H0 as <-.
      apply (classify_units rt file s (PDict u) t) in Hc; auto. subst u'.
      apply assigned_units.
    + unfold fallback. rewrite assigned_units. f_equal.
      rewrite !PyFacts.get_set_other by discriminate.
      unfold Py.get. now rewrite Hu.
  - intros h l Hs. now apply store_analyze_step.
Qed.

Lemma analysis_keeps_extractor_fields_witness :
  let s := [("hdu_index", PInt 0); ("hdu_type", PStr "PrimaryHDU");
            ("header", PDict [("BITPIX", PInt (-64))]);
            ("data_shape", PList [PInt 2; PInt 2]);
            ("units", PDict [("BUNIT", PStr "Jy")])]%string in
  let a := analyze_step Samples.runtime Samples.uniform_file s in
  Py.lookup a "header" = Py.lookup s "header"
  /\ Py.lookup a "units" = Some (PDict [("BUNIT", PStr "Jy")]%string)
  /\ Store.read (fst (Store.analyze_step Samples.runtime Samples.uniform_file
                        [s] 0%nat)) 0%nat = Some s.
Proof.
  intros s a.
  destruct (analysis_keeps_extractor_fields Samples.runtime
              Samples.uniform_file s) as (Hk & Hu & Hst).
  split; [|split].
  - apply Hk. unfold assigned_keys. simpl. intuition discriminate.
  - apply (Hu "PrimaryHDU"%string); reflexivity.
  - destruct (Hst [s] 0%nat eq_refl) as (_ & Hold & _).
    apply Hold. simpl. lia.
Defined.

(** The analysis of the table unit of the light-curve file: the extractor
    keyed its units by header keyword, the analyzer re-keys them by column
    name. *)
Lemma extractor_units_counterexample :
  exists s,
    In s (Parser.summaries_from Samples.runtime 0
            [Samples.small_image_hdu "PrimaryHDU"; Samples.light_curve_hdu])
    /\ Py.lookup s "units"
       = Some (PDict [("TUNIT1", PStr "d"); ("TUNIT2", PStr "mJy")]%string)
    /\ Py.lookup (analyze_step Samples.runtime Samples.light_curve_file s) "units"
       = Some (PDict [("TIME", PStr "d"); ("FLUX", PStr "mJy")]%string)
    /\ ~ (forall k v,
            Py.lookup s k = Some v ->
            Py.lookup (analyze_step Samples.runtime Samples.light_curve_file s) k
            = Some v).
Proof.
  eexists. split; [right; left; reflexivity|].
  split; [reflexivity|]. split; [reflexivity|].
  intros H. specialize (H "units"%string _ eq_refl). discriminate H.
Qed.

End AnalyzerFacts.

(** ** Unit indices *)

Module OrderFacts.
Import Spec.
Import Builtins Pipeline.

Lemma summary_entry_index (rt : Runtime) (i : Z) (hdu : HDU) (s : pydict) :
  Parser.summary_entry rt i hdu = Ok s ->
  Py.lookup s "hdu_index" = Some (PInt i).
Proof.
  intros H.
  rewrite (ParserFacts.summary_entry_base rt i hdu s "hdu_index" H).
  - reflexivity.
  - discriminate.
  - unfold Spec.stats_keys. simpl. intuition discriminate.
Qed.

Lemma summary_entry_raises (rt : Runtime) (i : Z) (hdu : HDU) :
  data hdu = DataRaises <-> exists e, Parser.summary_entry rt i hdu = Raise e.
Proof.
  split.
  - intros H. unfold Parser.summary_entry.
    destruct (Parser._data_shape_dtype rt hdu). rewrite H. eauto.
  - intros [e H]. unfold Parser.summary_entry in H.
    destruct (Parser._data_shape_dtype rt hdu).
    destruct (data hdu); auto; try discriminate.
    destruct (_ && _); discriminate.
Qed.

Lemma summaries_indices (rt : Runtime) (hdul : list HDU) (i : Z) :
  summary_indices (Parser.summaries_from rt i hdul)
  = map PInt (readable_positions i hdul).
Proof.
  revert i. induction hdul as [|hdu rest IH]; intros i; simpl; auto.
  destruct (Parser.summary_entry rt i hdu) as [s|e] eqn:E.
  - pose proof (ParserFacts.summary_entry_cases rt i hdu s E) as [Hd _].
    apply summary_entry_index in E.
    destruct (data hdu); try congruence; simpl; rewrite IH;
      unfold Py.get; now rewrite E.
  - assert (Hd : data hdu = DataRaises)
      by (apply (summary_entry_raises rt i hdu); eauto).
    rewrite Hd. apply IH.
Qed.

Lemma readable_bounds (hdul : list HDU) (i z : Z) :
  In z (readable_positions i hdul) ->
  i <= z < i + Z.of_nat (List.length hdul).
Proof.
  revert i. induction hdul as [|hdu rest IH]; intros i; simpl; [tauto|].
  destruct (data hdu); simpl; intros H;
    repeat match goal with
           | H : _ \/ _ |- _ => destruct H
           | H : In _ (readable_positions _ _) |- _ => apply IH in H
           end; lia.
Qed.

Lemma readable_sorted (hdul : list HDU) (i : Z) :
  StronglySorted Z.lt (readable_positions i hdul).
Proof.
  revert i. induction hdul as [|hdu rest IH]; intros i; simpl.
  - constructor.
  - assert (Hlt : Forall (Z.lt i) (readable_positions (i + 1) rest)).
    { apply Forall_forall. intros z Hz. apply readable_bounds in Hz. lia. }
    destruct (data hdu); auto; constructor; auto.
Qed.

Lemma readable_all (hdul : list HDU) (i : Z) :
  (forall hdu, In hdu hdul -> data hdu <> DataRaises) ->
  readable_positions i hdul = range i (i + Z.of_nat (List.length hdul)).
Proof.
  revert i. induction hdul as [|hdu rest IH]; intros i H.
  - simpl. rewrite DownsampleFacts.range_nil by lia. reflexivity.
  - rewrite DownsampleFacts.range_cons by (simpl List.length; lia).
    assert (Hd : data hdu <> DataRaises) by (apply H; now left).
    assert (Hr : readable_positions (i + 1) rest
                 = range (i + 1) (i + Z.of_nat (List.length (hdu :: rest)))).
    { rewrite IH by (intros; apply H; now right).
      f_equal. simpl List.length. lia. }
    simpl readable_positions. rewrite Hr.
    destruct (data hdu); congruence.
Qed.

Lemma readable_none (hdul : list HDU) (i : Z) :
  readable_positions i hdul = [] <->
  Forall (fun hdu => data hdu = DataRaises) hdul.
Proof.
  revert i. induction hdul as [|hdu rest IH]; intros i; simpl.
  - split; auto.
  - destruct (data hdu) eqn:E; split; intros H;
      try discriminate H;
      try (inversion H; subst; congruence).
    + constructor; auto. now apply (IH (i + 1)).
    + inversion H; subst. now apply IH.
Qed.

Lemma readable_app (a b : list HDU) (i : Z) :
  readable_positions i (a ++ b)
  = readable_positions i a
    ++ readable_positions (i + Z.of_nat (List.length a)) b.
Proof.
  revert i. induction a as [|hdu a IH]; intros i.
  - simpl. f_equal. lia.
  - cbn [app readable_positions List.length].
    rewrite IH.
    replace (i + 1 + Z.of_nat (List.length a))
      with (i + Z.of_nat (S (List.length a))) by lia.
    destruct (data hdu); reflexivity.
Qed.

Lemma readable_cons (hdu : HDU) (rest : list HDU) (i : Z) :
  data hdu <> DataRaises ->
  readable_positions i (hdu :: rest) = i :: readable_positions (i + 1) rest.
Proof. simpl. destruct (data hdu); congruence. Qed.

(** Positions without a gap leave the skipped units at the end. *)
Lemma dense_split (hdul : list HDU) (i : Z) :
  readable_positions i hdul
  = range i (i + Z.of_nat (List.length (readable_positions i hdul))) ->
  skipped_last hdul.
Proof.
  revert i. induction hdul as [|hdu rest IH]; intros i H.
  - exists [], []. repeat split; constructor.
  - assert (Hd : {data hdu = DataRaises} + {data hdu <> DataRaises})
      by (destruct (data hdu); (now left) || (right; discriminate)).
    destruct Hd as [E|E].
    + (* skipped: nothing after it is read *)
      simpl in H. rewrite E in H.
      destruct (readable_positions (i + 1) rest) as [|z l] eqn:Er.
      * exists [], (hdu :: rest). repeat split; [constructor|].
        constructor; auto. now apply (readable_none rest (i + 1)).
      * exfalso.
        assert (Hz : In z (readable_positions (i + 1) rest))
          by (rewrite Er; now left).
        apply readable_bounds in Hz.
        rewrite DownsampleFacts.range_cons in H by (simpl List.length; lia).
        injection H as H _. lia.
    + rewrite (readable_cons hdu rest i E) in H.
      rewrite DownsampleFacts.range_cons in H by (simpl List.length; lia).
      injection H as H.
      destruct (IH (i + 1)) as (good & bad & -> & Hg & Hb).
      { rewrite H at 1. f_equal. simpl List.length. lia. }
      exists (hdu :: good), bad. repeat split; auto.
Qed.

Lemma split_dense (good bad : list HDU) :
  Forall (fun hdu => data hdu <> DataRaises) good ->
  Forall (fun hdu => data hdu = DataRaises) bad ->
  readable_positions 0 (good ++ bad) = range 0 (Z.of_nat (List.length good)).
Proof.
  intros Hg Hb. rewrite readable_app.
  rewrite (proj2 (readable_none bad _) Hb), app_nil_r.
  apply readable_all. intros hdu Hin.
  rewrite Forall_forall in Hg. auto.
Qed.

Lemma dense_iff (hdul : list HDU) :
  readable_positions 0 hdul
  = range 0 (Z.of_nat (List.length (readable_positions 0 hdul)))
  <-> skipped_last hdul.
Proof.
  split.
  - intros H. apply (dense_split hdul 0). exact H.
  - intros (good & bad & -> & Hg & Hb).
    rewrite (split_dense good bad Hg Hb).
    rewrite DownsampleFacts.range_length. f_equal. lia.
Qed.

Lemma sorted_NoDup (l : list Z) : StronglySorted Z.lt l -> NoDup l.
Proof.
  induction 1 as [|x l Hs IH Hx]; constructor; auto.
  intros Hin. rewrite Forall_forall in Hx. specialize (Hx x Hin). lia.
Qed.

Lemma analyzed_indices (rt : Runtime) (file : fits_file)
    (summaries : list pydict) :
  summary_indices (map (Spec.analyze_step rt file) summaries)
  = summary_indices summaries.
Proof.
  unfold summary_indices. rewrite map_map. apply map_ext. intros s.
  unfold Py.get. rewrite AnalyzerFacts.analyze_step_lookup; auto.
  unfold Spec.assigned_keys. simpl. intuition discriminate.
Qed.

Lemma assemble_indices (analyzed : list pydict) (urls : list (option string))
    (i : Z) :
  (forall a, In a analyzed -> Py.lookup a "hdu_index" <> None) ->
  map index (assemble i analyzed urls) = summary_indices analyzed.
Proof.
  revert i. induction analyzed as [|a r IH]; intros i H; simpl; auto.
  rewrite IH by (intros; apply H; now right). f_equal.
  unfold Py.get. destruct (Py.lookup a "hdu_index") eqn:E; auto.
  elim (H a (or_introl eq_refl) E).
Qed.

(** C6, as the code has it. The summaries of a file carry, in order, the
    positions of the units whose entry was built: strictly increasing, so
    unique, and within the number of units. They are 0, 1, 2, ... without a
    gap exactly when every skipped unit comes after every unit whose entry
    was built; when no unit is skipped they are all the positions of the
    file. The analyzer returns one analysis per summary with the same
    indices in the same order, and the records of a successful result carry
    them in that order too. *)
Theorem unit_indices_ordered (rt : Runtime) (fits_path : string)
    (hdul : list HDU) (previews_dir : string) (file_name : option string) :
  let file := Opened hdul true in
  let summaries := Parser.summaries_from rt 0 hdul in
  let positions := readable_positions 0 hdul in
  Parser.get_summary rt file = Parser.Summaries summaries
  /\ summary_indices summaries = map PInt positions
  /\ StronglySorted Z.lt positions
  /\ NoDup positions
  /\ (forall z, In z positions -> 0 <= z < Z.of_nat (List.length hdul))
  /\ ((forall hdu, In hdu hdul -> data hdu <> DataRaises) ->
      positions = range 0 (Z.of_nat (List.length hdul)))
  /\ (positions = range 0 (Z.of_nat (List.length positions))
      <-> skipped_last hdul)
  /\ (forall analyzed,
         Analyzer.analyze rt file summaries = Ok analyzed ->
         summary_indices analyzed = summary_indices summaries)
  /\ (let r := run_pipeline rt fits_path file previews_dir file_name in
      status r = "success"%string ->
      map index (hdus r) = summary_indices summaries).
Proof.
  intros file summaries positions.
  assert (Hidx : summary_indices summaries = map PInt positions)
    by apply summaries_indices.
  split; [reflexivity|]. split; [exact Hidx|].
  split; [apply readable_sorted|].
  split; [apply sorted_NoDup, readable_sorted|].
  split; [intros z Hz; apply readable_bounds in Hz; lia|].
  split; [intros H; now apply readable_all|].
  split; [apply dense_iff|].
  split.
  - intros analyzed [= <-]. apply analyzed_indices.
  - intros r. subst r. unfold run_pipeline.
    change (Parser.get_summary rt file) with (Parser.Summaries summaries).
    cbv iota beta.
    destruct summaries as [|s0 rest] eqn:Es; [discriminate|].
    rewrite <- Es in *.
    destruct (existsb _ summaries); cbn [negb]; [|discriminate].
    rewrite AnalyzerFacts.analyze_map.
    destruct (existsb _ (map _ summaries)); cbn [negb]; [|discriminate].
    intros _.
    assert (Hkeys : forall a,
               In a (map (Spec.analyze_step rt file) summaries) ->
               Py.lookup a "hdu_index" <> None).
    { intros a Ha. apply in_map_iff in Ha as (s & <- & Hs).
      rewrite AnalyzerFacts.analyze_step_lookup
        by (unfold Spec.assigned_keys; simpl; intuition discriminate).
      apply ParserFacts.summaries_from_In in Hs as (j & hdu & _ & He).
      apply summary_entry_index in He. congruence. }
    destruct (makedirs rt previews_dir); cbn [hdus];
      rewrite assemble_indices by exact Hkeys; apply analyzed_indices.
Qed.

Lemma unit_indices_ordered_witness :
  let hdul := [Samples.small_image_hdu "PrimaryHDU"; Samples.light_curve_hdu] in
  let cut := [Samples.small_image_hdu "PrimaryHDU";
              Samples.small_image_hdu "ImageHDU"; Samples.damaged_hdu] in
  summary_indices (Parser.summaries_from Samples.runtime 0 hdul)
  = [PInt 0; PInt 1]
  /\ map index
       (hdus (run_pipeline Samples.runtime "lc.fits" Samples.light_curve_file
                "/previews" None))
     = [PInt 0; PInt 1]
  /\ summary_indices (Parser.summaries_from Samples.runtime 0 cut)
     = [PInt 0; PInt 1].
Proof.
  intros hdul cut.
  destruct (unit_indices_ordered Samples.runtime "lc.fits" hdul "/previews" None)
    as (_ & Hidx & _ & _ & _ & Hall & _ & _ & Hrec).
  assert (Hpos : readable_positions 0 hdul = [0; 1]).
  { rewrite Hall; [reflexivity|].
    intros hdu [<-|[<-|[]]]; discriminate. }
  rewrite Hpos in Hidx. split; [exact Hidx|].
  split.
  - unfold Samples.light_curve_file. fold hdul.
    rewrite Hrec; [exact Hidx|reflexivity].
  - destruct (unit_indices_ordered Samples.runtime "img.fits" cut "/previews"
                None)
      as (_ & Hcut & _ & _ & _ & _ & Hdense & _).
    rewrite Hcut.
    rewrite (proj2 Hdense); [reflexivity|].
    exists [Samples.small_image_hdu "PrimaryHDU";
            Samples.small_image_hdu "ImageHDU"], [Samples.damaged_hdu].
    split; [reflexivity|]. split.
    + repeat constructor; discriminate.
    + repeat constructor.
Defined.

(** In the file whose middle unit has a damaged data section the loop of
    [get_summary] skips that unit: the summaries, and the records of the
    result, carry the indices 0 and 2. *)
Lemma dense_indices_counterexample :
  Parser.get_summary Samples.runtime Samples.damaged_file
  = Parser.Summaries
      (Parser.summaries_from Samples.runtime 0
         [Samples.small_image_hdu "PrimaryHDU"; Samples.damaged_hdu;
          Samples.small_image_hdu "ImageHDU"])
  /\ summary_indices
       (Parser.summaries_from Samples.runtime 0
          [Samples.small_image_hdu "PrimaryHDU"; Samples.damaged_hdu;
           Samples.small_image_hdu "ImageHDU"])
     = [PInt 0; PInt 2]
  /\ status (run_pipeline Samples.runtime "img.fits" Samples.damaged_file
               "/previews" None) = "success"%string
  /\ map index
       (hdus (run_pipeline Samples.runtime "img.fits" Samples.damaged_file
                "/previews" None))
     = [PInt 0; PInt 2]
  /\ [PInt 0; PInt 2] <> map PInt (range 0 2).
Proof.
  split; [reflexivity|]. split; [reflexivity|]. split; [reflexivity|].
  split; [reflexivity|]. vm_compute. discriminate.
Qed.

End OrderFacts.

(** ** Classification of image-like units *)

Module ImageFacts.
Import Spec.
Import Builtins Analyzer AnalyzerFacts.

Lemma first_truthy_marker_keys (h : pydict) :
  first_truthy h marker_keys
  = let d := Py.get h "DATATYPE" PNone in
    let c := Py.get h "HDUCLAS1" PNone in
    let n := Py.get h "EXTNAME" PNone in
    if Py.truthy d then Some d
    else if Py.truthy c then Some c
    else if Py.truthy n then Some n
    else None.
Proof.
  unfold marker_keys, first_truthy, Py.get.
  destruct (Py.lookup h "DATATYPE"); destruct (Py.lookup h "HDUCLAS1");
    destruct (Py.lookup h "EXTNAME"); reflexivity.
Qed.

Lemma error_map_first_field (rt : Runtime) (h : pydict) :
  _header_suggests_error_map rt (PDict h) = Ok (first_field_marker rt h).
Proof.
  unfold _header_suggests_error_map, first_field_marker.
  cbn [Py.entries].
  rewrite first_truthy_marker_keys. cbv zeta. unfold Py.or_.
  generalize (Py.get h "DATATYPE" PNone) (Py.get h "HDUCLAS1" PNone)
    (Py.get h "EXTNAME" PNone).
  intros d c n.
  destruct (Py.truthy d) eqn:Ed; cbv iota; rewrite ?Ed; cbv iota;
    [reflexivity|].
  destruct (Py.truthy c) eqn:Ec; cbv iota; rewrite ?Ec; cbv iota;
    [reflexivity|].
  destruct (Py.truthy n) eqn:En; cbv iota; reflexivity.
Qed.

Lemma low_contrast_flag (rt : Runtime) (h s : pydict) :
  Py.lookup h "BITPIX" = None
  \/ (exists b, Py.lookup h "BITPIX" = Some (PInt b)) ->
  exists low,
    _header_suggests_low_contrast rt (PDict h) s = Ok low
    /\ Py.truthy low = floating h && flagged_uniform s.
Proof.
  unfold _header_suggests_low_contrast, floating, flagged_uniform, Py.get.
  cbn [Py.entries].
  intros [H|[b H]]; rewrite H.
  - exists (PBool false). auto.
  - cbn [int bind try_type_value].
    destruct (0 <=? b) eqn:E.
    + exists (PBool false). split; auto.
      now replace (b <? 0) with false by lia.
    + eexists. split; [reflexivity|].
      now replace (b <? 0) with true by lia.
Qed.

(** The classification of an image-like summary of the shapes the parser
    emits, whose BITPIX card is an integer when present. *)
Lemma image_like_classification (rt : Runtime) (file : fits_file)
    (s : pydict) (t : string) (axes : list pyval) (h u : pydict) :
  Py.lookup s "hdu_type" = Some (PStr t) ->
  image_like t = true ->
  Py.lookup s "data_shape" = Some (PList axes) ->
  Py.lookup s "header" = Some (PDict h) ->
  Py.lookup s "units" = Some (PDict u) ->
  Py.lookup h "BITPIX" = None
  \/ (exists b, Py.lookup h "BITPIX" = Some (PInt b)) ->
  Py.lookup (analyze_step rt file s) "classification"
  = Some (PStr (image_rule (Z.of_nat (List.length axes))
                  (first_field_marker rt h) (floating h) (flagged_uniform s))).
Proof.
  intros Ht Him Hsh Hh Hu Hb.
  assert (Hc : classify rt file s (PDict u)
               = Ok (image_rule (Z.of_nat (List.length axes))
                       (first_field_marker rt h) (floating h)
                       (flagged_uniform s), [], PDict u)).
  { unfold classify, Py.get. rewrite Ht, Hsh, Hh.
    cbn [Py.str_in Py.len].
    assert (Hi : (a <- Ok (PyStr.contains "ImageHDU" t) ;;
                  (if a then Ok true
                   else Ok (PyStr.contains "PrimaryHDU" t))) = Ok true).
    { unfold image_like in Him. cbn [bind].
      destruct (PyStr.contains "ImageHDU" t); auto.
      cbn [orb] in Him. now rewrite Him. }
    rewrite Hi. cbn [bind]. unfold image_rule.
    destruct (2 <=? Z.of_nat (List.length axes)).
    - rewrite error_map_first_field. cbn [bind].
      destruct (first_field_marker rt h); [reflexivity|].
      destruct (low_contrast_flag rt h s Hb) as (low & -> & Hlow).
      cbn [bind]. rewrite Hlow.
      destruct (floating h && flagged_uniform s); reflexivity.
    - destruct (Z.of_nat (List.length axes) =? 1); reflexivity. }
  unfold analyze_step, analyze_hdu, Py.get. rewrite Hu, Hh.
  cbn [Py.to_dict bind _axis_meaning].
  unfold Py.get in Hc. rewrite Hc. cbn [try_except].
  apply assigned_classification.
Qed.

(** C5, as the code has it. An image-like summary (a kind tag containing
    "ImageHDU" or "PrimaryHDU") is classified by the rule: with two or more
    declared axes, [error_map] when the first non-empty of the header
    fields DATATYPE, HDUCLAS1, EXTNAME contains "error" or "uncertainty" in
    any letter case, else [low_contrast_image] when BITPIX is negative and
    the extractor flagged the unit uniform, else [image]; with one axis
    [image]; with none [unknown]. And the single unit of the file holding a
    100 x 100 float array of 3.5 is classified [low_contrast_image], with
    [is_uniform] true and [nan_fraction] 0.0. *)
Theorem image_units_classified (rt : Runtime) (file : fits_file)
    (s : pydict) (t : string) (axes : list pyval) (h u : pydict) :
  Py.lookup s "hdu_type" = Some (PStr t) ->
  image_like t = true ->
  Py.lookup s "data_shape" = Some (PList axes) ->
  Py.lookup s "header" = Some (PDict h) ->
  Py.lookup s "units" = Some (PDict u) ->
  Py.lookup h "BITPIX" = None
  \/ (exists b, Py.lookup h "BITPIX" = Some (PInt b)) ->
  Py.lookup (analyze_step rt file s) "classification"
  = Some (PStr (image_rule (Z.of_nat (List.length axes))
                  (first_field_marker rt h) (floating h) (flagged_uniform s)))
  /\ map (fun a => (Py.lookup a "classification", Py.lookup a "is_uniform",
                    Py.lookup a "nan_fraction"))
       (map (analyze_step rt Samples.uniform_file)
          (Parser.summaries_from rt 0 [Samples.uniform_hdu]))
     = [(Some (PStr "low_contrast_image"), Some (PBool true),
         Some (PFloat F64.zero))].
Proof.
  intros Ht Him Hsh Hh Hu Hb. split.
  - eapply image_like_classification; eauto.
  - vm_compute. reflexivity.
Qed.

Lemma image_units_classified_witness :
  let s := [("hdu_index", PInt 0); ("hdu_type", PStr "PrimaryHDU");
            ("header", PDict [("BITPIX", PInt (-64)); ("EXTNAME", PStr "Flux_Error")]);
            ("data_shape", PList [PInt 2; PInt 2]);
            ("units", PDict []); ("is_uniform", PBool true)]%string in
  Py.lookup (analyze_step Samples.runtime Samples.uniform_file s) "classification"
  = Some (PStr "error_map").
Proof.
  intros s.
  apply (image_units_classified Samples.runtime Samples.uniform_file s
           "PrimaryHDU" [PInt 2; PInt 2]
           [("BITPIX", PInt (-64)); ("EXTNAME", PStr "Flux_Error")]%string []);
    try reflexivity.
  right. exists (-64). reflexivity.
Defined.

(** The second unit of this file has the class field "IMAGE" and the name
    "ERROR": a name field contains "error", and the unit is classified
    [image], because only the first non-empty field is read. *)
Lemma any_field_marker_counterexample :
  exists s h,
    In s (Parser.summaries_from Samples.runtime 0
            [Samples.small_image_hdu "PrimaryHDU"; Samples.error_extension_hdu])
    /\ Py.lookup s "hdu_type" = Some (PStr "ImageHDU")
    /\ Py.lookup s "data_shape" = Some (PList [PInt 2; PInt 2])
    /\ Py.lookup s "header" = Some (PDict h)
    /\ Py.lookup h "EXTNAME" = Some (PStr "ERROR")
    /\ any_field_marker Samples.runtime h = true
    /\ image_rule 2 (any_field_marker Samples.runtime h) (floating h)
         (flagged_uniform s) = "error_map"%string
    /\ Py.lookup (analyze_step Samples.runtime Samples.error_extension_file s)
         "classification" = Some (PStr "image").
Proof.
  eexists. eexists. split; [right; left; reflexivity|].
  repeat split; reflexivity.
Qed.

End ImageFacts.

(** ** The renderer *)

Module RenderFacts.
Import Spec.
Import Builtins Analyzer AnalyzerFacts Visualizer.

Lemma draw_nothing (rt : Runtime) (p : result (option plot)) (out : string) :
  p = Ok None \/ (exists e, p = Raise e) -> draw rt p out = false.
Proof. intros [->|[e ->]]; reflexivity. Qed.

(** [image_plot] hands nothing to the backend unless the unit holds a
    two-dimensional array. *)
Lemma image_plot_needs_2d (rt : Runtime) (file : fits_file) (idx : pyval) :
  (forall hdul hdu arr,
      reopen file = Ok hdul -> hdul_index hdul idx = Ok hdu ->
      data hdu = DataArray arr -> ndim arr <> 2) ->
  image_plot rt file idx = Ok None \/ exists e, image_plot rt file idx = Raise e.
Proof.
  intros H. unfold image_plot.
  destruct (reopen file) as [hdul|e]; cbn [bind]; [|eauto].
  destruct (ge_int idx _) as [[|]|e]; cbn [bind]; eauto.
  destruct (hdul_index hdul idx) as [hdu|e] eqn:Ei; cbn [bind]; [|eauto].
  destruct (data hdu) as [| |arr|t] eqn:Ed; eauto.
  specialize (H hdul hdu arr eq_refl Ei Ed).
  replace (ndim arr =? 2) with false by lia. auto.
Qed.

Lemma image_like_no_preview (rt : Runtime) (file : fits_file)
    (analysis : pydict) (previews_dir file_id : string) (c : string) :
  Py.lookup analysis "classification" = Some (PStr c) ->
  PyStr.mem c IMAGE_LIKE = true ->
  (forall hdul hdu arr,
      reopen file = Ok hdul ->
      hdul_index hdul (Py.get analysis "hdu_index" (PInt 0)) = Ok hdu ->
      data hdu = DataArray arr -> ndim arr <> 2) ->
  visualize_hdu rt file analysis previews_dir file_id = None.
Proof.
  intros Hc Hm H. unfold visualize_hdu.
  destruct (makedirs rt previews_dir); auto.
  unfold Py.get in *. rewrite Hc. cbn [is_one_of]. rewrite Hm.
  unfold _render_image. rewrite draw_nothing; auto.
  now apply image_plot_needs_2d.
Qed.

Lemma nth_error_index {A} (l : list A) (i : nat) (a : A) :
  nth_error l i = Some a -> Py.index l (Z.of_nat i) = Ok a.
Proof.
  intros H. unfold Py.index.
  assert (Hi : (i < List.length l)%nat) by (apply nth_error_Some; congruence).
  replace (Z.of_nat i <? 0) with false by lia.
  replace ((Z.of_nat i <? 0) || (Z.of_nat (List.length l) <=? Z.of_nat i))
    with false by lia.
  now rewrite Nat2Z.id, H.
Qed.

(** C10. A unit classified [image] whose sample array is not
    two-dimensional gets a null preview from [visualize_hdu]. In
    particular, for an image-like unit with one declared axis whose array
    has that one axis: its analysis is classified [image], a plottable
    category, and its preview is null. *)
Theorem non_2d_image_has_no_preview (rt : Runtime) (previews_dir file_id : string) :
  (forall (file : fits_file) (analysis : pydict),
      Py.lookup analysis "classification" = Some (PStr CLASSIFICATION_IMAGE) ->
      (forall hdul hdu arr,
          reopen file = Ok hdul ->
          hdul_index hdul (Py.get analysis "hdu_index" (PInt 0)) = Ok hdu ->
          data hdu = DataArray arr -> ndim arr <> 2) ->
      visualize_hdu rt file analysis previews_dir file_id = None)
  /\ (forall (hdul : list HDU) (i : nat) (hdu : HDU) (arr : ndarray)
             (s : pydict) (axis : pyval),
         nth_error hdul i = Some hdu ->
         data hdu = DataArray arr ->
         Parser.summary_entry rt (Z.of_nat i) hdu = Ok s ->
         image_like (hdu_class hdu) = true ->
         Py.lookup s "data_shape" = Some (PList [axis]) ->
         ndim arr = 1 ->
         Py.lookup (Parser._clean_header (hdu_header hdu)) "BITPIX" = None
         \/ (exists b, Py.lookup (Parser._clean_header (hdu_header hdu)) "BITPIX"
                       = Some (PInt b)) ->
         let a := analyze_step rt (Opened hdul true) s in
         Py.lookup a "classification" = Some (PStr CLASSIFICATION_IMAGE)
         /\ _is_plottable_classification CLASSIFICATION_IMAGE = true
         /\ visualize_hdu rt (Opened hdul true) a previews_dir file_id = None).
Proof.
  split.
  - intros file analysis Hc H.
    eapply image_like_no_preview; eauto.
  - intros hdul i hdu arr s axis Hn Hd He Him Hsh Hnd Hb a.
    assert (Hbase : forall k, k <> "has_numeric_data"%string ->
                      ~ In k Spec.stats_keys ->
                      Py.lookup s k
                      = Py.lookup (Spec.base_entry rt (Z.of_nat i) hdu) k).
    { intros k. now apply ParserFacts.summary_entry_base. }
    assert (Hkey : forall k, In k ["hdu_type"; "header"; "units"]%string ->
                     Py.lookup s k
                     = Py.lookup (Spec.base_entry rt (Z.of_nat i) hdu) k).
    { intros k Hk. apply Hbase; unfold Spec.stats_keys;
        simpl in *; intuition (subst; discriminate). }
    assert (Hc : Py.lookup a "classification" = Some (PStr CLASSIFICATION_IMAGE)).
    { subst a.
      rewrite (ImageFacts.image_like_classification rt (Opened hdul true) s
                 (hdu_class hdu) [axis]
                 (Parser._clean_header (hdu_header hdu))
                 (Parser._get_units_from_header rt (hdu_header hdu))); auto.
      - rewrite Hkey by (simpl; tauto). reflexivity.
      - rewrite Hkey by (simpl; tauto). reflexivity.
      - rewrite Hkey by (simpl; tauto). reflexivity. }
    split; [exact Hc|]. split; [reflexivity|].
    apply (image_like_no_preview rt _ a _ _ CLASSIFICATION_IMAGE Hc eq_refl).
    intros hdul' hdu' arr' [= <-] Hi Hd'.
    assert (Hidx : Py.get a "hdu_index" (PInt 0) = PInt (Z.of_nat i)).
    { subst a. unfold Py.get. rewrite analyze_step_lookup
        by (unfold assigned_keys; simpl; intuition discriminate).
      now rewrite (OrderFacts.summary_entry_index rt _ hdu s He). }
    rewrite Hidx in Hi. cbn [hdul_index] in Hi.
    rewrite (nth_error_index hdul i hdu Hn) in Hi. injection Hi as <-.
    rewrite Hd in Hd'. injection Hd' as <-. lia.
Qed.

Lemma non_2d_image_has_no_preview_witness :
  let s := [("hdu_index", PInt 1); ("hdu_type", PStr "ImageHDU");
            ("header", PDict [("BITPIX", PInt (-64)); ("NAXIS", PInt 1);
                              ("NAXIS1", PInt 3)]);
            ("data_shape", PList [PInt 3]); ("data_dtype", PStr "unknown");
            ("units", PDict []); ("classification", PStr "image");
            ("column_names", PList []); ("axis_meaning", PDict [])]%string in
  visualize_hdu Samples.runtime Samples.vector_file s "/previews" "1b9d6bcd"
  = None.
Proof.
  intros s.
  apply (proj1 (non_2d_image_has_no_preview Samples.runtime "/previews"
                  "1b9d6bcd") Samples.vector_file s).
  - reflexivity.
  - intros hdul hdu arr [= <-] [= <-] [= <-]. vm_compute. discriminate.
Defined.

(** C8, as the code has it. For a table unit with the declared columns ID
    and NOTES, neither numeric-typed: the classification is [table]; the
    scatter renderer falls back to (ID, NOTES); it reads both columns as
    floats and plots NOTES against ID under the labels "ID" and "NOTES",
    capped like every table, so the preview exists exactly when both
    columns convert and the backend draws; when a column does not convert
    there is none. The row index is not used. *)
Theorem id_notes_scatter (rt : Runtime) (file : fits_file) (hdu_index : pyval)
    (fmt1 fmt2 : string) (ids notes : option (list float)) (out : string) :
  is_numeric_format fmt1 = false ->
  is_numeric_format fmt2 = false ->
  unit_data file hdu_index = Ok (Some (DataTable (id_notes fmt1 fmt2 ids notes))) ->
  let names := ["ID"; "NOTES"]%string in
  let render :=
    _render_table_scatter rt file hdu_index (PList (map PStr names)) out in
  _classify_table names = CLASSIFICATION_TABLE
  /\ _first_numeric_columns (DataTable (id_notes fmt1 fmt2 ids notes)) names
     = ("ID", "NOTES")%string
  /\ (ids = None \/ notes = None -> render = false)
  /\ (forall xs ys N,
         ids = Some xs -> notes = Some ys ->
         Z.of_nat (List.length xs) = N -> Z.of_nat (List.length ys) = N ->
         let p := ScatterPlot (Spec.capped N xs)
                    (Spec.capped N ys) "ID" "NOTES" in
         table_scatter_plot file hdu_index names = Ok (Some p)
         /\ render = match savefig rt p out with Ok _ => true | Raise _ => false end).
Proof.
  intros H1 H2 Hd names render.
  assert (Hcols : _first_numeric_columns
                    (DataTable (id_notes fmt1 fmt2 ids notes)) names
                  = ("ID", "NOTES")%string).
  { unfold _first_numeric_columns, names, id_notes. cbn [numeric_names col_format].
    rewrite H1, H2. reflexivity. }
  assert (Hplot : table_scatter_plot file hdu_index names
                  = (x <- (match ids with Some xs => Ok xs | None => Raise ValueError end) ;;
                     y <- (match notes with Some ys => Ok ys | None => Raise ValueError end) ;;
                     xy <- cap_rows x y ;;
                     Ok (Some (ScatterPlot (fst xy) (snd xy) "ID" "NOTES")))).
  { unfold table_scatter_plot. rewrite Hd. cbn [bind]. cbv beta iota.
    rewrite Hcols. reflexivity. }
  split; [reflexivity|]. split; [exact Hcols|]. split.
  - intros Hn. subst render. unfold _render_table_scatter.
    change (str_list (PList (map PStr names))) with (Ok names). cbn [bind].
    rewrite Hplot. destruct Hn as [-> | ->]; [reflexivity|].
    destruct ids; reflexivity.
  - intros xs ys N -> -> Hx Hy p. subst render. unfold _render_table_scatter.
    change (str_list (PList (map PStr names))) with (Ok names). cbn [bind].
    rewrite Hplot. cbn [bind].
    rewrite (DownsampleFacts.cap_rows_spec N xs ys Hx Hy). cbn [bind fst snd].
    split; [reflexivity|]. unfold draw. cbn [bind]. fold p.
    destruct (savefig rt p out); reflexivity.
Qed.

Lemma id_notes_scatter_witness :
  let xs := [F64.of_Z 1; F64.of_Z 2; F64.of_Z 3] in
  let ys := [F64.of_Z 5; F64.of_Z 5; F64.of_Z 5] in
  table_scatter_plot
    (Samples.id_notes_file (Samples.id_notes_table (Some xs) (Some ys)))
    (PInt 1) ["ID"; "NOTES"]%string
  = Ok (Some (ScatterPlot xs ys "ID" "NOTES")).
Proof.
  intros xs ys.
  destruct (id_notes_scatter Samples.runtime
              (Samples.id_notes_file (Samples.id_notes_table (Some xs) (Some ys)))
              (PInt 1) "8A" "20A" (Some xs) (Some ys) "/previews/p.png"
              eq_refl eq_refl eq_refl) as (_ & _ & _ & H).
  destruct (H xs ys 3 eq_refl eq_refl eq_refl eq_refl) as [Hp _].
  exact Hp.
Defined.

(** With text in NOTES the conversion raises and the unit gets no preview;
    with numbers in both columns the plot has the NOTES values, not the
    row index, on its second axis. *)
Lemma row_index_axis_counterexample :
  visualize_hdu Samples.runtime
    (Samples.id_notes_file
       (Samples.id_notes_table (Some [F64.of_Z 1; F64.of_Z 2; F64.of_Z 3]) None))
    [("hdu_index", PInt 1); ("classification", PStr "table");
     ("column_names", PList [PStr "ID"; PStr "NOTES"])]%string
    "/previews" "1b9d6bcd"
  = None
  /\ exists p,
       table_scatter_plot
         (Samples.id_notes_file
            (Samples.id_notes_table (Some [F64.of_Z 1; F64.of_Z 2; F64.of_Z 3])
               (Some [F64.of_Z 5; F64.of_Z 5; F64.of_Z 5])))
         (PInt 1) ["ID"; "NOTES"]%string
       = Ok (Some p)
       /\ snd (Spec.series p) = [F64.of_Z 5; F64.of_Z 5; F64.of_Z 5]
       /\ snd (Spec.series p) <> arange 3.
Proof.
  split; [reflexivity|].
  eexists. split; [reflexivity|]. split; [reflexivity|].
  vm_compute. discriminate.
Qed.

End RenderFacts.

(** ** Rounding in binary64 *)

(** [SpecFloat] rounds by shifting the mantissa right one bit at a time
    while it records what falls off. These lemmas read that off in
    arithmetic, far enough to compare [v + 1e-6] with [v]. *)
Module RoundFacts.
Import Spec.

Lemma digits_bounds (p : positive) :
  2 ^ (Zpos (digits2_pos p) - 1) <= Zpos p < 2 ^ Zpos (digits2_pos p).
Proof.
  induction p as [p IH|p IH|]; cbn [digits2_pos].
  - rewrite Pos2Z.inj_succ.
    replace (Z.succ (Zpos (digits2_pos p)) - 1) with (Z.succ (Zpos (digits2_pos p) - 1)) by lia.
    rewrite !Z.pow_succ_r by lia. lia.
  - rewrite Pos2Z.inj_succ.
    replace (Z.succ (Zpos (digits2_pos p)) - 1) with (Z.succ (Zpos (digits2_pos p) - 1)) by lia.
    rewrite !Z.pow_succ_r by lia. lia.
  - simpl. lia.
Qed.

Lemma digits_unique (p : positive) (k : Z) :
  2 ^ (k - 1) <= Zpos p < 2 ^ k -> Zpos (digits2_pos p) = k.
Proof.
  intros [Hl Hu]. pose proof (digits_bounds p) as [Dl Du].
  set (d := Zpos (digits2_pos p)) in *.
  assert (Hk : 0 < k).
  { destruct (Z_lt_dec 0 k); auto. 
    assert (2 ^ k <= 1). { destruct (Z.eq_dec k 0) as [->|]; [simpl; lia|]. rewrite Z.pow_neg_r by lia. lia. } lia. }
  destruct (Z_lt_dec d k) as [H|H].
  - assert (2 ^ d <= 2 ^ (k - 1)) by (apply Z.pow_le_mono_r; lia). lia.
  - destruct (Z_lt_dec k d) as [H'|H']; [|lia].
    assert (2 ^ k <= 2 ^ (d - 1)) by (apply Z.pow_le_mono_r; lia). lia.
Qed.

Lemma iter_pos_nat {A} (f : A -> A) (p : positive) (x : A) :
  iter_pos f p x = Nat.iter (Pos.to_nat p) f x.
Proof.
  revert x. induction p as [p IH|p IH|]; intros x; cbn [iter_pos].
  - rewrite !IH. rewrite Pos2Nat.inj_xI.
    replace (S (2 * Pos.to_nat p)) with (Pos.to_nat p + (Pos.to_nat p + 1))%nat by lia.
    rewrite !Nat.iter_add. reflexivity.
  - rewrite !IH. rewrite Pos2Nat.inj_xO.
    replace (2 * Pos.to_nat p)%nat with (Pos.to_nat p + Pos.to_nat p)%nat by lia.
    rewrite Nat.iter_add. reflexivity.
  - reflexivity.
Qed.

Lemma shr_1_nonneg (m : Z) (r s : bool) :
  0 <= m ->
  shr_1 {| shr_m := m; shr_r := r; shr_s := s |}
  = {| shr_m := m / 2; shr_r := Z.odd m; shr_s := r || s |}.
Proof.
  intros H. rewrite <- Z.div2_div.
  destruct m as [|[p|p|]|p]; try reflexivity. lia.
Qed.

Lemma shifted_0 (M : Z) :
  0 <= M -> shifted M 0 {| shr_m := M; shr_r := false; shr_s := false |}.
Proof.
  intros H. split; [exact H|]. exists 0. cbn [shr_m shr_r shr_s].
  rewrite Z.pow_0_r. repeat split; try lia; intros; try discriminate; lia.
Qed.

Lemma shifted_step (M k : Z) (mrs : shr_record) :
  0 <= k -> shifted M k mrs -> shifted M (k + 1) (shr_1 mrs).
Proof.
  intros Hk [Hm (rem & HM & Hrem & Hr & Hs)].
  destruct mrs as [m r s]. cbn [shr_m shr_r shr_s] in *.
  rewrite shr_1_nonneg by exact Hm. unfold shifted. cbn [shr_m shr_r shr_s].
  rewrite Z.pow_add_r, Z.pow_1_r by lia.
  assert (HP : 0 < 2 ^ k) by (apply Z.pow_pos_nonneg; lia).
  set (P := 2 ^ k) in *.
  pose proof (Zdiv2_odd_eqn m) as Hd. rewrite Z.div2_div in Hd.
  set (q := m / 2) in *.
  split; [subst q; apply Z.div_pos; lia|].
  destruct (Z.odd m).
  - exists (rem + P). split; [nia|]. split; [lia|]. split.
    + split; intros; [lia|reflexivity].
    + destruct r, s; cbn [orb]; intuition (try discriminate; try lia).
  - exists rem. split; [nia|]. split; [lia|]. split.
    + split; intros; [discriminate|lia].
    + destruct r, s; cbn [orb]; intuition (try discriminate; try lia).
Qed.

Lemma shifted_iter (M : Z) (n : nat) :
  0 <= M ->
  shifted M (Z.of_nat n)
    (Nat.iter n shr_1 {| shr_m := M; shr_r := false; shr_s := false |}).
Proof.
  intros H. induction n as [|n IH].
  - now apply shifted_0.
  - rewrite Nat2Z.inj_succ. cbn [Nat.iter]. unfold Z.succ.
    apply shifted_step; [lia|exact IH].
Qed.

Lemma shifted_iter_pos (M : Z) (p : positive) :
  0 <= M ->
  shifted M (Zpos p)
    (iter_pos shr_1 p {| shr_m := M; shr_r := false; shr_s := false |}).
Proof.
  intros H. rewrite iter_pos_nat, <- positive_nat_Z. now apply shifted_iter.
Qed.

Lemma round_shifted (M n : Z) (mrs : shr_record) :
  shifted M n mrs ->
  rounded M n (round_nearest_even (shr_m mrs) (loc_of_shr_record mrs)).
Proof.
  intros [Hm (rem & HM & Hrem & Hr & Hs)].
  destruct mrs as [m r s]. cbn [shr_m shr_r shr_s] in *.
  exists m, rem. split; [exact HM|]. split; [exact Hrem|]. split; [exact Hm|].
  destruct r, s; cbn [loc_of_shr_record round_nearest_even];
    try destruct (Z.even m); intuition (try discriminate; try lia).
Qed.

Lemma shr_fexp_shift (M e : Z) (pn : positive) :
  fexp 53 1024 (Zdigits2 M + e) - e = Zpos pn ->
  shr_fexp 53 1024 M e loc_Exact = (iter_pos shr_1 pn (mrs0 M), e + Zpos pn).
Proof. intros H. unfold shr_fexp. rewrite H. reflexivity. Qed.

Lemma shr_fexp_keep (M e : Z) :
  fexp 53 1024 (Zdigits2 M + e) - e = 0 ->
  shr_fexp 53 1024 M e loc_Exact = (mrs0 M, e).
Proof. intros H. unfold shr_fexp. rewrite H. reflexivity. Qed.

Lemma fexp_eq (x : Z) : fexp 53 1024 x = Z.max (x - 53) (-1074).
Proof. reflexivity. Qed.

Lemma round_aux_long (sx : bool) (pM : positive) (e n : Z) :
  Zpos (digits2_pos pM) = 53 + n -> 1 <= n -> -1074 <= e -> e + n + 1 <= 971 ->
  exists m2 e2 z,
    binary_round_aux 53 1024 sx (Zpos pM) e loc_Exact = S754_finite sx m2 e2
    /\ rounded (Zpos pM) n z
    /\ 2 ^ 52 <= z <= 2 ^ 53
    /\ ((z < 2 ^ 53 /\ Zpos m2 = z /\ e2 = e + n)
        \/ (z = 2 ^ 53 /\ Zpos m2 = 2 ^ 52 /\ e2 = e + n + 1)).
Proof.
  intros Hd Hn He Hmax.
  destruct n as [|pn|pn]; try lia.
  unfold binary_round_aux.
  assert (X : fexp 53 1024 (Zdigits2 (Zpos pM) + e) - e = Zpos pn).
  { rewrite fexp_eq. cbn [Zdigits2]. rewrite Hd. clear Hd. lia. }
  rewrite (shr_fexp_shift (Zpos pM) e pn) by exact X.
  pose proof (shifted_iter_pos (Zpos pM) pn ltac:(lia)) as Hsh.
  set (mrs' := iter_pos shr_1 pn (mrs0 (Zpos pM))) in *.
  fold (mrs0 (Zpos pM)) in Hsh. fold mrs' in Hsh.
  pose proof (round_shifted _ _ _ Hsh) as Hr.
  set (z := round_nearest_even (shr_m mrs') (loc_of_shr_record mrs')) in *.
  assert (Hz : 2 ^ 52 <= z <= 2 ^ 53).
  { destruct Hr as (m & rem & HM & Hrem & Hm & Hmz & _).
    pose proof (digits_bounds pM) as [Dl Du]. rewrite Hd in Dl, Du.
    replace (53 + Zpos pn - 1) with (52 + Zpos pn) in Dl by lia.
    rewrite Z.pow_add_r in Dl, Du by lia.
    assert (HP : 0 < 2 ^ Zpos pn) by (apply Z.pow_pos_nonneg; lia).
    set (P := 2 ^ Zpos pn) in *.
    assert (2 ^ 52 <= m) by nia. assert (m < 2 ^ 53) by nia. lia. }
  destruct (Z.eq_dec z (2 ^ 53)) as [E|E].
  - rewrite E.
    assert (X2 : fexp 53 1024 (Zdigits2 (2 ^ 53) + (e + Zpos pn)) - (e + Zpos pn) = 1).
    { rewrite fexp_eq. change (Zdigits2 (2 ^ 53)) with 54. clear - He. lia. }
    rewrite (shr_fexp_shift (2 ^ 53) (e + Zpos pn) 1) by exact X2.
    change (iter_pos shr_1 1 (mrs0 (2 ^ 53))) with (mrs0 (2 ^ 52)).
    cbn [mrs0 shr_m]. change (2 ^ 52) with (Zpos (2 ^ 52)) at 1.
    cbv iota beta.
    replace (e + Zpos pn + 1 <=? 1024 - 53) with true by lia.
    eexists _, _, z. split; [reflexivity|]. split; [exact Hr|]. split; [exact Hz|].
    right. repeat split; auto.
  - destruct z as [|pz|pz] eqn:Ez; try lia.
    assert (Hdz : Zpos (digits2_pos pz) = 53) by (apply digits_unique; lia).
    assert (X3 : fexp 53 1024 (Zdigits2 (Zpos pz) + (e + Zpos pn)) - (e + Zpos pn) = 0).
    { rewrite fexp_eq; cbn [Zdigits2]; rewrite Hdz. clear - He. lia. }
    rewrite (shr_fexp_keep (Zpos pz) (e + Zpos pn)) by exact X3.
    cbn [mrs0 shr_m].
    replace (e + Zpos pn <=? 1024 - 53) with true by lia.
    exists pz, (e + Zpos pn), (Zpos pz). split; [reflexivity|].
    split; [exact Hr|]. split; [exact Hz|]. left. repeat split; lia.
Qed.

Lemma iter_xO (p k : positive) :
  Zpos (Pos.iter xO p k) = Zpos p * 2 ^ Zpos k.
Proof.
  induction k as [|k IH] using Pos.peano_ind.
  - simpl. lia.
  - rewrite Pos.iter_succ, Pos2Z.inj_succ, Z.pow_succ_r by lia.
    rewrite Pos2Z.inj_xO, IH. ring.
Qed.

Lemma shl_align_value (mx : positive) (ex ez : Z) :
  ez <= ex -> Zpos (fst (shl_align mx ex ez)) = Zpos mx * 2 ^ (ex - ez).
Proof.
  intros H. unfold shl_align.
  destruct (ez - ex) as [|d|d] eqn:E; cbn [fst].
  - replace (ex - ez) with 0 by lia. simpl. lia.
  - lia.
  - rewrite iter_xO. f_equal. f_equal. lia.
Qed.

Lemma digits_shift (p : positive) (k : Z) (q : positive) :
  0 <= k -> Zpos q = Zpos p * 2 ^ k ->
  Zpos (digits2_pos q) = Zpos (digits2_pos p) + k.
Proof.
  intros Hk Hq. apply digits_unique. rewrite Hq.
  pose proof (digits_bounds p) as [Dl Du].
  remember (Zpos (digits2_pos p)) as d eqn:Ed.
  assert (Hd : 1 <= d) by (subst d; lia). clear Ed.
  replace (d + k - 1) with (d - 1 + k) by lia.
  rewrite !Z.pow_add_r by lia.
  assert (HP : 0 < 2 ^ k) by (apply Z.pow_pos_nonneg; lia).
  split; nia.
Qed.

(** A mantissa of more than 53 digits is shifted right and rounded. *)
Lemma round_long (sx : bool) (pM : positive) (e n : Z) :
  Zpos (digits2_pos pM) = 53 + n -> 1 <= n -> -1074 <= e -> e + n + 1 <= 971 ->
  exists m2 e2 z,
    binary_round 53 1024 sx pM e = S754_finite sx m2 e2
    /\ rounded (Zpos pM) n z
    /\ 2 ^ 52 <= z <= 2 ^ 53
    /\ ((z < 2 ^ 53 /\ Zpos m2 = z /\ e2 = e + n)
        \/ (z = 2 ^ 53 /\ Zpos m2 = 2 ^ 52 /\ e2 = e + n + 1)).
Proof.
  intros Hd Hn He Hmax. unfold binary_round.
  assert (Hf : fexp 53 1024 (Zpos (digits2_pos pM) + e) = e + n).
  { rewrite fexp_eq, Hd. clear Hd. lia. }
  rewrite Hf. unfold shl_align.
  destruct (e + n - e) as [|q|q] eqn:E; try lia.
  now apply round_aux_long.
Qed.

(** A mantissa of at most 53 digits is kept exactly, shifted left to the
    exponent of the format. *)
Lemma round_short (sx : bool) (pM : positive) (e : Z) :
  Zpos (digits2_pos pM) <= 53 -> -1074 <= e -> e <= 971 ->
  exists mz e',
    binary_round 53 1024 sx pM e = S754_finite sx mz e'
    /\ e' = Z.max (Zpos (digits2_pos pM) + e - 53) (-1074)
    /\ e' <= e
    /\ Zpos mz = Zpos pM * 2 ^ (e - e').
Proof.
  intros Hd He Hmax. unfold binary_round.
  remember (Zpos (digits2_pos pM)) as d eqn:Ed.
  assert (Hd1 : 1 <= d) by (subst d; lia).
  rewrite fexp_eq.
  set (e' := Z.max (d + e - 53) (-1074)).
  assert (He' : e' <= e) by (subst e'; lia).
  pose proof (shl_align_value pM e e' He') as Hv.
  destruct (shl_align pM e e') as [mz ez] eqn:Es. cbn [fst] in Hv.
  assert (Hez : ez = e').
  { unfold shl_align in Es. destruct (e' - e) as [|q|q] eqn:E;
      injection Es as _ <-; lia. }
  subst ez.
  assert (Hdz : Zpos (digits2_pos mz) = d + (e - e')).
  { rewrite (digits_shift pM (e - e') mz) by (auto; lia). now subst d. }
  unfold binary_round_aux.
  assert (X : fexp 53 1024 (Zdigits2 (Zpos mz) + e') - e' = 0).
  { rewrite fexp_eq. cbn [Zdigits2]. rewrite Hdz. subst e'. clear - Hd Hd1 He. lia. }
  rewrite (shr_fexp_keep (Zpos mz) e') by exact X.
  cbn [mrs0 shr_m loc_of_shr_record shr_r shr_s round_nearest_even].
  rewrite (shr_fexp_keep (Zpos mz) e') by exact X.
  cbn [mrs0 shr_m].
  replace (e' <=? 1024 - 53) with true by lia.
  exists mz, e'. auto.
Qed.

Lemma shr_nonneg (M e N : Z) :
  0 <= M -> 0 <= shr_m (fst (shr (mrs0 M) e N)).
Proof.
  intros H. unfold shr. destruct N as [|p|p]; cbn [fst mrs0 shr_m]; auto.
  now destruct (shifted_iter_pos M p H) as [Hm _].
Qed.

Lemma round_nearest_even_nonneg (m : Z) (l : location) :
  0 <= m -> 0 <= round_nearest_even m l.
Proof.
  intros H. destruct l as [|[| |]]; cbn [round_nearest_even];
    try destruct (Z.even m); lia.
Qed.

Lemma round_aux_sign (sx : bool) (M e : Z) :
  0 <= M -> has_sign sx (binary_round_aux 53 1024 sx M e loc_Exact).
Proof.
  intros H. unfold binary_round_aux, shr_fexp.
  change (shr_record_of_loc M loc_Exact) with (mrs0 M).
  pose proof (shr_nonneg M e (fexp 53 1024 (Zdigits2 M + e) - e) H) as H1.
  destruct (shr (mrs0 M) e _) as [mrs' e']. cbn [fst] in H1.
  pose proof (round_nearest_even_nonneg _ (loc_of_shr_record mrs') H1) as H2.
  set (z := round_nearest_even (shr_m mrs') (loc_of_shr_record mrs')) in *.
  change (shr_record_of_loc z loc_Exact) with (mrs0 z).
  pose proof (shr_nonneg z e' (fexp 53 1024 (Zdigits2 z + e') - e') H2) as H3.
  destruct (shr (mrs0 z) e' _) as [mrs'' e'']. cbn [fst] in H3.
  destruct (shr_m mrs'') as [|p|p].
  - reflexivity.
  - destruct (e'' <=? 1024 - 53); reflexivity.
  - lia.
Qed.

Lemma round_sign (sx : bool) (pM : positive) (e : Z) :
  has_sign sx (binary_round 53 1024 sx pM e).
Proof.
  unfold binary_round. destruct (shl_align pM e _) as [mz ez].
  apply round_aux_sign. lia.
Qed.

Lemma eps6_eq : F64.eps6 = S754_finite false mc (-72).
Proof. reflexivity. Qed.

Lemma mc_bounds : 2 ^ 52 < Zpos mc < 2 ^ 53.
Proof. unfold mc. split; reflexivity. Qed.

Lemma valid_finite (s : bool) (m : positive) (e : Z) :
  F64.valid (S754_finite s m e) = true ->
  -1074 <= e <= 971
  /\ Zpos m < 2 ^ 53
  /\ (-1074 < e -> 2 ^ 52 <= Zpos m).
Proof.
  unfold F64.valid, valid_binary, bounded, canonical_mantissa.
  intros H. apply andb_true_iff in H as [H1 H2].
  apply Z.eqb_eq in H1. apply Z.leb_le in H2.
  rewrite fexp_eq in H1.
  pose proof (digits_bounds m) as [Dl Du].
  remember (Zpos (digits2_pos m)) as d eqn:Ed.
  assert (Hd1 : 1 <= d) by (subst d; lia). clear Ed.
  unfold F64.emax, F64.prec in *.
  assert (Hd : d <= 53) by lia.
  split; [lia|]. split.
  - assert (2 ^ d <= 2 ^ 53) by (apply Z.pow_le_mono_r; lia). lia.
  - intros He. assert (d = 53) by lia. subst d. exact Dl.
Qed.

Lemma pow2_lt_inv (a b : Z) : 0 <= b -> 2 ^ a < 2 ^ b -> a < b.
Proof.
  intros Hb H. destruct (Z_lt_dec a b); auto.
  assert (2 ^ b <= 2 ^ a) by (apply Z.pow_le_mono_r; lia). lia.
Qed.

Lemma add_eps_unfold (s : bool) (m : positive) (e : Z) :
  F64.add (S754_finite s m e) F64.eps6
  = binary_normalize 53 1024
      (cond_Zopp s (Zpos m * 2 ^ (e - Z.min e (-72)))
       + Zpos mc * 2 ^ (-72 - Z.min e (-72)))
      (Z.min e (-72)) false.
Proof.
  rewrite eps6_eq. unfold F64.add, SFadd. cbv zeta.
  rewrite !shl_align_value by lia. reflexivity.
Qed.

Lemma add_eps_positive (m : positive) (e : Z) :
  F64.valid (S754_finite false m e) = true -> e <= -19 ->
  exists m2 e2,
    F64.add (S754_finite false m e) F64.eps6 = S754_finite false m2 e2
    /\ (e < e2 \/ (e2 = e /\ Zpos m < Zpos m2)).
Proof.
  intros Hv He. destruct (valid_finite _ _ _ Hv) as (Hr & Hm & Hn).
  pose proof mc_bounds as Hc.
  rewrite add_eps_unfold. cbn [cond_Zopp].
  destruct (Z_le_dec (-72) e) as [Hge|Hlt].
  - (* the exponent of [v] is at least that of [1e-6] *)
    replace (Z.min e (-72)) with (-72) by lia.
    replace (-72 - -72) with 0 by lia. rewrite Z.pow_0_r, Z.mul_1_r.
    remember (e - -72) as k eqn:Ek.
    assert (Hk : 0 <= k <= 53) by lia.
    assert (HP : 0 < 2 ^ k) by (apply Z.pow_pos_nonneg; lia).
    assert (Hm52 : 2 ^ 52 <= Zpos m) by (apply Hn; lia).
    assert (HPk : 2 ^ (52 + k) = 2 ^ 52 * 2 ^ k) by (apply Z.pow_add_r; lia).
    assert (HPk4 : 2 ^ (54 + k) = 2 ^ 54 * 2 ^ k) by (apply Z.pow_add_r; lia).
    remember (2 ^ k) as P eqn:EP.
    remember (Zpos m * P + Zpos mc) as M eqn:EM.
    destruct M as [|pM|pM]; try nia.
    cbn [binary_normalize].
    pose proof (digits_bounds pM) as [Dl Du].
    remember (Zpos (digits2_pos pM)) as d eqn:Ed.
    assert (Hd1 : 1 <= d) by (subst d; lia).
    assert (Hd54 : 53 < d) by (apply pow2_lt_inv; [lia|]; nia).
    assert (Hdlo : 52 + k < d) by (apply pow2_lt_inv; [lia|]; nia).
    assert (Hdhi : d - 1 < 54 + k) by (apply pow2_lt_inv; [lia|]; nia).
    assert (Hdn : Zpos (digits2_pos pM) = 53 + (d - 53)) by (rewrite <- Ed; lia).
    destruct (round_long false pM (-72) (d - 53) Hdn)
      as (m2 & e2 & z & Hres & Hrd & Hz & Halt); try lia.
    rewrite Hres. exists m2, e2. split; [reflexivity|].
    destruct Halt as [(Hz1 & Hm2 & He2)|(Hz1 & Hm2 & He2)]; [|left; lia].
    destruct (Z.eq_dec (d - 53) k) as [En|En]; [|left; lia].
    right. split; [lia|]. rewrite Hm2.
    destruct Hrd as (m' & rem & HM & Hrem & Hm' & Hmz & Hlo & Hhi).
    rewrite En, <- EP in HM, Hrem, Hlo, Hhi.
    destruct (Z.eq_dec k 53) as [E53|E53].
    + assert (P = 2 ^ 53) by (rewrite EP, E53; reflexivity).
      assert (m' = Zpos m) by nia. assert (rem = Zpos mc) by nia.
      assert (z = m' + 1) by (apply Hhi; lia). lia.
    + assert (P <= 2 ^ 52) by (subst P; apply Z.pow_le_mono_r; lia).
      assert (Zpos m + 1 <= m') by nia. lia.
  - (* [1e-6] has the larger exponent *)
    replace (Z.min e (-72)) with e by lia.
    replace (e - e) with 0 by lia. rewrite Z.pow_0_r, Z.mul_1_r.
    remember (-72 - e) as j eqn:Ej.
    assert (Hj : 1 <= j) by lia.
    assert (HP : 2 <= 2 ^ j).
    { change 2 with (2 ^ 1) at 1. apply Z.pow_le_mono_r; lia. }
    assert (HPj : 2 ^ (52 + j) = 2 ^ 52 * 2 ^ j) by (apply Z.pow_add_r; lia).
    assert (HPj4 : 2 ^ (54 + j) = 2 ^ 54 * 2 ^ j) by (apply Z.pow_add_r; lia).
    remember (2 ^ j) as P eqn:EP.
    remember (Zpos m + Zpos mc * P) as M eqn:EM.
    destruct M as [|pM|pM]; try nia.
    cbn [binary_normalize].
    pose proof (digits_bounds pM) as [Dl Du].
    remember (Zpos (digits2_pos pM)) as d eqn:Ed.
    assert (Hd1 : 1 <= d) by (subst d; lia).
    assert (Hdlo : 52 + j < d) by (apply pow2_lt_inv; [lia|]; nia).
    assert (Hdhi : d - 1 < 54 + j) by (apply pow2_lt_inv; [lia|]; nia).
    assert (Hdn : Zpos (digits2_pos pM) = 53 + (d - 53)) by (rewrite <- Ed; lia).
    destruct (round_long false pM e (d - 53) Hdn)
      as (m2 & e2 & z & Hres & Hrd & Hz & Halt); try lia.
    rewrite Hres. exists m2, e2. split; [reflexivity|].
    left. destruct Halt as [(_ & _ & He2)|(_ & _ & He2)]; lia.
Qed.

Lemma add_eps_negative (m : positive) (e : Z) :
  F64.valid (S754_finite true m e) = true -> e <= -19 ->
  has_sign false (F64.add (S754_finite true m e) F64.eps6)
  \/ exists m2 e2,
       F64.add (S754_finite true m e) F64.eps6 = S754_finite true m2 e2
       /\ (e2 < e \/ (e2 = e /\ Zpos m2 < Zpos m)).
Proof.
  intros Hv He. destruct (valid_finite _ _ _ Hv) as (Hr & Hm & Hn).
  pose proof mc_bounds as Hc.
  rewrite add_eps_unfold. cbn [cond_Zopp].
  remember (- (Zpos m * 2 ^ (e - Z.min e (-72)))
            + Zpos mc * 2 ^ (-72 - Z.min e (-72))) as M eqn:EM.
  destruct M as [|pM|pM].
  - left. reflexivity.
  - left. cbn [binary_normalize]. apply round_sign.
  - right. cbn [binary_normalize].
    assert (Hge : -72 <= e).
    { destruct (Z_le_dec (-72) e) as [|Hlt]; auto. exfalso.
      replace (Z.min e (-72)) with e in EM by lia.
      replace (e - e) with 0 in EM by lia.
      rewrite Z.pow_0_r, Z.mul_1_r in EM.
      assert (HP : 2 <= 2 ^ (-72 - e)).
      { change 2 with (2 ^ 1) at 1. apply Z.pow_le_mono_r; lia. }
      nia. }
    replace (Z.min e (-72)) with (-72) in * by lia.
    replace (-72 - -72) with 0 in EM by lia.
    rewrite Z.pow_0_r, Z.mul_1_r in EM.
    remember (e - -72) as k eqn:Ek.
    assert (Hk : 0 <= k <= 53) by lia.
    assert (HP : 0 < 2 ^ k) by (apply Z.pow_pos_nonneg; lia).
    assert (Hm52 : 2 ^ 52 <= Zpos m) by (apply Hn; lia).
    assert (HPk : 2 ^ (53 + k) = 2 ^ 53 * 2 ^ k) by (apply Z.pow_add_r; lia).
    assert (EM' : Zpos pM = Zpos m * 2 ^ k - Zpos mc) by lia. clear EM.
    pose proof (digits_bounds pM) as [Dl Du].
    remember (Zpos (digits2_pos pM)) as d eqn:Ed.
    assert (Hd1 : 1 <= d) by (subst d; lia).
    assert (Hdhi : d - 1 < 53 + k) by (apply pow2_lt_inv; [lia|]; nia).
    destruct (Z_le_dec d 53) as [Hshort|Hlong].
    + (* the difference has at most 53 digits: it is exact *)
      assert (Hs : Zpos (digits2_pos pM) <= 53) by (rewrite <- Ed; exact Hshort).
      destruct (round_short true pM (-72) Hs) as (mz & e' & Hres & He' & Hle & Hmz);
        try lia.
      rewrite <- Ed in He'.
      rewrite Hres. exists mz, e'. split; [reflexivity|].
      destruct (Z.eq_dec e' e) as [Ee|Ee]; [|left; lia].
      right. split; [exact Ee|].
      assert (Hk0 : k = 0) by lia. assert (e' = -72) by lia.
      replace (-72 - e') with 0 in Hmz by lia.
      rewrite Hk0 in EM'. rewrite Z.pow_0_r in Hmz, EM'. lia.
    + (* it is longer: shifted right by [d - 53] and rounded *)
      assert (Hdn : Zpos (digits2_pos pM) = 53 + (d - 53)) by (rewrite <- Ed; lia).
      destruct (round_long true pM (-72) (d - 53) Hdn)
        as (m2 & e2 & z & Hres & Hrd & Hz & Halt); try lia.
      rewrite Hres. exists m2, e2. split; [reflexivity|].
      destruct Hrd as (m' & rem & HM & Hrem & Hm' & Hmz & Hlo & Hhi).
      remember (d - 53) as n eqn:En.
      assert (Hn1 : 1 <= n <= k) by lia.
      destruct Halt as [(Hz1 & Hm2 & He2)|(Hz1 & Hm2 & He2)].
      * destruct (Z.eq_dec n k) as [Enk|Enk]; [|left; lia].
        right. split; [lia|]. rewrite Hm2. rewrite Enk in *.
        remember (2 ^ k) as P eqn:EP.
        destruct (Z.eq_dec k 53) as [E53|E53].
        -- assert (P = 2 ^ 53) by (rewrite EP, E53; reflexivity).
           assert (m' <= Zpos m - 1) by nia.
           assert (Zpos m - 1 <= m') by nia.
           assert (rem = P - Zpos mc) by nia.
           assert (z = m') by (apply Hlo; lia). lia.
        -- assert (P <= 2 ^ 52) by (subst P; apply Z.pow_le_mono_r; lia).
           assert (m' <= Zpos m - 2) by nia. lia.
      * assert (HQ : 0 < 2 ^ n) by (apply Z.pow_pos_nonneg; lia).
        destruct (Z.eq_dec n k) as [Enk|Enk].
        -- exfalso. rewrite Enk in *. nia.
        -- destruct (Z.eq_dec (n + 1) k) as [En1|En1]; [|left; lia].
           right. split; [lia|]. rewrite Hm2.
           assert (EPQ : 2 ^ k = 2 * 2 ^ n).
           { rewrite <- En1, Z.pow_add_r, Z.pow_1_r by lia. ring. }
           assert (HQle : 2 ^ n <= 2 ^ 52) by (apply Z.pow_le_mono_r; lia).
           remember (2 ^ n) as Q eqn:EQ. rewrite EPQ in EM'.
           destruct (Z_le_dec (2 ^ 53) m') as [Hbig|Hsmall]; [nia|].
           assert (m' = 2 ^ 53 - 1) by lia.
           assert (Q <= 2 * rem).
           { destruct (Z_lt_dec (2 * rem) Q) as [Hl|]; [|lia].
             specialize (Hlo Hl). lia. }
           nia.
Qed.

Lemma compare_cont_lt (a b : positive) :
  Zpos a < Zpos b -> Pos.compare_cont Eq a b = Lt.
Proof. intros H. change (Pos.compare a b = Lt). apply Pos.compare_lt_iff. lia. Qed.

Lemma compare_cont_gt (a b : positive) :
  Zpos b < Zpos a -> Pos.compare_cont Eq a b = Gt.
Proof. intros H. change (Pos.compare a b = Gt). apply Pos.compare_gt_iff. lia. Qed.

(** A valid float below [2^34] in magnitude has an exponent of at most -19. *)
Lemma below_two34 (s : bool) (m : positive) (e : Z) :
  F64.valid (S754_finite s m e) = true ->
  F64.ltb (SFabs (S754_finite s m e)) (F64.of_Z (2 ^ 34)) = true ->
  e <= -19.
Proof.
  intros Hv Hlt. destruct (valid_finite _ _ _ Hv) as (Hr & Hm & Hn).
  change (F64.of_Z (2 ^ 34))
    with (S754_finite false 4503599627370496 (-18)) in Hlt.
  unfold F64.ltb, SFltb, SFabs, SFcompare in Hlt.
  destruct (Z.compare e (-18)) eqn:E.
  - apply Z.compare_eq in E. subst e.
    assert (H52 : 2 ^ 52 <= Zpos m) by (apply Hn; lia).
    change (2 ^ 52) with 4503599627370496 in H52.
    destruct (Z.eq_dec (Zpos m) 4503599627370496) as [Em|Em].
    + injection Em as ->. discriminate Hlt.
    + rewrite compare_cont_gt in Hlt; [discriminate|]. clear - H52 Em. lia.
  - assert (H' : e < -18) by exact E. lia.
  - discriminate.
Qed.

(** Adding [1e-6] to a float below [2^34] in magnitude gives a greater
    float. *)
Lemma add_eps_above (v : float) :
  F64.valid v = true -> F64.isfinite v = true ->
  F64.ltb (SFabs v) (F64.of_Z (2 ^ 34)) = true ->
  F64.ltb v (F64.add v F64.eps6) = true.
Proof.
  intros Hv Hf Hlt. destruct v as [s|s| |s m e]; try discriminate.
  - destruct s; reflexivity.
  - pose proof (below_two34 s m e Hv Hlt) as He.
    destruct s.
    + destruct (add_eps_negative m e Hv He) as [Hs|(m2 & e2 & -> & Hc)].
      * destruct (F64.add _ _) as [s'|s'| |s' m' e']; cbn [has_sign] in Hs;
          try subst s'; try reflexivity. contradiction.
      * unfold F64.ltb, SFltb, SFcompare.
        destruct Hc as [Hc|[-> Hc]].
        -- replace (Z.compare e e2) with Gt
             by (symmetry; apply Z.compare_gt_iff; lia).
           reflexivity.
        -- rewrite Z.compare_refl, (compare_cont_gt m m2 Hc). reflexivity.
    + destruct (add_eps_positive m e Hv He) as (m2 & e2 & -> & Hc).
      unfold F64.ltb, SFltb, SFcompare.
      destruct Hc as [Hc|[-> Hc]].
      * replace (Z.compare e e2) with Lt
          by (symmetry; apply Z.compare_lt_iff; lia).
        reflexivity.
      * rewrite Z.compare_refl, (compare_cont_lt m m2 Hc). reflexivity.
Qed.

End RoundFacts.

(** ** The display range *)

Module RangeFacts.
Import Spec.
Import Builtins Visualizer.

Lemma compare_cont_refl (m : positive) : Pos.compare_cont Eq m m = Eq.
Proof. apply Pos.compare_refl. Qed.

(** [==] on floats: the same float, or two zeros. *)
Lemma eqb_cases (x v : float) :
  F64.eqb x v = true ->
  x = v \/ exists s s', x = S754_zero s /\ v = S754_zero s'.
Proof.
  unfold F64.eqb, SFeqb, SFcompare.
  destruct x as [sx|sx| |sx mx ex], v as [sv|sv| |sv mv ev]; intros H;
    try discriminate H; eauto.
  all: try (destruct sx; discriminate H).
  all: try (destruct sv; discriminate H).
  - destruct sx, sv; try discriminate H; auto.
  - destruct sx, sv; try discriminate H;
      destruct (Z.compare ex ev) eqn:Ee; try discriminate H;
      apply Z.compare_eq in Ee; subst ev;
      destruct (Pos.compare_cont Eq mx mv) eqn:Em; try discriminate H;
      apply Pos.compare_eq in Em; subst mv; auto.
Qed.

Lemma eqb_refl_finite (v : float) : F64.isfinite v = true -> F64.eqb v v = true.
Proof.
  unfold F64.eqb, SFeqb, SFcompare.
  destruct v as [s|s| |s m e]; try discriminate; auto.
  intros _. destruct s; rewrite Z.compare_refl, compare_cont_refl; reflexivity.
Qed.

Lemma eqb_finite (x v : float) :
  F64.eqb x v = true -> F64.isfinite v = true -> F64.isfinite x = true.
Proof. intros H Hv. apply eqb_cases in H as [->|(s & s' & -> & _)]; auto. Qed.

(** Two floats equal to a finite [v] are equal to each other, and ordered
    both ways. *)
Lemma eqb_same (a b v : float) :
  F64.isfinite v = true -> F64.eqb a v = true -> F64.eqb b v = true ->
  F64.eqb a b = true /\ F64.leb a b = true.
Proof.
  intros Hv Ha Hb.
  apply eqb_cases in Ha as [->|(s & s' & -> & ->)];
    apply eqb_cases in Hb as [->|(t & t' & -> & Hb)]; try discriminate.
  - pose proof (eqb_refl_finite v Hv) as H. split; auto.
    unfold F64.eqb, SFeqb in H. unfold F64.leb, SFleb.
    destruct (SFcompare v v) as [[| |]|]; auto; discriminate.
  - rewrite Hb. auto.
  - auto.
  - auto.
Qed.

Lemma add_eps_same (a v : float) :
  F64.eqb a v = true -> F64.add a F64.eps6 = F64.add v F64.eps6.
Proof.
  intros H. apply eqb_cases in H as [->|(s & s' & -> & ->)]; reflexivity.
Qed.

Lemma sample_cases (v x : float) :
  sample_of v x = true -> x = S754_nan \/ x = pinf \/ F64.eqb x v = true.
Proof.
  unfold sample_of. intros H.
  apply orb_true_iff in H as [H|H]; [apply orb_true_iff in H as [H|H]|]; auto.
  - left. destruct x; try discriminate; auto.
  - right. left. apply eqb_cases in H as [->|(s & s' & _ & H)]; auto.
    discriminate.
Qed.

Lemma finite_below_pinf (a : float) :
  F64.isfinite a = true -> F64.leb a pinf = true /\ F64.leb pinf a = false.
Proof. destruct a as [s|s| |s m e]; try discriminate; auto. Qed.

Lemma isnan_false_finite (a : float) :
  F64.isfinite a = true -> F64.isnan a = false.
Proof. destruct a; try discriminate; auto. Qed.

Lemma pinf_differs (v : float) :
  F64.isfinite v = true -> F64.eqb pinf v = false.
Proof. destruct v as [s|s| |s m e]; try discriminate; auto. Qed.

Lemma Exists_tail {A} (P : A -> Prop) (b : A) (r : list A) :
  Exists P (b :: r) -> ~ P b -> Exists P r.
Proof. intros H Hn. inversion H; subst; tauto. Qed.

(** What the reduction of [fmin] holds while it runs over such samples. *)
Lemma fold_fmin_uniform (v : float) (r : list float) (acc : float) :
  F64.isfinite v = true ->
  Forall (fun x => sample_of v x = true) r ->
  F64.eqb acc v = true
  \/ ((acc = S754_nan \/ acc = pinf) /\ Exists (fun x => F64.eqb x v = true) r) ->
  F64.eqb (fold_left F64.fmin r acc) v = true.
Proof.
  intros Hv. revert acc. induction r as [|b r IH]; intros acc Hall Hacc.
  - destruct Hacc as [H|[_ H]]; auto. inversion H.
  - inversion Hall as [|? ? Hb Hr]; subst. cbn [fold_left]. apply IH; auto.
    destruct (sample_cases v b Hb) as [->|[->|Hbv]].
    + (* a NaN is skipped *)
      assert (E : F64.fmin acc S754_nan = acc).
      { unfold F64.fmin. cbn [F64.isnan]. now rewrite orb_true_r. }
      rewrite E. destruct Hacc as [H|[Hc H]]; auto. right. split; auto.
      inversion H; subst; auto. discriminate.
    + (* [+inf] never wins *)
      destruct Hacc as [H|[[->| ->] H]].
      * left. unfold F64.fmin.
        destruct (finite_below_pinf acc (eqb_finite _ _ H Hv)) as [-> _]. auto.
      * right. split; [right; reflexivity|].
        apply Exists_tail in H; auto. now rewrite (pinf_differs v Hv).
      * right. split; [right; reflexivity|].
        apply Exists_tail in H; auto. now rewrite (pinf_differs v Hv).
    + (* a sample equal to [v] *)
      left. pose proof (eqb_finite _ _ Hbv Hv) as Hbf.
      unfold F64.fmin. rewrite (isnan_false_finite b Hbf), orb_false_r.
      destruct Hacc as [H|[[->| ->] _]].
      * destruct (eqb_same acc b v Hv H Hbv) as [_ ->]. auto.
      * replace (F64.leb S754_nan b) with false by reflexivity. auto.
      * destruct (finite_below_pinf b Hbf) as [_ ->]. auto.
Qed.

(** The reduction of [fmax] ends at [+inf] or at a sample equal to [v]. *)
Lemma fold_fmax_uniform (v : float) (r : list float) (acc : float) :
  F64.isfinite v = true ->
  Forall (fun x => sample_of v x = true) r ->
  sample_of v acc = true ->
  (F64.eqb acc v = true \/ acc = pinf \/ Exists (fun x => F64.eqb x v = true) r) ->
  fold_left F64.fmax r acc = pinf
  \/ F64.eqb (fold_left F64.fmax r acc) v = true.
Proof.
  intros Hv. revert acc. induction r as [|b r IH]; intros acc Hall Hs Hacc.
  - cbn [fold_left]. destruct Hacc as [H|[H|H]]; auto. inversion H.
  - inversion Hall as [|? ? Hb Hr]; subst. cbn [fold_left].
    destruct (sample_cases v b Hb) as [->|[->|Hbv]].
    + assert (E : F64.fmax acc S754_nan = acc).
      { unfold F64.fmax. cbn [F64.isnan]. now rewrite orb_true_r. }
      rewrite E. apply IH; auto.
      destruct Hacc as [H|[H|H]]; auto.
      inversion H; subst; auto. discriminate.
    + assert (E : F64.fmax acc pinf = pinf).
      { destruct (sample_cases v acc Hs) as [->|[->|Ha]]; auto.
        unfold F64.fmax.
        destruct (finite_below_pinf acc (eqb_finite _ _ Ha Hv)) as [_ ->].
        reflexivity. }
      rewrite E. apply IH; auto.
    + pose proof (eqb_finite _ _ Hbv Hv) as Hbf.
      assert (E : F64.fmax acc b = acc /\ acc <> S754_nan \/ F64.fmax acc b = b).
      { unfold F64.fmax. rewrite (isnan_false_finite b Hbf), orb_false_r.
        destruct (F64.leb b acc) eqn:El; auto.
        left. split; auto. intros ->. destruct b; discriminate. }
      destruct E as [[-> Hn]| ->].
      * apply IH; auto.
        destruct (sample_cases v acc Hs) as [->|[->|Ha]]; auto; congruence.
      * apply IH; auto; unfold sample_of; rewrite Hbv; apply orb_true_r.
Qed.

Lemma minmax_uniform (data : ndarray) (v : float) :
  F64.isfinite v = true -> uniform_at v (samples data) ->
  exists lo,
    minmax_limits data = Ok (lo, F64.add v F64.eps6) /\ F64.eqb lo v = true.
Proof.
  intros Hv [Hall Hex]. unfold minmax_limits.
  destruct (samples data) as [|x r]; [inversion Hex|].
  inversion Hall as [|? ? Hx Hr]; subst.
  assert (Hlo : F64.eqb (fold_left F64.fmin r x) v = true).
  { apply fold_fmin_uniform; auto.
    destruct (sample_cases v x Hx) as [->|[->|Hxv]]; auto.
    - right. split; auto.
      apply Exists_tail in Hex; auto. intros C; discriminate C.
    - right. split; auto.
      apply Exists_tail in Hex; auto. now rewrite (pinf_differs v Hv). }
  assert (Hhi : fold_left F64.fmax r x = pinf
                \/ F64.eqb (fold_left F64.fmax r x) v = true).
  { apply fold_fmax_uniform; auto.
    destruct (sample_cases v x Hx) as [->|[->|Hxv]]; auto.
    right. right. apply Exists_tail in Hex; auto. intros C; discriminate C. }
  cbn [nanmin nanmax bind].
  set (lo := fold_left F64.fmin r x) in *.
  set (hi := fold_left F64.fmax r x) in *.
  exists lo. split; auto.
  rewrite (eqb_finite lo v Hlo Hv). cbn [negb].
  assert (E : negb (F64.isfinite hi) || F64.eqb hi lo = true).
  { destruct Hhi as [->|Hhi]; auto.
    destruct (eqb_same hi lo v Hv Hhi Hlo) as [-> _]. apply orb_true_r. }
  rewrite E. now rewrite (add_eps_same lo v Hlo).
Qed.

Lemma fold_nan (f : float -> float -> float) (r : list float) :
  (forall b, F64.isnan b = true -> f S754_nan b = S754_nan) ->
  Forall (fun x => F64.isnan x = true) r ->
  fold_left f r S754_nan = S754_nan.
Proof.
  intros Hf. induction 1 as [|b r Hb Hr IH]; cbn [fold_left]; auto.
  now rewrite (Hf b Hb).
Qed.

Lemma minmax_all_nan (data : ndarray) :
  samples data <> [] ->
  Forall (fun x => F64.isnan x = true) (samples data) ->
  minmax_limits data = Ok (F64.zero, F64.eps6).
Proof.
  intros Hne Hall. unfold minmax_limits.
  destruct (samples data) as [|x r]; [congruence|].
  inversion Hall as [|? ? Hx Hr]; subst.
  destruct x; try discriminate. cbn [nanmin nanmax bind].
  rewrite !fold_nan; auto.
  - intros b Hb. destruct b; try discriminate. reflexivity.
  - intros b Hb. destruct b; try discriminate. reflexivity.
Qed.

(** C2, as the code has it. When neither library tier returns an accepted
    range: for a finite [v] and an array whose samples are each NaN, [+inf]
    or equal to [v], [v] occurring, the resolved range has [min == v] and
    [max] the binary64 sum [v + 1e-6], and [max > min] when [v] is a
    binary64 value below [2^34] in magnitude; and for a non-empty array of
    NaN only the range is [(0.0, 1e-6)]. *)
Theorem fallback_limits (rt : Runtime) (data : ndarray) :
  zscale_limits rt data = None ->
  percentile_limits rt data = None ->
  (forall v,
      F64.isfinite v = true -> uniform_at v (samples data) ->
      exists lo,
        _get_interval_limits rt data = (lo, F64.add v F64.eps6)
        /\ F64.eqb lo v = true
        /\ (F64.valid v = true ->
            F64.ltb (SFabs v) (F64.of_Z (2 ^ 34)) = true ->
            F64.ltb lo (F64.add v F64.eps6) = true))
  /\ (samples data <> [] ->
      Forall (fun x => F64.isnan x = true) (samples data) ->
      _get_interval_limits rt data = (F64.zero, F64.eps6)).
Proof.
  intros Hz Hp. unfold _get_interval_limits. rewrite Hz, Hp. split.
  - intros v Hv Hu. destruct (minmax_uniform data v Hv Hu) as (lo & -> & Hlo).
    exists lo. split; [reflexivity|]. split; [exact Hlo|].
    intros Hval Hsmall.
    destruct (eqb_cases lo v Hlo) as [->|(s & s' & -> & ->)].
    + now apply RoundFacts.add_eps_above.
    + destruct s; reflexivity.
  - intros Hne Hall. now rewrite (minmax_all_nan data Hne Hall).
Qed.

Lemma fallback_limits_witness :
  _get_interval_limits Samples.runtime
    (Samples.float_image [2; 2]
       [Samples.f3_5; S754_nan; Samples.f3_5; Samples.f3_5])
  = (Samples.f3_5, F64.add Samples.f3_5 F64.eps6)
  /\ F64.ltb Samples.f3_5 (F64.add Samples.f3_5 F64.eps6) = true
  /\ _get_interval_limits Samples.runtime
       (Samples.float_image [1; 2] [S754_nan; S754_nan])
     = (F64.zero, F64.eps6).
Proof.
  destruct (fallback_limits Samples.runtime
              (Samples.float_image [2; 2]
                 [Samples.f3_5; S754_nan; Samples.f3_5; Samples.f3_5])
              eq_refl eq_refl) as (H & _).
  destruct (H Samples.f3_5 eq_refl) as (lo & Hlim & Hlo & Hlt).
  { split; [repeat constructor|]. left. reflexivity. }
  assert (E : lo = Samples.f3_5).
  { apply eqb_cases in Hlo as [->|(s & s' & _ & C)]; [reflexivity|].
    discriminate C. }
  subst lo. split; [exact Hlim|]. split; [apply Hlt; reflexivity|].
  destruct (fallback_limits Samples.runtime
              (Samples.float_image [1; 2] [S754_nan; S754_nan])
              eq_refl eq_refl) as (_ & Hnan).
  apply Hnan; [discriminate|repeat constructor].
Defined.

(** A 1 x 1 image holding [2^60]: both library tiers return the flat range
    and are passed over, and the fallback adds [1e-6] to [2^60], which is
    [2^60] again: the resolved range is flat. *)
Lemma flat_range_counterexample :
  zscale_limits Samples.runtime
    (Samples.float_image [1; 1] [F64.of_Z (2 ^ 60)]) = None
  /\ percentile_limits Samples.runtime
       (Samples.float_image [1; 1] [F64.of_Z (2 ^ 60)]) = None
  /\ _get_interval_limits Samples.runtime
       (Samples.float_image [1; 1] [F64.of_Z (2 ^ 60)])
     = (F64.of_Z (2 ^ 60), F64.of_Z (2 ^ 60))
  /\ F64.add (F64.of_Z (2 ^ 60)) F64.eps6 = F64.of_Z (2 ^ 60)
  /\ F64.ltb (F64.of_Z (2 ^ 60)) (F64.add (F64.of_Z (2 ^ 60)) F64.eps6) = false.
Proof. repeat split; reflexivity. Qed.

(** A sample [-inf] beside the finite value: the minimum of the range is
    [0.0], not the value. *)
Remark minus_infinity_sample :
  minmax_limits (Samples.float_image [1; 2] [Samples.f3_5; S754_infinity true])
  = Ok (F64.zero, Samples.f3_5).
Proof. reflexivity. Qed.

End RangeFacts.

(* ================================================================= *)
(** ** Strings *)

Module StringFacts.
Import Spec.

Lemma append_assoc (a b c : string) :
  ((a ++ b) ++ c)%string = (a ++ (b ++ c))%string.
Proof. induction a; simpl; congruence. Qed.

Lemma rev_onto_app (s acc : string) :
  PyStr.rev_onto s acc = (PyStr.rev s ++ acc)%string.
Proof.
  unfold PyStr.rev. revert acc.
  induction s as [|c s IH]; intros acc; simpl; [reflexivity|].
  rewrite IH, (IH (String c EmptyString)).
  rewrite append_assoc. reflexivity.
Qed.

Lemma append_empty_r (s : string) : (s ++ "")%string = s.
Proof. induction s; simpl; congruence. Qed.

Lemma rev_cons (c : ascii) (s : string) :
  PyStr.rev (String c s) = (PyStr.rev s ++ String c "")%string.
Proof. unfold PyStr.rev at 1. simpl. apply rev_onto_app. Qed.

Lemma rev_app (a b : string) :
  PyStr.rev (a ++ b) = (PyStr.rev b ++ PyStr.rev a)%string.
Proof.
  induction a as [|c a IH]; simpl.
  - unfold PyStr.rev at 2. simpl. now rewrite append_empty_r.
  - rewrite !rev_cons, IH, append_assoc. reflexivity.
Qed.

Lemma rev_involutive (s : string) : PyStr.rev (PyStr.rev s) = s.
Proof.
  induction s as [|c s IH]; [reflexivity|].
  rewrite rev_cons, rev_app, IH. reflexivity.
Qed.

Lemma lstrip_head (s : string) : head_ok (PyStr.lstrip s).
Proof.
  induction s as [|c s IH]; simpl; [exact I|].
  destruct (PyStr.is_space c) eqn:E; [exact IH|]. simpl. exact E.
Qed.

Lemma lstrip_id (s : string) : head_ok s -> PyStr.lstrip s = s.
Proof. destruct s; simpl; intros H; [reflexivity|]. now rewrite H. Qed.

(** [s] is [lstrip s] after a run of spaces. *)
Lemma lstrip_split (s : string) :
  exists p, s = (p ++ PyStr.lstrip s)%string
            /\ forall q c r, p = (q ++ String c r)%string -> PyStr.is_space c = true.
Proof.
  induction s as [|c s (p & Hp & Hs)]; simpl.
  - exists EmptyString. split; [reflexivity|]. intros [|] ? ? H; discriminate H.
  - destruct (PyStr.is_space c) eqn:E.
    + exists (String c p). split; [simpl; congruence|].
      intros [|c' q] c0 r H; simpl in H; injection H as -> ->; eauto.
    + exists EmptyString. split; [reflexivity|]. intros [|] ? ? H; discriminate H.
Qed.

Lemma head_ok_app (a b : string) :
  a <> EmptyString -> head_ok (a ++ b) -> head_ok a.
Proof. destruct a; simpl; [congruence|auto]. Qed.

Lemma strip_head (s : string) : head_ok (PyStr.strip s).
Proof.
  unfold PyStr.strip.
  set (t := PyStr.lstrip s).
  assert (Ht : head_ok t) by apply lstrip_head.
  destruct (lstrip_split (PyStr.rev t)) as (p & Hp & _).
  set (u := PyStr.lstrip (PyStr.rev t)) in *.
  assert (E : t = (PyStr.rev u ++ PyStr.rev p)%string).
  { rewrite <- rev_app, <- Hp, rev_involutive. reflexivity. }
  destruct (string_dec (PyStr.rev u) EmptyString) as [E0|N0].
  - rewrite E0. exact I.
  - rewrite E in Ht. eapply head_ok_app; eauto.
Qed.

Lemma strip_tail (s : string) : head_ok (PyStr.rev (PyStr.strip s)).
Proof.
  unfold PyStr.strip. rewrite rev_involutive. apply lstrip_head.
Qed.

(** [strip] leaves nothing to strip. *)
Lemma strip_idempotent (s : string) : PyStr.strip (PyStr.strip s) = PyStr.strip s.
Proof.
  pose proof (strip_head s) as H1. pose proof (strip_tail s) as H2.
  unfold PyStr.strip at 1.
  rewrite (lstrip_id _ H1), (lstrip_id _ H2). apply rev_involutive.
Qed.

Lemma mem_In (x : string) (l : list string) : PyStr.mem x l = true <-> In x l.
Proof.
  unfold PyStr.mem. rewrite existsb_exists. split.
  - intros (y & Hy & E). apply String.eqb_eq in E. now subst.
  - intros H. exists x. split; auto. apply String.eqb_refl.
Qed.

End StringFacts.

(* ================================================================= *)
(** ** The extractor: header, units and shape *)

Module HeaderFacts.
Import Spec.
Import Builtins Parser StringFacts.

Lemma keys_set_NoDup (d : pydict) (k : string) (v : pyval) :
  NoDup (Py.keys d) -> NoDup (Py.keys (Py.set d k v)).
Proof.
  unfold Py.keys. induction d as [|[k' v'] d IH]; simpl; intros H.
  - constructor; [intros []|constructor].
  - destruct (String.eqb k k') eqn:E; simpl; [exact H|].
    inversion H as [|? ? Hn Hd]; subst. constructor; auto.
    intros Hin. apply (PyFacts.keys_set d k v) in Hin as [->|Hin]; auto.
    rewrite String.eqb_refl in E. discriminate.
Qed.

Lemma header_get_In (h : header) (k : string) :
  In k (map fst h) <-> header_get h k <> None.
Proof.
  induction h as [|[k' v] h IH]; simpl.
  - split; [intros []|congruence].
  - destruct (String.eqb k k') eqn:E.
    + apply String.eqb_eq in E. subst. split; [congruence|auto].
    + apply String.eqb_neq in E. rewrite <- IH. split; [intros [|]|]; auto.
      congruence.
Qed.

Lemma fold_left_ext {A B} (f g : A -> B -> A) (l : list B) (a : A) :
  (forall x y, f x y = g x y) -> fold_left f l a = fold_left g l a.
Proof.
  intros H. revert a. induction l as [|y l IH]; intros a; simpl; auto.
  rewrite H. apply IH.
Qed.

(** The loop of [_clean_header], with the two tests for [None] as one. *)
Lemma clean_header_loop (h : header) :
  _clean_header (Some h)
  = fold_left
      (fun out key =>
         if dropped_keyword key then out
         else match kept_card h key with
              | Some safe => Py.set out (PyStr.strip key) safe
              | None => out
              end)
      (map fst h) [].
Proof.
  unfold _clean_header. apply fold_left_ext. intros out key.
  unfold dropped_keyword, kept_card.
  destruct (_ || _); [reflexivity|].
  destruct (header_get h key) as [[| | | | |]|]; reflexivity.
Qed.

Lemma kept_value_not_None (v : hval) (safe : pyval) :
  kept_value v = Some safe -> safe <> PNone /\ v <> HNone.
Proof. destruct v; simpl; intros [= <-]; split; discriminate. Qed.

(** The loop of [_clean_header] over the keywords [ks]. *)
Lemma clean_loop_keys (h : header) (ks : list string) (acc : pydict)
    (k : string) :
  In k (Py.keys
          (fold_left
             (fun out key =>
                if dropped_keyword key then out
                else match kept_card h key with
                     | Some safe => Py.set out (PyStr.strip key) safe
                     | None => out
                     end) ks acc)) ->
  In k (Py.keys acc)
  \/ exists key, In key ks /\ k = PyStr.strip key /\ dropped_keyword key = false
                 /\ kept_card h key <> None.
Proof.
  revert acc. induction ks as [|key ks IH]; cbn [fold_left]; intros acc H; auto.
  apply IH in H as [H|(key' & Hin & E & Hd)]; [|right; exists key'; simpl; auto].
  destruct (dropped_keyword key) eqn:Ed; auto.
  destruct (kept_card h key) eqn:Ek; auto.
  apply PyFacts.keys_set in H as [->|H]; auto.
  right; exists key; simpl. repeat split; auto. congruence.
Qed.

Lemma clean_loop_NoDup (h : header) (ks : list string) (acc : pydict) :
  NoDup (Py.keys acc) ->
  NoDup (Py.keys
          (fold_left
             (fun out key =>
                if dropped_keyword key then out
                else match kept_card h key with
                     | Some safe => Py.set out (PyStr.strip key) safe
                     | None => out
                     end) ks acc)).
Proof.
  revert acc. induction ks as [|key ks IH]; cbn [fold_left]; intros acc H; auto.
  apply IH. destruct (dropped_keyword key); auto.
  destruct (kept_card h key); auto.
  now apply keys_set_NoDup.
Qed.

Lemma clean_loop_values (h : header) (ks : list string) (acc : pydict) :
  (forall k v, Py.lookup acc k = Some v -> v <> PNone) ->
  forall k v,
    Py.lookup
      (fold_left
         (fun out key =>
            if dropped_keyword key then out
            else match kept_card h key with
                 | Some safe => Py.set out (PyStr.strip key) safe
                 | None => out
                 end) ks acc) k = Some v ->
    v <> PNone.
Proof.
  revert acc. induction ks as [|key ks IH]; cbn [fold_left]; intros acc H; auto.
  apply IH. destruct (dropped_keyword key); auto.
  destruct (kept_card h key) as [safe|] eqn:Ek; auto.
  intros k v. destruct (String.eqb k (PyStr.strip key)) eqn:E.
  - apply String.eqb_eq in E. subst k. rewrite PyFacts.lookup_set_same.
    intros [= <-]. unfold kept_card in Ek.
    destruct (header_get h key); [|discriminate].
    now apply kept_value_not_None in Ek.
  - apply String.eqb_neq in E. rewrite PyFacts.lookup_set_other by congruence.
    apply H.
Qed.

Lemma clean_loop_lookup (h : header) (ks : list string) (acc : pydict)
    (k : string) :
  (forall key, In key ks -> PyStr.strip key = key) ->
  Py.lookup
    (fold_left
       (fun out key =>
          if dropped_keyword key then out
          else match kept_card h key with
               | Some safe => Py.set out (PyStr.strip key) safe
               | None => out
               end) ks acc) k
  = if PyStr.mem k ks && negb (dropped_keyword k) then
      match kept_card h k with
      | Some safe => Some safe
      | None => Py.lookup acc k
      end
    else Py.lookup acc k.
Proof.
  revert acc. induction ks as [|key ks IH]; cbn [fold_left]; intros acc Hs; auto.
  rewrite IH by (intros; apply Hs; simpl; auto).
  rewrite (Hs key) by (simpl; auto).
  unfold PyStr.mem at 2. cbn [existsb]. fold (PyStr.mem k ks).
  destruct (String.eqb k key) eqn:E; cbn [orb].
  - apply String.eqb_eq in E. subst key.
    destruct (dropped_keyword k) eqn:Ed; simpl.
    + rewrite andb_false_r. reflexivity.
    + rewrite andb_true_r.
      destruct (kept_card h k) as [v|]; [|destruct (PyStr.mem k ks); reflexivity].
      rewrite PyFacts.lookup_set_same. destruct (PyStr.mem k ks); reflexivity.
  - apply String.eqb_neq in E.
    assert (Ho : Py.lookup
                   (if dropped_keyword key then acc
                    else match kept_card h key with
                         | Some safe => Py.set acc key safe
                         | None => acc
                         end) k = Py.lookup acc k).
    { destruct (dropped_keyword key); auto. destruct (kept_card h key); auto.
      apply PyFacts.lookup_set_other. congruence. }
    rewrite Ho. reflexivity.
Qed.

(** X1. The cleaned header is a dict whose keys are the stripped keywords of
    the header, none of them empty, none coming from a COMMENT or HISTORY
    card and none from a card whose value is undefined; it holds no [None].
    When the keywords carry no surrounding whitespace (as FITS keywords
    do), it maps every other keyword whose first card has a value to the
    JSON-safe form of that value, and has no entry for a keyword whose
    first card is undefined. *)
Theorem clean_header_entries (h : header) :
  (forall k, In k (Py.keys (_clean_header (Some h))) ->
      k <> EmptyString /\ PyStr.strip k = k
      /\ exists key v, In key (map fst h) /\ k = PyStr.strip key
                       /\ dropped_keyword key = false
                       /\ header_get h key = Some v /\ v <> HNone)
  /\ NoDup (Py.keys (_clean_header (Some h)))
  /\ (forall k v, Py.lookup (_clean_header (Some h)) k = Some v -> v <> PNone)
  /\ ((forall key, In key (map fst h) -> PyStr.strip key = key) ->
      forall k,
        Py.lookup (_clean_header (Some h)) k
        = if dropped_keyword k then None
          else match header_get h k with
               | Some HNone | None => None
               | Some v => Some (_to_json_safe v)
               end).
Proof.
  rewrite clean_header_loop.
  assert (Hk : forall k,
             In k (Py.keys
                     (fold_left
                        (fun out key =>
                           if dropped_keyword key then out
                           else match kept_card h key with
                                | Some safe => Py.set out (PyStr.strip key) safe
                                | None => out
                                end) (map fst h) [])) ->
             exists key v, In key (map fst h) /\ k = PyStr.strip key
                           /\ dropped_keyword key = false
                           /\ header_get h key = Some v /\ v <> HNone).
  { intros k H.
    apply clean_loop_keys in H as [[]|(key & Hin & -> & Hd & Hv)].
    unfold kept_card in Hv.
    destruct (header_get h key) as [v|] eqn:Eg; [|congruence].
    exists key, v. repeat split; auto.
    intros ->. now apply Hv. }
  split; [|split; [|split]].
  - intros k H. destruct (Hk k H) as (key & v & Hin & -> & Hd & Hg & Hv).
    split; [|split; [apply strip_idempotent|eauto 8]].
    intros E. unfold dropped_keyword in Hd. rewrite E in Hd.
    rewrite orb_true_r in Hd. discriminate.
  - apply clean_loop_NoDup. constructor.
  - apply clean_loop_values. intros k v H. discriminate H.
  - intros Hs k. rewrite clean_loop_lookup by auto. simpl.
    destruct (dropped_keyword k); [now rewrite andb_false_r|].
    rewrite andb_true_r. unfold kept_card.
    destruct (header_get h k) as [v|] eqn:E.
    + assert (M : PyStr.mem k (map fst h) = true).
      { apply mem_In, header_get_In. congruence. }
      rewrite M. destruct v; reflexivity.
    + destruct (PyStr.mem k (map fst h)); reflexivity.
Qed.

Lemma clean_header_entries_witness :
  let h := [("SIMPLE", HBool true); ("COMMENT", HStr "made by hand");
            ("FOO", HNone); ("BITPIX", HInt 8); ("BITPIX", HInt 16)]%string in
  Py.lookup (_clean_header (Some h)) "BITPIX" = Some (PInt 8)
  /\ Py.lookup (_clean_header (Some h)) "COMMENT" = None
  /\ Py.lookup (_clean_header (Some h)) "FOO" = None.
Proof.
  intros h.
  assert (Hs : forall key, In key (map fst h) -> PyStr.strip key = key).
  { simpl. intros key [<-|[<-|[<-|[<-|[<-|[]]]]]]; reflexivity. }
  pose proof (proj2 (proj2 (proj2 (clean_header_entries h))) Hs) as H.
  split; [exact (H "BITPIX"%string)|].
  split; [exact (H "COMMENT"%string)|exact (H "FOO"%string)].
Defined.

(** The loops of [_get_units_from_header], as one loop over keywords. *)
Lemma unit_labels_lookup (rt : Runtime) (h : header) (ks : list string)
    (acc : pydict) (k : string) :
  Py.lookup (fold_left (fun u key => unit_label rt h key u) ks acc) k
  = if PyStr.mem k ks then
      match header_get h k with
      | Some v => Some (unit_text rt v)
      | None => Py.lookup acc k
      end
    else Py.lookup acc k.
Proof.
  revert acc. induction ks as [|key ks IH]; cbn [fold_left]; intros acc; auto.
  rewrite IH. unfold PyStr.mem at 2. cbn [existsb]. fold (PyStr.mem k ks).
  unfold unit_label.
  destruct (String.eqb k key) eqn:E; cbn [orb].
  - apply String.eqb_eq in E. subst key.
    destruct (header_get h k) as [v|]; [|destruct (PyStr.mem k ks); reflexivity].
    rewrite PyFacts.lookup_set_same. destruct (PyStr.mem k ks); reflexivity.
  - apply String.eqb_neq in E.
    destruct (header_get h key) as [v|]; [|reflexivity].
    rewrite PyFacts.lookup_set_other by congruence. reflexivity.
Qed.

Lemma fold_left_pairs {A B} (f : A -> B -> A) (g1 g2 : Z -> B) (l : list Z)
    (a : A) :
  fold_left (fun u i => f (f u (g1 i)) (g2 i)) l a
  = fold_left f (flat_map (fun i => [g1 i; g2 i]) l) a.
Proof. revert a. induction l; simpl; auto. Qed.

Lemma units_as_loop (rt : Runtime) (h : header) :
  _get_units_from_header rt (Some h)
  = fold_left (fun u key => unit_label rt h key u) unit_keys [].
Proof.
  unfold _get_units_from_header, unit_keys. cbn [fold_left].
  rewrite <- (fold_left_pairs (fun u key => unit_label rt h key u)
                (fun i => ("TUNIT" ++ PyStr.of_Z i)%string)
                (fun i => ("CUNIT" ++ PyStr.of_Z i)%string)).
  reflexivity.
Qed.

Lemma unit_keys_In (k : string) :
  In k unit_keys <->
  k = "BUNIT"%string
  \/ exists i, 1 <= i <= 99
               /\ (k = ("TUNIT" ++ PyStr.of_Z i)%string
                   \/ k = ("CUNIT" ++ PyStr.of_Z i)%string).
Proof.
  unfold unit_keys. cbn [In]. rewrite in_flat_map. split.
  - intros [H|(i & Hi & Hk)]; [left; congruence|right].
    apply DownsampleFacts.in_range in Hi. exists i. split; [lia|].
    destruct Hk as [<-|[<-|[]]]; auto.
  - intros [->|(i & Hi & Hk)]; [now left|right].
    exists i. split; [apply DownsampleFacts.in_range; lia|].
    destruct Hk as [->| ->]; simpl; auto.
Qed.

(** X2. The units the extractor reports: the BUNIT card, and the TUNITi
    and CUNITi cards for [i] from 1 to 99, each under its own keyword with
    the stripped text of its value; no other key appears, so that a
    hundredth column unit is never reported. *)
Theorem header_units_keys (rt : Runtime) (h : header) :
  let units := _get_units_from_header rt (Some h) in
  Py.lookup units "BUNIT" = option_map (unit_text rt) (header_get h "BUNIT")
  /\ (forall i, 1 <= i <= 99 ->
        Py.lookup units ("TUNIT" ++ PyStr.of_Z i)
        = option_map (unit_text rt) (header_get h ("TUNIT" ++ PyStr.of_Z i))
        /\ Py.lookup units ("CUNIT" ++ PyStr.of_Z i)
           = option_map (unit_text rt) (header_get h ("CUNIT" ++ PyStr.of_Z i)))
  /\ (forall k v, Py.lookup units k = Some v ->
        k = "BUNIT"%string
        \/ exists i, 1 <= i <= 99
                     /\ (k = ("TUNIT" ++ PyStr.of_Z i)%string
                         \/ k = ("CUNIT" ++ PyStr.of_Z i)%string))
  /\ Py.lookup units "TUNIT100" = None
  /\ Py.lookup units "CUNIT100" = None.
Proof.
  intros units. subst units. rewrite units_as_loop.
  assert (Hin : forall k, In k unit_keys ->
            Py.lookup (fold_left (fun u key => unit_label rt h key u) unit_keys []) k
            = option_map (unit_text rt) (header_get h k)).
  { intros k Hk. rewrite unit_labels_lookup.
    apply mem_In in Hk. rewrite Hk. destruct (header_get h k); reflexivity. }
  assert (Hout : forall k, PyStr.mem k unit_keys = false ->
            Py.lookup (fold_left (fun u key => unit_label rt h key u) unit_keys []) k
            = None).
  { intros k Hk. rewrite unit_labels_lookup, Hk. reflexivity. }
  split; [|split; [|split; [|split]]].
  - apply Hin. apply unit_keys_In. now left.
  - intros i Hi. split; apply Hin; apply unit_keys_In; right; exists i; auto.
  - intros k v Hk. apply unit_keys_In.
    destruct (PyStr.mem k unit_keys) eqn:M; [now apply mem_In|].
    rewrite Hout in Hk by auto. discriminate.
  - apply Hout. vm_compute. reflexivity.
  - apply Hout. vm_compute. reflexivity.
Qed.

Lemma header_int_card (rt : Runtime) (h : header) (k : string) :
  int_card h k ->
  header_int rt h k
  = Ok (match header_get h k with Some (HInt z) => z | _ => 0 end).
Proof.
  unfold int_card, header_int.
  destruct (header_get h k) as [[]|]; simpl; tauto.
Qed.

Lemma map_result_ok {A B} (f : A -> result B) (g : A -> B) (l : list A) :
  (forall x, In x l -> f x = Ok (g x)) -> map_result f l = Ok (map g l).
Proof.
  induction l as [|x l IH]; simpl; intros H; auto.
  rewrite (H x), IH by auto. reflexivity.
Qed.

Lemma map_result_raise {A B} (f : A -> result B) (l : list A) (x : A)
    (e : exn) :
  In x l -> f x = Raise e -> exists e', map_result f l = Raise e'.
Proof.
  induction l as [|y l IH]; simpl; intros [].
  - subst. intros ->. simpl. eauto.
  - intros Hx. destruct (f y); simpl; eauto.
    destruct (IH H Hx) as (e' & ->). simpl. eauto.
Qed.

(** X3. The shape the extractor records is read from the header alone: with
    an int NAXIS card [n] and int (or absent) NAXISi cards, it lists the
    [n] declared axis lengths, an absent one counting as 0; a header
    without NAXIS, or with NAXIS at 0 or below, gives the empty shape, and
    so does a single axis card that does not convert to an int. The dtype
    is always the text "unknown". *)
Theorem data_shape_from_header (rt : Runtime) (hdu : HDU) :
  snd (_data_shape_dtype rt hdu) = "unknown"%string
  /\ (hdu_header hdu = None -> fst (_data_shape_dtype rt hdu) = [])
  /\ (forall h, hdu_header hdu = Some h ->
        (header_get h "NAXIS" = None -> fst (_data_shape_dtype rt hdu) = [])
        /\ (forall n, header_get h "NAXIS" = Some (HInt n) ->
              (n <= 0 -> fst (_data_shape_dtype rt hdu) = [])
              /\ ((forall i, 1 <= i <= n ->
                      int_card h ("NAXIS" ++ PyStr.of_Z i)) ->
                  fst (_data_shape_dtype rt hdu)
                  = map (axis_card h) (range 1 (n + 1)))
              /\ (forall i e, 1 <= i <= n ->
                     header_int rt h ("NAXIS" ++ PyStr.of_Z i) = Raise e ->
                     fst (_data_shape_dtype rt hdu) = []))).
Proof.
  unfold _data_shape_dtype. split; [|split].
  - destruct (hdu_header hdu) as [h|]; [|reflexivity].
    destruct (header_int rt h "NAXIS") as [n|]; [|reflexivity]. simpl.
    destruct (n =? 0); [reflexivity|].
    destruct (map_result _ _); reflexivity.
  - intros ->. reflexivity.
  - intros h ->. split.
    + intros Hn. unfold header_int at 1. rewrite Hn. reflexivity.
    + intros n Hn.
      assert (E : forall k : Z -> result (list Z * string),
                 (naxis <- header_int rt h "NAXIS" ;; k naxis) = k n).
      { intros k. unfold header_int. rewrite Hn. reflexivity. }
      rewrite E. clear E.
      split; [|split].
      * intros Hle. destruct (n =? 0) eqn:E; [reflexivity|].
        rewrite DownsampleFacts.range_nil by lia. reflexivity.
      * intros Hc. destruct (n =? 0) eqn:E.
        { apply Z.eqb_eq in E. subst n. reflexivity. }
        rewrite (map_result_ok _ (axis_card h)); [reflexivity|].
        intros i Hi. apply DownsampleFacts.in_range in Hi.
        rewrite header_int_card by (apply Hc; lia). reflexivity.
      * intros i e Hi He. destruct (n =? 0) eqn:E; [reflexivity|].
        destruct (map_result_raise
                    (fun i => header_int rt h ("NAXIS" ++ PyStr.of_Z i))
                    (range 1 (n + 1)) i e) as (e' & ->); auto.
        apply DownsampleFacts.in_range. lia.
Qed.

Lemma data_shape_from_header_witness :
  fst (_data_shape_dtype Samples.runtime Samples.uniform_hdu) = [100; 100]
  /\ fst (_data_shape_dtype Samples.runtime
            {| hdu_class := "ImageHDU";
               hdu_header := Some [("NAXIS", HInt 2); ("NAXIS1", HInt 4);
                                   ("NAXIS2", HStr "four")]%string;
               data := DataNone |}) = [].
Proof.
  split.
  - destruct (data_shape_from_header Samples.runtime Samples.uniform_hdu)
      as (_ & _ & H).
    destruct (H _ eq_refl) as (_ & H').
    destruct (H' 2 eq_refl) as (_ & H2 & _).
    rewrite H2; [reflexivity|].
    intros i Hi. assert (i = 1 \/ i = 2) as [-> | ->] by lia; exact I.
  - match goal with |- fst (_ _ ?u) = _ =>
      destruct (data_shape_from_header Samples.runtime u) as (_ & _ & H) end.
    destruct (H _ eq_refl) as (_ & H').
    destruct (H' 2 eq_refl) as (_ & _ & H3).
    apply (H3 2 ValueError); [lia|reflexivity].
Defined.

End HeaderFacts.

(* ================================================================= *)
(** ** The extractor: the entry of a unit *)

Module EntryFacts.
Import Spec.
Import Builtins Parser StringFacts HeaderFacts.

Lemma lookup_update (e d : pydict) (k : string) :
  NoDup (Py.keys e) ->
  Py.lookup (Py.update d e) k
  = match Py.lookup e k with Some v => Some v | None => Py.lookup d k end.
Proof.
  unfold Py.update. revert d.
  induction e as [|[k' v'] e IH]; intros d H; simpl; [reflexivity|].
  inversion H as [|? ? Hn Hd]; subst. rewrite IH by auto.
  destruct (String.eqb k k') eqn:E.
  - apply String.eqb_eq in E. subst k'.
    assert (Hk : Py.lookup e k = None).
    { clear - Hn. unfold Py.keys in *.
      induction e as [|[k1 v1] e IH]; simpl in *; auto.
      destruct (String.eqb k k1) eqn:E; [|apply IH; tauto].
      apply String.eqb_eq in E. subst. tauto. }
    rewrite Hk. apply PyFacts.lookup_set_same.
  - apply String.eqb_neq in E.
    destruct (Py.lookup e k); auto.
    apply PyFacts.lookup_set_other. congruence.
Qed.

Lemma image_stats_NoDup (d : ndarray) : NoDup (Py.keys (_image_stats d)).
Proof.
  assert (H1 : forall v, NoDup (Py.keys [("nan_fraction"%string, v)])).
  { intros v. constructor; [intros []|constructor]. }
  unfold _image_stats.
  destruct (ndim d <? 1); [constructor|].
  destruct (size d =? 0); [constructor|].
  destruct (Z.of_nat _ =? 0).
  - repeat apply keys_set_NoDup. apply H1.
  - destruct (nanmin _); cbn [bind try_except]; [|apply H1].
    destruct (nanmax _); cbn [bind try_except]; [|apply H1].
    repeat apply keys_set_NoDup. apply H1.
Qed.

(** X4. An entry of the summary carries [has_numeric_data] exactly when the
    data of the unit, as read from the file, is an array of kind f, i or u
    with at least two dimensions, whatever the header declares; the flag is
    never [False]; the statistics of [_image_stats] are recorded for those
    units and for no other. *)
Theorem numeric_flag_from_data (rt : Runtime) (i : Z) (hdu : HDU)
    (s : pydict) :
  summary_entry rt i hdu = Ok s ->
  (Py.lookup s "has_numeric_data" = Some (PBool true) <->
   exists d, data hdu = DataArray d /\ numeric_image d = true)
  /\ (Py.lookup s "has_numeric_data" = None
      \/ Py.lookup s "has_numeric_data" = Some (PBool true))
  /\ (forall d k, data hdu = DataArray d -> numeric_image d = true ->
        In k stats_keys ->
        Py.lookup s k = Py.lookup (_image_stats d) k)
  /\ (forall k, In k stats_keys ->
        Py.lookup s "has_numeric_data" = None -> Py.lookup s k = None).
Proof.
  unfold summary_entry.
  destruct (_data_shape_dtype rt hdu) as [shape dtype].
  set (entry := [("hdu_index"%string, PInt i); _; _; _; _; _]).
  assert (He : forall k, In k ("has_numeric_data"%string :: stats_keys) ->
                 Py.lookup entry k = None).
  { intros k Hk. simpl in Hk.
    repeat (destruct Hk as [<-|Hk]; [reflexivity|]). destruct Hk. }
  assert (Hnum : forall d k, In k stats_keys ->
            Py.lookup (Py.update (Py.set entry "has_numeric_data" (PBool true))
                         (_image_stats d)) k
            = Py.lookup (_image_stats d) k).
  { intros d k Hk. rewrite lookup_update by apply image_stats_NoDup.
    destruct (Py.lookup (_image_stats d) k); [reflexivity|].
    rewrite PyFacts.lookup_set_other.
    - apply He. now right.
    - intros <-. simpl in Hk. intuition discriminate. }
  assert (Hflag : forall d,
            Py.lookup (Py.update (Py.set entry "has_numeric_data" (PBool true))
                         (_image_stats d)) "has_numeric_data"
            = Some (PBool true)).
  { intros d. rewrite PyFacts.lookup_update_other.
    - apply PyFacts.lookup_set_same.
    - intros H. apply ParserFacts.image_stats_keys in H. simpl in H.
      intuition discriminate. }
  assert (Hplain :
    forall d0 : hdu_data,
      (forall d, d0 = DataArray d -> numeric_image d = false) ->
      (Py.lookup entry "has_numeric_data" = Some (PBool true) <->
       exists d, d0 = DataArray d /\ numeric_image d = true)
      /\ (Py.lookup entry "has_numeric_data" = None
          \/ Py.lookup entry "has_numeric_data" = Some (PBool true))
      /\ (forall d k, d0 = DataArray d -> numeric_image d = true ->
            In k stats_keys ->
            Py.lookup entry k = Py.lookup (_image_stats d) k)
      /\ (forall k, In k stats_keys ->
            Py.lookup entry "has_numeric_data" = None ->
            Py.lookup entry k = None)).
  { intros d0 Hno. rewrite (He "has_numeric_data"%string) by (now left).
    split; [split|split; [|split]].
    - intros H. discriminate H.
    - intros (d & Hd' & Hn). rewrite (Hno d Hd') in Hn. discriminate Hn.
    - now left.
    - intros d k Hd' Hn. rewrite (Hno d Hd') in Hn. discriminate Hn.
    - intros k Hk _. apply He. now right. }
  destruct (data hdu) as [| |d|t] eqn:Hd; [discriminate| | |].
  - intros [= <-]. apply Hplain. intros d Hd'. discriminate Hd'.
  - fold (numeric_image d). destruct (numeric_image d) eqn:Hn; intros [= <-].
    + rewrite Hflag. split; [split|split; [|split]].
      * eauto.
      * reflexivity.
      * now right.
      * intros d' k [= <-] _ Hk. now apply Hnum.
      * intros k _ H. discriminate H.
    + apply Hplain. intros d' [= <-]. exact Hn.
  - intros [= <-]. apply Hplain. intros d Hd'. discriminate Hd'.
Qed.

Lemma numeric_flag_from_data_witness :
  exists s,
    summary_entry Samples.runtime 1 Samples.vector_hdu = Ok s
    /\ Py.lookup s "has_numeric_data" = None
    /\ Py.lookup s "min_value" = None.
Proof.
  eexists. split; [vm_compute; reflexivity|].
  match goal with
  | |- Py.lookup ?s _ = _ /\ _ =>
      destruct (numeric_flag_from_data Samples.runtime 1 Samples.vector_hdu s
                  eq_refl) as (H1 & H2 & _ & H4)
  end.
  match type of H2 with
  | ?A \/ _ => assert (Hn : A)
  end.
  { destruct H2 as [H2|H2]; [exact H2|].
    apply H1 in H2 as (d & [= <-] & Hd). discriminate Hd. }
  split; [exact Hn|]. apply H4; [simpl; auto|exact Hn].
Defined.

End EntryFacts.

(* ================================================================= *)
(** ** The order of binary64 *)

Module FloatOrderFacts.
Import Spec.

Ltac by_order :=
  repeat match goal with
         | H : context [Z.compare ?a ?b] |- _ =>
             destruct (Z.compare_spec a b); try subst
         | |- context [Z.compare ?a ?b] =>
             destruct (Z.compare_spec a b); try subst
         | H : context [Pos.compare_cont Eq ?a ?b] |- _ =>
             change (Pos.compare_cont Eq a b) with (Pos.compare a b) in *;
             destruct (Pos.compare_spec a b); try subst
         | |- context [Pos.compare_cont Eq ?a ?b] =>
             change (Pos.compare_cont Eq a b) with (Pos.compare a b) in *;
             destruct (Pos.compare_spec a b); try subst
         end;
  simpl in *; try discriminate; try reflexivity; try lia.

Lemma leb_refl (a : float) : F64.isnan a = false -> F64.leb a a = true.
Proof.
  unfold F64.leb, SFleb, SFcompare.
  destruct a as [[]|[]| |[] m e]; simpl; intros H; try discriminate;
    try reflexivity; by_order.
Qed.

Lemma leb_total (a b : float) :
  F64.isnan a = false -> F64.isnan b = false ->
  F64.leb a b = false -> F64.leb b a = true.
Proof.
  unfold F64.leb, SFleb, SFcompare.
  destruct a as [[]|[]| |[] ma ea], b as [[]|[]| |[] mb eb]; simpl;
    intros Ha Hb H; try discriminate; try reflexivity; by_order.
Qed.

Lemma leb_trans (a b c : float) :
  F64.leb a b = true -> F64.leb b c = true -> F64.leb a c = true.
Proof.
  unfold F64.leb, SFleb, SFcompare.
  destruct a as [[]|[]| |[] ma ea], b as [[]|[]| |[] mb eb],
           c as [[]|[]| |[] mc ec]; simpl;
    intros H1 H2; try discriminate; try reflexivity; by_order.
Qed.

Lemma leb_antisym (a b : float) :
  F64.leb a b = true -> F64.leb b a = true -> F64.eqb a b = true.
Proof.
  unfold F64.leb, F64.eqb, SFleb, SFeqb, SFcompare.
  destruct a as [[]|[]| |[] ma ea], b as [[]|[]| |[] mb eb]; simpl;
    intros H1 H2; try discriminate; try reflexivity; by_order.
Qed.

Lemma eqb_leb (a b : float) :
  F64.eqb a b = true -> F64.leb a b = true /\ F64.leb b a = true.
Proof.
  unfold F64.leb, F64.eqb, SFleb, SFeqb, SFcompare.
  destruct a as [[]|[]| |[] ma ea], b as [[]|[]| |[] mb eb]; simpl;
    intros H1; try discriminate; split; try reflexivity; by_order.
Qed.

Lemma fmin_cases (x y : float) :
  F64.isfinite x = true -> F64.isfinite y = true ->
  (F64.fmin x y = x \/ F64.fmin x y = y)
  /\ F64.leb (F64.fmin x y) x = true /\ F64.leb (F64.fmin x y) y = true.
Proof.
  intros Hx Hy. apply RangeFacts.isnan_false_finite in Hx, Hy. unfold F64.fmin.
  rewrite Hy, orb_false_r. destruct (F64.leb x y) eqn:E.
  - auto using leb_refl.
  - auto using leb_refl, leb_total.
Qed.

Lemma fmax_cases (x y : float) :
  F64.isfinite x = true -> F64.isfinite y = true ->
  (F64.fmax x y = x \/ F64.fmax x y = y)
  /\ F64.leb x (F64.fmax x y) = true /\ F64.leb y (F64.fmax x y) = true.
Proof.
  intros Hx Hy. apply RangeFacts.isnan_false_finite in Hx, Hy. unfold F64.fmax.
  rewrite Hy, orb_false_r. destruct (F64.leb y x) eqn:E.
  - auto using leb_refl.
  - auto using leb_refl, leb_total.
Qed.

Lemma fold_fmin_least (l : list float) (x : float) :
  Forall (fun y => F64.isfinite y = true) (x :: l) ->
  In (fold_left F64.fmin l x) (x :: l)
  /\ Forall (fun y => F64.leb (fold_left F64.fmin l x) y = true) (x :: l).
Proof.
  revert x. induction l as [|y l IH]; intros x H.
  - inversion H; subst. simpl. split; auto.
    constructor; auto. apply leb_refl. now apply RangeFacts.isnan_false_finite.
  - inversion H as [|? ? Hx H']; subst. inversion H' as [|? ? Hy Hl]; subst.
    destruct (fmin_cases x y Hx Hy) as (Hc & Lx & Ly).
    cbn [fold_left].
    destruct (IH (F64.fmin x y)) as (Hin & Hle).
    { constructor; auto. destruct Hc as [-> | ->]; auto. }
    inversion Hle as [|? ? Hm Hrest]; subst. split.
    + destruct Hin as [Hin|Hin]; [|simpl; auto].
      rewrite <- Hin. destruct Hc as [-> | ->]; simpl; auto.
    + repeat constructor; eauto using leb_trans.
Qed.

Lemma fold_fmax_greatest (l : list float) (x : float) :
  Forall (fun y => F64.isfinite y = true) (x :: l) ->
  In (fold_left F64.fmax l x) (x :: l)
  /\ Forall (fun y => F64.leb y (fold_left F64.fmax l x) = true) (x :: l).
Proof.
  revert x. induction l as [|y l IH]; intros x H.
  - inversion H; subst. simpl. split; auto.
    constructor; auto. apply leb_refl. now apply RangeFacts.isnan_false_finite.
  - inversion H as [|? ? Hx H']; subst. inversion H' as [|? ? Hy Hl]; subst.
    destruct (fmax_cases x y Hx Hy) as (Hc & Lx & Ly).
    cbn [fold_left].
    destruct (IH (F64.fmax x y)) as (Hin & Hle).
    { constructor; auto. destruct Hc as [-> | ->]; auto. }
    inversion Hle as [|? ? Hm Hrest]; subst. split.
    + destruct Hin as [Hin|Hin]; [|simpl; auto].
      rewrite <- Hin. destruct Hc as [-> | ->]; simpl; auto.
    + repeat constructor; eauto using leb_trans.
Qed.

End FloatOrderFacts.

(* ================================================================= *)
(** ** The extractor: image statistics *)

Module StatsFacts.
Import Spec.
Import Builtins Parser FloatOrderFacts.

(** [_image_stats] on an array with a finite sample. *)
Lemma image_stats_finite (d : ndarray) (v : float) (vs : list float) :
  1 <= ndim d ->
  filter F64.isfinite (samples d) = v :: vs ->
  _image_stats d
  = [("nan_fraction"%string,
      PFloat (F64.sub F64.one
                (F64.div (F64.of_Z (count_finite (samples d)))
                   (F64.of_Z (size d)))));
     ("min_value"%string, PFloat (fold_left F64.fmin vs v));
     ("max_value"%string, PFloat (fold_left F64.fmax vs v));
     ("is_uniform"%string,
      PBool (F64.eqb (fold_left F64.fmin vs v) (fold_left F64.fmax vs v)))].
Proof.
  intros Hn Hv. unfold _image_stats.
  assert (E1 : (ndim d <? 1) = false) by (apply Z.ltb_ge; lia).
  assert (E2 : (size d =? 0) = false).
  { apply Z.eqb_neq. unfold size. destruct (samples d); [discriminate|].
    simpl List.length. lia. }
  rewrite E1, E2, Hv. reflexivity.
Qed.

(** X5. For an array of at least one dimension with a finite sample, the
    recorded [min_value] and [max_value] are finite samples of the array
    that bound every finite sample from below and from above, and
    [is_uniform] is their equality: it holds exactly when all finite
    samples are equal. *)
Theorem image_stats_extremes (d : ndarray) :
  1 <= ndim d ->
  (exists x, In x (samples d) /\ F64.isfinite x = true) ->
  exists lo hi,
    Py.lookup (_image_stats d) "min_value" = Some (PFloat lo)
    /\ Py.lookup (_image_stats d) "max_value" = Some (PFloat hi)
    /\ Py.lookup (_image_stats d) "is_uniform" = Some (PBool (F64.eqb lo hi))
    /\ In lo (samples d) /\ F64.isfinite lo = true
    /\ In hi (samples d) /\ F64.isfinite hi = true
    /\ (forall x, In x (samples d) -> F64.isfinite x = true ->
          F64.leb lo x = true /\ F64.leb x hi = true)
    /\ (F64.eqb lo hi = true <->
        forall x y, In x (samples d) -> In y (samples d) ->
                    F64.isfinite x = true -> F64.isfinite y = true ->
                    F64.eqb x y = true).
Proof.
  intros Hn (x0 & Hx0 & Fx0).
  destruct (filter F64.isfinite (samples d)) as [|v vs] eqn:Hv.
  { assert (H : In x0 (filter F64.isfinite (samples d)))
      by (apply filter_In; auto).
    rewrite Hv in H. destruct H. }
  rewrite (image_stats_finite d v vs Hn Hv).
  assert (Hall : Forall (fun y => F64.isfinite y = true) (v :: vs)).
  { rewrite <- Hv. apply Forall_forall. intros y Hy.
    now apply filter_In in Hy. }
  destruct (fold_fmin_least vs v Hall) as (Hlo & Llo).
  destruct (fold_fmax_greatest vs v Hall) as (Hhi & Lhi).
  set (lo := fold_left F64.fmin vs v) in *.
  set (hi := fold_left F64.fmax vs v) in *.
  rewrite <- Hv in Hlo, Hhi, Llo, Lhi.
  apply filter_In in Hlo as (Hlo & Flo). apply filter_In in Hhi as (Hhi & Fhi).
  rewrite Forall_forall in Llo, Lhi.
  assert (Hb : forall x, In x (samples d) -> F64.isfinite x = true ->
                 F64.leb lo x = true /\ F64.leb x hi = true).
  { intros x Hx Fx. split; [apply Llo|apply Lhi]; apply filter_In; auto. }
  exists lo, hi.
  do 8 (split; [solve [auto]|]). split.
  - intros E x y Hx Hy Fx Fy.
    apply eqb_leb in E as (E1 & E2).
    destruct (Hb x Hx Fx) as (Lx & Ux). destruct (Hb y Hy Fy) as (Ly & Uy).
    apply leb_antisym; eauto using leb_trans.
  - intros H. apply H; auto.
Qed.

Lemma image_stats_extremes_witness :
  exists lo hi,
    Py.lookup (_image_stats (Samples.float_image [2; 2]
                 [F64.of_Z 3; F64.nan; F64.of_Z 1; F64.of_Z 2]))
      "min_value" = Some (PFloat lo)
    /\ Py.lookup (_image_stats (Samples.float_image [2; 2]
                    [F64.of_Z 3; F64.nan; F64.of_Z 1; F64.of_Z 2]))
         "max_value" = Some (PFloat hi)
    /\ F64.leb lo (F64.of_Z 2) = true /\ F64.leb (F64.of_Z 2) hi = true.
Proof.
  destruct (image_stats_extremes
              (Samples.float_image [2; 2]
                 [F64.of_Z 3; F64.nan; F64.of_Z 1; F64.of_Z 2]))
    as (lo & hi & H1 & H2 & _ & _ & _ & _ & _ & Hb & _).
  - vm_compute. discriminate.
  - exists (F64.of_Z 3). split; [simpl; auto|reflexivity].
  - exists lo, hi. split; [exact H1|]. split; [exact H2|].
    apply Hb; [simpl; auto|reflexivity].
Defined.

(** X6. What [_image_stats] records when there is nothing to measure: an
    array of no dimension or of no sample gives no statistics at all, and
    an array without a finite sample gives [None] for both extremes and
    counts as uniform. *)
Theorem image_stats_without_finite (d : ndarray) :
  (ndim d < 1 \/ samples d = [] -> _image_stats d = [])
  /\ (1 <= ndim d -> samples d <> [] ->
      Forall (fun x => F64.isfinite x = false) (samples d) ->
      Py.lookup (_image_stats d) "min_value" = Some PNone
      /\ Py.lookup (_image_stats d) "max_value" = Some PNone
      /\ Py.lookup (_image_stats d) "is_uniform" = Some (PBool true)
      /\ Py.keys (_image_stats d)
         = ["nan_fraction"; "min_value"; "max_value"; "is_uniform"]%string).
Proof.
  unfold _image_stats. split.
  - intros [H|H].
    + apply Z.ltb_lt in H. rewrite H. reflexivity.
    + destruct (ndim d <? 1); [reflexivity|]. unfold size. rewrite H.
      reflexivity.
  - intros Hn Hne Hall.
    assert (E1 : (ndim d <? 1) = false) by (apply Z.ltb_ge; lia).
    assert (E2 : (size d =? 0) = false).
    { apply Z.eqb_neq. unfold size. destruct (samples d); [congruence|].
      simpl List.length. lia. }
    assert (E3 : filter F64.isfinite (samples d) = []).
    { induction Hall as [|x l Hx _ IH]; simpl; [reflexivity|].
      rewrite Hx. destruct l; [reflexivity|]. apply IH. discriminate. }
    rewrite E1, E2, E3. repeat split.
Qed.

Lemma image_stats_without_finite_witness :
  _image_stats (Samples.float_image [0; 3] []) = []
  /\ Py.lookup (_image_stats (Samples.float_image [1; 2]
                   [F64.nan; S754_infinity false])) "is_uniform"
     = Some (PBool true).
Proof.
  split.
  - apply (proj1 (image_stats_without_finite (Samples.float_image [0; 3] []))).
    right. reflexivity.
  - apply (proj2 (image_stats_without_finite
                    (Samples.float_image [1; 2] [F64.nan; S754_infinity false]))).
    + vm_compute. discriminate.
    + discriminate.
    + repeat constructor.
Defined.

Lemma of_Z_small (n : Z) :
  0 < n < 2 ^ 53 -> exists m e, F64.of_Z n = S754_finite false m e.
Proof.
  intros Hn. unfold F64.of_Z, binary_normalize.
  destruct n as [|p|p]; try lia.
  destruct (RoundFacts.round_short false p 0) as (m & e & H & _).
  - pose proof (RoundFacts.digits_bounds p) as Hd.
    assert (Hlt : 2 ^ (Zpos (digits2_pos p) - 1) < 2 ^ 53) by lia.
    apply RoundFacts.pow2_lt_inv in Hlt; lia.
  - lia.
  - lia.
  - eauto.
Qed.

Lemma div_same (m : positive) (e : Z) :
  F64.div (S754_finite false m e) (S754_finite false m e) = F64.one.
Proof.
  unfold F64.div, SFdiv, SFdiv_core_binary. cbn [xorb].
  replace (Zdigits2 (Zpos m) + e - (Zdigits2 (Zpos m) + e)) with 0 by lia.
  replace (e - e) with 0 by lia.
  change (Z.min (fexp F64.prec F64.emax 0) 0) with (-53).
  change (0 - -53) with 53. cbv beta iota zeta.
  rewrite Z.shiftl_mul_pow2 by lia.
  assert (Hq : Zpos m * 2 ^ 53 / Zpos m = 2 ^ 53).
  { rewrite Z.mul_comm. apply Z.div_mul. discriminate. }
  assert (Hr : (Zpos m * 2 ^ 53) mod Zpos m = 0).
  { rewrite Z.mul_comm. apply Z.mod_mul. discriminate. }
  unfold Z.div, Z.modulo in Hq, Hr.
  destruct (Z.div_eucl (Zpos m * 2 ^ 53) (Zpos m)) as [q r].
  subst q r.
  assert (Hl : new_location (Zpos m) 0 = loc_Exact).
  { unfold new_location. destruct (Z.even _); reflexivity. }
  rewrite Hl. vm_compute. reflexivity.
Qed.

(** X7. The recorded fraction of samples that are not finite is exact at
    both ends: for an array of at least one dimension and fewer than 2^53
    samples it is 0.0 when every sample is finite and 1.0 when none is. *)
Theorem nan_fraction_exact (d : ndarray) :
  1 <= ndim d -> 0 < size d < 2 ^ 53 ->
  (Forall (fun x => F64.isfinite x = true) (samples d) ->
   Py.lookup (_image_stats d) "nan_fraction" = Some (PFloat F64.zero))
  /\ (Forall (fun x => F64.isfinite x = false) (samples d) ->
      Py.lookup (_image_stats d) "nan_fraction" = Some (PFloat F64.one)).
Proof.
  intros Hn Hs.
  destruct (of_Z_small (size d) Hs) as (m & e & Hz).
  split; intros Hall.
  - assert (Hf : filter F64.isfinite (samples d) = samples d).
    { clear - Hall. induction Hall as [|x l Hx _ IH]; simpl; [reflexivity|].
      rewrite Hx, IH. reflexivity. }
    destruct (samples d) as [|v vs] eqn:Hv.
    { unfold size in Hs. rewrite Hv in Hs. simpl in Hs. lia. }
    rewrite <- Hv in Hf. rewrite Hv in Hf at 2.
    rewrite (image_stats_finite d v vs Hn Hf). cbn [Py.lookup String.eqb].
    unfold count_finite. rewrite Hf, <- Hv. fold (size d).
    rewrite Hz, div_same. reflexivity.
  - assert (Hf : filter F64.isfinite (samples d) = []).
    { clear - Hall. induction Hall as [|x l Hx _ IH]; simpl; [reflexivity|].
      rewrite Hx. exact IH. }
    unfold _image_stats.
    assert (E1 : (ndim d <? 1) = false) by (apply Z.ltb_ge; lia).
    assert (E2 : (size d =? 0) = false) by (apply Z.eqb_neq; lia).
    rewrite E1, E2, Hf. unfold count_finite. rewrite Hf, Hz.
    reflexivity.
Qed.

Lemma nan_fraction_exact_witness :
  Py.lookup (_image_stats (Samples.float_image [1; 3]
               [F64.of_Z 5; F64.of_Z 6; F64.of_Z 7])) "nan_fraction"
  = Some (PFloat F64.zero).
Proof.
  apply (proj1 (nan_fraction_exact
                  (Samples.float_image [1; 3]
                     [F64.of_Z 5; F64.of_Z 6; F64.of_Z 7])
                  ltac:(vm_compute; discriminate)
                  ltac:(split; reflexivity))).
  repeat constructor.
Defined.

End StatsFacts.

(* ================================================================= *)
(** ** The analyzer: tables and axes *)

Module TableFacts.
Import Spec.
Import Builtins Analyzer StringFacts.

Lemma column_names_loop_split (rt : Runtime) (h : header) (idx : list Z) :
  exists pre post,
    idx = pre ++ post
    /\ column_names_loop rt h idx = map (column_label rt h) pre
    /\ (forall i, In i pre -> header_get h ("TTYPE" ++ PyStr.of_Z i) <> None)
    /\ match post with
       | [] => True
       | i :: _ => header_get h ("TTYPE" ++ PyStr.of_Z i) = None
       end.
Proof.
  induction idx as [|i idx (pre & post & E & Hn & Hp & Hq)];
    cbn [column_names_loop].
  - exists [], []. repeat split; auto; try (intros ? []).
  - destruct (header_get h ("TTYPE" ++ PyStr.of_Z i)) as [v|] eqn:Hi.
    + exists (i :: pre), post. subst idx. repeat split; auto.
      * cbn [map]. unfold column_label at 1. rewrite Hi, Hn. reflexivity.
      * intros i' [<-|Hin]; [congruence|auto].
    + exists [], (i :: idx). repeat split; auto; try (intros ? []).
Qed.

Lemma range_prefix (a b : Z) (pre post : list Z) :
  range a b = pre ++ post ->
  pre = range a (a + Z.of_nat (List.length pre))
  /\ match post with
     | [] => True
     | i :: _ => i = a + Z.of_nat (List.length pre)
     end
  /\ Z.of_nat (List.length pre) + Z.of_nat (List.length post)
     = Z.of_nat (Z.to_nat (b - a)).
Proof.
  revert a. induction pre as [|x pre IH]; intros a H.
  - simpl in *. split; [rewrite DownsampleFacts.range_nil by lia; reflexivity|].
    split.
    + destruct post as [|i post]; auto.
      destruct (Z_lt_le_dec a b) as [Hlt|Hge].
      * rewrite DownsampleFacts.range_cons in H by auto. injection H. lia.
      * rewrite DownsampleFacts.range_nil in H by auto. discriminate.
    + rewrite <- H, DownsampleFacts.range_length. reflexivity.
  - destruct (Z_lt_le_dec a b) as [Hlt|Hge].
    + rewrite DownsampleFacts.range_cons in H by auto. simpl in H.
      injection H as <- H. destruct (IH _ H) as (E1 & E2 & E3).
      cbn [List.length]. split; [|split].
      * rewrite DownsampleFacts.range_cons by lia. f_equal.
        rewrite E1 at 1. f_equal. lia.
      * destruct post; auto. lia.
      * lia.
    + rewrite DownsampleFacts.range_nil in H by auto. discriminate.
Qed.

(** X8. The column names of a table are read from the TTYPE1, TTYPE2, ...
    cards up to the first number that has no card, and from 999 cards at
    most: a card after a gap in the numbering is not read. Each name is
    the text of the value without surrounding whitespace. *)
Theorem column_names_stop_at_gap (rt : Runtime) (h : header) :
  exists n,
    0 <= n <= 999
    /\ _column_names_from_header rt (Some h)
       = map (column_label rt h) (range 1 (n + 1))
    /\ (forall i, 1 <= i <= n ->
          header_get h ("TTYPE" ++ PyStr.of_Z i) <> None)
    /\ (n < 999 -> header_get h ("TTYPE" ++ PyStr.of_Z (n + 1)) = None)
    /\ Forall (fun c => PyStr.strip c = c)
         (_column_names_from_header rt (Some h)).
Proof.
  unfold _column_names_from_header.
  destruct (column_names_loop_split rt h (range 1 1000))
    as (pre & post & E & Hn & Hp & Hq).
  destruct (range_prefix _ _ _ _ E) as (E1 & E2 & E3).
  exists (Z.of_nat (List.length pre)).
  replace (Z.of_nat (List.length pre) + 1)
    with (1 + Z.of_nat (List.length pre)) by lia.
  rewrite <- E1. split; [lia|]. split; [exact Hn|]. split; [|split].
  - intros i Hi. apply Hp. rewrite E1. apply DownsampleFacts.in_range. lia.
  - intros Hlt. destruct post as [|i post]; [simpl in E3; lia|].
    subst i. exact Hq.
  - rewrite Hn. apply Forall_forall. intros c Hc.
    apply in_map_iff in Hc as (i & <- & Hi). unfold column_label.
    destruct (header_get h _); [apply strip_idempotent|reflexivity].
Qed.

Lemma classify_table_cases (cols : list string) :
  _classify_table cols
  = if _has_time_like cols && _has_flux_like cols
    then CLASSIFICATION_LIGHT_CURVE
    else if _has_wavelength_like cols && _has_flux_like cols
         then CLASSIFICATION_SPECTRUM
         else CLASSIFICATION_TABLE.
Proof. destruct cols; reflexivity. Qed.

(** X9. A table is classified light_curve when a column is time-like and a
    column is flux-like, whatever else it holds; spectrum when that fails
    and a column is wavelength-like and a column is flux-like; table
    otherwise. The result is always one of the three, hence plottable, and
    a table of a single column is never a light curve. *)
Theorem table_classification (cols : list string) :
  In (_classify_table cols)
    [CLASSIFICATION_LIGHT_CURVE; CLASSIFICATION_SPECTRUM; CLASSIFICATION_TABLE]
  /\ _is_plottable_classification (_classify_table cols) = true
  /\ (_classify_table cols = CLASSIFICATION_LIGHT_CURVE <->
      _has_time_like cols = true /\ _has_flux_like cols = true)
  /\ (_classify_table cols = CLASSIFICATION_SPECTRUM <->
      _has_time_like cols = false /\ _has_wavelength_like cols = true
      /\ _has_flux_like cols = true)
  /\ (forall c, _classify_table [c] <> CLASSIFICATION_LIGHT_CURVE).
Proof.
  assert (Hc : forall cols,
            _classify_table cols = CLASSIFICATION_LIGHT_CURVE <->
            _has_time_like cols = true /\ _has_flux_like cols = true).
  { intros l. rewrite classify_table_cases.
    destruct (_has_time_like l), (_has_flux_like l),
      (_has_wavelength_like l); simpl; intuition discriminate. }
  split; [|split; [|split; [exact (Hc cols)|split]]].
  - rewrite classify_table_cases.
    destruct (_ && _); [simpl; auto|]. destruct (_ && _); simpl; auto.
  - rewrite classify_table_cases.
    destruct (_ && _); [reflexivity|]. destruct (_ && _); reflexivity.
  - rewrite classify_table_cases.
    destruct (_has_time_like cols), (_has_flux_like cols),
      (_has_wavelength_like cols); simpl; intuition discriminate.
  - intros c H. apply Hc in H as (Ht & Hf).
    unfold _has_time_like, _has_flux_like in *. cbn [existsb] in *.
    rewrite orb_false_r in Ht, Hf. cbv zeta in Hf.
    apply mem_In in Ht. unfold time_like in Ht. simpl in Ht.
    repeat (destruct Ht as [Ht|Ht];
            [rewrite <- Ht in Hf; vm_compute in Hf; discriminate Hf|]).
    destruct Ht.
Qed.

Lemma lookup_None_keys (d : pydict) (k : string) :
  Py.lookup d k = None <-> ~ In k (Py.keys d).
Proof.
  unfold Py.keys. induction d as [|[k' v] d IH]; simpl; [tauto|].
  destruct (String.eqb k k') eqn:E.
  - apply String.eqb_eq in E. subst. split; [discriminate|tauto].
  - apply String.eqb_neq in E. rewrite IH. intuition congruence.
Qed.

Lemma table_units_loop_keys (rt : Runtime) (h : header) (names : list string)
    (i : Z) (acc : pydict) (k : string) :
  In k (Py.keys (table_units_loop rt h i names acc)) ->
  In k (Py.keys acc) \/ (In k names /\ k <> EmptyString).
Proof.
  revert i acc. induction names as [|name names IH]; intros i acc;
    cbn [table_units_loop]; auto.
  intros H. apply IH in H as [H|[H1 H2]]; [|simpl; auto].
  destruct (header_get h _); auto.
  destruct name as [|c name]; cbn [PyStr.is_empty negb] in H; auto.
  apply PyFacts.keys_set in H as [->|H]; auto.
  right. split; [simpl; auto|discriminate].
Qed.

Lemma table_units_loop_other (rt : Runtime) (h : header) (names : list string)
    (i : Z) (acc : pydict) (k : string) :
  ~ In k names ->
  Py.lookup (table_units_loop rt h i names acc) k = Py.lookup acc k.
Proof.
  revert i acc. induction names as [|name names IH]; intros i acc Hk;
    cbn [table_units_loop]; auto.
  rewrite IH by (simpl in Hk; tauto).
  destruct (header_get h _); auto. destruct (negb _); auto.
  apply PyFacts.lookup_set_other. simpl in Hk. intuition congruence.
Qed.

Lemma table_units_loop_at (rt : Runtime) (h : header) (names : list string)
    (i : Z) (acc : pydict) (p : nat) (k : string) :
  NoDup names -> nth_error names p = Some k -> k <> EmptyString ->
  Py.lookup (table_units_loop rt h i names acc) k
  = match header_get h ("TUNIT" ++ PyStr.of_Z (i + Z.of_nat p)) with
    | Some v => Some (unit_text rt v)
    | None => Py.lookup acc k
    end.
Proof.
  revert i acc p. induction names as [|name names IH]; intros i acc p Hd Hp Hk.
  - destruct p; discriminate.
  - inversion Hd as [|? ? Hn Hd']; subst. cbn [table_units_loop].
    destruct p as [|p]; simpl in Hp.
    + injection Hp as ->. rewrite table_units_loop_other by auto.
      replace (i + Z.of_nat 0) with i by lia.
      destruct (header_get h _); auto.
      destruct k; [congruence|]. cbn [PyStr.is_empty negb].
      apply PyFacts.lookup_set_same.
    + rewrite (IH (i + 1) _ p Hd' Hp Hk).
      replace (i + 1 + Z.of_nat p) with (i + Z.of_nat (S p)) by lia.
      destruct (header_get h ("TUNIT" ++ PyStr.of_Z (i + Z.of_nat (S p))));
        auto.
      assert (name <> k).
      { intros ->. apply Hn. eapply nth_error_In; eauto. }
      destruct (header_get h _); auto. destruct (negb _); auto.
      apply PyFacts.lookup_set_other. auto.
Qed.

(** X10. The units the analyzer gives a table are keyed by column name: with
    distinct column names, the column in position [p] (from 0) with a
    non-empty name other than BUNIT has the stripped text of the card
    TUNIT(p+1) as its unit, and no unit when that card is absent. The BUNIT
    card, when present, is kept under BUNIT. No other key appears, so that
    a column without a name has no unit. *)
Theorem table_units_by_name (rt : Runtime) (h : header) :
  let names := _column_names_from_header rt (Some h) in
  let units := _get_table_units rt (Some h) in
  (forall v, header_get h "BUNIT" = Some v ->
             Py.lookup units "BUNIT" = Some (unit_text rt v))
  /\ (forall k v, Py.lookup units k = Some v ->
        (k = "BUNIT"%string /\ header_get h "BUNIT" <> None)
        \/ (In k names /\ k <> EmptyString))
  /\ (NoDup names ->
      forall p k, nth_error names p = Some k ->
        k <> EmptyString -> k <> "BUNIT"%string ->
        Py.lookup units k
        = option_map (unit_text rt)
            (header_get h ("TUNIT" ++ PyStr.of_Z (Z.of_nat p + 1)))).
Proof.
  intros names units. subst units. unfold _get_table_units. fold names.
  split; [|split].
  - intros v ->. apply PyFacts.lookup_set_same.
  - intros k v Hk.
    assert (Hin : In k (Py.keys
                          (match header_get h "BUNIT" with
                           | Some v0 =>
                               Py.set (table_units_loop rt h 1 names [])
                                 "BUNIT" (PStr (PyStr.strip (str_of_hval rt v0)))
                           | None => table_units_loop rt h 1 names []
                           end))).
    { destruct (In_dec string_dec k (Py.keys
                          (match header_get h "BUNIT" with
                           | Some v0 =>
                               Py.set (table_units_loop rt h 1 names [])
                                 "BUNIT" (PStr (PyStr.strip (str_of_hval rt v0)))
                           | None => table_units_loop rt h 1 names []
                           end))) as [Hi|Hi]; auto.
      apply lookup_None_keys in Hi. congruence. }
    destruct (header_get h "BUNIT") as [v0|].
    + apply PyFacts.keys_set in Hin as [->|Hin]; [left; split; congruence|].
      apply table_units_loop_keys in Hin as [[]|Hin]. now right.
    + apply table_units_loop_keys in Hin as [[]|Hin]. now right.
  - intros Hd p k Hp Hk Hb.
    assert (E : Py.lookup (table_units_loop rt h 1 names []) k
                = option_map (unit_text rt)
                    (header_get h ("TUNIT" ++ PyStr.of_Z (Z.of_nat p + 1)))).
    { rewrite (table_units_loop_at rt h names 1 [] p k Hd Hp Hk).
      replace (1 + Z.of_nat p) with (Z.of_nat p + 1) by lia.
      destruct (header_get h _); reflexivity. }
    destruct (header_get h "BUNIT"); auto.
    rewrite PyFacts.lookup_set_other by congruence. exact E.
Qed.

Lemma table_units_by_name_witness :
  Py.lookup (_get_table_units Samples.runtime (hdu_header Samples.light_curve_hdu))
    "FLUX" = Some (PStr "mJy").
Proof.
  destruct (table_units_by_name Samples.runtime
              (Samples.table_header
                 [("TIME", "D", "d"); ("FLUX", "D", "mJy")]%string))
    as (_ & _ & H).
  apply (H ltac:(vm_compute; repeat constructor; simpl; intuition discriminate)
           1%nat "FLUX"%string eq_refl); discriminate.
Defined.

Lemma axis_loop_lookup (h : pydict) (acc : pydict) (k : string) :
  NoDup (Py.keys h) ->
  Py.lookup
    (fold_left
       (fun out kv =>
          match snd kv with
          | PStr v =>
              if PyStr.startswith "CTYPE" (fst kv)
              then Py.set out (fst kv) (PStr (PyStr.strip v))
              else out
          | _ => out
          end) h acc) k
  = match Py.lookup h k with
    | Some (PStr v) =>
        if PyStr.startswith "CTYPE" k then Some (PStr (PyStr.strip v))
        else Py.lookup acc k
    | _ => Py.lookup acc k
    end.
Proof.
  revert acc. induction h as [|[k' v'] h IH]; intros acc Hd; [reflexivity|].
  inversion Hd as [|? ? Hn Hd']; subst. cbn [fold_left Py.lookup fst snd].
  rewrite IH by auto.
  destruct (String.eqb k k') eqn:E.
  - apply String.eqb_eq in E. subst k'.
    apply lookup_None_keys in Hn. rewrite Hn.
    destruct v'; auto. destruct (PyStr.startswith "CTYPE" k); auto.
    apply PyFacts.lookup_set_same.
  - apply String.eqb_neq in E.
    assert (Ho : forall d v, Py.lookup (Py.set d k' v) k = Py.lookup d k).
    { intros. apply PyFacts.lookup_set_other. congruence. }
    destruct v'; auto; destruct (PyStr.startswith "CTYPE" k'); auto;
      rewrite Ho; reflexivity.
Qed.

(** X11. The axis meanings of a header dict are its CTYPE entries: every key
    that starts with CTYPE and holds a string is kept with the string
    stripped; a key that does not start with CTYPE, or whose value is not a
    string, is left out. A header that is not a dict raises. *)
Theorem axis_meaning_entries (h : pydict) :
  NoDup (Py.keys h) ->
  exists a,
    _axis_meaning (PDict h) = Ok a
    /\ forall k,
         Py.lookup a k
         = match Py.lookup h k with
           | Some (PStr v) =>
               if PyStr.startswith "CTYPE" k then Some (PStr (PyStr.strip v))
               else None
           | _ => None
           end.
Proof.
  intros Hd. eexists. split; [reflexivity|]. intros k.
  rewrite axis_loop_lookup by auto. reflexivity.
Qed.

Lemma axis_meaning_entries_witness :
  exists a,
    _axis_meaning (PDict [("CTYPE1", PStr " RA---TAN "); ("CTYPE2", PInt 4);
                          ("CRVAL1", PStr "x")]%string) = Ok a
    /\ Py.lookup a "CTYPE1" = Some (PStr "RA---TAN")
    /\ Py.lookup a "CTYPE2" = None
    /\ Py.lookup a "CRVAL1" = None.
Proof.
  destruct (axis_meaning_entries
              [("CTYPE1", PStr " RA---TAN "); ("CTYPE2", PInt 4);
               ("CRVAL1", PStr "x")]%string) as (a & Ha & Hk).
  - vm_compute. repeat constructor; simpl; intuition discriminate.
  - exists a. split; [exact Ha|].
    split; [exact (Hk "CTYPE1"%string)|].
    split; [exact (Hk "CTYPE2"%string)|exact (Hk "CRVAL1"%string)].
Defined.

End TableFacts.

(* ================================================================= *)
(** ** The analyzer: every unit is analysed *)

Module UnitAnalysisFacts.
Import Spec.
Import Builtins Parser Analyzer StringFacts TableFacts.

Lemma assigned_four (d : pydict) (c n u a : pyval) :
  let r := Py.set (Py.set (Py.set (Py.set d "classification" c)
                             "column_names" n) "units" u) "axis_meaning" a in
  Py.lookup r "classification" = Some c
  /\ Py.lookup r "column_names" = Some n
  /\ Py.lookup r "units" = Some u
  /\ Py.lookup r "axis_meaning" = Some a.
Proof.
  intros r. subst r. repeat split.
  - rewrite !PyFacts.lookup_set_other by discriminate.
    apply PyFacts.lookup_set_same.
  - rewrite !PyFacts.lookup_set_other by discriminate.
    apply PyFacts.lookup_set_same.
  - rewrite !PyFacts.lookup_set_other by discriminate.
    apply PyFacts.lookup_set_same.
  - apply PyFacts.lookup_set_same.
Qed.

Lemma classifications_table (cols : list string) :
  In (_classify_table cols) classifications.
Proof.
  rewrite classify_table_cases. unfold classifications.
  destruct (_ && _); [simpl; tauto|]. destruct (_ && _); simpl; tauto.
Qed.

(** The classification [classify] leaves when it returns. *)
Lemma classify_in (rt : Runtime) (file : fits_file) (s : pydict)
    (units0 : pyval) :
  match classify rt file s units0 with
  | Ok (c, _, _) => In c classifications
  | Raise _ => True
  end.
Proof.
  unfold classify.
  destruct (Py.str_in "ImageHDU" _) as [a|]; cbn [bind]; [|exact I].
  assert (Himg :
    match
      ndim <- Py.len (Py.get s "data_shape" (PList []));;
      classification <-
        (if 2 <=? ndim
         then
           error_map <- _header_suggests_error_map rt
                          (Py.get s "header" (PDict []));;
           (if error_map
            then Ok CLASSIFICATION_ERROR_MAP
            else
              low <- _header_suggests_low_contrast rt
                       (Py.get s "header" (PDict [])) s;;
              (if Py.truthy low
               then Ok CLASSIFICATION_LOW_CONTRAST_IMAGE
               else Ok CLASSIFICATION_IMAGE))
         else if ndim =? 1 then Ok CLASSIFICATION_IMAGE
              else Ok CLASSIFICATION_UNKNOWN);;
      Ok (classification, @nil string, units0)
    with
    | Ok (c, _, _) => In c classifications
    | Raise _ => True
    end).
  { destruct (Py.len _) as [n|]; cbn [bind]; [|exact I].
    destruct (2 <=? n).
    - destruct (_header_suggests_error_map _ _) as [[]|]; cbn [bind];
        [simpl; tauto| |exact I].
      destruct (_header_suggests_low_contrast _ _ _) as [low|]; cbn [bind];
        [|exact I].
      destruct (Py.truthy low); simpl; tauto.
    - destruct (n =? 1); simpl; tauto. }
  assert (Htab :
    match
      is_table <-
        (a0 <- Py.str_in "BinTableHDU" (Py.get s "hdu_type" (PStr ""));;
         (if a0 then Ok true
          else Py.str_in "TableHDU" (Py.get s "hdu_type" (PStr ""))));;
      (if is_table
       then
         hdul <- reopen file;;
         inside <- lt_int (Py.get s "hdu_index" (PInt 0))
                     (Z.of_nat (List.length hdul));;
         (if inside
          then
            hdu <- hdul_index hdul (Py.get s "hdu_index" (PInt 0));;
            Ok (_classify_table (_column_names_from_header rt (hdu_header hdu)),
                _column_names_from_header rt (hdu_header hdu),
                PDict (_get_table_units rt (hdu_header hdu)))
          else Ok (_classify_table [], [], units0))
       else Ok (CLASSIFICATION_UNKNOWN, [], units0))
    with
    | Ok (c, _, _) => In c classifications
    | Raise _ => True
    end).
  { assert (Hyes :
      match
        hdul <- reopen file;;
        inside <- lt_int (Py.get s "hdu_index" (PInt 0))
                    (Z.of_nat (List.length hdul));;
        (if inside
         then
           hdu <- hdul_index hdul (Py.get s "hdu_index" (PInt 0));;
           Ok (_classify_table (_column_names_from_header rt (hdu_header hdu)),
               _column_names_from_header rt (hdu_header hdu),
               PDict (_get_table_units rt (hdu_header hdu)))
         else Ok (_classify_table [], @nil string, units0))
      with
      | Ok (c, _, _) => In c classifications
      | Raise _ => True
      end).
    { destruct (reopen file) as [hdul|]; cbn [bind]; [|exact I].
      destruct (lt_int _ _) as [[]|]; cbn [bind]; [| |exact I].
      - destruct (hdul_index _ _); cbn [bind]; [|exact I].
        apply classifications_table.
      - apply classifications_table. }
    destruct (Py.str_in "BinTableHDU" _) as [[]|]; cbn [bind]; [exact Hyes| |exact I].
    destruct (Py.str_in "TableHDU" _) as [[]|]; cbn [bind]; [exact Hyes| |exact I].
    simpl. tauto. }
  destruct a; cbn [bind]; [exact Himg|].
  destruct (Py.str_in "PrimaryHDU" _) as [[]|]; cbn [bind]; [exact Himg|exact Htab|exact I].
Qed.

(** X12. The analyzer never fails: for every list of summaries it returns
    one analysis per summary, and every analysis carries a classification
    among the seven names, a list of column names, units, and a dict of
    axis meanings. *)
Theorem analysis_always_classified (rt : Runtime) (file : fits_file)
    (summaries : list pydict) :
  exists analyzed,
    analyze rt file summaries = Ok analyzed
    /\ List.length analyzed = List.length summaries
    /\ Forall
         (fun a =>
            (exists c, Py.lookup a "classification" = Some (PStr c)
                       /\ In c classifications)
            /\ (exists names,
                   Py.lookup a "column_names" = Some (PList (map PStr names)))
            /\ Py.lookup a "units" <> None
            /\ (exists m, Py.lookup a "axis_meaning" = Some (PDict m)))
         analyzed.
Proof.
  eexists. split; [reflexivity|]. split; [apply length_map|].
  apply Forall_forall. intros a Ha.
  apply in_map_iff in Ha as (s & <- & _).
  destruct (analyze_hdu rt file s) as [a|e] eqn:E; cbn [try_except].
  - apply AnalyzerFacts.analyze_hdu_inv in E
      as (units0 & axis & c & cols & u & _ & _ & Hc & ->).
    match goal with
    | |- context [Py.set (Py.set (Py.set (Py.set ?d _ ?c) _ ?n) _ ?u) _ ?a] =>
        destruct (assigned_four d c n u a) as (H1 & H2 & H3 & H4)
    end.
    rewrite H1, H2, H3, H4. repeat split; eauto; [|discriminate].
    exists c. split; auto.
    pose proof (classify_in rt file s units0) as Hin.
    destruct (classify rt file s units0) as [[[c' cols'] u']|];
      cbn [try_except] in Hc; injection Hc as <- <- <-; auto.
    unfold classifications. simpl. tauto.
  - unfold fallback.
    match goal with
    | |- context [Py.set (Py.set (Py.set (Py.set ?d _ ?c) _ ?n) _ ?u) _ ?a] =>
        destruct (assigned_four d c n u a) as (H1 & H2 & H3 & H4)
    end.
    rewrite H1, H2, H3, H4. repeat split; eauto; try discriminate.
    + exists CLASSIFICATION_UNKNOWN. split; auto.
      unfold classifications. simpl. tauto.
    + exists []. reflexivity.
Qed.

Lemma parsed_fields (rt : Runtime) (i : Z) (hdu : HDU) (s : pydict) :
  summary_entry rt i hdu = Ok s ->
  Py.lookup s "hdu_index" = Some (PInt i)
  /\ Py.lookup s "hdu_type" = Some (PStr (hdu_class hdu))
  /\ Py.lookup s "header" = Some (PDict (_clean_header (hdu_header hdu)))
  /\ Py.lookup s "units"
     = Some (PDict (_get_units_from_header rt (hdu_header hdu))).
Proof.
  intros H.
  repeat split;
    (rewrite (ParserFacts.summary_entry_base rt i hdu s _ H);
     [reflexivity|discriminate|simpl; intuition discriminate]).
Qed.

(** [analyze_hdu] on an entry written by the extractor. *)
Lemma parsed_analysis (rt : Runtime) (hdu : HDU) (i : Z) (s : pydict)
    (file : fits_file) :
  summary_entry rt i hdu = Ok s ->
  analyze_hdu rt file s
  = let '(c, cols, u) :=
      try_except
        (classify rt file s
           (PDict (_get_units_from_header rt (hdu_header hdu))))
        (CLASSIFICATION_UNKNOWN, [],
         PDict (_get_units_from_header rt (hdu_header hdu))) in
    Ok (Py.set (Py.set (Py.set (Py.set s "classification" (PStr c))
                          "column_names" (PList (map PStr cols)))
                  "units" u)
          "axis_meaning"
          (PDict (try_except
                    (_axis_meaning (PDict (_clean_header (hdu_header hdu))))
                    []))).
Proof.
  intros Hs.
  destruct (parsed_fields rt _ hdu s Hs) as (Hi & Ht & Hh & Hu).
  unfold analyze_hdu, Py.get. rewrite Hu, Hh.
  cbn [Py.to_dict bind _axis_meaning try_except]. reflexivity.
Qed.

(** The analysis of a table unit read by the extractor. *)
Lemma parsed_table_lookup (rt : Runtime) (hdul : list HDU) (j : nat)
    (hdu : HDU) (s : pydict) :
  nth_error hdul j = Some hdu ->
  summary_entry rt (Z.of_nat j) hdu = Ok s ->
  table_like (hdu_class hdu) = true ->
  exists a,
    analyze_hdu rt (Opened hdul true) s = Ok a
    /\ Py.lookup a "hdu_index" = Some (PInt (Z.of_nat j))
    /\ Py.lookup a "classification"
       = Some (PStr (_classify_table
                       (_column_names_from_header rt (hdu_header hdu))))
    /\ Py.lookup a "column_names"
       = Some (PList (map PStr (_column_names_from_header rt (hdu_header hdu))))
    /\ Py.lookup a "units"
       = Some (PDict (_get_table_units rt (hdu_header hdu))).
Proof.
  intros Hj Hs Htab.
  destruct (parsed_fields rt _ hdu s Hs) as (Hi & Ht & Hh & Hu).
  rewrite (parsed_analysis rt hdu _ s _ Hs).
  set (names := _column_names_from_header rt (hdu_header hdu)).
  assert (Hc : classify rt (Opened hdul true) s
                 (PDict (_get_units_from_header rt (hdu_header hdu)))
               = Ok (_classify_table names, names,
                     PDict (_get_table_units rt (hdu_header hdu)))).
  { unfold classify, Py.get. rewrite Ht, Hi. cbn [Py.str_in bind].
    unfold table_like, image_like in Htab.
    apply andb_true_iff in Htab as (Hni & Hyes).
    apply negb_true_iff in Hni. apply orb_false_elim in Hni as [Hn1 Hn2].
    rewrite Hn1, Hn2.
    cbn [bind reopen lt_int hdul_index].
    assert (Hlt : (Z.of_nat j <? Z.of_nat (List.length hdul)) = true).
    { apply Z.ltb_lt. apply Nat2Z.inj_lt. apply nth_error_Some. congruence. }
    rewrite Hlt, (RenderFacts.nth_error_index hdul j hdu Hj).
    destruct (PyStr.contains "BinTableHDU" (hdu_class hdu)); cbn [bind];
      [reflexivity|].
    cbn [orb] in Hyes. rewrite Hyes. reflexivity. }
  rewrite Hc. cbn [try_except].
  eexists. split; [reflexivity|].
  match goal with
  | |- context [Py.set (Py.set (Py.set (Py.set ?d _ ?c) _ ?n) _ ?u) _ ?a] =>
      destruct (assigned_four d c n u a) as (H1 & H2 & H3 & H4)
  end.
  split; [|auto].
  rewrite !PyFacts.lookup_set_other by discriminate. exact Hi.
Qed.

(** X13. On an entry written by the extractor [analyze_hdu] does not raise,
    so the fallback of [analyze] is not used. For a table unit (a kind tag
    naming a table and no image) the analysis is read from the header of
    the unit at the entry's own position in the file, also when earlier
    units were skipped: its column names are the TTYPE names of that
    header, its classification is [_classify_table] of them, and its units
    are those of [_get_table_units]. *)
Theorem parsed_table_analysis (rt : Runtime) (hdul : list HDU) (j : nat)
    (hdu : HDU) (s : pydict) :
  nth_error hdul j = Some hdu ->
  summary_entry rt (Z.of_nat j) hdu = Ok s ->
  (forall file, exists a, analyze_hdu rt file s = Ok a)
  /\ (table_like (hdu_class hdu) = true ->
      let names := _column_names_from_header rt (hdu_header hdu) in
      exists a,
        analyze_hdu rt (Opened hdul true) s = Ok a
        /\ Py.lookup a "classification" = Some (PStr (_classify_table names))
        /\ Py.lookup a "column_names" = Some (PList (map PStr names))
        /\ Py.lookup a "units"
           = Some (PDict (_get_table_units rt (hdu_header hdu)))).
Proof.
  intros Hj Hs. split.
  - intros file. rewrite (parsed_analysis rt hdu _ s file Hs).
    destruct (try_except (classify rt file s _) _) as [[c cols] u]. eauto.
  - intros Htab names.
    destruct (parsed_table_lookup rt hdul j hdu s Hj Hs Htab)
      as (a & Ha & _ & Hc & Hn & Hu).
    exists a. auto.
Qed.

Lemma parsed_table_analysis_witness :
  exists s a,
    summary_entry Samples.runtime 1 Samples.light_curve_hdu = Ok s
    /\ analyze_hdu Samples.runtime Samples.light_curve_file s = Ok a
    /\ Py.lookup a "classification" = Some (PStr "light_curve")
    /\ Py.lookup a "column_names" = Some (PList [PStr "TIME"; PStr "FLUX"]).
Proof.
  eexists.
  match goal with
  | |- exists a, ?e = Ok ?s /\ _ =>
      let v := eval vm_compute in e in
      match v with
      | Ok ?s0 =>
          unify s s0;
          destruct (parsed_table_analysis Samples.runtime
                      [Samples.small_image_hdu "PrimaryHDU";
                       Samples.light_curve_hdu] 1%nat Samples.light_curve_hdu
                      s0 eq_refl eq_refl) as (_ & H)
      end
  end.
  destruct (H eq_refl) as (a & Ha & Hc & Hn & _).
  exists a. split; [reflexivity|]. split; [exact Ha|].
  split; [exact Hc|exact Hn].
Defined.

Lemma map_set_str (m : list (pyval * pyval)) (k : string) (v : pyval) :
  forallb (fun kv => Py.is_str (fst kv)) m = true ->
  forallb (fun kv => Py.is_str (fst kv)) (Py.map_set m (PStr k) v) = true
  /\ Py.str_entries (Py.map_set m (PStr k) v) = Py.set (Py.str_entries m) k v.
Proof.
  induction m as [|[k' v'] m IH]; cbn [forallb Py.map_set Py.str_entries fst].
  - auto.
  - intros H. apply andb_true_iff in H as [Hk Hm].
    destruct k'; try discriminate Hk.
    cbn [Py.key_eqb Py.set Py.str_entries].
    destruct (String.eqb k s); cbn [forallb Py.str_entries fst Py.is_str andb].
    + auto.
    + destruct (IH Hm) as [-> ->]. auto.
Qed.

Lemma entries_from_pairs (u : pydict) (m : list (pyval * pyval)) :
  forallb (fun kv => Py.is_str (fst kv)) m = true ->
  exists m',
    Py.entries_from (map (fun kv => PList [PStr (fst kv); snd kv]) u) m = Ok m'
    /\ forallb (fun kv => Py.is_str (fst kv)) m' = true
    /\ Py.str_entries m' = Py.update (Py.str_entries m) u.
Proof.
  revert m. induction u as [|[k v] u IH]; intros m Hm.
  - exists m. auto.
  - cbn [map Py.entries_from Py.pair_of Py.hashable fst snd bind].
    destruct (map_set_str m k v Hm) as [H1 H2].
    destruct (IH _ H1) as (m' & -> & Hs & He).
    exists m'. repeat split; auto.
    rewrite He, H2. reflexivity.
Qed.

(** [dict] of a list of [key, value] pairs with str keys. *)
Lemma to_dict_pairs (u : pydict) :
  Py.to_dict (pairs u) = Ok (PDict (Py.update [] u)).
Proof.
  unfold pairs, Py.to_dict.
  destruct (entries_from_pairs u [] eq_refl) as (m & -> & Hs & He).
  cbn [bind]. unfold Py.of_entries. rewrite Hs, He. reflexivity.
Qed.

(** X14. A summary the analyzer cannot read is still analysed: when its
    header is not a dict, or [dict] raises on its units, [analyze_hdu]
    raises and [analyze] records the fallback, classified unknown, without
    column names or axis meanings, and with the units of the summary as
    they were. Units spelled as a list of [key, value] pairs are no such
    case: [dict] builds the dict from them, later pairs replacing earlier
    ones of the same key, and with a dict header the analysis of a unit
    that is not table-like carries that dict. *)
Theorem unreadable_summary_falls_back (rt : Runtime) (file : fits_file)
    (s : pydict) :
  ((exists v, Py.lookup s "header" = Some v /\ Py.entries v = None)
   \/ (exists e, Py.to_dict (Py.get s "units" (PDict [])) = Raise e) ->
   (exists e, analyze_hdu rt file s = Raise e)
   /\ analyze rt file [s] = Ok [fallback s]
   /\ Py.lookup (fallback s) "classification"
      = Some (PStr CLASSIFICATION_UNKNOWN)
   /\ Py.lookup (fallback s) "column_names" = Some (PList [])
   /\ Py.lookup (fallback s) "units" = Some (Py.get s "units" (PDict []))
   /\ Py.lookup (fallback s) "axis_meaning" = Some (PDict []))
  /\ (forall h u t,
         Py.lookup s "header" = Some (PDict h) ->
         Py.lookup s "units" = Some (pairs u) ->
         Py.lookup s "hdu_type" = Some (PStr t) ->
         table_like t = false ->
         exists a,
           analyze_hdu rt file s = Ok a
           /\ analyze rt file [s] = Ok [a]
           /\ Py.lookup a "units" = Some (PDict (Py.update [] u))).
Proof.
  split.
  - intros H.
    assert (Hr : exists e, analyze_hdu rt file s = Raise e).
    { unfold analyze_hdu. destruct H as [(v & Hv & Hn)|(e & He)].
      - destruct (Py.to_dict _); cbn [bind]; [|eauto].
        unfold Py.get. rewrite Hv.
        destruct v; cbn [_axis_meaning bind]; eauto; discriminate Hn.
      - rewrite He. cbn [bind]. eauto. }
    split; [exact Hr|]. split.
    + unfold analyze. cbn [map]. destruct Hr as (e & ->). reflexivity.
    + unfold fallback.
      match goal with
      | |- context [Py.set (Py.set (Py.set (Py.set ?d _ ?c) _ ?n) _ ?u) _ ?a] =>
          destruct (assigned_four d c n u a) as (H1 & H2 & H3 & H4)
      end.
      rewrite H1, H2, H3, H4. repeat split.
      f_equal. unfold Py.get.
      rewrite !PyFacts.lookup_set_other by discriminate. reflexivity.
  - intros h u t Hh Hu Ht Htl.
    assert (Ha : exists a, analyze_hdu rt file s = Ok a
                           /\ Py.lookup a "units"
                              = Some (PDict (Py.update [] u))).
    { unfold analyze_hdu, Py.get. rewrite Hu, Hh, to_dict_pairs.
      cbn [bind _axis_meaning].
      destruct (try_except _ _) as [[c cols] u'] eqn:Ec.
      eexists. split; [reflexivity|].
      apply (AnalyzerFacts.classify_units rt file s _ t) in Ec; auto.
      subst u'. apply AnalyzerFacts.assigned_units. }
    destruct Ha as (a & Ha & Hunits). exists a.
    split; [exact Ha|]. split; [|exact Hunits].
    unfold analyze. cbn [map]. rewrite Ha. reflexivity.
Qed.

Lemma unreadable_summary_falls_back_witness :
  analyze Samples.runtime Samples.uniform_file
    [[("hdu_index", PInt 0); ("hdu_type", PStr "PrimaryHDU");
      ("header", PStr "SIMPLE = T")]%string]
  = Ok [[("hdu_index", PInt 0); ("hdu_type", PStr "PrimaryHDU");
         ("header", PStr "SIMPLE = T");
         ("classification", PStr "unknown"); ("column_names", PList []);
         ("units", PDict []); ("axis_meaning", PDict [])]%string]
  /\ exists a,
       analyze Samples.runtime Samples.uniform_file
         [[("hdu_index", PInt 0); ("hdu_type", PStr "PrimaryHDU");
           ("header", PDict []); ("data_shape", PList [PInt 2; PInt 2]);
           ("units", PList [PList [PStr "BUNIT"; PStr "Jy"]])]%string]
       = Ok [a]
       /\ Py.lookup a "units" = Some (PDict [("BUNIT", PStr "Jy")]%string)
       /\ Py.lookup a "classification" = Some (PStr "image").
Proof.
  split.
  - apply (proj1 (unreadable_summary_falls_back Samples.runtime
                    Samples.uniform_file
                    [("hdu_index", PInt 0); ("hdu_type", PStr "PrimaryHDU");
                     ("header", PStr "SIMPLE = T")]%string)).
    left. exists (PStr "SIMPLE = T"). split; reflexivity.
  - destruct (proj2 (unreadable_summary_falls_back Samples.runtime
                       Samples.uniform_file
                       [("hdu_index", PInt 0); ("hdu_type", PStr "PrimaryHDU");
                        ("header", PDict []);
                        ("data_shape", PList [PInt 2; PInt 2]);
                        ("units", PList [PList [PStr "BUNIT"; PStr "Jy"]])]%string)
                [] [("BUNIT", PStr "Jy")]%string "PrimaryHDU"%string
                eq_refl eq_refl eq_refl eq_refl)
      as (a & Ha & Han & Hu).
    exists a. split; [exact Han|]. split; [exact Hu|].
    vm_compute in Ha. injection Ha as <-. reflexivity.
Defined.

End UnitAnalysisFacts.

(* ================================================================= *)
(** ** The renderer: the display range *)

Module LimitsFacts.
Import Spec.
Import Builtins Visualizer FloatOrderFacts.

Lemma eqb_sym (a b : float) : F64.eqb a b = F64.eqb b a.
Proof.
  unfold F64.eqb, SFeqb, SFcompare.
  destruct a as [[]|[]| |[] ma ea], b as [[]|[]| |[] mb eb]; simpl;
    try reflexivity; by_order.
Qed.

Lemma add_eps_number (v : float) :
  F64.isfinite v = true -> F64.isnan (F64.add v F64.eps6) = false.
Proof.
  destruct v as [s| | |s m e]; try discriminate; intros _.
  - destruct s; reflexivity.
  - rewrite RoundFacts.add_eps_unfold. unfold binary_normalize.
    match goal with
    | |- context [match ?z with Z0 => _ | Zpos _ => _ | Zneg _ => _ end] =>
        destruct z as [|p|p]
    end; [reflexivity| |].
    + pose proof (RoundFacts.round_sign false p (Z.min e (-72))) as H.
      destruct (binary_round _ _ _ _ _); simpl in *; tauto.
    + pose proof (RoundFacts.round_sign true p (Z.min e (-72))) as H.
      destruct (binary_round _ _ _ _ _); simpl in *; tauto.
Qed.

Lemma zscale_limits_Some (rt : Runtime) (data : ndarray) (lo hi : float) :
  zscale_limits rt data = Some (lo, hi) <->
  zscale_get_limits rt data = Ok (lo, hi) /\ accepted lo hi = true.
Proof.
  unfold zscale_limits.
  destruct (zscale_get_limits rt data) as [[a b]|]; [|intuition discriminate].
  destruct (accepted a b) eqn:E; split.
  - intros [= <- <-]. auto.
  - intros ([= <- <-] & _). reflexivity.
  - discriminate.
  - intros ([= <- <-] & H). congruence.
Qed.

Lemma percentile_limits_Some (rt : Runtime) (data : ndarray) (lo hi : float) :
  percentile_limits rt data = Some (lo, hi) <->
  nanpercentile rt data 1 = Ok lo /\ nanpercentile rt data 99 = Ok hi
  /\ accepted lo hi = true.
Proof.
  unfold percentile_limits.
  destruct (nanpercentile rt data 1) as [a|]; [|intuition discriminate].
  destruct (nanpercentile rt data 99) as [b|]; [|intuition discriminate].
  destruct (accepted a b) eqn:E; split.
  - intros [= <- <-]. auto.
  - intros ([= <-] & [= <-] & _). reflexivity.
  - discriminate.
  - intros ([= <-] & [= <-] & H). congruence.
Qed.

Lemma accepted_inv (lo hi : float) :
  accepted lo hi = true ->
  F64.isfinite lo = true /\ F64.isfinite hi = true /\ F64.eqb lo hi = false.
Proof.
  unfold accepted, F64.neqb. intros H.
  apply andb_true_iff in H as (H & H3). apply andb_true_iff in H as (H1 & H2).
  apply negb_true_iff in H3. auto.
Qed.

(** What the fallback tier returns. *)
Lemma minmax_limits_inv (data : ndarray) (lo hi : float) :
  minmax_limits data = Ok (lo, hi) ->
  F64.isfinite lo = true /\ F64.isnan hi = false
  /\ (F64.eqb lo hi = true ->
      nanmin (samples data) = Ok lo /\ hi = F64.add lo F64.eps6)
  /\ exists M, nanmax (samples data) = Ok M.
Proof.
  unfold minmax_limits.
  destruct (nanmin (samples data)) as [m|]; [|discriminate].
  destruct (nanmax (samples data)) as [M|]; [|discriminate].
  cbn [bind]. intros [= <- <-].
  set (lo := if negb (F64.isfinite m) then F64.zero else m).
  assert (Hlo : F64.isfinite lo = true).
  { subst lo. destruct (F64.isfinite m) eqn:E; auto. }
  assert (Hadd : F64.add F64.zero F64.eps6 = F64.eps6) by reflexivity.
  split; [exact Hlo|]. split; [|split; [|eauto]].
  - destruct (F64.isfinite M) eqn:EM; cbn [negb orb];
      [|now apply add_eps_number].
    destruct (F64.eqb M lo); [now apply add_eps_number|].
    now apply RangeFacts.isnan_false_finite.
  - intros Heq.
    assert (Hhi : (if negb (F64.isfinite M) || F64.eqb M lo
                   then F64.add lo F64.eps6 else M) = F64.add lo F64.eps6).
    { destruct (negb (F64.isfinite M) || F64.eqb M lo) eqn:E; auto.
      apply orb_false_elim in E as (_ & E).
      rewrite eqb_sym in E. congruence. }
    rewrite Hhi in *. split; [|reflexivity].
    subst lo. destruct (F64.isfinite m); cbn [negb] in *; auto.
    rewrite Hadd in Heq. discriminate Heq.
Qed.

(** What [_get_interval_limits] returns, whatever the tier. *)
Lemma interval_limits_inv (rt : Runtime) (data : ndarray) (lo hi : float) :
  _get_interval_limits rt data = (lo, hi) ->
  F64.isfinite lo = true /\ F64.isnan hi = false
  /\ (F64.eqb lo hi = true ->
      nanmin (samples data) = Ok lo
      /\ exists M, nanmax (samples data) = Ok M).
Proof.
  unfold _get_interval_limits.
  destruct (zscale_limits rt data) as [[a b]|] eqn:Z.
  { intros [= <- <-]. apply zscale_limits_Some in Z as (_ & Z).
    apply accepted_inv in Z as (H1 & H2 & H3).
    split; [exact H1|]. split; [now apply RangeFacts.isnan_false_finite|].
    congruence. }
  destruct (percentile_limits rt data) as [[a b]|] eqn:P.
  { intros [= <- <-]. apply percentile_limits_Some in P as (_ & _ & P).
    apply accepted_inv in P as (H1 & H2 & H3).
    split; [exact H1|]. split; [now apply RangeFacts.isnan_false_finite|].
    congruence. }
  destruct (minmax_limits data) as [[a b]|] eqn:M; cbn [try_except];
    intros [= <- <-].
  - apply minmax_limits_inv in M as (H1 & H2 & H3 & H4).
    split; [exact H1|]. split; [exact H2|]. intros E. split; [|exact H4].
    now apply H3.
  - split; [reflexivity|]. split; [reflexivity|]. discriminate.
Qed.

(** X15. The display range is made of numbers: its lower limit is always
    finite and its upper limit is never NaN. The range of the first
    estimator is returned when it is finite and not flat, else that of the
    percentiles under the same test; an array without samples, when both
    estimators fail, gets the range from 0.0 to 1.0. *)
Theorem interval_limits_are_numbers (rt : Runtime) (data : ndarray) :
  F64.isfinite (fst (_get_interval_limits rt data)) = true
  /\ F64.isnan (snd (_get_interval_limits rt data)) = false
  /\ (forall lo hi,
        zscale_get_limits rt data = Ok (lo, hi) -> accepted lo hi = true ->
        _get_interval_limits rt data = (lo, hi))
  /\ (zscale_limits rt data = None ->
      forall lo hi,
        nanpercentile rt data 1 = Ok lo -> nanpercentile rt data 99 = Ok hi ->
        accepted lo hi = true ->
        _get_interval_limits rt data = (lo, hi))
  /\ (zscale_limits rt data = None -> percentile_limits rt data = None ->
      samples data = [] ->
      _get_interval_limits rt data = (F64.zero, F64.one)).
Proof.
  assert (Hnum : F64.isfinite (fst (_get_interval_limits rt data)) = true
                 /\ F64.isnan (snd (_get_interval_limits rt data)) = false).
  { destruct (_get_interval_limits rt data) as [lo hi] eqn:E.
    apply interval_limits_inv in E as (H1 & H2 & _). auto. }
  destruct Hnum as (H1 & H2).
  split; [exact H1|]. split; [exact H2|]. split; [|split].
  - intros lo hi Hz Ha. unfold _get_interval_limits.
    rewrite (proj2 (zscale_limits_Some rt data lo hi)) by auto. reflexivity.
  - intros Hz lo hi Hp1 Hp2 Ha. unfold _get_interval_limits.
    rewrite Hz, (proj2 (percentile_limits_Some rt data lo hi)) by auto.
    reflexivity.
  - intros Hz Hp He. unfold _get_interval_limits, minmax_limits.
    rewrite Hz, Hp, He. reflexivity.
Qed.

Lemma interval_limits_are_numbers_witness :
  _get_interval_limits Samples.runtime
    (Samples.float_image [2; 2]
       [F64.of_Z 1; F64.of_Z 2; F64.of_Z 3; F64.of_Z 4])
  = (F64.of_Z 1, F64.of_Z 4).
Proof.
  destruct (interval_limits_are_numbers Samples.runtime
              (Samples.float_image [2; 2]
                 [F64.of_Z 1; F64.of_Z 2; F64.of_Z 3; F64.of_Z 4]))
    as (_ & _ & H & _).
  apply H; reflexivity.
Defined.

End LimitsFacts.

(* ================================================================= *)
(** ** The renderer: images *)

Module DrawFacts.
Import Spec.
Import Builtins Visualizer FloatOrderFacts LimitsFacts.

(** What [_render_image] hands to the backend for a two-dimensional
    array. *)
Lemma image_request (rt : Runtime) (arr : ndarray) :
  exists lo hi,
    (let '(vmin, vmax) := _get_interval_limits rt arr in
     limits <-
       (if negb (F64.isfinite vmin) || F64.eqb vmin vmax
        then
          lo <- nanmin (samples arr);;
          hi <- nanmax (samples arr);;
          Ok (lo, if F64.isfinite hi && F64.neqb hi lo then hi
                  else F64.add lo F64.eps6)
        else Ok (vmin, vmax));;
     (let '(vmin, vmax) := limits in
      Ok (Some (Imshow arr vmin vmax
                  (if F64.ltb vmin vmax then AsinhStretch else LinearStretch)))))
    = Ok (Some (Imshow arr lo hi
                  (if F64.ltb lo hi then AsinhStretch else LinearStretch)))
    /\ F64.isfinite lo = true /\ F64.isnan hi = false.
Proof.
  destruct (_get_interval_limits rt arr) as [vmin vmax] eqn:E.
  apply interval_limits_inv in E as (H1 & H2 & H3).
  rewrite H1. cbn [negb orb].
  destruct (F64.eqb vmin vmax) eqn:Q.
  - destruct (H3 eq_refl) as (Hm & M & HM). rewrite Hm, HM. cbn [bind].
    eexists _, _. split; [reflexivity|]. split; [exact H1|].
    destruct (F64.isfinite M) eqn:FM; cbn [andb].
    + destruct (F64.neqb M vmin); [now apply RangeFacts.isnan_false_finite|].
      now apply add_eps_number.
    + now apply add_eps_number.
  - cbn [bind]. eexists _, _. split; [reflexivity|]. auto.
Qed.

(** [image_plot] on a unit whose data is a two-dimensional array. *)
Lemma image_plot_array (rt : Runtime) (hdul : list HDU) (j : nat)
    (hdu : HDU) (arr : ndarray) :
  nth_error hdul j = Some hdu -> data hdu = DataArray arr -> ndim arr = 2 ->
  exists lo hi,
    image_plot rt (Opened hdul true) (PInt (Z.of_nat j))
    = Ok (Some (Imshow arr lo hi
                  (if F64.ltb lo hi then AsinhStretch else LinearStretch)))
    /\ F64.isfinite lo = true /\ F64.isnan hi = false.
Proof.
  intros Hj Hd Hn.
  destruct (image_request rt arr) as (lo & hi & Hreq & Hlo & Hhi).
  exists lo, hi. split; [|auto].
  unfold image_plot. cbn [reopen bind ge_int hdul_index].
  assert (Hlt : (Z.of_nat (List.length hdul) <=? Z.of_nat j) = false).
  { apply Z.leb_gt. apply Nat2Z.inj_lt. apply nth_error_Some. congruence. }
  rewrite Hlt, (RenderFacts.nth_error_index hdul j hdu Hj). cbn [bind].
  rewrite Hd, Hn. cbn [Z.eqb negb Pos.eqb]. exact Hreq.
Qed.

(** X16. A unit whose data is a two-dimensional array is always handed to
    the plotting backend: with the array itself, a finite lower limit, an
    upper limit that is not NaN, and the asinh stretch when the lower limit
    is below the upper one, the linear stretch otherwise. The image
    renderer then succeeds exactly when the backend does. *)
Theorem array_image_always_drawn (rt : Runtime) (hdul : list HDU) (j : nat)
    (hdu : HDU) (arr : ndarray) :
  nth_error hdul j = Some hdu -> data hdu = DataArray arr -> ndim arr = 2 ->
  exists lo hi,
    image_plot rt (Opened hdul true) (PInt (Z.of_nat j))
    = Ok (Some (Imshow arr lo hi
                  (if F64.ltb lo hi then AsinhStretch else LinearStretch)))
    /\ F64.isfinite lo = true /\ F64.isnan hi = false
    /\ forall out,
         _render_image rt (Opened hdul true) (PInt (Z.of_nat j)) out
         = match savefig rt
                   (Imshow arr lo hi
                      (if F64.ltb lo hi then AsinhStretch else LinearStretch))
                   out
           with Ok _ => true | Raise _ => false end.
Proof.
  intros Hj Hd Hn.
  destruct (image_plot_array rt hdul j hdu arr Hj Hd Hn)
    as (lo & hi & Hplot & Hlo & Hhi).
  exists lo, hi. split; [exact Hplot|]. split; [exact Hlo|].
  split; [exact Hhi|].
  intros out. unfold _render_image, draw. rewrite Hplot. cbn [bind].
  destruct (savefig rt _ out); reflexivity.
Qed.

Lemma array_image_always_drawn_witness :
  exists lo hi,
    image_plot Samples.runtime Samples.uniform_file (PInt 0)
    = Ok (Some (Imshow (Samples.float_image [100; 100]
                          (repeat Samples.f3_5 (Z.to_nat 10000)))
                  lo hi
                  (if F64.ltb lo hi then AsinhStretch else LinearStretch)))
    /\ F64.isfinite lo = true.
Proof.
  destruct (array_image_always_drawn Samples.runtime [Samples.uniform_hdu]
              0%nat Samples.uniform_hdu
              (Samples.float_image [100; 100]
                 (repeat Samples.f3_5 (Z.to_nat 10000)))
              eq_refl eq_refl eq_refl) as (lo & hi & H & Hlo & _).
  exists lo, hi. split; [exact H|exact Hlo].
Defined.

End DrawFacts.

(* ================================================================= *)
(** ** The renderer: preview addresses and dispatch *)

Module PreviewFacts.
Import Spec.
Import Builtins Analyzer Visualizer StringFacts.

Lemma of_Z_inj (i j : Z) : PyStr.of_Z i = PyStr.of_Z j -> i = j.
Proof.
  unfold PyStr.of_Z. intros H.
  assert (Hn : forall z, Z.to_int z <> Decimal.Pos Decimal.Nil
                         /\ Z.to_int z <> Decimal.Neg Decimal.Nil).
  { intros z. split; intros E; pose proof (f_equal Z.of_int E) as E';
      rewrite DecimalZ.of_to in E'; simpl in E'; subst z;
      vm_compute in E; discriminate E. }
  apply DecimalZ.to_int_inj.
  assert (E : Some (Z.to_int i) = Some (Z.to_int j)).
  { rewrite <- (NilZero.isi (Z.to_int i)) by apply Hn.
    rewrite <- (NilZero.isi (Z.to_int j)) by apply Hn.
    now rewrite H. }
  now injection E.
Qed.

Lemma append_inj_l (p a b : string) : (p ++ a = p ++ b)%string -> a = b.
Proof. induction p; simpl; intros H; [exact H|]. injection H. auto. Qed.

Lemma append_length (a b : string) :
  String.length (a ++ b) = (String.length a + String.length b)%nat.
Proof. induction a; simpl; auto. Qed.

Lemma append_inj_r (a b s : string) : (a ++ s = b ++ s)%string -> a = b.
Proof.
  revert b. induction a as [|c a IH]; intros [|c' b] H; simpl in H.
  - reflexivity.
  - apply (f_equal String.length) in H. simpl in H.
    rewrite append_length in H. lia.
  - apply (f_equal String.length) in H. simpl in H.
    rewrite append_length in H. lia.
  - injection H as -> H. f_equal. auto.
Qed.

Lemma preview_url_inj (fid : string) (i j : Z) :
  preview_url fid i = preview_url fid j -> i = j.
Proof.
  unfold preview_url. intros H.
  apply (append_inj_l "/previews/fits_") in H.
  apply append_inj_l in H. apply (append_inj_l "_hdu_") in H.
  apply append_inj_r in H. now apply of_Z_inj.
Qed.

(** The address [visualize_hdu] returns, when it returns one. *)
Lemma visualize_hdu_url (rt : Runtime) (file : fits_file) (a : pydict)
    (dir fid url : string) :
  visualize_hdu rt file a dir fid = Some url ->
  makedirs rt dir = None
  /\ url = ("/previews/fits_" ++ fid ++ "_hdu_"
            ++ str rt (Py.get a "hdu_index" (PInt 0)) ++ ".png")%string.
Proof.
  unfold visualize_hdu. destruct (makedirs rt dir); [discriminate|].
  match goal with |- (if ?b then _ else _) = _ -> _ => destruct b end;
    [|discriminate].
  intros [= <-]. split; [reflexivity|].
  cbn [String.append]. rewrite !append_assoc. reflexivity.
Qed.

(** X17. A preview address is built from the file id and the index of the
    unit alone, never from the directory the image is written to: for a
    unit of index [i] it is /previews/fits_<id>_hdu_<i>.png, returned only
    when the directory could be made, so that within one file two units of
    different indices never share an address. *)
Theorem preview_urls_distinct (rt : Runtime) (file : fits_file)
    (a1 a2 : pydict) (dir fid url1 url2 : string) (i j : Z) :
  Py.lookup a1 "hdu_index" = Some (PInt i) ->
  Py.lookup a2 "hdu_index" = Some (PInt j) ->
  visualize_hdu rt file a1 dir fid = Some url1 ->
  visualize_hdu rt file a2 dir fid = Some url2 ->
  url1 = preview_url fid i /\ url2 = preview_url fid j
  /\ makedirs rt dir = None
  /\ (url1 = url2 -> i = j).
Proof.
  intros H1 H2 V1 V2.
  apply visualize_hdu_url in V1 as (Hm & ->).
  apply visualize_hdu_url in V2 as (_ & ->).
  unfold Py.get. rewrite H1, H2. cbn [str].
  repeat split; auto. apply preview_url_inj.
Qed.

Lemma preview_urls_distinct_witness :
  visualize_hdu Samples.runtime Samples.damaged_file
    [("hdu_index", PInt 2); ("classification", PStr "image")]%string
    "/tmp/out" "1b9d6bcd"
  = Some "/previews/fits_1b9d6bcd_hdu_2.png"%string.
Proof.
  destruct (visualize_hdu Samples.runtime Samples.damaged_file
              [("hdu_index", PInt 2); ("classification", PStr "image")]%string
              "/tmp/out" "1b9d6bcd") as [u|] eqn:E;
    [|vm_compute in E; discriminate E].
  destruct (preview_urls_distinct Samples.runtime Samples.damaged_file
              [("hdu_index", PInt 2); ("classification", PStr "image")]%string
              [("hdu_index", PInt 2); ("classification", PStr "image")]%string
              "/tmp/out" "1b9d6bcd" u u 2 2 eq_refl eq_refl E E)
    as (-> & _).
  reflexivity.
Defined.

Lemma unit_data_at (hdul : list HDU) (j : nat) (hdu : HDU) :
  nth_error hdul j = Some hdu -> data hdu <> DataRaises ->
  unit_data (Opened hdul true) (PInt (Z.of_nat j))
  = Ok (match data hdu with DataNone => None | d => Some d end).
Proof.
  intros Hj Hd. unfold unit_data. cbn [reopen bind ge_int hdul_index].
  assert (Hlt : (Z.of_nat (List.length hdul) <=? Z.of_nat j) = false).
  { apply Z.leb_gt. apply Nat2Z.inj_lt. apply nth_error_Some. congruence. }
  rewrite Hlt, (RenderFacts.nth_error_index hdul j hdu Hj). cbn [bind].
  destruct (data hdu); congruence.
Qed.

(** A line renderer over an array: nothing to draw. *)
Lemma line_plot_array (arr : ndarray) (cols : string * string) :
  line_plot (DataArray arr) cols = Ok None
  \/ exists e, line_plot (DataArray arr) cols = Raise e.
Proof.
  destruct cols as [x y]. unfold line_plot.
  destruct (PyStr.is_empty x || PyStr.is_empty y); [now left|].
  right. cbn [field_as_float bind]. eauto.
Qed.

Lemma numeric_names_map {A B} (f : A -> B) (t : table) (l : list A) :
  numeric_names t (map f l) = map f (numeric_names t l).
Proof.
  revert t. induction l as [|x l IH]; intros [|c t]; simpl; auto.
  destruct (is_numeric_format (col_format c)); simpl; now rewrite IH.
Qed.

Lemma first_two_items (a : string) (l : list string) :
  (c1 <- item_at (PList (map PStr (a :: l))) 0 ;;
   n <- Py.len (PList (map PStr (a :: l))) ;;
   c2 <- (if 1 <? n then item_at (PList (map PStr (a :: l))) 1
          else Ok (PStr "")) ;;
   Ok (c1, c2))
  = Ok (PStr a, PStr match l with c :: _ => c | [] => ""%string end).
Proof.
  pose proof (RenderFacts.nth_error_index (map PStr (a :: l)) 0 (PStr a)
                eq_refl) as H0.
  change (Z.of_nat 0) with 0 in H0.
  unfold item_at, Py.len. rewrite H0. cbn [bind].
  destruct l as [|b l]; [reflexivity|].
  replace (1 <? Z.of_nat (List.length (map PStr (a :: b :: l)))) with true
    by (symmetry; apply Z.ltb_lt; simpl List.length; lia).
  pose proof (RenderFacts.nth_error_index (map PStr (a :: b :: l)) 1 (PStr b)
                eq_refl) as H1.
  change (Z.of_nat 1) with 1 in H1. rewrite H1. reflexivity.
Qed.

(** On a list of str [first_numeric_items] is [_first_numeric_columns]. *)
Lemma first_numeric_items_names (d : hdu_data) (names : list string) :
  first_numeric_items d (PList (map PStr names))
  = Ok (PStr (fst (_first_numeric_columns d names)),
        PStr (snd (_first_numeric_columns d names))).
Proof.
  unfold first_numeric_items, _first_numeric_columns.
  destruct names as [|a l]; [reflexivity|].
  change (negb (Py.truthy (PList (map PStr (a :: l))))) with false.
  cbv iota.
  destruct d as [| |arr|t]; try reflexivity;
    try (cbv beta zeta iota; rewrite first_two_items; destruct l;
         reflexivity).
  cbn [iter_items bind try_except].
  rewrite numeric_names_map.
  destruct (numeric_names t (a :: l)) as [|x [|y r]]; try reflexivity.
  change (map PStr []) with (@nil pyval). cbv beta zeta iota.
  rewrite first_two_items. destruct l; reflexivity.
Qed.

Lemma row_of_vector (xs : list float) (i : Z) :
  array_row (vector xs) i = (a <- Py.index xs i ;; Ok [a]).
Proof.
  unfold array_row, vector, Py.index. cbn [shape samples fold_right].
  set (n := Z.of_nat (List.length xs)).
  set (j := if i <? 0 then i + n else i).
  destruct ((j <? 0) || (n <=? j)) eqn:E; [reflexivity|].
  apply orb_false_elim in E as [E1 E2].
  apply Z.ltb_ge in E1. apply Z.leb_gt in E2.
  rewrite Z.mul_1_r.
  destruct (nth_error xs (Z.to_nat j)) as [a|] eqn:En.
  - cbn [bind]. f_equal.
    apply nth_error_split in En as (l1 & l2 & -> & Hl).
    rewrite <- Hl, skipn_app, skipn_all, Nat.sub_diag. reflexivity.
  - apply nth_error_None in En. subst n. lia.
Qed.

Lemma take_rows_vector (xs : list float) (idx : list Z) :
  take_rows (vector xs) idx
  = (ys <- take xs idx ;;
     Ok {| dtype_kind := "f"; shape := [Z.of_nat (List.length idx)];
           samples := ys |}).
Proof.
  unfold take_rows, take. cbn [dtype_kind shape vector tl].
  assert (H : map_result (array_row (vector xs)) idx
              = (ys <- map_result (Py.index xs) idx ;; Ok (map (fun a => [a]) ys))).
  { induction idx as [|i idx IH]; cbn [map_result bind]; [reflexivity|].
    rewrite row_of_vector, IH.
    destruct (Py.index xs i); cbn [bind]; [|reflexivity].
    destruct (map_result (Py.index xs) idx); reflexivity. }
  rewrite H. destruct (map_result (Py.index xs) idx) as [ys|]; cbn [bind];
    [|reflexivity].
  clear H.
  assert (Hc : List.concat (map (fun a => [a]) ys) = ys)
    by (induction ys as [|a l IH]; simpl; [reflexivity|now rewrite IH]).
  rewrite Hc. reflexivity.
Qed.

(** On a list of str the general scatter path is [table_scatter_plot]. *)
Lemma scatter_plot_of_names (rt : Runtime) (file : fits_file) (idx : pyval)
    (names : list string) :
  scatter_plot_of rt file idx (PList (map PStr names))
  = table_scatter_plot file idx names.
Proof.
  unfold scatter_plot_of, table_scatter_plot.
  destruct (unit_data file idx) as [[d|]|]; cbn [bind]; try reflexivity.
  rewrite first_numeric_items_names. cbn [bind].
  destruct (_first_numeric_columns d names) as [c1 c2]. cbn [fst snd].
  assert (Ht : forall c, Py.truthy (PStr c) = negb (PyStr.is_empty c))
    by reflexivity.
  rewrite !Ht, negb_involutive.
  destruct (PyStr.is_empty c1); [reflexivity|].
  cbn [item_as_array str].
  destruct (field_as_float d c1) as [x|]; cbn [bind]; [|reflexivity].
  assert (Hy : (if negb (PyStr.is_empty c2)
                then xs <- field_as_float d c2 ;; Ok (vector xs)
                else n <- array_len (vector x) ;; Ok (vector (arange n)))
               = (y <- (if negb (PyStr.is_empty c2) then field_as_float d c2
                        else Ok (arange (Z.of_nat (List.length x)))) ;;
                  Ok (vector y))).
  { destruct (negb (PyStr.is_empty c2)); reflexivity. }
  rewrite Hy.
  destruct (if negb (PyStr.is_empty c2) then field_as_float d c2 else _)
    as [y|]; cbn [bind]; [|reflexivity].
  unfold cap_rows. cbn [array_len vector shape bind].
  destruct (MAX_TABLE_ROWS <? Z.of_nat (List.length x)); cbn [bind fst snd samples];
    [|reflexivity].
  fold (vector x). fold (vector y). rewrite !take_rows_vector.
  destruct (take x _) as [x'|]; cbn [bind]; [|reflexivity].
  destruct (take y _) as [y'|]; cbn [bind]; reflexivity.
Qed.

(** The line renderers over an array: nothing to draw, whatever the
    names. *)
Lemma line_renderers_array (rt : Runtime) (hdul : list HDU) (j : nat)
    (hdu : HDU) (arr : ndarray) (names : pyval) (out : string) :
  nth_error hdul j = Some hdu -> data hdu = DataArray arr ->
  _render_light_curve rt (Opened hdul true) (PInt (Z.of_nat j)) names out
  = false
  /\ _render_spectrum rt (Opened hdul true) (PInt (Z.of_nat j)) names out
     = false.
Proof.
  intros Hj Hd.
  assert (Hu : unit_data (Opened hdul true) (PInt (Z.of_nat j))
               = Ok (Some (DataArray arr))).
  { rewrite (unit_data_at hdul j hdu Hj) by congruence. now rewrite Hd. }
  assert (Hk : forall scan,
             keyed_line_plot scan (Opened hdul true) (PInt (Z.of_nat j)) names
             = Ok None
             \/ exists e,
                 keyed_line_plot scan (Opened hdul true) (PInt (Z.of_nat j))
                   names = Raise e).
  { intros scan. unfold keyed_line_plot. rewrite Hu. cbn [bind].
    destruct (str_keys names) as [keys|]; cbn [bind]; [|right; eauto].
    destruct (keyed_columns _ _) as [cols|]; cbn [bind]; [|right; eauto].
    apply line_plot_array. }
  assert (Hl : (names <- str_list names ;;
                light_curve_plot (Opened hdul true) (PInt (Z.of_nat j)) names)
               = Ok None
               \/ exists e,
                   (names <- str_list names ;;
                    light_curve_plot (Opened hdul true) (PInt (Z.of_nat j))
                      names) = Raise e).
  { destruct (str_list names) as [l|]; cbn [bind]; [|right; eauto].
    unfold light_curve_plot. rewrite Hu. cbn [bind]. apply line_plot_array. }
  assert (Hs : (names <- str_list names ;;
                spectrum_plot (Opened hdul true) (PInt (Z.of_nat j)) names)
               = Ok None
               \/ exists e,
                   (names <- str_list names ;;
                    spectrum_plot (Opened hdul true) (PInt (Z.of_nat j))
                      names) = Raise e).
  { destruct (str_list names) as [l|]; cbn [bind]; [|right; eauto].
    unfold spectrum_plot. rewrite Hu. cbn [bind]. apply line_plot_array. }
  unfold _render_light_curve, _render_spectrum.
  split; apply RenderFacts.draw_nothing; destruct names; auto.
Qed.

(** Over an array the first name the scatter renderer picks is the first
    item of [col_names]. *)
Lemma first_item_array (arr : ndarray) (names c1 c2 : pyval) :
  first_numeric_items (DataArray arr) names = Ok (c1, c2) ->
  (forall c l, names = PList (c :: l) -> Py.is_str c = true) ->
  (forall m, names <> PMap m) ->
  Py.is_str c1 = true.
Proof.
  unfold first_numeric_items. intros H Hfirst Hmap.
  destruct (negb (Py.truthy names)) eqn:Et; [now injection H as <- <-|].
  destruct names as [| | | |s|l| |]; try discriminate H.
  - cbn [item_at] in H.
    destruct (Py.index _ 0) as [c|] eqn:Ec; [|discriminate H].
    cbn [bind] in H.
    destruct (Py.len _); [|discriminate H]. cbn [bind] in H.
    destruct (if 1 <? _ then _ else _); [|discriminate H].
    injection H as <- <-.
    destruct s as [|ch s]; [discriminate Ec|].
    cbn in Ec. injection Ec as <-. reflexivity.
  - destruct l as [|c l]; [discriminate Et|].
    cbn [item_at] in H.
    change (Py.index (c :: l) 0) with (@Ok pyval c) in H. cbn [bind] in H.
    destruct (Py.len _); [|discriminate H]. cbn [bind] in H.
    destruct (if 1 <? _ then _ else _); [|discriminate H].
    injection H as <- <-. eauto.
  - elim (Hmap m). reflexivity.
Qed.

(** The scatter renderer over an array draws nothing unless the first name
    is something else than a str. *)
Lemma scatter_array_str (rt : Runtime) (hdul : list HDU) (j : nat)
    (hdu : HDU) (arr : ndarray) (names : pyval) (out : string) :
  nth_error hdul j = Some hdu -> data hdu = DataArray arr ->
  (forall c l, names = PList (c :: l) -> Py.is_str c = true) ->
  (forall m, names <> PMap m) ->
  _render_table_scatter rt (Opened hdul true) (PInt (Z.of_nat j)) names out
  = false.
Proof.
  intros Hj Hd Hfirst Hmap.
  assert (Hu : unit_data (Opened hdul true) (PInt (Z.of_nat j))
               = Ok (Some (DataArray arr))).
  { rewrite (unit_data_at hdul j hdu Hj) by congruence. now rewrite Hd. }
  unfold _render_table_scatter. apply RenderFacts.draw_nothing.
  destruct (str_list names) as [l|e] eqn:El.
  - unfold table_scatter_plot. rewrite Hu. cbn [bind].
    destruct (_first_numeric_columns _ _) as [c1 c2].
    destruct (PyStr.is_empty c1); [now left|].
    right. cbn [field_as_float bind]. eauto.
  - unfold scatter_plot_of. rewrite Hu. cbn [bind].
    destruct (first_numeric_items _ _) as [[c1 c2]|] eqn:Ef; cbn [bind];
      [|right; eauto].
    apply first_item_array in Ef; auto.
    destruct c1; try discriminate Ef.
    destruct (negb (Py.truthy (PStr s))); [now left|].
    right. cbn [item_as_array field_as_float bind]. eauto.
Qed.

(** The scatter renderer over an array with two int names: the two rows
    numpy selects. *)
Lemma scatter_array_rows (rt : Runtime) (hdul : list HDU) (j : nat)
    (hdu : HDU) (arr x y : ndarray) (i1 i2 n : Z) :
  nth_error hdul j = Some hdu -> data hdu = DataArray arr ->
  i1 <> 0 -> i2 <> 0 ->
  item_as_float rt (DataArray arr) (PInt i1) = Ok x ->
  item_as_float rt (DataArray arr) (PInt i2) = Ok y ->
  array_len x = Ok n -> n <= MAX_TABLE_ROWS ->
  scatter_plot_of rt (Opened hdul true) (PInt (Z.of_nat j))
    (PList [PInt i1; PInt i2])
  = Ok (Some (ScatterPlot (samples x) (samples y) (PyStr.of_Z i1)
                (PyStr.of_Z i2))).
Proof.
  intros Hj Hd H1 H2 Hx Hy Hn Hle.
  assert (Hu : unit_data (Opened hdul true) (PInt (Z.of_nat j))
               = Ok (Some (DataArray arr))).
  { rewrite (unit_data_at hdul j hdu Hj) by congruence. now rewrite Hd. }
  unfold scatter_plot_of. rewrite Hu. cbn [bind].
  unfold first_numeric_items.
  cbn [Py.truthy negb item_at Py.len List.length].
  change (Py.index [PInt i1; PInt i2] 0) with (@Ok pyval (PInt i1)).
  change (Py.index [PInt i1; PInt i2] 1) with (@Ok pyval (PInt i2)).
  cbn [bind Z.of_nat Pos.of_succ_nat Pos.succ Z.ltb Z.compare Pos.compare
       Pos.compare_cont].
  cbn [Py.truthy].
  apply Z.eqb_neq in H1, H2. rewrite H1, H2. cbn [negb].
  cbn [item_as_array]. rewrite Hx, Hy. cbn [bind]. rewrite Hn. cbn [bind].
  replace (MAX_TABLE_ROWS <? n) with false by lia.
  cbn [bind fst snd str]. reflexivity.
Qed.

(** The preview of a two-dimensional array that no table renderer takes. *)
Lemma array_unit_url (rt : Runtime) (hdul : list HDU) (j : nat)
    (hdu : HDU) (arr : ndarray) (a : pydict) (dir fid : string) :
  nth_error hdul j = Some hdu -> data hdu = DataArray arr -> ndim arr = 2 ->
  Py.lookup a "hdu_index" = Some (PInt (Z.of_nat j)) ->
  is_one_of (Py.get a "classification" (PStr CLASSIFICATION_UNKNOWN))
    table_kinds = false ->
  makedirs rt dir = None ->
  (forall p out, savefig rt p out = Ok tt) ->
  visualize_hdu rt (Opened hdul true) a dir fid
  = Some (preview_url fid (Z.of_nat j)).
Proof.
  intros Hj Hd Hn Hi Hk Hm Hs.
  set (cls := Py.get a "classification" (PStr CLASSIFICATION_UNKNOWN)) in *.
  assert (Hidx : Py.get a "hdu_index" (PInt 0) = PInt (Z.of_nat j)).
  { unfold Py.get. now rewrite Hi. }
  unfold visualize_hdu. rewrite Hm. fold cls. rewrite Hidx.
  destruct (DrawFacts.image_plot_array rt hdul j hdu arr Hj Hd Hn)
    as (lo & hi & Hp & _).
  assert (Hr : forall out,
            _render_image rt (Opened hdul true) (PInt (Z.of_nat j)) out
            = true).
  { intros out. unfold _render_image, draw. rewrite Hp. cbn [bind].
    rewrite Hs. reflexivity. }
  assert (Hno : forall k, In k table_kinds -> is_one_of cls [k] = false).
  { intros k Hin. destruct cls as [| | | |c| | |]; try reflexivity.
    cbn [is_one_of] in *. cbn [PyStr.mem existsb]. rewrite orb_false_r.
    destruct (String.eqb c k) eqn:E; [|reflexivity].
    apply String.eqb_eq in E. subst k.
    apply mem_In in Hin. congruence. }
  rewrite !Hno by (unfold table_kinds; simpl; auto).
  rewrite Hr. destruct (is_one_of cls IMAGE_LIKE);
    unfold preview_url; cbn [str String.append];
    rewrite !append_assoc; reflexivity.
Qed.

(** X18. The renderer is chosen by the classification alone, the data of
    the unit by its index. For a unit whose data is an array: classified
    light_curve or spectrum it gets no preview, whatever its column names;
    classified table it gets none either when the first column name is a
    str, as the analyzer writes them, the scatter renderer drawing an array
    only for names that index it (two int names plot one row against
    another, whenever numpy selects them and the backend saves); under
    every other classification (unknown, absent or not even a string
    included) a two-dimensional array gets its image preview whenever the
    directory can be made and the backend saves the figure. *)
Theorem array_unit_preview (rt : Runtime) (hdul : list HDU) (j : nat)
    (hdu : HDU) (arr : ndarray) (a : pydict) (dir fid : string) :
  nth_error hdul j = Some hdu -> data hdu = DataArray arr ->
  Py.lookup a "hdu_index" = Some (PInt (Z.of_nat j)) ->
  let cls := Py.get a "classification" (PStr CLASSIFICATION_UNKNOWN) in
  let names := Py.get a "column_names" (PList []) in
  (is_one_of cls [CLASSIFICATION_LIGHT_CURVE; CLASSIFICATION_SPECTRUM] = true ->
   visualize_hdu rt (Opened hdul true) a dir fid = None)
  /\ (is_one_of cls [CLASSIFICATION_TABLE] = true ->
      (forall c l, names = PList (c :: l) -> Py.is_str c = true) ->
      (forall m, names <> PMap m) ->
      visualize_hdu rt (Opened hdul true) a dir fid = None)
  /\ (is_one_of cls [CLASSIFICATION_TABLE] = true ->
      forall i1 i2 x y n,
        names = PList [PInt i1; PInt i2] -> i1 <> 0 -> i2 <> 0 ->
        item_as_float rt (DataArray arr) (PInt i1) = Ok x ->
        item_as_float rt (DataArray arr) (PInt i2) = Ok y ->
        array_len x = Ok n -> n <= MAX_TABLE_ROWS ->
        scatter_plot_of rt (Opened hdul true) (PInt (Z.of_nat j)) names
        = Ok (Some (ScatterPlot (samples x) (samples y) (PyStr.of_Z i1)
                      (PyStr.of_Z i2)))
        /\ (makedirs rt dir = None ->
            (forall p out, savefig rt p out = Ok tt) ->
            visualize_hdu rt (Opened hdul true) a dir fid
            = Some (preview_url fid (Z.of_nat j))))
  /\ (is_one_of cls table_kinds = false ->
      ndim arr = 2 ->
      makedirs rt dir = None ->
      (forall p out, savefig rt p out = Ok tt) ->
      visualize_hdu rt (Opened hdul true) a dir fid
      = Some (preview_url fid (Z.of_nat j))).
Proof.
  intros Hj Hd Hi cls names.
  assert (Hidx : Py.get a "hdu_index" (PInt 0) = PInt (Z.of_nat j)).
  { unfold Py.get. now rewrite Hi. }
  split; [|split; [|split]].
  - intros Hk. unfold visualize_hdu.
    destruct (makedirs rt dir); [reflexivity|].
    fold cls. fold names. rewrite Hidx.
    pose proof (fun out =>
                  line_renderers_array rt hdul j hdu arr names out Hj Hd) as R.
    destruct cls as [| | | |c| | |]; try discriminate Hk.
    cbn [is_one_of] in *. apply mem_In in Hk. simpl in Hk.
    destruct Hk as [<-|[<-|[]]]; simpl (PyStr.mem _ _); cbv iota;
      [rewrite (proj1 (R _))|rewrite (proj2 (R _))]; reflexivity.
  - intros Hk Hfirst Hmap. unfold visualize_hdu.
    destruct (makedirs rt dir); [reflexivity|].
    fold cls. fold names. rewrite Hidx.
    destruct cls as [| | | |c| | |]; try discriminate Hk.
    cbn [is_one_of] in *. apply mem_In in Hk. simpl in Hk.
    destruct Hk as [<-|[]]. simpl (PyStr.mem _ _). cbv iota.
    rewrite (scatter_array_str rt hdul j hdu arr names _ Hj Hd Hfirst Hmap).
    reflexivity.
  - intros Hk i1 i2 x y n Hnames H1 H2 Hx Hy Hn Hle.
    pose proof (scatter_array_rows rt hdul j hdu arr x y i1 i2 n Hj Hd H1 H2
                  Hx Hy Hn Hle) as Hplot.
    split; [rewrite Hnames; exact Hplot|].
    intros Hm Hs.
    unfold visualize_hdu. rewrite Hm.
    fold cls. fold names. rewrite Hidx.
    destruct cls as [| | | |c| | |]; try discriminate Hk.
    cbn [is_one_of] in *. apply mem_In in Hk. simpl in Hk.
    destruct Hk as [<-|[]]. simpl (PyStr.mem _ _). cbv iota.
    rewrite Hnames. unfold _render_table_scatter.
    cbn [str_list map_result str_item bind].
    rewrite Hplot.
    unfold draw. cbn [bind]. rewrite Hs. cbn [bind try_except].
    unfold preview_url. cbn [str String.append].
    rewrite !append_assoc. reflexivity.
  - intros. eapply array_unit_url; eauto.
Qed.

Lemma array_unit_preview_witness :
  visualize_hdu Samples.runtime Samples.uniform_file
    [("hdu_index", PInt 0); ("classification", PStr "unknown")]%string
    "/previews" "1b9d6bcd"
  = Some "/previews/fits_1b9d6bcd_hdu_0.png"%string
  /\ visualize_hdu Samples.runtime Samples.uniform_file
       [("hdu_index", PInt 0); ("classification", PStr "table");
        ("column_names", PList [PStr "TIME"; PStr "FLUX"])]%string
       "/previews" "1b9d6bcd"
     = None
  /\ visualize_hdu Samples.runtime Samples.uniform_file
       [("hdu_index", PInt 0); ("classification", PStr "table");
        ("column_names", PList [PInt 1; PInt 2])]%string
       "/previews" "1b9d6bcd"
     = Some "/previews/fits_1b9d6bcd_hdu_0.png"%string.
Proof.
  split; [|split].
  - apply (proj2 (proj2 (proj2
             (array_unit_preview Samples.runtime [Samples.uniform_hdu]
                0%nat Samples.uniform_hdu _
                [("hdu_index", PInt 0);
                 ("classification", PStr "unknown")]%string
                "/previews" "1b9d6bcd" eq_refl eq_refl eq_refl))));
      reflexivity.
  - apply (proj1 (proj2
             (array_unit_preview Samples.runtime [Samples.uniform_hdu]
                0%nat Samples.uniform_hdu _
                [("hdu_index", PInt 0); ("classification", PStr "table");
                 ("column_names", PList [PStr "TIME"; PStr "FLUX"])]%string
                "/previews" "1b9d6bcd" eq_refl eq_refl eq_refl))).
    + reflexivity.
    + intros c l [= <- <-]. reflexivity.
    + intros m H. vm_compute in H. discriminate H.
  - pose (row := {| dtype_kind := "f"; shape := [100];
                    samples := repeat Samples.f3_5 (Z.to_nat 100) |}).
    refine (proj2 (proj1 (proj2 (proj2
              (array_unit_preview Samples.runtime [Samples.uniform_hdu]
                 0%nat Samples.uniform_hdu _
                 [("hdu_index", PInt 0); ("classification", PStr "table");
                  ("column_names", PList [PInt 1; PInt 2])]%string
                 "/previews" "1b9d6bcd" eq_refl eq_refl eq_refl)))
              eq_refl 1 2 row row 100 eq_refl _ _ _ _ eq_refl _) _ _);
      try discriminate; try (vm_compute; reflexivity).
Defined.

End PreviewFacts.

(* ================================================================= *)
(** ** The renderer: the columns of a table plot *)

Module ColumnFacts.
Import Spec.
Import Builtins Visualizer.

Lemma pair_loop (p q : string -> bool) (l : list string) (a b : string) :
  fold_left (fun cols c => (if p c then c else fst cols,
                            if q c then c else snd cols)) l (a, b)
  = (fold_left (fun acc c => if p c then c else acc) l a,
     fold_left (fun acc c => if q c then c else acc) l b).
Proof. revert a b. induction l as [|c l IH]; intros; simpl; auto. Qed.

Lemma loop_none (p : string -> bool) (l : list string) (a : string) :
  none_passing p l -> fold_left (fun acc c => if p c then c else acc) l a = a.
Proof.
  revert a. induction l as [|c l IH]; intros a H; simpl; auto.
  inversion H as [|? ? Hc Hl]; subst. rewrite Hc. auto.
Qed.

Lemma loop_last (p : string -> bool) (l : list string) (a c : string) :
  last_passing p l c -> fold_left (fun acc x => if p x then x else acc) l a = c.
Proof.
  intros (pre & post & -> & Hc & Hpost).
  rewrite fold_left_app. cbn [fold_left]. rewrite Hc. now apply loop_none.
Qed.

Lemma time_flux_as_loops (col_names : list string) :
  _time_flux_columns col_names
  = (or_first (fold_left (fun acc c => if time_name c then c else acc)
                 col_names EmptyString) col_names,
     or_second (fold_left (fun acc c => if flux_name c then c else acc)
                  col_names EmptyString) col_names).
Proof.
  change (_time_flux_columns col_names)
    with (let '(t, f) :=
            fold_left (fun cols c => (if time_name c then c else fst cols,
                                      if flux_name c then c else snd cols))
              col_names (EmptyString, EmptyString) in
          (or_first t col_names, or_second f col_names)).
  rewrite pair_loop. reflexivity.
Qed.

Lemma wavelength_flux_as_loops (col_names : list string) :
  _wavelength_flux_columns col_names
  = (or_first (fold_left (fun acc c => if wavelength_name c then c else acc)
                 col_names EmptyString) col_names,
     or_second (fold_left (fun acc c => if spectrum_flux_name c then c else acc)
                  col_names EmptyString) col_names).
Proof.
  change (_wavelength_flux_columns col_names)
    with (let '(w, f) :=
            fold_left
              (fun cols c => (if wavelength_name c then c else fst cols,
                              if spectrum_flux_name c then c else snd cols))
              col_names (EmptyString, EmptyString) in
          (or_first w col_names, or_second f col_names)).
  rewrite pair_loop. reflexivity.
Qed.

Lemma or_first_kept (c : string) (l : list string) :
  c <> EmptyString -> or_first c l = c.
Proof. destruct c; [congruence|reflexivity]. Qed.

Lemma or_second_kept (c : string) (l : list string) :
  c <> EmptyString -> or_second c l = c.
Proof. destruct c; [congruence|reflexivity]. Qed.

Lemma passing_not_empty (p : string -> bool) (l : list string) (c : string) :
  p EmptyString = false -> last_passing p l c -> c <> EmptyString.
Proof. intros H0 (_ & _ & _ & Hc & _) ->. congruence. Qed.

(** X19. The columns a line plot uses are chosen by name, the last matching
    column winning: the x column is the last time-like (wavelength-like)
    name and the y column the last flux-like name; without a match the x
    column is the first column and the y column the second one (none, for
    a table of a single column). *)
Theorem plot_columns_last_match (col_names : list string) :
  (forall c, last_passing time_name col_names c ->
             fst (_time_flux_columns col_names) = c)
  /\ (none_passing time_name col_names ->
      fst (_time_flux_columns col_names) = hd EmptyString col_names)
  /\ (forall c, last_passing flux_name col_names c ->
                snd (_time_flux_columns col_names) = c)
  /\ (none_passing flux_name col_names ->
      snd (_time_flux_columns col_names) = nth 1 col_names EmptyString)
  /\ (forall c, last_passing wavelength_name col_names c ->
                fst (_wavelength_flux_columns col_names) = c)
  /\ (none_passing wavelength_name col_names ->
      fst (_wavelength_flux_columns col_names) = hd EmptyString col_names)
  /\ (forall c, last_passing spectrum_flux_name col_names c ->
                snd (_wavelength_flux_columns col_names) = c)
  /\ (none_passing spectrum_flux_name col_names ->
      snd (_wavelength_flux_columns col_names) = nth 1 col_names EmptyString).
Proof.
  rewrite time_flux_as_loops, wavelength_flux_as_loops. cbn [fst snd].
  assert (Hf : forall l : list string, or_first EmptyString l = hd EmptyString l).
  { intros [|x l]; reflexivity. }
  assert (Hs : forall l : list string,
             or_second EmptyString l = nth 1 l EmptyString).
  { intros [|x [|y l]]; reflexivity. }
  repeat split.
  - intros c H. rewrite (loop_last _ _ _ c H). apply or_first_kept.
    now apply (passing_not_empty time_name col_names).
  - intros H. rewrite loop_none by exact H. apply Hf.
  - intros c H. rewrite (loop_last _ _ _ c H). apply or_second_kept.
    now apply (passing_not_empty flux_name col_names).
  - intros H. rewrite loop_none by exact H. apply Hs.
  - intros c H. rewrite (loop_last _ _ _ c H). apply or_first_kept.
    now apply (passing_not_empty wavelength_name col_names).
  - intros H. rewrite loop_none by exact H. apply Hf.
  - intros c H. rewrite (loop_last _ _ _ c H). apply or_second_kept.
    now apply (passing_not_empty spectrum_flux_name col_names).
  - intros H. rewrite loop_none by exact H. apply Hs.
Qed.

Lemma plot_columns_last_match_witness :
  fst (_time_flux_columns ["MJD"; "FLUX"; "TIME"; "ID"]%string) = "TIME"%string
  /\ snd (_wavelength_flux_columns ["WAVE"]%string) = EmptyString.
Proof.
  split.
  - apply (proj1 (plot_columns_last_match ["MJD"; "FLUX"; "TIME"; "ID"]%string)).
    exists ["MJD"; "FLUX"]%string, ["ID"%string].
    split; [reflexivity|]. split; [reflexivity|]. repeat constructor.
  - apply (proj2 (proj2 (proj2 (proj2 (proj2 (proj2 (proj2
             (plot_columns_last_match ["WAVE"%string])))))))).
    repeat constructor.
Defined.

(** X20. When exactly one of the declared columns has a numeric storage
    format, the scatter plot of a table draws that column against the row
    index 0, 1, 2, ... and labels the second axis "index"; the series are
    capped like those of every table plot. *)
Theorem single_numeric_column_against_rows (file : fits_file) (idx : pyval)
    (t : table) (names : list string) (c : string) (xs : list float) :
  unit_data file idx = Ok (Some (DataTable t)) ->
  numeric_names t names = [c] ->
  c <> EmptyString ->
  field_as_float (DataTable t) c = Ok xs ->
  let N := Z.of_nat (List.length xs) in
  _first_numeric_columns (DataTable t) names = (c, EmptyString)
  /\ table_scatter_plot file idx names
     = Ok (Some (ScatterPlot (capped N xs) (capped N (arange N)) c "index")).
Proof.
  intros Hu Hn Hc Hx N.
  assert (H1 : _first_numeric_columns (DataTable t) names = (c, EmptyString)).
  { unfold _first_numeric_columns. rewrite Hn.
    destruct names; [destruct t; discriminate Hn|reflexivity]. }
  split; [exact H1|].
  unfold table_scatter_plot. rewrite Hu. cbn [bind]. rewrite H1.
  destruct c as [|ch c]; [congruence|]. cbn [PyStr.is_empty negb].
  rewrite Hx. cbn [bind]. fold N.
  rewrite (DownsampleFacts.cap_rows_spec N) by
    (auto; rewrite DownsampleFacts.arange_length; lia).
  reflexivity.
Qed.

Lemma single_numeric_column_against_rows_witness :
  table_scatter_plot
    (Samples.id_notes_file
       [ {| col_name := "ID"; col_format := "8A"; col_floats := None |};
         {| col_name := "MAG"; col_format := "E";
            col_floats := Some [F64.of_Z 7; F64.of_Z 9] |} ])
    (PInt 1) ["ID"; "MAG"]%string
  = Ok (Some (ScatterPlot [F64.of_Z 7; F64.of_Z 9] [F64.of_Z 0; F64.of_Z 1]
                "MAG" "index")).
Proof.
  refine (proj2 (single_numeric_column_against_rows
                   (Samples.id_notes_file
                      [ {| col_name := "ID"; col_format := "8A";
                           col_floats := None |};
                        {| col_name := "MAG"; col_format := "E";
                           col_floats := Some [F64.of_Z 7; F64.of_Z 9] |} ])
                   (PInt 1)
                   [ {| col_name := "ID"; col_format := "8A";
                        col_floats := None |};
                     {| col_name := "MAG"; col_format := "E";
                        col_floats := Some [F64.of_Z 7; F64.of_Z 9] |} ]
                   ["ID"; "MAG"]%string "MAG"%string
                   [F64.of_Z 7; F64.of_Z 9] eq_refl eq_refl _ eq_refl)).
  discriminate.
Defined.

End ColumnFacts.

(* ================================================================= *)
(** ** The orchestrator: the result *)

Module ResultFacts.
Import Spec.
Import Builtins Parser Analyzer Visualizer Pipeline.

(** X21. Every result of [run_pipeline] has one of three shapes. A success
    has no error and no message, and one record per summary of the
    extractor, at least one; its warnings are empty unless the preview
    directory could not be made, in which case they hold that one message.
    A file without plottable unit has the status
    valid_no_visualizable_data with its message; an error has an error
    text; both have no record and no warning. *)
Theorem pipeline_result_shape (rt : Runtime) (fits_path : string)
    (file : fits_file) (previews_dir : string) (file_name : option string) :
  let r := run_pipeline rt fits_path file previews_dir file_name in
  fileName r = reported_name rt fits_path file_name
  /\ ((status r = "success"%string /\ error r = None /\ message r = None
       /\ hdus r <> []
       /\ (exists summaries,
              get_summary rt file = Summaries summaries
              /\ List.length (hdus r) = List.length summaries)
       /\ (warnings r = []
           \/ exists e, makedirs rt previews_dir = Some e
                        /\ warnings r = [e]))
      \/ (status r = "valid_no_visualizable_data"%string /\ error r = None
          /\ message r
             = Some "This FITS file is valid but contains no plottable HDUs."%string
          /\ hdus r = [] /\ warnings r = [])
      \/ (status r = "error"%string /\ (exists msg, error r = Some msg)
          /\ message r = None /\ hdus r = [] /\ warnings r = [])).
Proof.
  intros r. subst r. unfold run_pipeline. fold (reported_name rt fits_path file_name).
  destruct (get_summary rt file) as [msg|summaries] eqn:Hs.
  { split; [reflexivity|]. right; right. cbn. eauto 10. }
  destruct summaries as [|s0 rest] eqn:Hl.
  { split; [reflexivity|]. right; left. cbn. auto. }
  rewrite <- Hl in *.
  assert (Hne : List.length summaries <> 0%nat) by (subst; discriminate).
  destruct (negb (existsb _ summaries)).
  { split; [reflexivity|]. right; right. cbn. eauto 10. }
  destruct (analyze rt file summaries) as [analyzed|e] eqn:Ha.
  2:{ split; [reflexivity|]. right; right. cbn. eauto 10. }
  destruct (negb (existsb _ analyzed)).
  { split; [reflexivity|]. right; left. cbn. auto. }
  assert (Hlen : List.length analyzed = List.length summaries).
  { unfold analyze in Ha. injection Ha as <-. apply length_map. }
  destruct (makedirs rt previews_dir) as [e|] eqn:Hm.
  - split; [reflexivity|]. left. cbn [status error message hdus warnings].
    rewrite PipelineFacts.assemble_length, Hlen.
    repeat split; eauto.
    intros E. apply (f_equal (@List.length _)) in E.
    rewrite PipelineFacts.assemble_length in E. simpl in E. lia.
  - split; [reflexivity|]. left. cbn [status error message hdus warnings].
    rewrite PipelineFacts.assemble_length, Hlen.
    repeat split; eauto.
    intros E. apply (f_equal (@List.length _)) in E.
    rewrite PipelineFacts.assemble_length in E. simpl in E. lia.
Qed.

Lemma assemble_fields (analyzed : list pydict) (urls : list (option string))
    (i : Z) :
  map type (assemble i analyzed urls)
  = map (fun a => Py.get a "hdu_type" (PStr "Unknown")) analyzed
  /\ map classification (assemble i analyzed urls)
     = map (fun a => Py.get a "classification" (PStr "unknown")) analyzed
  /\ map metadata (assemble i analyzed urls)
     = map (fun a => Py.get a "header" (PDict [])) analyzed
  /\ map units (assemble i analyzed urls)
     = map (fun a => Py.get a "units" (PDict [])) analyzed.
Proof.
  revert i. induction analyzed as [|a l IH]; intros i; cbn [assemble map].
  - auto.
  - destruct (IH (i + 1)) as (H1 & H2 & H3 & H4).
    cbn [type classification metadata units].
    rewrite H1, H2, H3, H4. auto.
Qed.

Lemma summaries_fields (rt : Runtime) (hdul : list HDU) (i : Z) :
  map (fun s => Py.get s "hdu_type" (PStr "Unknown"))
    (summaries_from rt i hdul)
  = map (fun hdu => PStr (hdu_class hdu)) (filter readable hdul)
  /\ map (fun s => Py.get s "header" (PDict [])) (summaries_from rt i hdul)
     = map (fun hdu => PDict (_clean_header (hdu_header hdu)))
         (filter readable hdul).
Proof.
  revert i. induction hdul as [|hdu l IH]; intros i; cbn [summaries_from filter map].
  - auto.
  - destruct (IH (i + 1)) as (H1 & H2).
    destruct (summary_entry rt i hdu) as [s|e] eqn:E.
    + assert (Hr : readable hdu = true).
      { unfold readable. destruct (data hdu) eqn:D; auto.
        destruct (proj1 (OrderFacts.summary_entry_raises rt i hdu) D) as (e & He).
        congruence. }
      rewrite Hr. cbn [map].
      destruct (UnitAnalysisFacts.parsed_fields rt i hdu s E) as (_ & Ht & Hh & _).
      unfold Py.get at 1 3. rewrite Ht, Hh, H1, H2. auto.
    + assert (Hr : readable hdu = false).
      { unfold readable.
        rewrite (proj2 (OrderFacts.summary_entry_raises rt i hdu)) by eauto.
        reflexivity. }
      rewrite Hr. auto.
Qed.

(** X22. In a successful result every record reports, in file order, the
    class name and the cleaned header of its unit, for the units whose
    data could be read; the classification and the units are those of the
    analysis. *)
Theorem records_report_their_units (rt : Runtime) (fits_path : string)
    (hdul : list HDU) (previews_dir : string) (file_name : option string) :
  let r := run_pipeline rt fits_path (Opened hdul true) previews_dir
             file_name in
  status r = "success"%string ->
  map type (hdus r) = map (fun hdu => PStr (hdu_class hdu)) (filter readable hdul)
  /\ map metadata (hdus r)
     = map (fun hdu => PDict (_clean_header (hdu_header hdu)))
         (filter readable hdul)
  /\ map classification (hdus r)
     = map (fun s => Py.get (analyze_step rt (Opened hdul true) s)
                       "classification" (PStr "unknown"))
         (summaries_from rt 0 hdul)
  /\ map units (hdus r)
     = map (fun s => Py.get (analyze_step rt (Opened hdul true) s)
                       "units" (PDict []))
         (summaries_from rt 0 hdul).
Proof.
  intros r. subst r. unfold run_pipeline. cbn [get_summary].
  set (summaries := summaries_from rt 0 hdul).
  destruct summaries as [|s0 rest] eqn:Hl; [discriminate|].
  rewrite <- Hl. clear Hl.
  destruct (negb (existsb _ summaries)); [discriminate|].
  rewrite AnalyzerFacts.analyze_map.
  destruct (negb (existsb _ (map _ summaries))); [discriminate|].
  intros _.
  assert (H : forall urls,
    map type (assemble 0 (map (analyze_step rt (Opened hdul true)) summaries) urls)
    = map (fun hdu => PStr (hdu_class hdu)) (filter readable hdul)
    /\ map metadata
         (assemble 0 (map (analyze_step rt (Opened hdul true)) summaries) urls)
       = map (fun hdu => PDict (_clean_header (hdu_header hdu)))
           (filter readable hdul)
    /\ map classification
         (assemble 0 (map (analyze_step rt (Opened hdul true)) summaries) urls)
       = map (fun s => Py.get (analyze_step rt (Opened hdul true) s)
                         "classification" (PStr "unknown")) summaries
    /\ map units
         (assemble 0 (map (analyze_step rt (Opened hdul true)) summaries) urls)
       = map (fun s => Py.get (analyze_step rt (Opened hdul true) s)
                         "units" (PDict [])) summaries).
  { intros urls.
    destruct (assemble_fields (map (analyze_step rt (Opened hdul true)) summaries)
                urls 0) as (H1 & H2 & H3 & H4).
    destruct (summaries_fields rt hdul 0) as (S1 & S2).
    rewrite H1, H2, H3, H4, !map_map. fold summaries in S1, S2.
    rewrite <- S1, <- S2. repeat split; apply map_ext; intros s; unfold Py.get;
      rewrite AnalyzerFacts.analyze_step_lookup; auto;
      unfold assigned_keys; simpl; intuition discriminate. }
  destruct (makedirs rt previews_dir); cbn [hdus]; apply H.
Qed.

Lemma records_report_their_units_witness :
  map type (hdus (run_pipeline Samples.runtime "img.fits" Samples.damaged_file
                    "/previews" None))
  = [PStr "PrimaryHDU"; PStr "ImageHDU"].
Proof.
  apply (records_report_their_units Samples.runtime "img.fits"
           [Samples.small_image_hdu "PrimaryHDU"; Samples.damaged_hdu;
            Samples.small_image_hdu "ImageHDU"] "/previews" None).
  reflexivity.
Defined.

Lemma summaries_from_nth (rt : Runtime) (hdul : list HDU) (i : Z) (j : nat)
    (hdu : HDU) (s : pydict) :
  nth_error hdul j = Some hdu ->
  summary_entry rt (i + Z.of_nat j) hdu = Ok s ->
  In s (summaries_from rt i hdul).
Proof.
  revert i j. induction hdul as [|h l IH]; intros i j Hj Hs.
  - destruct j; discriminate.
  - cbn [summaries_from]. destruct j as [|j]; simpl in Hj.
    + injection Hj as ->. replace (i + Z.of_nat 0) with i in Hs by lia.
      rewrite Hs. now left.
    + assert (In s (summaries_from rt (i + 1) l)).
      { apply (IH _ j); auto.
        replace (i + 1 + Z.of_nat j) with (i + Z.of_nat (S j)) by lia. auto. }
      destruct (summary_entry rt i h); simpl; auto.
Qed.

Lemma numeric_entry (rt : Runtime) (i : Z) (hdu : HDU) (d : ndarray) :
  data hdu = DataArray d -> numeric_image d = true ->
  exists s,
    summary_entry rt i hdu = Ok s
    /\ Py.lookup s "has_numeric_data" = Some (PBool true).
Proof.
  intros Hd Hn. unfold summary_entry.
  destruct (_data_shape_dtype rt hdu) as [shape dtype].
  rewrite Hd. fold (numeric_image d). rewrite Hn.
  eexists. split; [reflexivity|].
  rewrite PyFacts.lookup_update_other.
  - apply PyFacts.lookup_set_same.
  - intros H. apply ParserFacts.image_stats_keys in H. simpl in H.
    intuition discriminate.
Qed.

Lemma assemble_previews (f : pydict -> option string) (analyzed : list pydict)
    (pre : list (option string)) (a : pydict) :
  In a analyzed ->
  exists rec,
    In rec (assemble (Z.of_nat (List.length pre)) analyzed
              (pre ++ map f analyzed))
    /\ previewImage rec = f a
    /\ classification rec = Py.get a "classification" (PStr "unknown")
    /\ forall v, Py.lookup a "hdu_index" = Some v -> index rec = v.
Proof.
  revert pre. induction analyzed as [|x l IH]; intros pre [].
  - subst x. eexists. split; [left; reflexivity|].
    cbn [previewImage classification index].
    split; [|split; [reflexivity|]].
    + rewrite length_app. cbn [map List.length].
      replace (Z.of_nat (List.length pre)
               <? Z.of_nat (List.length pre + S (List.length (map f l))))
        with true by (symmetry; apply Z.ltb_lt; lia).
      unfold Py.index.
      replace (Z.of_nat (List.length pre) <? 0) with false
        by (symmetry; apply Z.ltb_ge; lia).
      replace (Z.of_nat (List.length pre) <? 0) with false
        by (symmetry; apply Z.ltb_ge; lia).
      rewrite length_app. cbn [map List.length].
      replace (Z.of_nat (List.length pre + S (List.length (map f l)))
               <=? Z.of_nat (List.length pre))
        with false by (symmetry; apply Z.leb_gt; lia).
      cbn [orb]. rewrite Nat2Z.id, nth_error_app2 by lia.
      rewrite Nat.sub_diag. reflexivity.
    + intros v Hv. unfold Py.get. now rewrite Hv.
  - destruct (IH (pre ++ [f x]) H) as (rec & Hin & Hrest).
    exists rec. split; [|exact Hrest]. right.
    rewrite length_app, <- app_assoc in Hin. cbn [List.length app] in Hin.
    replace (Z.of_nat (List.length pre + 1))
      with (Z.of_nat (List.length pre) + 1) in Hin by lia.
    exact Hin.
Qed.

(** X23. From the file to the result: when a unit of an image kind holds a
    two-dimensional array of kind f, i or u, its header declares at least
    one axis and an integer BITPIX (or none), the preview directory can be
    made and the backend saves every figure, the pipeline succeeds without
    warning and the record of that unit carries its position in the file,
    an image classification and the address of its preview. *)
Theorem image_unit_end_to_end (rt : Runtime) (fits_path : string)
    (hdul : list HDU) (previews_dir : string) (file_name : option string)
    (j : nat) (hdu : HDU) (arr : ndarray) :
  nth_error hdul j = Some hdu ->
  data hdu = DataArray arr ->
  PyStr.mem (dtype_kind arr) ["f"; "i"; "u"]%string = true ->
  ndim arr = 2 ->
  image_like (hdu_class hdu) = true ->
  fst (_data_shape_dtype rt hdu) <> [] ->
  (Py.lookup (_clean_header (hdu_header hdu)) "BITPIX" = None
   \/ exists b, Py.lookup (_clean_header (hdu_header hdu)) "BITPIX"
                = Some (PInt b)) ->
  makedirs rt previews_dir = None ->
  (forall p out, savefig rt p out = Ok tt) ->
  let r := run_pipeline rt fits_path (Opened hdul true) previews_dir
             file_name in
  status r = "success"%string
  /\ warnings r = []
  /\ exists rec,
       In rec (hdus r)
       /\ index rec = PInt (Z.of_nat j)
       /\ is_one_of (classification rec) IMAGE_LIKE = true
       /\ previewImage rec = Some (preview_url (uuid8 rt) (Z.of_nat j)).
Proof.
  intros Hj Hd Hk Hn Himg Hshape Hbit Hm Hsave r.
  assert (Hnum : numeric_image arr = true).
  { unfold numeric_image. rewrite Hk, Hn. reflexivity. }
  destruct (numeric_entry rt (Z.of_nat j) hdu arr Hd Hnum) as (s & Hs & Hflag).
  assert (Hin : In s (summaries_from rt 0 hdul)).
  { apply (summaries_from_nth rt hdul 0 j hdu); auto. }
  destruct (UnitAnalysisFacts.parsed_fields rt _ hdu s Hs) as (Hi & Ht & Hh & Hu).
  assert (Hds : Py.lookup s "data_shape"
                = Some (PList (map PInt (fst (_data_shape_dtype rt hdu))))).
  { rewrite (ParserFacts.summary_entry_base rt _ hdu s _ Hs);
      [reflexivity|discriminate|simpl; intuition discriminate]. }
  set (file := Opened hdul true) in *.
  set (a := analyze_step rt file s).
  assert (Hcls : exists c, Py.lookup a "classification" = Some (PStr c)
                           /\ PyStr.mem c IMAGE_LIKE = true).
  { eexists. split.
    - apply (ImageFacts.image_like_classification rt file s _ _ _ _
               Ht Himg Hds Hh Hu Hbit).
    - rewrite length_map. unfold image_rule.
      destruct (fst (_data_shape_dtype rt hdu)) as [|x [|y l]];
        [congruence|reflexivity|].
      replace (2 <=? Z.of_nat (List.length (x :: y :: l))) with true
        by (symmetry; apply Z.leb_le; simpl List.length; lia).
      destruct (first_field_marker rt _); [reflexivity|].
      destruct (_ && _); reflexivity. }
  destruct Hcls as (c & Hc & Hc').
  assert (Hai : Py.lookup a "hdu_index" = Some (PInt (Z.of_nat j))).
  { unfold a. rewrite AnalyzerFacts.analyze_step_lookup; auto.
    unfold assigned_keys. simpl. intuition discriminate. }
  assert (Hurl : visualize_hdu rt file a previews_dir (uuid8 rt)
                 = Some (preview_url (uuid8 rt) (Z.of_nat j))).
  { apply (PreviewFacts.array_unit_url rt hdul j hdu arr); auto.
    unfold Py.get. rewrite Hc. cbn [is_one_of].
    unfold IMAGE_LIKE in Hc'. apply StringFacts.mem_In in Hc'. simpl in Hc'.
    destruct Hc' as [<-|[<-|[<-|[]]]]; reflexivity. }
  subst r. unfold run_pipeline.
  change (get_summary rt file) with (Summaries (summaries_from rt 0 hdul)).
  cbv beta iota.
  set (summaries := summaries_from rt 0 hdul) in *.
  destruct summaries as [|s0 rest] eqn:Hl; [destruct Hin|].
  rewrite <- Hl in *. clear Hl.
  assert (E1 : existsb (fun s => Py.truthy (Py.get s "has_numeric_data" PNone))
                 summaries = true).
  { apply existsb_exists. exists s. split; auto.
    unfold Py.get. rewrite Hflag. reflexivity. }
  rewrite E1. cbn [negb]. rewrite AnalyzerFacts.analyze_map.
  fold (analyze_step rt file).
  assert (Ha : In a (map (analyze_step rt file) summaries)).
  { apply in_map. exact Hin. }
  assert (E2 : existsb
                 (fun a => is_one_of (Py.get a "classification" PNone) PLOTTABLE)
                 (map (analyze_step rt file) summaries) = true).
  { apply existsb_exists. exists a. split; auto.
    unfold Py.get. rewrite Hc. cbn [is_one_of].
    unfold IMAGE_LIKE in Hc'. apply StringFacts.mem_In in Hc'. simpl in Hc'.
    destruct Hc' as [<-|[<-|[<-|[]]]]; reflexivity. }
  rewrite E2, Hm. cbn [negb status warnings hdus].
  split; [reflexivity|]. split; [reflexivity|].
  assert (Hv : visualize rt file (map (analyze_step rt file) summaries)
                 previews_dir (Some (uuid8 rt))
               = map (fun a => visualize_hdu rt file a previews_dir (uuid8 rt))
                   (map (analyze_step rt file) summaries)).
  { unfold visualize. destruct (PyStr.is_empty (uuid8 rt)); reflexivity. }
  rewrite Hv.
  destruct (assemble_previews
              (fun a => visualize_hdu rt file a previews_dir (uuid8 rt))
              (map (analyze_step rt file) summaries) [] a Ha)
    as (rec & Hrec & Hp & Hcl & Hix).
  exists rec. split; [exact Hrec|]. split; [now apply Hix|].
  split; [|now rewrite Hp].
  rewrite Hcl. unfold Py.get. rewrite Hc. exact Hc'.
Qed.

Lemma image_unit_end_to_end_witness :
  let r := run_pipeline Samples.runtime "img.fits" Samples.damaged_file
             "/previews" None in
  status r = "success"%string
  /\ exists rec,
       In rec (hdus r)
       /\ index rec = PInt 2
       /\ previewImage rec = Some "/previews/fits_1b9d6bcd_hdu_2.png"%string.
Proof.
  destruct (image_unit_end_to_end Samples.runtime "img.fits"
              [Samples.small_image_hdu "PrimaryHDU"; Samples.damaged_hdu;
               Samples.small_image_hdu "ImageHDU"] "/previews" None
              2%nat (Samples.small_image_hdu "ImageHDU")
              (Samples.float_image [2; 2]
                 [F64.of_Z 1; F64.of_Z 2; F64.of_Z 3; F64.of_Z 4])
              eq_refl eq_refl eq_refl eq_refl eq_refl)
    as (H1 & _ & rec & Hin & Hi & _ & Hp).
  - vm_compute. discriminate.
  - right. exists (-64). reflexivity.
  - reflexivity.
  - reflexivity.
  - split; [exact H1|]. exists rec. split; [exact Hin|].
    split; [exact Hi|exact Hp].
Defined.

End ResultFacts.

(* ================================================================= *)
(** ** The renderer: indices outside the file *)

Module BoundsFacts.
Import Spec.
Import Builtins Parser Analyzer Visualizer StringFacts.

Lemma index_outside {A} (l : list A) (i : Z) :
  i < - Z.of_nat (List.length l) \/ Z.of_nat (List.length l) <= i ->
  Py.index l i = Raise IndexError.
Proof.
  intros H. unfold Py.index. cbv zeta.
  destruct (i <? 0) eqn:E.
  - apply Z.ltb_lt in E.
    replace (i + Z.of_nat (List.length l) <? 0) with true
      by (symmetry; apply Z.ltb_lt; lia).
    reflexivity.
  - apply Z.ltb_ge in E.
    replace (Z.of_nat (List.length l) <=? i) with true
      by (symmetry; apply Z.leb_le; lia).
    rewrite orb_true_r. reflexivity.
Qed.

Lemma index_wraps {A} (l : list A) (i : Z) :
  - Z.of_nat (List.length l) <= i < 0 ->
  Py.index l i = Py.index l (i + Z.of_nat (List.length l)).
Proof.
  intros H. unfold Py.index. cbv zeta.
  assert (E1 : (i <? 0) = true) by (apply Z.ltb_lt; lia).
  assert (E2 : (i + Z.of_nat (List.length l) <? 0) = false)
    by (apply Z.ltb_ge; lia).
  rewrite E1. cbv iota. rewrite !E2. cbv iota. rewrite ?E2. reflexivity.
Qed.

(** The unit a renderer reads for an index outside the file. *)
Lemma no_unit_outside (hdul : list HDU) (i : Z) :
  i < - Z.of_nat (List.length hdul) \/ Z.of_nat (List.length hdul) <= i ->
  forall rt,
    (image_plot rt (Opened hdul true) (PInt i) = Ok None
     \/ exists e, image_plot rt (Opened hdul true) (PInt i) = Raise e)
    /\ (unit_data (Opened hdul true) (PInt i) = Ok None
        \/ exists e, unit_data (Opened hdul true) (PInt i) = Raise e).
Proof.
  intros H rt. unfold image_plot, unit_data.
  cbn [reopen bind ge_int hdul_index].
  destruct (Z.of_nat (List.length hdul) <=? i) eqn:E;
    [split; left; reflexivity|].
  rewrite index_outside by exact H. cbn [bind]. split; right; eauto.
Qed.

(** X24. An index outside the file never gives a preview: for every
    classification, an analysis whose index is at or past the number of
    units, or below minus that number, gets [None]. A negative index
    within that range is read from the end of the file, as Python
    indexing does. *)
Theorem index_outside_file_no_preview (rt : Runtime) (hdul : list HDU)
    (a : pydict) (dir fid : string) (i : Z) :
  Py.lookup a "hdu_index" = Some (PInt i) ->
  (i < - Z.of_nat (List.length hdul) \/ Z.of_nat (List.length hdul) <= i ->
   visualize_hdu rt (Opened hdul true) a dir fid = None)
  /\ (- Z.of_nat (List.length hdul) <= i < 0 ->
      image_plot rt (Opened hdul true) (PInt i)
      = image_plot rt (Opened hdul true)
          (PInt (i + Z.of_nat (List.length hdul)))
      /\ unit_data (Opened hdul true) (PInt i)
         = unit_data (Opened hdul true)
             (PInt (i + Z.of_nat (List.length hdul)))).
Proof.
  intros Hi. split.
  - intros Hout. unfold visualize_hdu.
    destruct (makedirs rt dir); [reflexivity|].
    assert (Hidx : Py.get a "hdu_index" (PInt 0) = PInt i).
    { unfold Py.get. now rewrite Hi. }
    rewrite Hidx.
    destruct (no_unit_outside hdul i Hout rt) as (Himg & Hunit).
    assert (R0 : forall out, _render_image rt (Opened hdul true) (PInt i) out
                             = false).
    { intros out. now apply RenderFacts.draw_nothing. }
    assert (Rk : forall scan names,
              keyed_line_plot scan (Opened hdul true) (PInt i) names = Ok None
              \/ exists e,
                  keyed_line_plot scan (Opened hdul true) (PInt i) names
                  = Raise e).
    { intros scan names. unfold keyed_line_plot.
      destruct Hunit as [-> | (e & ->)]; cbn [bind]; eauto. }
    assert (R1 : forall names out,
              _render_light_curve rt (Opened hdul true) (PInt i) names out
              = false).
    { intros names out. apply RenderFacts.draw_nothing.
      assert (Hl : (l <- str_list names ;;
                    light_curve_plot (Opened hdul true) (PInt i) l) = Ok None
                   \/ exists e,
                       (l <- str_list names ;;
                        light_curve_plot (Opened hdul true) (PInt i) l)
                       = Raise e).
      { destruct (str_list names); cbn [bind]; [|right; eauto].
        unfold light_curve_plot.
        destruct Hunit as [-> | (e & ->)]; cbn [bind]; eauto. }
      destruct names; auto. }
    assert (R2 : forall names out,
              _render_spectrum rt (Opened hdul true) (PInt i) names out
              = false).
    { intros names out. apply RenderFacts.draw_nothing.
      assert (Hl : (l <- str_list names ;;
                    spectrum_plot (Opened hdul true) (PInt i) l) = Ok None
                   \/ exists e,
                       (l <- str_list names ;;
                        spectrum_plot (Opened hdul true) (PInt i) l)
                       = Raise e).
      { destruct (str_list names); cbn [bind]; [|right; eauto].
        unfold spectrum_plot.
        destruct Hunit as [-> | (e & ->)]; cbn [bind]; eauto. }
      destruct names; auto. }
    assert (R3 : forall names out,
              _render_table_scatter rt (Opened hdul true) (PInt i) names out
              = false).
    { intros names out. apply RenderFacts.draw_nothing.
      destruct (str_list names).
      - unfold table_scatter_plot.
        destruct Hunit as [-> | (e & ->)]; cbn [bind]; eauto.
      - unfold scatter_plot_of.
        destruct Hunit as [-> | (e' & ->)]; cbn [bind]; eauto. }
    rewrite !R0, R1, R2, R3.
    repeat match goal with
           | |- context [is_one_of ?c ?l] => destruct (is_one_of c l)
           end; reflexivity.
  - intros Hin. unfold image_plot, unit_data.
    cbn [reopen bind ge_int hdul_index].
    replace (Z.of_nat (List.length hdul) <=? i) with false
      by (symmetry; apply Z.leb_gt; lia).
    replace (Z.of_nat (List.length hdul) <=? i + Z.of_nat (List.length hdul))
      with false by (symmetry; apply Z.leb_gt; lia).
    rewrite index_wraps by exact Hin. auto.
Qed.

Lemma index_outside_file_no_preview_witness :
  visualize_hdu Samples.runtime Samples.uniform_file
    [("hdu_index", PInt 1); ("classification", PStr "image")]%string
    "/previews" "1b9d6bcd" = None
  /\ image_plot Samples.runtime Samples.vector_file (PInt (-2))
     = image_plot Samples.runtime Samples.vector_file (PInt 0).
Proof.
  split.
  - apply (proj1 (index_outside_file_no_preview Samples.runtime
                    [Samples.uniform_hdu]
                    [("hdu_index", PInt 1);
                     ("classification", PStr "image")]%string
                    "/previews" "1b9d6bcd" 1 eq_refl)).
    right. simpl. lia.
  - apply (proj2 (index_outside_file_no_preview Samples.runtime
                    [Samples.small_image_hdu "PrimaryHDU"; Samples.vector_hdu]
                    [("hdu_index", PInt (-2))]%string
                    "/previews" "1b9d6bcd" (-2) eq_refl)).
    simpl. lia.
Defined.

End BoundsFacts.

(* ================================================================= *)
(** ** The renderer: a light curve, from the file to its preview *)

Module TablePreviewFacts.
Import Spec.
Import Builtins Parser Analyzer Visualizer StringFacts.

Lemma str_list_names (names : list string) :
  str_list (PList (map PStr names)) = Ok names.
Proof.
  unfold str_list. induction names as [|n l IH]; cbn [map map_result bind].
  - reflexivity.
  - rewrite IH. reflexivity.
Qed.

(** X25. From the file to the preview of a light curve: a table unit whose
    TTYPE names classify it as a light curve, and whose two chosen columns
    convert to numbers of the same length, is drawn as the line of the flux
    column against the time column, capped at 50000 points, and gets its
    preview whenever the directory can be made and the backend saves the
    figure. *)
Theorem light_curve_unit_preview (rt : Runtime) (hdul : list HDU) (j : nat)
    (hdu : HDU) (s : pydict) (t : table) (xs ys : list float) (N : Z)
    (dir fid : string) :
  nth_error hdul j = Some hdu ->
  Parser.summary_entry rt (Z.of_nat j) hdu = Ok s ->
  table_like (hdu_class hdu) = true ->
  data hdu = DataTable t ->
  let names := _column_names_from_header rt (hdu_header hdu) in
  let x_col := fst (_time_flux_columns names) in
  let y_col := snd (_time_flux_columns names) in
  _classify_table names = CLASSIFICATION_LIGHT_CURVE ->
  x_col <> EmptyString -> y_col <> EmptyString ->
  field_as_float (DataTable t) x_col = Ok xs ->
  field_as_float (DataTable t) y_col = Ok ys ->
  Z.of_nat (List.length xs) = N -> Z.of_nat (List.length ys) = N ->
  makedirs rt dir = None ->
  (forall p out, savefig rt p out = Ok tt) ->
  light_curve_plot (Opened hdul true) (PInt (Z.of_nat j)) names
  = Ok (Some (LinePlot (capped N xs) (capped N ys) x_col y_col))
  /\ visualize_hdu rt (Opened hdul true)
       (analyze_step rt (Opened hdul true) s) dir fid
     = Some (preview_url fid (Z.of_nat j)).
Proof.
  intros Hj Hs Htab Hd names x_col y_col Hc Hx0 Hy0 Hx Hy Lx Ly Hm Hsave.
  assert (Hplot : light_curve_plot (Opened hdul true) (PInt (Z.of_nat j)) names
                  = Ok (Some (LinePlot (capped N xs) (capped N ys) x_col y_col))).
  { unfold light_curve_plot.
    rewrite (PreviewFacts.unit_data_at hdul j hdu Hj) by congruence.
    rewrite Hd. cbn [bind]. unfold line_plot.
    rewrite (surjective_pairing (_time_flux_columns names)).
    fold x_col y_col.
    destruct x_col as [|cx x_col']; [congruence|].
    destruct y_col as [|cy y_col']; [congruence|].
    cbn [PyStr.is_empty orb]. rewrite Hx, Hy. cbn [bind].
    rewrite (DownsampleFacts.cap_rows_spec N) by auto. reflexivity. }
  split; [exact Hplot|].
  destruct (UnitAnalysisFacts.parsed_table_lookup rt hdul j hdu s Hj Hs Htab)
    as (a & Ha & Hi & Hcl & Hn & _).
  unfold analyze_step. rewrite Ha. cbn [try_except].
  unfold visualize_hdu. rewrite Hm. unfold Py.get. rewrite Hi, Hcl, Hn.
  fold names. rewrite Hc. cbn [is_one_of].
  change (PyStr.mem CLASSIFICATION_LIGHT_CURVE IMAGE_LIKE) with false.
  change (PyStr.mem CLASSIFICATION_LIGHT_CURVE [CLASSIFICATION_LIGHT_CURVE])
    with true.
  cbv iota. unfold _render_light_curve, draw.
  rewrite str_list_names. cbn [bind]. rewrite Hplot. cbn [bind].
  rewrite Hsave. cbn [bind try_except].
  unfold preview_url. cbn [str String.append].
  rewrite !append_assoc. reflexivity.
Qed.

Lemma light_curve_unit_preview_witness :
  exists s,
    Parser.summary_entry Samples.runtime 1 Samples.light_curve_hdu = Ok s
    /\ visualize_hdu Samples.runtime Samples.light_curve_file
         (analyze_step Samples.runtime Samples.light_curve_file s)
         "/previews" "1b9d6bcd"
       = Some "/previews/fits_1b9d6bcd_hdu_1.png"%string.
Proof.
  eexists.
  match goal with
  | |- ?e = Ok ?s /\ _ =>
      let v := eval vm_compute in e in
      match v with
      | Ok ?s0 => unify s s0
      end
  end.
  split; [reflexivity|].
  refine (proj2 (light_curve_unit_preview Samples.runtime
                   [Samples.small_image_hdu "PrimaryHDU";
                    Samples.light_curve_hdu] 1%nat Samples.light_curve_hdu
                   _
                   [ {| col_name := "TIME"; col_format := "D";
                        col_floats := Some [F64.of_Z 1; F64.of_Z 2; F64.of_Z 3] |};
                     {| col_name := "FLUX"; col_format := "D";
                        col_floats := Some [F64.of_Z 7; F64.of_Z 9; F64.of_Z 8] |} ]
                   [F64.of_Z 1; F64.of_Z 2; F64.of_Z 3]
                   [F64.of_Z 7; F64.of_Z 9; F64.of_Z 8] 3
                   "/previews" "1b9d6bcd"
                   eq_refl eq_refl eq_refl eq_refl eq_refl _ _
                   eq_refl eq_refl eq_refl eq_refl eq_refl _));
    [vm_compute; discriminate|vm_compute; discriminate|reflexivity].
Defined.

End TablePreviewFacts.

(* ================================================================= *)
(** ** The orchestrator: records, previews and unreadable units *)

Module ReportFacts.
Import Spec.
Import Builtins Parser Analyzer Visualizer Pipeline.

Lemma assemble_inv (f : pydict -> option string) (analyzed : list pydict)
    (pre : list (option string)) (rec : hdu_record) :
  In rec (assemble (Z.of_nat (List.length pre)) analyzed
            (pre ++ map f analyzed)) ->
  exists a,
    In a analyzed
    /\ previewImage rec = f a
    /\ forall v, Py.lookup a "hdu_index" = Some v -> index rec = v.
Proof.
  revert pre. induction analyzed as [|x l IH]; intros pre; [intros []|].
  cbn [assemble]. intros [<-|Hin].
  - exists x. split; [now left|]. cbn [previewImage index]. split.
    + rewrite length_app. cbn [map List.length].
      replace (Z.of_nat (List.length pre)
               <? Z.of_nat (List.length pre + S (List.length (map f l))))
        with true by (symmetry; apply Z.ltb_lt; lia).
      assert (Hn : nth_error (pre ++ f x :: map f l) (List.length pre)
                   = Some (f x)).
      { rewrite nth_error_app2 by lia. rewrite Nat.sub_diag. reflexivity. }
      rewrite (RenderFacts.nth_error_index _ _ _ Hn). reflexivity.
    + intros v Hv. unfold Py.get. now rewrite Hv.
  - destruct (IH (pre ++ [f x])) as (a & Ha & Hrest).
    + rewrite length_app, <- app_assoc. cbn [List.length app].
      replace (Z.of_nat (List.length pre + 1))
        with (Z.of_nat (List.length pre) + 1) by lia.
      exact Hin.
    + exists a. split; [now right|exact Hrest].
Qed.

(** X26. A record and its preview belong to the same unit, also when
    units were skipped and the indices have gaps: in a result of
    [run_pipeline] on a file that opens, every preview address names the
    index its record reports, under the file id of the run. *)
Theorem record_preview_names_its_index (rt : Runtime) (fits_path : string)
    (hdul : list HDU) (previews_dir : string) (file_name : option string) :
  let r := run_pipeline rt fits_path (Opened hdul true) previews_dir
             file_name in
  forall rec url,
    In rec (hdus r) -> previewImage rec = Some url ->
    exists i, index rec = PInt i /\ url = preview_url (uuid8 rt) i.
Proof.
  intros r rec url. subst r. unfold run_pipeline. cbn [get_summary].
  set (file := Opened hdul true).
  set (summaries := summaries_from rt 0 hdul).
  assert (Hsum : forall s, In s summaries ->
                   exists i, Py.lookup s "hdu_index" = Some (PInt i)).
  { intros s Hs. apply ParserFacts.summaries_from_In in Hs as (j & hdu & _ & Hs).
    apply OrderFacts.summary_entry_index in Hs. eauto. }
  destruct summaries as [|s0 rest] eqn:Hl; [intros []|].
  rewrite <- Hl in *. clear Hl.
  destruct (negb (existsb _ summaries)); [intros []|].
  rewrite AnalyzerFacts.analyze_map.
  destruct (negb (existsb _ (map _ summaries))); [intros []|].
  destruct (makedirs rt previews_dir) as [e|] eqn:Hm; cbn [hdus].
  - intros Hin Hp. exfalso.
    assert (Hnone : map previewImage
                      (assemble 0 (map (analyze_step rt file) summaries)
                         (repeat None
                            (List.length (map (analyze_step rt file) summaries))))
                    = repeat None
                        (List.length (map (analyze_step rt file) summaries))).
    { apply PipelineFacts.assemble_no_previews. intros u Hu.
      now apply repeat_spec in Hu. }
    assert (Hin' : In (previewImage rec)
                     (repeat None
                        (List.length (map (analyze_step rt file) summaries)))).
    { rewrite <- Hnone. now apply in_map. }
    apply repeat_spec in Hin'. congruence.
  - assert (Hv : visualize rt file (map (analyze_step rt file) summaries)
                   previews_dir (Some (uuid8 rt))
                 = map (fun a => visualize_hdu rt file a previews_dir (uuid8 rt))
                     (map (analyze_step rt file) summaries)).
    { unfold visualize. destruct (PyStr.is_empty (uuid8 rt)); reflexivity. }
    rewrite Hv. intros Hin Hp.
    apply (assemble_inv
             (fun a => visualize_hdu rt file a previews_dir (uuid8 rt))
             _ []) in Hin as (a & Ha & Hpa & Hix).
    apply in_map_iff in Ha as (s & <- & Hs).
    destruct (Hsum s Hs) as (i & Hi).
    assert (Hai : Py.lookup (analyze_step rt file s) "hdu_index"
                  = Some (PInt i)).
    { rewrite AnalyzerFacts.analyze_step_lookup; auto.
      unfold assigned_keys. simpl. intuition discriminate. }
    exists i. split; [now apply Hix|].
    rewrite Hpa in Hp.
    apply PreviewFacts.visualize_hdu_url in Hp as (_ & ->).
    unfold Py.get. rewrite Hai. reflexivity.
Qed.

Lemma record_preview_names_its_index_witness :
  exists rec i,
    nth_error (hdus (run_pipeline Samples.runtime "img.fits"
                       Samples.damaged_file "/previews" None)) 1
    = Some rec
    /\ index rec = PInt i
    /\ previewImage rec = Some (preview_url "1b9d6bcd" i).
Proof.
  destruct (nth_error (hdus (run_pipeline Samples.runtime "img.fits"
                               Samples.damaged_file "/previews" None)) 1)
    as [rec|] eqn:E; [|vm_compute in E; discriminate E].
  destruct (previewImage rec) as [url|] eqn:P;
    [|vm_compute in E; injection E as <-; discriminate P].
  destruct (record_preview_names_its_index Samples.runtime "img.fits"
              [Samples.small_image_hdu "PrimaryHDU"; Samples.damaged_hdu;
               Samples.small_image_hdu "ImageHDU"] "/previews" None
              rec url (nth_error_In _ _ E) P) as (i & Hi & ->).
  exists rec, i. auto.
Defined.

Lemma summaries_none_readable (rt : Runtime) (hdul : list HDU) (i : Z) :
  (forall hdu, In hdu hdul -> data hdu = DataRaises) ->
  summaries_from rt i hdul = [].
Proof.
  revert i. induction hdul as [|hdu l IH]; intros i H; cbn [summaries_from].
  - reflexivity.
  - destruct (proj1 (OrderFacts.summary_entry_raises rt i hdu)
                (H hdu (or_introl eq_refl))) as (e & ->).
    apply IH. intros h Hh. apply H. now right.
Qed.

(** X27. A file in which no unit can be read is not an error: when the
    file opens and iterates but reading the data of every unit raises (a
    file without any unit included), every unit is skipped and the result
    is valid_no_visualizable_data, without record. When at least one unit
    can be read the extractor returns a summary for it. *)
Theorem no_readable_unit_is_valid (rt : Runtime) (fits_path : string)
    (hdul : list HDU) (previews_dir : string) (file_name : option string) :
  ((forall hdu, In hdu hdul -> data hdu = DataRaises) ->
   get_summary rt (Opened hdul true) = Summaries []
   /\ run_pipeline rt fits_path (Opened hdul true) previews_dir file_name
      = no_plottable (reported_name rt fits_path file_name) [])
  /\ ((exists hdu, In hdu hdul /\ data hdu <> DataRaises) ->
      exists s rest, get_summary rt (Opened hdul true) = Summaries (s :: rest)).
Proof.
  split.
  - intros H. unfold run_pipeline. cbn [get_summary].
    rewrite summaries_none_readable by exact H. split; reflexivity.
  - intros (hdu & Hin & Hd). cbn [get_summary].
    apply In_nth_error in Hin as (j & Hj).
    destruct (summary_entry rt (0 + Z.of_nat j) hdu) as [s|e] eqn:E.
    + pose proof (ResultFacts.summaries_from_nth rt hdul 0 j hdu s Hj E) as Hs.
      destruct (summaries_from rt 0 hdul) as [|s0 rest]; [destruct Hs|eauto].
    + elim Hd. apply (OrderFacts.summary_entry_raises rt (0 + Z.of_nat j)).
      eauto.
Qed.

Lemma no_readable_unit_is_valid_witness :
  status (run_pipeline Samples.runtime "bad.fits"
            (Opened [Samples.damaged_hdu; Samples.damaged_hdu] true)
            "/previews" None)
  = "valid_no_visualizable_data"%string.
Proof.
  rewrite (proj2 (proj1 (no_readable_unit_is_valid Samples.runtime "bad.fits"
                           [Samples.damaged_hdu; Samples.damaged_hdu]
                           "/previews" None)
                    ltac:(simpl; intros hdu [<-|[<-|[]]]; reflexivity))).
  reflexivity.
Defined.

End ReportFacts.

(* ================================================================= *)
(** ** The orchestrator: the command line *)

Module MainFacts.
Import Spec.
Import Builtins Parser Analyzer Visualizer Pipeline.

(** The status of a result and what it implies for the other fields. *)
Lemma run_pipeline_status (rt : Runtime) (fits_path : string)
    (file : fits_file) (previews_dir : string) (file_name : option string) :
  let r := run_pipeline rt fits_path file previews_dir file_name in
  In (status r) ["success"; "valid_no_visualizable_data"; "error"]%string
  /\ (status r = "error"%string <-> error r <> None)
  /\ (status r <> "success"%string -> hdus r = [] /\ warnings r = []).
Proof.
  intros r. subst r. unfold run_pipeline.
  destruct (get_summary rt file) as [msg|summaries].
  { cbn. intuition discriminate. }
  destruct summaries as [|s0 rest].
  { cbn. intuition discriminate. }
  destruct (negb (existsb _ (s0 :: rest))).
  { cbn. intuition discriminate. }
  destruct (analyze rt file (s0 :: rest)) as [analyzed|e].
  2:{ cbn. intuition discriminate. }
  destruct (negb (existsb _ analyzed)).
  { cbn. intuition discriminate. }
  destruct (makedirs rt previews_dir); cbn; intuition (try discriminate; congruence).
Qed.

Lemma run_pipeline_name (rt : Runtime) (fits_path : string)
    (file : fits_file) (previews_dir : string) (file_name : option string) :
  fileName (run_pipeline rt fits_path file previews_dir file_name)
  = reported_name rt fits_path file_name.
Proof.
  unfold run_pipeline. fold (reported_name rt fits_path file_name).
  destruct (get_summary rt file) as [msg|[|s0 rest]]; try reflexivity.
  destruct (negb (existsb _ (s0 :: rest))); [reflexivity|].
  destruct (analyze rt file (s0 :: rest)) as [analyzed|e]; [|reflexivity].
  destruct (negb (existsb _ analyzed)); [reflexivity|].
  destruct (makedirs rt previews_dir); reflexivity.
Qed.

(** X28. Whatever its arguments, [main] prints a result whose status is
    success, valid_no_visualizable_data or error; the error text is set
    exactly when the status is error, and only a success carries records
    or warnings. With fewer than two arguments after the script name the
    result is the usage error; a third argument is the reported file
    name. *)
Theorem main_always_reports (rt : Runtime) (open_file : string -> fits_file)
    (argv : list string) :
  let r := main rt open_file argv in
  In (status r) ["success"; "valid_no_visualizable_data"; "error"]%string
  /\ (status r = "error"%string <-> error r <> None)
  /\ (status r <> "success"%string -> hdus r = [] /\ warnings r = [])
  /\ ((List.length argv < 3)%nat ->
      status r = "error"%string /\ fileName r = EmptyString
      /\ error r
         = Some "Usage: run_fits_pipeline.py <fits_path> <previews_dir> [file_name]"%string)
  /\ (forall script path dir name rest,
         argv = script :: path :: dir :: name :: rest ->
         name <> EmptyString -> fileName r = name).
Proof.
  intros r. subst r.
  destruct argv as [|script [|path [|dir rest]]];
    try (cbn; repeat split; try (intros; discriminate);
         try (intuition discriminate); auto; fail).
  cbn [main].
  destruct (run_pipeline_status rt path (open_file path) dir
              match rest with f :: _ => Some f | [] => None end)
    as (H1 & H2 & H3).
  split; [exact H1|]. split; [exact H2|]. split; [exact H3|]. split.
  - cbn [List.length]. lia.
  - intros script' path' dir' name rest' [= -> -> -> ->] Hn.
    rewrite run_pipeline_name. unfold reported_name.
    destruct name; [congruence|reflexivity].
Qed.

Lemma main_always_reports_witness :
  status (main Samples.runtime (fun _ => Samples.uniform_file)
            ["run_fits_pipeline.py"; "img.fits"]%string) = "error"%string.
Proof.
  apply (proj1 (proj2 (proj2 (proj2
           (main_always_reports Samples.runtime (fun _ => Samples.uniform_file)
              ["run_fits_pipeline.py"; "img.fits"]%string))))).
  simpl. lia.
Defined.

End MainFacts.
